(** * Duktape bytecode executor (duk_js_executor.c): a shallow embedding

    The development follows the C file top-down:

    - tagged values and IEEE-754 doubles as 64-bit patterns;
    - the arithmetic / bitwise helpers ([duk__vm_arith_add] ...);
    - threads with their three stacks, the heap-global longjmp state;
    - [duk__reconfig_valstack], [duk__handle_catch_or_finally],
      [duk__handle_label], [duk__handle_yield], [duk__handle_longjmp];
    - the opcode handlers of [duk_js_execute_bytecode] that raise or
      consume non-local transfers (RETURN, BREAK, CONTINUE, ENDFIN, THROW)
      and TYPEOFID.

    Pointers into the heap are numbers; a thread pointer is a key of the
    heap's thread table.  Reference counts are not modelled. *)

From Stdlib Require Import ZArith Lia Bool String.
From Stdlib Require Import Floats.SpecFloat.
From stdpp Require Import base option list gmap strings pretty.

Local Open Scope Z_scope.

(** ** Doubles as bit patterns *)

Module Dbl.

(** A [duk_double_t] is its IEEE-754 binary64 pattern, [0 <= b < 2^64]. *)

Definition sign_of (b : Z) : bool := Z.testbit b 63.
Definition exp_of (b : Z) : Z := Z.land (Z.shiftr b 52) 0x7ff.
Definition frac_of (b : Z) : Z := Z.land b 0xfffffffffffff.

Definition pack (s : bool) (e f : Z) : Z :=
  (if s then 2 ^ 63 else 0) + e * 2 ^ 52 + f.

(** DUK_ISNAN: exponent all ones, fraction non-zero. *)
Definition DUK_ISNAN (b : Z) : bool :=
  (exp_of b =? 0x7ff) && negb (frac_of b =? 0).

Definition DUK_DOUBLE_NAN_NORMALIZED : Z := 0x7ff8000000000000.

(** Modelled from the spec: DUK_DBLUNION_NORMALIZE_NAN_CHECK is a macro of
    duk_dblunion.h, which is not part of this file.  The spec's data model
    says that every number whose bits would be NaN is stored as the single
    canonical normalized NaN; the macro is what the helpers call to get
    there. *)
Definition DUK_DBLUNION_NORMALIZE_NAN_CHECK (b : Z) : Z :=
  if DUK_ISNAN b then DUK_DOUBLE_NAN_NORMALIZED else b.

(** Modelled from the spec: DUK_DBLUNION_IS_NORMALIZED, the assertion that
    follows every normalisation: not a NaN, or the canonical one. *)
Definition DUK_DBLUNION_IS_NORMALIZED (b : Z) : bool :=
  negb (DUK_ISNAN b) || (b =? DUK_DOUBLE_NAN_NORMALIZED).

(** The C conversion [(duk_double_t) i] of an integer with [|i| < 2^53]:
    such an integer is representable, so the conversion is exact. *)
Definition of_int (i : Z) : Z :=
  if i =? 0 then 0
  else
    let a := Z.abs i in
    let e := Z.log2 a in
    pack (i <? 0) (e + 1023) (a * 2 ^ (52 - e) - 2 ^ 52).

(** The integer part of a finite double (truncation towards zero), the
    first step of every C conversion from double to an integer type.
    Infinities and NaN have none. *)
Definition trunc (b : Z) : option Z :=
  let e := exp_of b in
  if e =? 0x7ff then None
  else if e =? 0 then Some 0
  else
    let m := Z.shiftl (2 ^ 52 + frac_of b) (e - 1075) in
    Some (if sign_of b then - m else m).

(** [(duk_uint_t) d] and [(duk_small_uint_fast_t) d]: defined by C only
    when the truncated value fits the unsigned type. *)
Definition to_uint (b : Z) : option Z :=
  match trunc b with
  | Some v => if (0 <=? v) && (v <? 2 ^ 32) then Some v else None
  | None => None
  end.

(** Decoding to and encoding from the Standard Library's specification of
    binary64, used by the reference arithmetic below. *)
Definition prec : Z := 53.
Definition emax : Z := 1024.

Definition to_spec (b : Z) : spec_float :=
  let s := sign_of b in
  let e := exp_of b in
  let f := frac_of b in
  if e =? 0x7ff then (if f =? 0 then S754_infinity s else S754_nan)
  else if e =? 0 then
    match f with
    | Zpos m => S754_finite s m (-1074)
    | _ => S754_zero s
    end
  else
    match 2 ^ 52 + f with
    | Zpos m => S754_finite s m (e - 1075)
    | _ => S754_zero s
    end.

(** The pattern an x86 SSE unit produces for an invalid operation: the
    "default NaN" has its sign bit set, so it is not the canonical one. *)
Definition default_nan : Z := 0xfff8000000000000.

Definition of_spec (x : spec_float) : Z :=
  match x with
  | S754_zero s => pack s 0 0
  | S754_infinity s => pack s 0x7ff 0
  | S754_nan => default_nan
  | S754_finite s m e =>
      if Zpos m <? 2 ^ 52 then pack s 0 (Zpos m)
      else pack s (e + 1075) (Zpos m - 2 ^ 52)
  end.

Definition lift2 (f : spec_float -> spec_float -> spec_float) (x y : Z) : Z :=
  of_spec (f (to_spec x) (to_spec y)).

(** ANSI C fmod on the specification floats: the result has the sign of
    the dividend and is exact. *)
Definition SFfmod (x y : spec_float) : spec_float :=
  match x, y with
  | S754_nan, _ | _, S754_nan => S754_nan
  | S754_infinity _, _ => S754_nan
  | _, S754_zero _ => S754_nan
  | S754_zero s, _ => S754_zero s
  | S754_finite s m e, S754_infinity _ => S754_finite s m e
  | S754_finite sx mx ex, S754_finite _ my ey =>
      let e := Z.min ex ey in
      let r := Z.rem (Zpos mx * 2 ^ (ex - e)) (Zpos my * 2 ^ (ey - e)) in
      match r with
      | Z0 => S754_zero sx
      | _ => binary_normalize prec emax (if sx then - r else r) e sx
      end
  end.

End Dbl.

(** ** Tagged values *)

(** The variant of duk_tval.h.  A number carries its binary64 pattern; heap
    references (strings apart, which carry their characters) are
    addresses. *)
Inductive duk_tval : Type :=
  | TvUndefinedUnused
  | TvUndefined
  | TvNull
  | TvBoolean (b : bool)
  | TvNumber (d : Z)
  | TvString (s : string)
  | TvObject (p : nat)
  | TvLightfunc (p : nat)
  | TvBuffer (bytes : string).

Definition DUK_TVAL_IS_NUMBER (tv : duk_tval) : bool :=
  match tv with TvNumber _ => true | _ => false end.

Definition is_string_or_buffer (tv : duk_tval) : bool :=
  match tv with TvString _ | TvBuffer _ => true | _ => false end.

Global Instance duk_tval_eq_dec : EqDecision duk_tval.
Proof. solve_decision. Defined.

(** ** Opcodes

    The numbering of duk_js_bytecode.h is not needed: the executor only
    compares opcodes for equality. *)
Inductive duk_opcode : Type :=
  | DUK_OP_ADD | DUK_OP_SUB | DUK_OP_MUL | DUK_OP_DIV | DUK_OP_MOD
  | DUK_OP_BAND | DUK_OP_BOR | DUK_OP_BXOR
  | DUK_OP_BASL | DUK_OP_BLSR | DUK_OP_BASR
  | DUK_OP_BNOT
  | DUK_EXTRAOP_UNM | DUK_EXTRAOP_UNP | DUK_EXTRAOP_INC | DUK_EXTRAOP_DEC.

(** ** What the executor consumes from the rest of the engine

    The arithmetic of C doubles is an interface too: which NaN pattern an
    operation produces is the hardware's choice. *)
Class duk_arith : Type := {
  c_add : Z -> Z -> Z;
  c_sub : Z -> Z -> Z;
  c_mul : Z -> Z -> Z;
  c_div : Z -> Z -> Z;
  c_neg : Z -> Z;
  DUK_FMOD : Z -> Z -> Z;
  (** Some NaN; which one is the platform's choice. *)
  DUK_DOUBLE_NAN : Z;
  (** ToNumber, ToPrimitive (no hint), ToString of duk_api_stack.c.  Their
      side effects on the heap are outside these helpers' results. *)
  duk_to_number : duk_tval -> Z;
  duk_to_primitive : duk_tval -> duk_tval;
  duk_to_string : duk_tval -> string;
  (** ToInt32; its C return type is [duk_int32_t]. *)
  duk_to_int32 : duk_tval -> Z;
  duk_to_int32_range : forall tv, - 2 ^ 31 <= duk_to_int32 tv < 2 ^ 31
}.

(** Wrap-around to the 32-bit types. *)
Definition to_uint32 (x : Z) : Z := x mod 2 ^ 32.
Definition to_sint32 (x : Z) : Z := (x + 2 ^ 31) mod 2 ^ 32 - 2 ^ 31.

Section Kernel.
Context {A : duk_arith}.

Definition duk__compute_mod (d1 d2 : Z) : Z := DUK_FMOD d1 d2.

(** The tagged value that [duk__vm_arith_add] stores at [idx_z]. *)
Definition duk__vm_arith_add_result (tv_x tv_y : duk_tval) : duk_tval :=
  match tv_x, tv_y with
  | TvNumber dx, TvNumber dy =>
      (* fast path *)
      TvNumber (Dbl.DUK_DBLUNION_NORMALIZE_NAN_CHECK (c_add dx dy))
  | _, _ =>
      let p1 := duk_to_primitive tv_x in
      let p2 := duk_to_primitive tv_y in
      if is_string_or_buffer p1 || is_string_or_buffer p2 then
        TvString (duk_to_string p1 ++ duk_to_string p2)
      else
        let d1 := duk_to_number p1 in
        let d2 := duk_to_number p2 in
        TvNumber (Dbl.DUK_DBLUNION_NORMALIZE_NAN_CHECK (c_add d1 d2))
  end.

Definition arith_operands (tv_x tv_y : duk_tval) : Z * Z :=
  match tv_x, tv_y with
  | TvNumber dx, TvNumber dy => (dx, dy)
  | _, _ => (duk_to_number tv_x, duk_to_number tv_y)
  end.

Definition duk__vm_arith_binary_op_result
    (tv_x tv_y : duk_tval) (opcode : duk_opcode) : duk_tval :=
  let '(d1, d2) := arith_operands tv_x tv_y in
  let du :=
    match opcode with
    | DUK_OP_SUB => c_sub d1 d2
    | DUK_OP_MUL => c_mul d1 d2
    | DUK_OP_DIV => c_div d1 d2
    | DUK_OP_MOD => duk__compute_mod d1 d2
    | _ => DUK_DOUBLE_NAN  (* should not happen *)
    end in
  TvNumber (Dbl.DUK_DBLUNION_NORMALIZE_NAN_CHECK du).

(** The integer the bitwise switch computes before the conversion to a
    double. *)
Definition bitwise_binary_int (i1 i2 : Z) (opcode : duk_opcode) : Z :=
  match opcode with
  | DUK_OP_BAND => Z.land i1 i2
  | DUK_OP_BOR => Z.lor i1 i2
  | DUK_OP_BXOR => Z.lxor i1 i2
  | DUK_OP_BASL =>
      let u2 := Z.land (to_uint32 i2) 0xffffffff in
      let i3 := to_sint32 (Z.shiftl i1 (Z.land u2 0x1f)) in
      Z.land i3 (to_sint32 0xffffffff)
  | DUK_OP_BASR =>
      let u2 := Z.land (to_uint32 i2) 0xffffffff in
      Z.shiftr i1 (Z.land u2 0x1f)
  | DUK_OP_BLSR =>
      let u1 := Z.land (to_uint32 i1) 0xffffffff in
      let u2 := Z.land (to_uint32 i2) 0xffffffff in
      Z.shiftr u1 (Z.land u2 0x1f)
  | _ => 0  (* should not happen *)
  end.

Definition duk__vm_bitwise_binary_op_result
    (tv_x tv_y : duk_tval) (opcode : duk_opcode) : duk_tval :=
  let i1 := duk_to_int32 tv_x in
  let i2 := duk_to_int32 tv_y in
  TvNumber (Dbl.of_int (bitwise_binary_int i1 i2 opcode)).

Definition duk__vm_arith_unary_op_result
    (tv_x : duk_tval) (opcode : duk_opcode) : duk_tval :=
  let d1 := match tv_x with TvNumber d => d | _ => duk_to_number tv_x end in
  let du :=
    match opcode with
    | DUK_EXTRAOP_UNM => c_neg d1
    | DUK_EXTRAOP_UNP => d1
    | DUK_EXTRAOP_INC => c_add d1 (Dbl.of_int 1)
    | DUK_EXTRAOP_DEC => c_sub d1 (Dbl.of_int 1)
    | _ => DUK_DOUBLE_NAN  (* should not happen *)
    end in
  TvNumber (Dbl.DUK_DBLUNION_NORMALIZE_NAN_CHECK du).

Definition duk__vm_bitwise_not_result (tv_x : duk_tval) : duk_tval :=
  let i1 := duk_to_int32 tv_x in
  let i2 := Z.lnot i1 in
  TvNumber (Dbl.of_int i2).

End Kernel.

(** ** Results of fallible code *)

Inductive duk_errcode : Type :=
  | DUK_ERR_INTERNAL_ERROR
  | DUK_ERR_API_ERROR
  | DUK_ERR_RANGE_ERROR
  | DUK_ERR_REFERENCE_ERROR.

(** [Throw e]: a DUK_ERROR that bubbles out of the function.  [Undef]: the
    C code reads or writes outside an array, follows a NULL pointer or reads
    a union member that is not there (what its DUK_ASSERTs exclude).
    [NoFuel]: the bound on re-entries was reached. *)
Inductive result (A : Type) : Type :=
  | Ok (a : A)
  | Throw (e : duk_errcode)
  | Undef
  | NoFuel.
Arguments Ok {A} a.
Arguments Throw {A} e.
Arguments Undef {A}.
Arguments NoFuel {A}.

Definition rbind {A B : Type} (r : result A) (k : A -> result B) : result B :=
  match r with
  | Ok a => k a
  | Throw e => Throw e
  | Undef => Undef
  | NoFuel => NoFuel
  end.

Notation "x <- r ;; k" := (rbind r (fun x => k))
  (at level 100, r at next level, right associativity, only parsing).

(** A pointer or index that must be valid for the C code to be defined. *)
Definition deref {A : Type} (o : option A) : result A :=
  match o with Some a => Ok a | None => Undef end.

(** ** Function objects, activations, catchers, threads *)

Inductive duk_c_function : Type :=
  | duk_bi_thread_resume
  | duk_bi_thread_yield
  | duk_c_other (n : nat).

Record duk_hcompiledfunction : Type := {
  nregs : nat;
  consts : list duk_tval
}.

Inductive duk_hobject : Type :=
  | HCompiledFunction (f : duk_hcompiledfunction)
  | HNativeFunction (f : duk_c_function).

(** Environment records.  A chain of records linked by their prototype is
    the list of its records, innermost first; the NULL pointer is [[]]. *)
Inductive duk_env_class : Type :=
  | DUK_HOBJECT_CLASS_DECENV
  | DUK_HOBJECT_CLASS_OBJENV.

Record duk_env_record : Type := {
  env_class : duk_env_class;
  env_props : gmap string duk_tval;
  (** the binding object of an object environment that provides 'this' *)
  env_this : duk_tval
}.

Record duk_activation : Type := {
  act_func : option duk_hobject;
  pc : nat;
  idx_bottom : nat;
  idx_retval : nat;
  lex_env : list duk_env_record;
  var_env : list duk_env_record
}.

Inductive duk_cat_type : Type :=
  | DUK_CAT_TYPE_UNKNOWN
  | DUK_CAT_TYPE_TCF
  | DUK_CAT_TYPE_LABEL.

(** The [flags] word of a catcher, field by field. *)
Record duk_catcher : Type := {
  cat_type : duk_cat_type;
  cat_label : Z;
  catch_enabled : bool;
  finally_enabled : bool;
  catch_binding_enabled : bool;
  lexenv_active : bool;
  callstack_index : nat;
  pc_base : nat;
  idx_base : nat;
  h_varname : option string
}.

Inductive duk_hthread_state : Type :=
  | DUK_HTHREAD_STATE_INACTIVE
  | DUK_HTHREAD_STATE_RUNNING
  | DUK_HTHREAD_STATE_RESUMED
  | DUK_HTHREAD_STATE_YIELDED
  | DUK_HTHREAD_STATE_TERMINATED.

(** [valstack] holds every allocated slot, so its length is
    [valstack_end - valstack]; [callstack] and [catchstack] hold the entries
    in use, so their lengths are [callstack_top] and [catchstack_top]. *)
Record duk_hthread : Type := {
  valstack : list duk_tval;
  valstack_bottom : nat;
  valstack_top : nat;
  valstack_max : nat;
  callstack : list duk_activation;
  catchstack : list duk_catcher;
  state : duk_hthread_state;
  resumer : option nat
}.

Definition callstack_top (t : duk_hthread) : nat := length (callstack t).
Definition catchstack_top (t : duk_hthread) : nat := length (catchstack t).

(** Longjmp types are small integers in C; ENDFIN stores and reloads them
    through a double.  Modelled from the spec: the numbering of duk_error.h
    is not part of this file; the codes follow the order in which the spec's
    data model lists the types. *)
Definition DUK_LJ_TYPE_UNKNOWN : Z := 0.
Definition DUK_LJ_TYPE_RETURN : Z := 1.
Definition DUK_LJ_TYPE_THROW : Z := 2.
Definition DUK_LJ_TYPE_BREAK : Z := 3.
Definition DUK_LJ_TYPE_CONTINUE : Z := 4.
Definition DUK_LJ_TYPE_YIELD : Z := 5.
Definition DUK_LJ_TYPE_RESUME : Z := 6.
Definition DUK_LJ_TYPE_NORMAL : Z := 7.

Record duk_ljstate : Type := {
  lj_type : Z;
  lj_iserror : bool;
  lj_value1 : duk_tval;
  lj_value2 : duk_tval
}.

Record duk_heap : Type := {
  heap_threads : gmap nat duk_hthread;
  curr_thread : nat;
  lj : duk_ljstate
}.

(** Field updates. *)
Definition set_valstack (vs : list duk_tval) (t : duk_hthread) : duk_hthread :=
  {| valstack := vs; valstack_bottom := valstack_bottom t;
     valstack_top := valstack_top t; valstack_max := valstack_max t;
     callstack := callstack t; catchstack := catchstack t;
     state := state t; resumer := resumer t |}.

Definition set_valstack_bottom (b : nat) (t : duk_hthread) : duk_hthread :=
  {| valstack := valstack t; valstack_bottom := b;
     valstack_top := valstack_top t; valstack_max := valstack_max t;
     callstack := callstack t; catchstack := catchstack t;
     state := state t; resumer := resumer t |}.

Definition set_valstack_top (n : nat) (t : duk_hthread) : duk_hthread :=
  {| valstack := valstack t; valstack_bottom := valstack_bottom t;
     valstack_top := n; valstack_max := valstack_max t;
     callstack := callstack t; catchstack := catchstack t;
     state := state t; resumer := resumer t |}.

Definition set_callstack (cs : list duk_activation) (t : duk_hthread) : duk_hthread :=
  {| valstack := valstack t; valstack_bottom := valstack_bottom t;
     valstack_top := valstack_top t; valstack_max := valstack_max t;
     callstack := cs; catchstack := catchstack t;
     state := state t; resumer := resumer t |}.

Definition set_catchstack (cs : list duk_catcher) (t : duk_hthread) : duk_hthread :=
  {| valstack := valstack t; valstack_bottom := valstack_bottom t;
     valstack_top := valstack_top t; valstack_max := valstack_max t;
     callstack := callstack t; catchstack := cs;
     state := state t; resumer := resumer t |}.

Definition set_state (s : duk_hthread_state) (t : duk_hthread) : duk_hthread :=
  {| valstack := valstack t; valstack_bottom := valstack_bottom t;
     valstack_top := valstack_top t; valstack_max := valstack_max t;
     callstack := callstack t; catchstack := catchstack t;
     state := s; resumer := resumer t |}.

Definition set_resumer (r : option nat) (t : duk_hthread) : duk_hthread :=
  {| valstack := valstack t; valstack_bottom := valstack_bottom t;
     valstack_top := valstack_top t; valstack_max := valstack_max t;
     callstack := callstack t; catchstack := catchstack t;
     state := state t; resumer := r |}.

Definition set_pc (n : nat) (a : duk_activation) : duk_activation :=
  {| act_func := act_func a; pc := n; idx_bottom := idx_bottom a;
     idx_retval := idx_retval a; lex_env := lex_env a; var_env := var_env a |}.

Definition set_lex_env (e : list duk_env_record) (a : duk_activation) : duk_activation :=
  {| act_func := act_func a; pc := pc a; idx_bottom := idx_bottom a;
     idx_retval := idx_retval a; lex_env := e; var_env := var_env a |}.

Definition DUK_CAT_CLEAR_FINALLY_ENABLED (c : duk_catcher) : duk_catcher :=
  {| cat_type := cat_type c; cat_label := cat_label c;
     catch_enabled := catch_enabled c; finally_enabled := false;
     catch_binding_enabled := catch_binding_enabled c;
     lexenv_active := lexenv_active c;
     callstack_index := callstack_index c; pc_base := pc_base c;
     idx_base := idx_base c; h_varname := h_varname c |}.

Definition DUK_CAT_CLEAR_CATCH_ENABLED (c : duk_catcher) : duk_catcher :=
  {| cat_type := cat_type c; cat_label := cat_label c;
     catch_enabled := false; finally_enabled := finally_enabled c;
     catch_binding_enabled := catch_binding_enabled c;
     lexenv_active := lexenv_active c;
     callstack_index := callstack_index c; pc_base := pc_base c;
     idx_base := idx_base c; h_varname := h_varname c |}.

Definition DUK_CAT_SET_LEXENV_ACTIVE (c : duk_catcher) : duk_catcher :=
  {| cat_type := cat_type c; cat_label := cat_label c;
     catch_enabled := catch_enabled c; finally_enabled := finally_enabled c;
     catch_binding_enabled := catch_binding_enabled c;
     lexenv_active := true;
     callstack_index := callstack_index c; pc_base := pc_base c;
     idx_base := idx_base c; h_varname := h_varname c |}.

Definition set_lj (l : duk_ljstate) (h : duk_heap) : duk_heap :=
  {| heap_threads := heap_threads h; curr_thread := curr_thread h; lj := l |}.

Definition set_lj_type (ty : Z) (h : duk_heap) : duk_heap :=
  set_lj {| lj_type := ty; lj_iserror := lj_iserror (lj h);
            lj_value1 := lj_value1 (lj h); lj_value2 := lj_value2 (lj h) |} h.

(** DUK_HEAP_SWITCH_THREAD *)
Definition DUK_HEAP_SWITCH_THREAD (newthr : nat) (h : duk_heap) : duk_heap :=
  {| heap_threads := heap_threads h; curr_thread := newthr; lj := lj h |}.

(** [thr->field = ...] through a thread pointer. *)
Definition upd_thread (p : nat) (f : duk_hthread -> duk_hthread) (h : duk_heap) : duk_heap :=
  {| heap_threads := alter f p (heap_threads h);
     curr_thread := curr_thread h; lj := lj h |}.

Definition put_thread (p : nat) (t : duk_hthread) (h : duk_heap) : duk_heap :=
  {| heap_threads := <[p := t]> (heap_threads h);
     curr_thread := curr_thread h; lj := lj h |}.

Definition get_thread (h : duk_heap) (p : nat) : result duk_hthread :=
  deref (heap_threads h !! p).

Definition DUK_HOBJECT_IS_COMPILEDFUNCTION (o : option duk_hobject) : bool :=
  match o with Some (HCompiledFunction _) => true | _ => false end.

(** [(duk_hcompiledfunction * ) DUK_ACT_GET_FUNC(act)]: reading [nregs]
    through the cast is defined only for a compiled function. *)
Definition act_compiledfunction (a : duk_activation) : result duk_hcompiledfunction :=
  match act_func a with
  | Some (HCompiledFunction f) => Ok f
  | _ => Undef
  end.

Local Close Scope Z_scope.

(** ** The engine around the executor *)

Class duk_engine : Type := {
  (** Constants of duk_hthread.h and duk_js_bytecode.h. *)
  DUK_VALSTACK_INTERNAL_EXTRA : nat;
  DUK_BC_REGLIMIT : nat;
  (** Feature option of duk_features.h and the function it guards
      (duk_error_augment.c), as its effect on the value at the stack top. *)
  DUK_USE_AUGMENT_ERROR_THROW : bool;
  duk_err_augment_error_throw : duk_tval -> duk_tval;
  (** duk_js_call.c: an error thrown, or the return code and the thread
      after the setup. *)
  duk_handle_ecma_call_setup : duk_hthread -> nat -> duk_errcode + bool * duk_hthread;
  (** duk_js_var.c *)
  duk_js_init_activation_environment_records_delayed :
    duk_activation -> duk_activation;
  (** duk_js_ops.c *)
  duk_js_typeof : duk_tval -> string
}.

(** ** Value stack primitives (duk_api_stack.c) *)

Definition duk_get_top (t : duk_hthread) : nat :=
  valstack_top t - valstack_bottom t.

(** A store through [thr->valstack + i]. *)
Definition write_valstack (i : nat) (v : duk_tval) (t : duk_hthread) : result duk_hthread :=
  if i <? length (valstack t) then Ok (set_valstack (<[i := v]> (valstack t)) t)
  else Undef.

(** Modelled from the spec: duk_set_top is the embedder API's set_top
    (duk_api_stack.c, not part of this file).  The index is relative to
    [valstack_bottom], a negative one to the current top; it must stay
    within the allocated stack.  Slots that enter the stack hold undefined,
    slots that leave it are reset to the unused-undefined sentinel. *)
Definition duk_set_top (index : Z) (t : duk_hthread) : result duk_hthread :=
  let vs_size := (Z.of_nat (valstack_top t) - Z.of_nat (valstack_bottom t))%Z in
  let vs_limit := (Z.of_nat (length (valstack t)) - Z.of_nat (valstack_bottom t))%Z in
  let index' := if (index <? 0)%Z then (index + vs_size)%Z else index in
  if ((index' <? 0) || (vs_limit <? index'))%Z then Throw DUK_ERR_API_ERROR
  else
    let new_top := valstack_bottom t + Z.to_nat index' in
    if valstack_top t <=? new_top then
      Ok (set_valstack_top new_top
            (set_valstack
               (list_inserts (valstack_top t)
                  (replicate (new_top - valstack_top t) TvUndefined)
                  (valstack t)) t))
    else
      Ok (set_valstack_top new_top
            (set_valstack
               (list_inserts new_top
                  (replicate (valstack_top t - new_top) TvUndefinedUnused)
                  (valstack t)) t)).

(** Modelled from the spec: duk_valstack_resize_raw (duk_api_stack.c, not
    part of this file) as called with the SHRINK and THROW flags: the
    allocation becomes exactly the requested size (section 4.2 of the spec),
    and the call throws when the request reaches the thread's limit. *)
Definition duk_valstack_resize_raw (min_new_size : nat) (t : duk_hthread) : result duk_hthread :=
  if valstack_max t <=? min_new_size then Throw DUK_ERR_RANGE_ERROR
  else Ok (set_valstack (resize min_new_size TvUndefinedUnused (valstack t)) t).

(** Modelled from the spec: push, pop, dup and replace of the embedder API
    (duk_api_stack.c, not part of this file). *)
Definition duk_push_tval (v : duk_tval) (t : duk_hthread) : result duk_hthread :=
  if length (valstack t) <=? valstack_top t then Throw DUK_ERR_API_ERROR
  else Ok (set_valstack_top (S (valstack_top t))
             (set_valstack (<[valstack_top t := v]> (valstack t)) t)).

Definition duk_pop (t : duk_hthread) : result duk_hthread :=
  if valstack_top t <=? valstack_bottom t then Throw DUK_ERR_API_ERROR
  else
    let n := valstack_top t - 1 in
    Ok (set_valstack_top n
          (set_valstack (<[n := TvUndefinedUnused]> (valstack t)) t)).

Definition duk_dup (from_index : nat) (t : duk_hthread) : result duk_hthread :=
  if duk_get_top t <=? from_index then Throw DUK_ERR_API_ERROR
  else
    v <- deref (valstack t !! (valstack_bottom t + from_index));;
    duk_push_tval v t.

Definition duk_replace (to_index : nat) (t : duk_hthread) : result duk_hthread :=
  if duk_get_top t <=? to_index then Throw DUK_ERR_API_ERROR
  else
    let n := valstack_top t - 1 in
    v <- deref (valstack t !! n);;
    Ok (set_valstack_top n
          (set_valstack
             (<[n := TvUndefinedUnused]>
                (<[valstack_bottom t + to_index := v]> (valstack t))) t)).

(** ** Stack unwinding and thread termination (duk_hthread_stacks.c,
    duk_hthread_misc.c) *)

(** Modelled from the spec: catch-stack unwind to index [k] destroys the
    catchers [[k, top)] (section 4.2); the function is not part of this
    file. *)
Definition duk_hthread_catchstack_unwind (new_top : nat) (t : duk_hthread) : duk_hthread :=
  set_catchstack (take new_top (catchstack t)) t.

(** Modelled from the spec: call-stack unwind to index [k] destroys the
    activations [[k, top)] (section 4.2); the function is not part of this
    file. *)
Definition duk_hthread_callstack_unwind (new_top : nat) (t : duk_hthread) : duk_hthread :=
  set_callstack (take new_top (callstack t)) t.

(** Modelled from the spec: duk_hthread_terminate (not part of this file)
    "updates thread state, minimizes its allocations": the three stacks are
    emptied and the state becomes Terminated. *)
Definition duk_hthread_terminate (t : duk_hthread) : duk_hthread :=
  let t := duk_hthread_catchstack_unwind 0 t in
  let t := duk_hthread_callstack_unwind 0 t in
  let t := set_valstack_bottom 0 t in
  let t := set_valstack_top 0
             (set_valstack
                (list_inserts 0 (replicate (valstack_top t) TvUndefinedUnused)
                   (valstack t)) t) in
  set_state DUK_HTHREAD_STATE_TERMINATED t.

(** The activation at [thr->callstack + thr->callstack_top - 1]. *)
Definition top_act (t : duk_hthread) : result duk_activation :=
  deref (last (callstack t)).

Definition upd_top_act (f : duk_activation -> duk_activation) (t : duk_hthread) : duk_hthread :=
  set_callstack (alter f (callstack_top t - 1) (callstack t)) t.

Definition upd_cat (i : nat) (f : duk_catcher -> duk_catcher) (t : duk_hthread) : duk_hthread :=
  set_catchstack (alter f i (catchstack t)) t.

(** ** Longjmp handler *)

Inductive duk_lj_retval : Type :=
  | DUK__LONGJMP_RESTART   (* state updated, restart bytecode execution *)
  | DUK__LONGJMP_FINISHED  (* exit bytecode executor with return value *)
  | DUK__LONGJMP_RETHROW.  (* exit bytecode executor by rethrowing *)

Section Handler.
Context {E : duk_engine}.

(** only called when act_idx points to an Ecmascript function *)
Definition duk__reconfig_valstack
    (act_idx : nat) (retval_count : nat) (t : duk_hthread) : result duk_hthread :=
  act <- deref (callstack t !! act_idx);;
  let t := set_valstack_bottom (idx_bottom act) t in
  (* clamp so that retval is at the top (retval_count == 1) or register
     just before intended retval is at the top (retval_count == 0) *)
  t <- duk_set_top
         (Z.of_nat (idx_retval act) - Z.of_nat (idx_bottom act)
          + Z.of_nat retval_count)%Z t;;
  h_func <- act_compiledfunction act;;
  t <- duk_valstack_resize_raw
         (valstack_bottom t + nregs h_func + DUK_VALSTACK_INTERNAL_EXTRA) t;;
  duk_set_top (Z.of_nat (nregs h_func)) t.

(** The automatic catch variable binding of a 'catch' clause. *)
Definition catch_binding (l : duk_ljstate) (cat_idx : nat) (t : duk_hthread)
    : result duk_hthread :=
  act <- top_act t;;
  let act :=
    match lex_env act with
    | [] => duk_js_init_activation_environment_records_delayed act
    | _ => act
    end in
  let t := upd_top_act (fun _ => act) t in
  let act_lex_env := lex_env act in
  (* three pushes: the new environment, the name, the value *)
  if length (valstack t) <? valstack_top t + 3 then Throw DUK_ERR_API_ERROR
  else
    cat <- deref (catchstack t !! cat_idx);;
    varname <- deref (h_varname cat);;
    let new_env :=
      {| env_class := DUK_HOBJECT_CLASS_DECENV;
         env_props := {[ varname := lj_value1 l ]};
         env_this := TvUndefined |} in
    let t := upd_top_act (set_lex_env (new_env :: act_lex_env)) t in
    let t := upd_cat cat_idx DUK_CAT_SET_LEXENV_ACTIVE t in
    (* the pushed values are popped again *)
    Ok (set_valstack
          (list_inserts (valstack_top t) (replicate 3 TvUndefinedUnused)
             (valstack t)) t).

Definition duk__handle_catch_or_finally
    (l : duk_ljstate) (cat_idx : nat) (is_finally : bool) (t : duk_hthread)
    : result duk_hthread :=
  cat <- deref (catchstack t !! cat_idx);;
  (* Set caught value and longjmp type to catcher regs. *)
  t <- write_valstack (idx_base cat) (lj_value1 l) t;;
  t <- write_valstack (idx_base cat + 1) (TvNumber (Dbl.of_int (lj_type l))) t;;
  (* Unwind catchstack and callstack; the 'cat_idx' catcher is kept. *)
  let t := duk_hthread_catchstack_unwind (cat_idx + 1) t in
  let t := duk_hthread_callstack_unwind (callstack_index cat + 1) t in
  (* Reconfigure valstack to 'nregs'. *)
  act <- top_act t;;
  h_func <- act_compiledfunction act;;
  let t := set_valstack_bottom (idx_bottom act) t in
  t <- duk_set_top (Z.of_nat (nregs h_func)) t;;
  (* Reset PC: resume execution from catch or finally jump slot. *)
  let t := upd_top_act (set_pc (pc_base cat + (if is_finally then 1 else 0))) t in
  t <- (if negb is_finally && catch_binding_enabled cat
        then catch_binding l cat_idx t else Ok t);;
  Ok (upd_cat cat_idx
        (if is_finally then DUK_CAT_CLEAR_FINALLY_ENABLED
         else DUK_CAT_CLEAR_CATCH_ENABLED) t).

Definition duk__handle_label (l : duk_ljstate) (cat_idx : nat) (t : duk_hthread)
    : result duk_hthread :=
  _ <- top_act t;;
  cat <- deref (catchstack t !! cat_idx);;
  (* +0 = break, +1 = continue *)
  let t :=
    upd_top_act
      (set_pc (pc_base cat
               + (if (lj_type l =? DUK_LJ_TYPE_CONTINUE)%Z then 1 else 0))) t in
  (* keep label catcher *)
  Ok (duk_hthread_catchstack_unwind (cat_idx + 1) t).

(** Called for DUK_LJ_TYPE_YIELD and for DUK_LJ_TYPE_RETURN, when a return
    terminates a thread and yields to the resumer.  [resumer] is the
    resumer's thread; the caller changes the active thread. *)
Definition duk__handle_yield (l : duk_ljstate) (act_idx : nat) (resumer : duk_hthread)
    : result duk_hthread :=
  act <- deref (callstack resumer !! act_idx);;
  (* return value from Duktape.Thread.resume() *)
  r <- write_valstack (idx_retval act) (lj_value1 l) resumer;;
  (* unwind to 'resume' caller *)
  let r := duk_hthread_callstack_unwind (act_idx + 1) r in
  duk__reconfig_valstack act_idx 1 r.

(** [n - 2] on a [duk_size_t] that indexes an array: below 2 the result
    wraps around and the access that follows is out of bounds. *)
Definition size_minus_2 (n : nat) : result nat :=
  if n <? 2 then Undef else Ok (n - 2).

(** What a walk down the catch stack ends with.  [ScanEnd k]: no catcher
    took the transfer and [k] is [(cat - thr->catchstack) + 1] for the
    position [cat] at which the loop stopped. *)
Inductive scan_result : Type :=
  | ScanCatch (cat_idx : nat)
  | ScanFinally (cat_idx : nat)
  | ScanLabel (cat_idx : nat)
  | ScanEnd (k : nat).

Definition DUK_CAT_GET_TYPE_is_TCF (cat : duk_catcher) : bool :=
  match cat_type cat with DUK_CAT_TYPE_TCF => true | _ => false end.

Definition DUK_CAT_GET_TYPE_is_LABEL (cat : duk_catcher) : bool :=
  match cat_type cat with DUK_CAT_TYPE_LABEL => true | _ => false end.

(** The walks take the catch stack reversed, top catcher first; the index
    of the head is the length of the tail. *)

(** RETURN.  [orig] is [thr->callstack_top - 1], [None] when the
    subtraction wraps around. *)
Fixpoint return_scan (orig : option nat) (rcs : list duk_catcher) : scan_result :=
  match rcs with
  | [] => ScanEnd 0
  | cat :: below =>
      if negb (bool_decide (Some (callstack_index cat) = orig))
      then ScanEnd (S (length below))
      else if DUK_CAT_GET_TYPE_is_TCF cat && finally_enabled cat
      then ScanFinally (length below)
      else return_scan orig below
  end.

(** BREAK and CONTINUE. *)
Fixpoint break_scan (orig : nat) (lj_label : Z) (rcs : list duk_catcher) : scan_result :=
  match rcs with
  | [] => ScanEnd 0
  | cat :: below =>
      if negb (callstack_index cat =? orig)
      then ScanEnd (S (length below))
      else if DUK_CAT_GET_TYPE_is_TCF cat && finally_enabled cat
      then ScanFinally (length below)
      else if DUK_CAT_GET_TYPE_is_LABEL cat && (cat_label cat =? lj_label)%Z
      then ScanLabel (length below)
      else break_scan orig lj_label below
  end.

(** [i < n - 1] in [duk_size_t] arithmetic. *)
Definition lt_size_pred (i n : nat) : bool :=
  match n with
  | 0 => true
  | S e => i <? e
  end.

(** THROW. *)
Fixpoint throw_scan (is_entry_thread : bool) (entry_callstack_top : nat)
    (rcs : list duk_catcher) : scan_result :=
  match rcs with
  | [] => ScanEnd 0
  | cat :: below =>
      if is_entry_thread && lt_size_pred (callstack_index cat) entry_callstack_top
      then ScanEnd (S (length below))  (* entry level reached *)
      else if catch_enabled cat then ScanCatch (length below)
      else if finally_enabled cat then ScanFinally (length below)
      else throw_scan is_entry_thread entry_callstack_top below
  end.

(** One pass from [check_longjmp] to a return or to the next
    [goto check_longjmp]. *)
Inductive lj_step : Type :=
  | LjReturn (retval : duk_lj_retval) (h : duk_heap)
  | LjAgain (h : duk_heap) (thr : nat).

Definition wipe_and_return (retval : duk_lj_retval) (h : duk_heap) : result lj_step :=
  Ok (LjReturn retval
        (set_lj {| lj_type := DUK_LJ_TYPE_UNKNOWN; lj_iserror := false;
                   lj_value1 := TvUndefinedUnused;
                   lj_value2 := TvUndefinedUnused |} h)).

Definition just_return (retval : duk_lj_retval) (h : duk_heap) : result lj_step :=
  Ok (LjReturn retval h).

Definition convert_to_internal_error : result lj_step :=
  Throw DUK_ERR_INTERNAL_ERROR.

(** The four assignments that hand control to [newthr]; [st] is the state
    the thread that gives up control is left in. *)
Definition resume_switch (thr resumee : nat) (h : duk_heap) : duk_heap :=
  let h := upd_thread resumee (set_resumer (Some thr)) h in
  let h := upd_thread resumee (set_state DUK_HTHREAD_STATE_RUNNING) h in
  let h := upd_thread thr (set_state DUK_HTHREAD_STATE_RESUMED) h in
  DUK_HEAP_SWITCH_THREAD resumee h.

(** case DUK_LJ_TYPE_RESUME: lj.value1 is 'value', lj.value2 is 'resumee'. *)
Definition handle_resume (h : duk_heap) (thr : nat) : result lj_step :=
  _ <- get_thread h thr;;
  resumee <- match lj_value2 (lj h) with TvObject p => Ok p | _ => Undef end;;
  rt <- get_thread h resumee;;
  if lj_iserror (lj h) then
    (* Throw the error in the resumed thread's context. *)
    let h := resume_switch thr resumee h in
    let h := set_lj_type DUK_LJ_TYPE_THROW h in
    Ok (LjAgain h resumee)
  else
    match state rt with
    | DUK_HTHREAD_STATE_YIELDED =>
        act_idx <- size_minus_2 (callstack_top rt);;
        act <- deref (callstack rt !! act_idx);;
        (* return value from Duktape.Thread.yield() *)
        rt <- write_valstack (idx_retval act) (lj_value1 (lj h)) rt;;
        (* unwind to 'yield' caller *)
        let rt := duk_hthread_callstack_unwind (act_idx + 1) rt in
        rt <- duk__reconfig_valstack act_idx 1 rt;;
        let h := put_thread resumee rt h in
        let h := resume_switch thr resumee h in
        wipe_and_return DUK__LONGJMP_RESTART h
    | _ =>
        (* resumee: [... initial_func undefined(= this) resume_value ] *)
        rt <- duk_push_tval TvUndefined rt;;
        rt <- duk_push_tval (lj_value1 (lj h)) rt;;
        r <- match duk_handle_ecma_call_setup rt 1 with
             | inl e => Throw e
             | inr r => Ok r
             end;;
        if negb (fst r) then Throw DUK_ERR_INTERNAL_ERROR
        else
          let h := put_thread resumee (snd r) h in
          let h := resume_switch thr resumee h in
          wipe_and_return DUK__LONGJMP_RESTART h
    end.

Definition yield_switch (thr resumer : nat) (h : duk_heap) : duk_heap :=
  let h := upd_thread thr (set_state DUK_HTHREAD_STATE_YIELDED) h in
  let h := upd_thread thr (set_resumer None) h in
  let h := upd_thread resumer (set_state DUK_HTHREAD_STATE_RUNNING) h in
  DUK_HEAP_SWITCH_THREAD resumer h.

(** case DUK_LJ_TYPE_YIELD *)
Definition handle_yield (h : duk_heap) (thr : nat) : result lj_step :=
  t <- get_thread h thr;;
  resumer <- deref (resumer t);;
  rt <- get_thread h resumer;;
  if lj_iserror (lj h) then
    let h := yield_switch thr resumer h in
    let h := set_lj_type DUK_LJ_TYPE_THROW h in
    (* lj.value1 is already set *)
    Ok (LjAgain h resumer)
  else
    act_idx <- size_minus_2 (callstack_top rt);;
    rt <- duk__handle_yield (lj h) act_idx rt;;
    let h := put_thread resumer rt h in
    let h := yield_switch thr resumer h in
    wipe_and_return DUK__LONGJMP_RESTART h.

Definition terminate_switch (thr resumer : nat) (h : duk_heap) : duk_heap :=
  let h := upd_thread thr duk_hthread_terminate h in
  let h := upd_thread thr (set_resumer None) h in
  let h := upd_thread resumer (set_state DUK_HTHREAD_STATE_RUNNING) h in
  DUK_HEAP_SWITCH_THREAD resumer h.

(** case DUK_LJ_TYPE_RETURN *)
Definition handle_return (h : duk_heap) (thr entry_thread entry_callstack_top : nat)
    : result lj_step :=
  t <- get_thread h thr;;
  let orig_callstack_index :=
    match callstack_top t with 0 => None | S n => Some n end in
  match return_scan orig_callstack_index (rev (catchstack t)) with
  | ScanFinally cat_idx =>
      (* 'finally' catches *)
      t <- duk__handle_catch_or_finally (lj h) cat_idx true t;;
      wipe_and_return DUK__LONGJMP_RESTART (put_thread thr t h)
  | ScanEnd k =>
      if bool_decide (thr = entry_thread)
         && (callstack_top t =? entry_callstack_top)
      then
        (* return to the bytecode executor caller *)
        t <- duk_push_tval (lj_value1 (lj h)) t;;
        wipe_and_return DUK__LONGJMP_FINISHED (put_thread thr t h)
      else if 2 <=? callstack_top t then
        (* there is a caller; it MUST be an Ecmascript caller *)
        act <- deref (callstack t !! (callstack_top t - 2));;
        t <- write_valstack (idx_retval act) (lj_value1 (lj h)) t;;
        (* leave 'cat' as top catcher *)
        let t := duk_hthread_catchstack_unwind k t in
        let t := duk_hthread_callstack_unwind (callstack_top t - 1) t in
        t <- duk__reconfig_valstack (callstack_top t - 1) 1 t;;
        wipe_and_return DUK__LONGJMP_RESTART (put_thread thr t h)
      else
        (* no calling activation, thread finishes (similar to yield) *)
        resumer <- deref (resumer t);;
        rt <- get_thread h resumer;;
        act_idx <- size_minus_2 (callstack_top rt);;
        rt <- duk__handle_yield (lj h) act_idx rt;;
        let h := put_thread resumer rt h in
        let h := terminate_switch thr resumer h in
        wipe_and_return DUK__LONGJMP_RESTART h
  | _ => Undef
  end.

(** case DUK_LJ_TYPE_BREAK, DUK_LJ_TYPE_CONTINUE.  The frame index the walk
    compares with is read from the top catcher.  With an empty catch stack
    the loop is not entered and the value read below the array is not
    used. *)
Definition handle_break_continue (h : duk_heap) (thr : nat) : result lj_step :=
  t <- get_thread h thr;;
  lj_label <- match lj_value1 (lj h) with
              | TvNumber d => deref (Dbl.to_uint d)
              | _ => Undef
              end;;
  match rev (catchstack t) with
  | [] => convert_to_internal_error
  | cat :: _ =>
      let orig_callstack_index := callstack_index cat in
      match break_scan orig_callstack_index lj_label (rev (catchstack t)) with
      | ScanFinally cat_idx =>
          (* finally catches *)
          t <- duk__handle_catch_or_finally (lj h) cat_idx true t;;
          wipe_and_return DUK__LONGJMP_RESTART (put_thread thr t h)
      | ScanLabel cat_idx =>
          (* found label *)
          t <- duk__handle_label (lj h) cat_idx t;;
          wipe_and_return DUK__LONGJMP_RESTART (put_thread thr t h)
      | _ =>
          (* should never happen, but be robust *)
          convert_to_internal_error
      end
  end.

(** case DUK_LJ_TYPE_THROW *)
Definition handle_throw (h : duk_heap) (thr entry_thread entry_callstack_top : nat)
    : result lj_step :=
  t <- get_thread h thr;;
  match throw_scan (bool_decide (thr = entry_thread)) entry_callstack_top
          (rev (catchstack t)) with
  | ScanCatch cat_idx =>
      (* try catches *)
      t <- duk__handle_catch_or_finally (lj h) cat_idx false t;;
      wipe_and_return DUK__LONGJMP_RESTART (put_thread thr t h)
  | ScanFinally cat_idx =>
      t <- duk__handle_catch_or_finally (lj h) cat_idx true t;;
      wipe_and_return DUK__LONGJMP_RESTART (put_thread thr t h)
  | ScanEnd _ =>
      if bool_decide (thr = entry_thread) then
        (* not caught by anything before entry level; rethrow.
           MUST NOT wipe_and_return here, as heap->lj must remain intact *)
        just_return DUK__LONGJMP_RETHROW h
      else
        (* not caught by current thread, thread terminates (yield error
           to resumer) *)
        resumer <- deref (resumer t);;
        _ <- get_thread h resumer;;
        let h := terminate_switch thr resumer h in
        Ok (LjAgain h resumer)
  | ScanLabel _ => Undef
  end.

Definition duk__handle_longjmp_once
    (h : duk_heap) (thr entry_thread entry_callstack_top : nat) : result lj_step :=
  let ty := lj_type (lj h) in
  if (ty =? DUK_LJ_TYPE_RESUME)%Z then handle_resume h thr
  else if (ty =? DUK_LJ_TYPE_YIELD)%Z then handle_yield h thr
  else if (ty =? DUK_LJ_TYPE_RETURN)%Z
  then handle_return h thr entry_thread entry_callstack_top
  else if ((ty =? DUK_LJ_TYPE_BREAK) || (ty =? DUK_LJ_TYPE_CONTINUE))%Z
  then handle_break_continue h thr
  else if (ty =? DUK_LJ_TYPE_THROW)%Z
  then handle_throw h thr entry_thread entry_callstack_top
  else
    (* DUK_LJ_TYPE_NORMAL and unknown types *)
    convert_to_internal_error.

(** [fuel] bounds the number of passes through [check_longjmp]. *)
Fixpoint duk__handle_longjmp (fuel : nat)
    (h : duk_heap) (thr entry_thread entry_callstack_top : nat)
    : result (duk_lj_retval * duk_heap) :=
  match fuel with
  | 0 => NoFuel
  | S fuel =>
      s <- duk__handle_longjmp_once h thr entry_thread entry_callstack_top;;
      match s with
      | LjReturn retval h => Ok (retval, h)
      | LjAgain h thr =>
          duk__handle_longjmp fuel h thr entry_thread entry_callstack_top
      end
  end.

(** The setjmp branch of [duk_js_execute_bytecode]. *)
Inductive exec_exit : Type :=
  | ExecRestart (h : duk_heap)   (* goto reset_setjmp_catchpoint *)
  | ExecRethrow (h : duk_heap)   (* duk_err_longjmp(thr) to the caller *)
  | ExecFinished (h : duk_heap). (* return *)

Definition executor_longjmp_caught (fuel : nat)
    (h : duk_heap) (entry_thread entry_callstack_top : nat) : result exec_exit :=
  let thr := curr_thread h in
  r <- duk__handle_longjmp fuel h thr entry_thread entry_callstack_top;;
  match fst r with
  | DUK__LONGJMP_RESTART => Ok (ExecRestart (snd r))
  | DUK__LONGJMP_RETHROW => Ok (ExecRethrow (snd r))
  | DUK__LONGJMP_FINISHED => Ok (ExecFinished (snd r))
  end.

(** ** Opcode handlers of [duk_js_execute_bytecode] *)

(** How the handler of one instruction ends: the [break] that goes on with
    the next instruction, or [duk_err_longjmp], which lands in the setjmp
    branch above. *)
Inductive op_outcome : Type :=
  | OpNext (h : duk_heap)
  | OpLongjmp (h : duk_heap).

(** Modelled from the spec: duk_err_setup_heap_ljstate (duk_error_misc.c,
    not part of this file) populates the longjmp state: the type as given,
    value1 from the stack top, which is popped. *)
Definition duk_err_setup_heap_ljstate (thr : nat) (ty : Z) (h : duk_heap)
    : result duk_heap :=
  t <- get_thread h thr;;
  v <- (if valstack_top t =? 0 then Undef
        else deref (valstack t !! (valstack_top t - 1)));;
  let h :=
    set_lj {| lj_type := ty; lj_iserror := lj_iserror (lj h);
              lj_value1 := v; lj_value2 := lj_value2 (lj h) |} h in
  t <- duk_pop t;;
  Ok (put_thread thr t h).

(** DUK__REGCONSTP *)
Definition DUK__REGCONSTP (t : duk_hthread) (fn : duk_hcompiledfunction) (x : nat)
    : result duk_tval :=
  if x <? DUK_BC_REGLIMIT
  then deref (valstack t !! (valstack_bottom t + x))
  else deref (consts fn !! (x - DUK_BC_REGLIMIT)).

(** The function [fun] of the activation being interpreted. *)
Definition current_function (t : duk_hthread) : result duk_hcompiledfunction :=
  act <- top_act t;;
  act_compiledfunction act.


(** case DUK_OP_BREAK, DUK_OP_CONTINUE *)
Definition op_BREAK_CONTINUE (ty : Z) (abc : Z) (h : duk_heap) (thr : nat)
    : result op_outcome :=
  t <- get_thread h thr;;
  t <- duk_push_tval (TvNumber (Dbl.of_int abc)) t;;
  h <- duk_err_setup_heap_ljstate thr ty (put_thread thr t h);;
  Ok (OpLongjmp h).

Definition op_BREAK := op_BREAK_CONTINUE DUK_LJ_TYPE_BREAK.
Definition op_CONTINUE := op_BREAK_CONTINUE DUK_LJ_TYPE_CONTINUE.

(** case DUK_EXTRAOP_ENDFIN *)
Definition op_ENDFIN (h : duk_heap) (thr : nat) : result op_outcome :=
  t <- get_thread h thr;;
  cat <- deref (last (catchstack t));;
  tv1 <- deref (valstack t !! (idx_base cat + 1));;  (* type *)
  cont_type <- match tv1 with
               | TvNumber d => deref (Dbl.to_uint d)
               | _ => Undef
               end;;
  if (cont_type =? DUK_LJ_TYPE_NORMAL)%Z then
    (* 'normal' completion -> dismantle catcher, resume execution after
       ENDFIN *)
    Ok (OpNext
          (put_thread thr
             (duk_hthread_catchstack_unwind (catchstack_top t - 1) t) h))
  else
    (* abrupt completion -> re-throw *)
    v <- deref (valstack t !! idx_base cat);;
    t <- duk_push_tval v t;;
    h <- duk_err_setup_heap_ljstate thr cont_type (put_thread thr t h);;
    Ok (OpLongjmp h).

(** The value at the stack top after [duk_err_augment_error_throw]. *)
Definition augment_top (t : duk_hthread) : result duk_hthread :=
  if valstack_top t =? 0 then Undef
  else
    v <- deref (valstack t !! (valstack_top t - 1));;
    write_valstack (valstack_top t - 1) (duk_err_augment_error_throw v) t.

(** case DUK_EXTRAOP_THROW *)
Definition op_THROW (b : nat) (h : duk_heap) (thr : nat) : result op_outcome :=
  t <- get_thread h thr;;
  t <- duk_dup b t;;
  t <- (if DUK_USE_AUGMENT_ERROR_THROW then augment_top t else Ok t);;
  h <- duk_err_setup_heap_ljstate thr DUK_LJ_TYPE_THROW (put_thread thr t h);;
  Ok (OpLongjmp h).

(** Modelled from the spec: identifier lookup "walks the outer chain" of
    environment records (section 6); duk_js_getvar_activation (duk_js_var.c)
    is not part of this file.  Found: value and 'this' binding are pushed
    and the result is 1.  Not found: a ReferenceError if [throw_flag] is
    set, otherwise the result is 0 and the stack is unchanged. *)
Fixpoint env_lookup (name : string) (env : list duk_env_record)
    : option (duk_tval * duk_tval) :=
  match env with
  | [] => None
  | r :: outer =>
      match env_props r !! name with
      | Some v =>
          Some (v, match env_class r with
                   | DUK_HOBJECT_CLASS_OBJENV => env_this r
                   | DUK_HOBJECT_CLASS_DECENV => TvUndefined
                   end)
      | None => env_lookup name outer
      end
  end.

Definition duk_js_getvar_activation
    (t : duk_hthread) (act : duk_activation) (name : string) (throw_flag : bool)
    : result (bool * duk_hthread) :=
  match env_lookup name (lex_env act) with
  | Some (v, this) =>
      t <- duk_push_tval v t;;
      t <- duk_push_tval this t;;
      Ok (true, t)
  | None =>
      if throw_flag then Throw DUK_ERR_REFERENCE_ERROR else Ok (false, t)
  end.

(** case DUK_EXTRAOP_TYPEOFID: B -> target register, C -> constant index
    of identifier name *)
Definition op_TYPEOFID (b c : nat) (h : duk_heap) (thr : nat) : result op_outcome :=
  t <- get_thread h thr;;
  act <- top_act t;;
  fn <- act_compiledfunction act;;
  tv <- DUK__REGCONSTP t fn c;;
  name <- match tv with TvString s => Ok s | _ => Undef end;;
  r <- duk_js_getvar_activation t act name false;;
  let t := snd r in
  if fst r then
    (* -> [... val this] *)
    tv <- (if duk_get_top t <? 2 then Undef
           else deref (valstack t !! (valstack_top t - 2)));;
    t <- duk_push_tval (TvString (duk_js_typeof tv)) t;;
    t <- duk_replace b t;;
    t <- duk_pop t;;
    t <- duk_pop t;;
    Ok (OpNext (put_thread thr t h))
  else
    (* unresolvable, no stack changes *)
    t <- duk_push_tval (TvString "undefined") t;;
    t <- duk_replace b t;;
    Ok (OpNext (put_thread thr t h)).

End Handler.

(** ** The arithmetic helpers on a thread *)

Section Arith.
Context {A : duk_arith} {E : duk_engine}.

(** [tv_z = thr->valstack_bottom + idx_z] and the store through it. *)
Definition store_reg (idx_z : nat) (v : duk_tval) (t : duk_hthread) : result duk_hthread :=
  write_valstack (valstack_bottom t + idx_z) v t.

(** The pushes of the operands, coerced in place and popped again.  What
    the coercions return is in [duk_arith]; what else they do is not
    modelled: for an operand that is an object or a lightfunc they call
    its valueOf or toString (the "side effects" of the source), which may
    write to the thread or throw.  For operands that are primitive values
    they call nothing, and the temporaries are all that happens. *)
Definition push_pop_2 (tv_x tv_y : duk_tval) (t : duk_hthread) : result duk_hthread :=
  t <- duk_push_tval tv_x t;;
  t <- duk_push_tval tv_y t;;
  t <- duk_pop t;;
  duk_pop t.

(** One operand, as [push_pop_2]. *)
Definition push_pop (tv_x : duk_tval) (t : duk_hthread) : result duk_hthread :=
  t <- duk_push_tval tv_x t;;
  duk_pop t.

Definition duk__vm_arith_add (tv_x tv_y : duk_tval) (idx_z : nat) (t : duk_hthread)
    : result duk_hthread :=
  match tv_x, tv_y with
  | TvNumber _, TvNumber _ =>
      store_reg idx_z (duk__vm_arith_add_result tv_x tv_y) t
  | _, _ =>
      (* slow path: both branches end in duk_replace(ctx, idx_z) *)
      t <- push_pop_2 tv_x tv_y t;;
      t <- duk_push_tval (duk__vm_arith_add_result tv_x tv_y) t;;
      duk_replace idx_z t
  end.

Definition duk__vm_arith_binary_op
    (tv_x tv_y : duk_tval) (idx_z : nat) (opcode : duk_opcode) (t : duk_hthread)
    : result duk_hthread :=
  t <- match tv_x, tv_y with
       | TvNumber _, TvNumber _ => Ok t
       | _, _ => push_pop_2 tv_x tv_y t
       end;;
  store_reg idx_z (duk__vm_arith_binary_op_result tv_x tv_y opcode) t.

Definition duk__vm_bitwise_binary_op
    (tv_x tv_y : duk_tval) (idx_z : nat) (opcode : duk_opcode) (t : duk_hthread)
    : result duk_hthread :=
  t <- push_pop_2 tv_x tv_y t;;
  store_reg idx_z (duk__vm_bitwise_binary_op_result tv_x tv_y opcode) t.

Definition duk__vm_arith_unary_op
    (tv_x : duk_tval) (idx_z : nat) (opcode : duk_opcode) (t : duk_hthread)
    : result duk_hthread :=
  t <- match tv_x with
       | TvNumber _ => Ok t
       | _ => push_pop tv_x t
       end;;
  store_reg idx_z (duk__vm_arith_unary_op_result tv_x opcode) t.

Definition duk__vm_bitwise_not (tv_x : duk_tval) (idx_z : nat) (t : duk_hthread)
    : result duk_hthread :=
  t <- push_pop tv_x t;;
  store_reg idx_z (duk__vm_bitwise_not_result tv_x) t.

(** The register an arithmetic instruction writes: A, or B for the
    EXTRAOP forms (whose A field is the extra opcode). *)
Definition arith_target (op : duk_opcode) (a b : nat) : nat :=
  match op with
  | DUK_EXTRAOP_UNM | DUK_EXTRAOP_UNP | DUK_EXTRAOP_INC | DUK_EXTRAOP_DEC => b
  | _ => a
  end.

(** The cases DUK_OP_ADD ... DUK_OP_BNOT and DUK_EXTRAOP_UNM ...
    DUK_EXTRAOP_DEC of the dispatch switch. *)
Definition op_arith (op : duk_opcode) (a b c : nat) (h : duk_heap) (thr : nat)
    : result op_outcome :=
  t <- get_thread h thr;;
  fn <- current_function t;;
  t <- match op with
       | DUK_OP_ADD =>
           x <- DUK__REGCONSTP t fn b;;
           y <- DUK__REGCONSTP t fn c;;
           duk__vm_arith_add x y a t
       | DUK_OP_SUB | DUK_OP_MUL | DUK_OP_DIV | DUK_OP_MOD =>
           x <- DUK__REGCONSTP t fn b;;
           y <- DUK__REGCONSTP t fn c;;
           duk__vm_arith_binary_op x y a op t
       | DUK_OP_BAND | DUK_OP_BOR | DUK_OP_BXOR
       | DUK_OP_BASL | DUK_OP_BLSR | DUK_OP_BASR =>
           x <- DUK__REGCONSTP t fn b;;
           y <- DUK__REGCONSTP t fn c;;
           duk__vm_bitwise_binary_op x y a op t
       | DUK_OP_BNOT =>
           x <- DUK__REGCONSTP t fn b;;
           duk__vm_bitwise_not x a t
       | DUK_EXTRAOP_UNM | DUK_EXTRAOP_UNP | DUK_EXTRAOP_INC | DUK_EXTRAOP_DEC =>
           x <- DUK__REGCONSTP t fn c;;
           duk__vm_arith_unary_op x b op t
       end;;
  Ok (OpNext (put_thread thr t h)).

End Arith.

(** ** A reference instantiation

    IEEE-754 arithmetic from the Standard Library's specification floats,
    with the invalid-operation result of an x86 unit, and coercions that
    cover the primitive values the examples use (strings are not parsed,
    objects run no user code). *)

Module Ref.

Definition add : Z -> Z -> Z := Dbl.lift2 (SFadd Dbl.prec Dbl.emax).
Definition sub : Z -> Z -> Z := Dbl.lift2 (SFsub Dbl.prec Dbl.emax).
Definition mul : Z -> Z -> Z := Dbl.lift2 (SFmul Dbl.prec Dbl.emax).
Definition div : Z -> Z -> Z := Dbl.lift2 (SFdiv Dbl.prec Dbl.emax).
Definition fmod : Z -> Z -> Z := Dbl.lift2 Dbl.SFfmod.
Definition neg (x : Z) : Z := Z.lxor x (2 ^ 63).

Definition to_number (tv : duk_tval) : Z :=
  match tv with
  | TvNumber d => d
  | TvBoolean true => Dbl.of_int 1
  | TvBoolean false | TvNull => 0%Z
  | _ => Dbl.DUK_DOUBLE_NAN_NORMALIZED
  end.

(** ES5 9.5 on a double. *)
Definition ToInt32 (d : Z) : Z :=
  match Dbl.trunc d with
  | Some v => to_sint32 v
  | None => 0%Z
  end.

Definition to_int32 (tv : duk_tval) : Z := ToInt32 (to_number tv).

Definition to_primitive (tv : duk_tval) : duk_tval :=
  match tv with
  | TvObject _ | TvLightfunc _ => TvString "[object Object]"
  | _ => tv
  end.

Definition to_string (tv : duk_tval) : string :=
  match tv with
  | TvString s | TvBuffer s => s
  | TvUndefined | TvUndefinedUnused => "undefined"
  | TvNull => "null"
  | TvBoolean true => "true"
  | TvBoolean false => "false"
  | TvNumber d =>
      match Dbl.trunc d with
      | Some v => if (Dbl.of_int v =? d)%Z then pretty v else "NaN"
      | None => "NaN"
      end
  | TvObject _ | TvLightfunc _ => "[object Object]"
  end.

Definition typeof (tv : duk_tval) : string :=
  match tv with
  | TvUndefined | TvUndefinedUnused => "undefined"
  | TvNull | TvObject _ => "object"
  | TvBoolean _ => "boolean"
  | TvNumber _ => "number"
  | TvString _ => "string"
  | TvLightfunc _ => "function"
  | TvBuffer _ => "buffer"
  end.

Definition init_environment (a : duk_activation) : duk_activation :=
  let env := [ {| env_class := DUK_HOBJECT_CLASS_DECENV; env_props := ∅;
                  env_this := TvUndefined |} ] in
  {| act_func := act_func a; pc := pc a; idx_bottom := idx_bottom a;
     idx_retval := idx_retval a; lex_env := env; var_env := env |}.

Definition arith : duk_arith.
Proof.
  refine {| c_add := add; c_sub := sub; c_mul := mul; c_div := div;
            c_neg := neg; DUK_FMOD := fmod;
            DUK_DOUBLE_NAN := Dbl.default_nan;
            duk_to_number := to_number; duk_to_primitive := to_primitive;
            duk_to_string := to_string; duk_to_int32 := to_int32;
            duk_to_int32_range := _ |}.
  intros tv. unfold to_int32, ToInt32.
  destruct (Dbl.trunc (to_number tv)) as [v|]; [|lia].
  unfold to_sint32.
  pose proof (Z.mod_pos_bound (v + 2 ^ 31) (2 ^ 32) ltac:(lia)). lia.
Defined.

(** The engine with a given throw-time hook: [hook = None] is a build
    without DUK_USE_AUGMENT_ERROR_THROW. *)
Definition engine (hook : option (duk_tval -> duk_tval)) : duk_engine :=
  {| DUK_VALSTACK_INTERNAL_EXTRA := 64;
     DUK_BC_REGLIMIT := 256;
     DUK_USE_AUGMENT_ERROR_THROW := bool_decide (is_Some hook);
     duk_err_augment_error_throw := default id hook;
     duk_handle_ecma_call_setup := fun t _ => inr (false, t);
     duk_js_init_activation_environment_records_delayed := init_environment;
     duk_js_typeof := typeof |}.

End Ref.

(** * Notions used in the statements *)

Section Notions.
Context {A : duk_arith} {E : duk_engine}.

(** The wiped longjmp state. *)
Definition lj_wiped : duk_ljstate :=
  {| lj_type := DUK_LJ_TYPE_UNKNOWN; lj_iserror := false;
     lj_value1 := TvUndefinedUnused; lj_value2 := TvUndefinedUnused |}.

(** Pushing a value and raising it as a longjmp of type [ty]: the state
    the THROW, RETURN, BREAK, CONTINUE and ENDFIN handlers trap with. *)
Definition raised (thr : nat) (ty : Z) (v : duk_tval) (t : duk_hthread) (h : duk_heap)
    : duk_heap :=
  put_thread thr
    (set_valstack (<[valstack_top t := TvUndefinedUnused]>
                     (<[valstack_top t := v]> (valstack t))) t)
    (set_lj {| lj_type := ty; lj_iserror := lj_iserror (lj h);
               lj_value1 := v; lj_value2 := lj_value2 (lj h) |}
       (put_thread thr
          (set_valstack_top (S (valstack_top t))
             (set_valstack (<[valstack_top t := v]> (valstack t)) t)) h)).

(** The catchers the RETURN walk passes over: of the returning frame and
    without an enabled finally part. *)
Definition return_skips (orig : option nat) (c : duk_catcher) : Prop :=
  Some (callstack_index c) = orig
  /\ DUK_CAT_GET_TYPE_is_TCF c && finally_enabled c = false.


(** The catchers the THROW walk passes over: above the entry level and
    with neither part enabled. *)
Definition throw_skips (is_entry_thread : bool) (entry_callstack_top : nat)
    (c : duk_catcher) : Prop :=
  is_entry_thread && lt_size_pred (callstack_index c) entry_callstack_top = false
  /\ catch_enabled c = false /\ finally_enabled c = false.

(** The walk of the longjmp handler stops at the finally part of catcher
    [cat_idx]: the choice the RETURN, THROW and BREAK/CONTINUE cases make. *)
Definition finally_intercepts
    (h : duk_heap) (thr entry_thread entry_callstack_top : nat)
    (t : duk_hthread) (cat_idx : nat) : Prop :=
  let ty := lj_type (lj h) in
  (ty = DUK_LJ_TYPE_RETURN
   /\ return_scan (match callstack_top t with 0 => None | S n => Some n end)
        (rev (catchstack t)) = ScanFinally cat_idx)
  \/ (ty = DUK_LJ_TYPE_THROW
      /\ throw_scan (bool_decide (thr = entry_thread)) entry_callstack_top
           (rev (catchstack t)) = ScanFinally cat_idx)
  \/ ((ty = DUK_LJ_TYPE_BREAK \/ ty = DUK_LJ_TYPE_CONTINUE)
      /\ exists d lj_label top_cat,
           lj_value1 (lj h) = TvNumber d
           /\ Dbl.to_uint d = Some lj_label
           /\ last (catchstack t) = Some top_cat
           /\ break_scan (callstack_index top_cat) lj_label (rev (catchstack t))
              = ScanFinally cat_idx).

(** A frame [act] of compiled function [f] made ready to continue with
    the value [v] in its return-value register. *)
Definition returned_into
    (v : duk_tval) (act : duk_activation) (f : duk_hcompiledfunction)
    (t' : duk_hthread) : Prop :=
  valstack_bottom t' = idx_bottom act
  /\ duk_get_top t' = nregs f
  /\ length (valstack t') = idx_bottom act + nregs f + DUK_VALSTACK_INTERNAL_EXTRA
  /\ valstack t' !! idx_retval act = Some v.

(** A frame that can take a return value: a compiled function whose
    return-value register lies in its register window and in the part of
    the value stack in use. *)
Definition can_return_into
    (act : duk_activation) (f : duk_hcompiledfunction) (t : duk_hthread) : Prop :=
  act_func act = Some (HCompiledFunction f)
  /\ idx_bottom act <= idx_retval act < idx_bottom act + nregs f
  /\ idx_retval act < valstack_top t <= length (valstack t)
  /\ idx_bottom act + nregs f + DUK_VALSTACK_INTERNAL_EXTRA < valstack_max t.

(** The claim that a THROW instruction raises the very value of its
    source register. *)
Definition throw_raises_register_value : Prop :=
  forall (b : nat) (h h' : duk_heap) (thr : nat) (t : duk_hthread) (x : duk_tval),
    get_thread h thr = Ok t ->
    valstack t !! (valstack_bottom t + b) = Some x ->
    op_THROW b h thr = Ok (OpLongjmp h') ->
    lj_value1 (lj h') = x.

(** The value a THROW instruction raises for the register value [x]. *)
Definition thrown_value (x : duk_tval) : duk_tval :=
  if DUK_USE_AUGMENT_ERROR_THROW then duk_err_augment_error_throw x else x.

(** A tagged value that, if it is a number, is normalized. *)
Definition tval_normalized (v : duk_tval) : Prop :=
  forall d, v = TvNumber d ->
    Dbl.DUK_DBLUNION_IS_NORMALIZED d = true
    /\ (Dbl.DUK_ISNAN d = true -> d = Dbl.DUK_DOUBLE_NAN_NORMALIZED).

(** The value an arithmetic instruction computes for the operands [x]
    (from B) and [y] (from C). *)
Definition arith_value (op : duk_opcode) (x y : duk_tval) : duk_tval :=
  match op with
  | DUK_OP_ADD => duk__vm_arith_add_result x y
  | DUK_OP_SUB | DUK_OP_MUL | DUK_OP_DIV | DUK_OP_MOD =>
      duk__vm_arith_binary_op_result x y op
  | DUK_OP_BAND | DUK_OP_BOR | DUK_OP_BXOR
  | DUK_OP_BASL | DUK_OP_BLSR | DUK_OP_BASR =>
      duk__vm_bitwise_binary_op_result x y op
  | DUK_OP_BNOT => duk__vm_bitwise_not_result x
  | DUK_EXTRAOP_UNM | DUK_EXTRAOP_UNP | DUK_EXTRAOP_INC | DUK_EXTRAOP_DEC =>
      duk__vm_arith_unary_op_result y op
  end.

(** What a helper leaves behind: the frame where it was and, in the
    target register, the value it computed (or the unused sentinel, when
    the target is the temporary that duk_replace pops). *)
Definition stored (idx_z : nat) (v : duk_tval) (t t' : duk_hthread) : Prop :=
  valstack_bottom t' = valstack_bottom t
  /\ callstack t' = callstack t /\ catchstack t' = catchstack t
  /\ exists w, valstack t' !! (valstack_bottom t + idx_z) = Some w
       /\ (w = v \/ w = TvUndefinedUnused).

(** Temporaries pushed and popped again leave the frame in place. *)
Definition same_frame (t t' : duk_hthread) : Prop :=
  valstack_bottom t' = valstack_bottom t
  /\ valstack_top t' = valstack_top t
  /\ length (valstack t') = length (valstack t)
  /\ callstack t' = callstack t /\ catchstack t' = catchstack t.

(** The threads that have a resumer: each pass through [check_longjmp]
    that re-enters with a throw clears one of them. *)
Definition resumed_threads (h : duk_heap) : gset nat :=
  dom (filter (fun kt => is_Some (resumer kt.2)) (heap_threads h)).

(** A result other than running out of loop fuel. *)
Definition returns {X : Type} (r : result X) : Prop := r <> NoFuel.

End Notions.

(** * Concrete states *)

Module Ex.

Definition num (i : Z) : duk_tval := TvNumber (Dbl.of_int i).

Definition lj_of (ty : Z) (iserror : bool) (v1 v2 : duk_tval) : duk_ljstate :=
  {| lj_type := ty; lj_iserror := iserror; lj_value1 := v1; lj_value2 := v2 |}.

(** A function with four registers and the constant "x". *)
Definition fn4 : duk_hcompiledfunction :=
  {| nregs := 4; consts := [TvString "x"] |}.

Definition frame (bottom retval pc0 : nat) : duk_activation :=
  {| act_func := Some (HCompiledFunction fn4); pc := pc0;
     idx_bottom := bottom; idx_retval := retval;
     lex_env := []; var_env := [] |}.

Definition native_frame (f : duk_c_function) (bottom : nat) : duk_activation :=
  {| act_func := Some (HNativeFunction f); pc := 0;
     idx_bottom := bottom; idx_retval := 0;
     lex_env := []; var_env := [] |}.

Definition tcf (frame_idx pcb ib : nat) (have_catch have_finally : bool) : duk_catcher :=
  {| cat_type := DUK_CAT_TYPE_TCF; cat_label := 0;
     catch_enabled := have_catch; finally_enabled := have_finally;
     catch_binding_enabled := false; lexenv_active := false;
     callstack_index := frame_idx; pc_base := pcb; idx_base := ib;
     h_varname := None |}.

Definition label (frame_idx pcb : nat) (l : Z) : duk_catcher :=
  {| cat_type := DUK_CAT_TYPE_LABEL; cat_label := l;
     catch_enabled := false; finally_enabled := false;
     catch_binding_enabled := false; lexenv_active := false;
     callstack_index := frame_idx; pc_base := pcb; idx_base := 0;
     h_varname := None |}.

(** The slots in use followed by the spare. *)
Definition slots (vs : list duk_tval) : list duk_tval :=
  vs ++ replicate 64 TvUndefinedUnused.

Definition thread (vs : list duk_tval) (bottom : nat)
    (cs : list duk_activation) (cats : list duk_catcher)
    (st : duk_hthread_state) (r : option nat) : duk_hthread :=
  {| valstack := slots vs; valstack_bottom := bottom;
     valstack_top := length vs; valstack_max := 1000;
     callstack := cs; catchstack := cats; state := st; resumer := r |}.

(** One frame inside [L1: try { ... } finally { ... }]: 'this' below
    four registers, the catcher's two registers being r2 and r3. *)
Definition t_try_finally : duk_hthread :=
  thread [TvUndefined; num 10; num 20; TvUndefined; TvUndefined] 1
    [frame 1 0 20]
    [label 0 5 1; tcf 0 10 3 false true]
    DUK_HTHREAD_STATE_RUNNING None.

Definition h_try_finally (ty : Z) (v : duk_tval) : duk_heap :=
  {| heap_threads := {[ 0 := t_try_finally ]}; curr_thread := 0;
     lj := lj_of ty false v TvUndefinedUnused |}.

(** A callee (frame 1) about to return to its caller (frame 0), which
    expects the value in its register r2 (slot 3). *)
Definition t_call : duk_hthread :=
  thread [TvUndefined; num 1; num 2; TvUndefined; TvUndefined;
          TvUndefined; num 7; TvUndefined; TvUndefined; TvUndefined] 6
    [frame 1 3 30; frame 6 0 4] []
    DUK_HTHREAD_STATE_RUNNING None.

(** The same, the caller's r3 (slot 4) holding a 9 from before the
    call. *)
Definition t_call_r3 : duk_hthread :=
  thread [TvUndefined; num 1; num 2; TvUndefined; num 9;
          TvUndefined; num 7; TvUndefined; TvUndefined; TvUndefined] 6
    [frame 1 3 30; frame 6 0 4] []
    DUK_HTHREAD_STATE_RUNNING None.

Definition h_call (ty : Z) (v : duk_tval) : duk_heap :=
  {| heap_threads := {[ 0 := t_call ]}; curr_thread := 0;
     lj := lj_of ty false v TvUndefinedUnused |}.



(** A resumer (thread 0, the entry thread) inside [try { resume(t1) }
    catch ...], and the coroutine (thread 1) it resumed. *)
Definition t_resumer : duk_hthread :=
  thread [TvUndefined; TvObject 1; num 2; TvUndefined; TvUndefined;
          TvUndefined; TvObject 1; TvUndefined] 6
    [frame 1 2 40; native_frame duk_bi_thread_resume 6]
    [tcf 0 15 3 true false]
    DUK_HTHREAD_STATE_RESUMED None.

Definition t_coroutine : duk_hthread :=
  thread [TvUndefined; TvUndefined; num 5; TvUndefined; TvUndefined] 1
    [frame 1 0 8] []
    DUK_HTHREAD_STATE_RUNNING (Some 0).

Definition h_coroutine (ty : Z) (iserror : bool) (v : duk_tval) : duk_heap :=
  {| heap_threads := {[ 0 := t_resumer; 1 := t_coroutine ]}; curr_thread := 1;
     lj := lj_of ty iserror v TvUndefinedUnused |}.

(** The coroutine inside Duktape.Thread.yield(). *)
Definition t_yielding : duk_hthread :=
  thread [TvUndefined; TvUndefined; num 5; TvUndefined; TvUndefined;
          TvUndefined; TvObject 9; TvBoolean true] 6
    [frame 1 2 8; native_frame duk_bi_thread_yield 6] []
    DUK_HTHREAD_STATE_RUNNING (Some 0).

Definition h_yielding (iserror : bool) (v : duk_tval) : duk_heap :=
  {| heap_threads := {[ 0 := t_resumer; 1 := t_yielding ]}; curr_thread := 1;
     lj := lj_of DUK_LJ_TYPE_YIELD iserror v TvUndefinedUnused |}.

(** A frame whose r0 holds an error object, inside [try ... catch]. *)
Definition t_rethrow : duk_hthread :=
  thread [TvUndefined; TvObject 7; num 0; TvUndefined; TvUndefined] 1
    [frame 1 0 9] [tcf 0 3 3 true false]
    DUK_HTHREAD_STATE_RUNNING None.

Definition h_rethrow : duk_heap :=
  {| heap_threads := {[ 0 := t_rethrow ]}; curr_thread := 0;
     lj := lj_wiped |}.

(** A Duktape.errThrow handler that replaces what is thrown. *)
Definition replacing_hook (_ : duk_tval) : duk_tval := TvString "replaced".

(** A frame with r0 = r1 = +0. *)
Definition t_zeros : duk_hthread :=
  thread [TvUndefined; TvNumber 0; TvNumber 0; TvUndefined; TvUndefined] 1
    [frame 1 0 9] [] DUK_HTHREAD_STATE_RUNNING None.

Definition h_zeros : duk_heap :=
  {| heap_threads := {[ 0 := t_zeros ]}; curr_thread := 0; lj := lj_wiped |}.

(** A frame whose scope binds "y" and nothing else. *)
Definition env_y : duk_env_record :=
  {| env_class := DUK_HOBJECT_CLASS_DECENV;
     env_props := {[ "y"%string := num 1 ]};
     env_this := TvUndefined |}.

Definition scoped_frame : duk_activation :=
  {| act_func := Some (HCompiledFunction fn4); pc := 9;
     idx_bottom := 1; idx_retval := 0;
     lex_env := [env_y]; var_env := [env_y] |}.

Definition t_scoped : duk_hthread :=
  thread [TvUndefined; num 3; num 4; TvUndefined; TvUndefined] 1
    [scoped_frame] [] DUK_HTHREAD_STATE_RUNNING None.

Definition h_scoped : duk_heap :=
  {| heap_threads := {[ 0 := t_scoped ]}; curr_thread := 0; lj := lj_wiped |}.

(** The coroutine yielding an error, and the heap once the handler has
    switched to the resumer. *)
Definition h_yield_error : duk_heap := h_yielding true (TvObject 9).

Definition h_yield_error_switched : duk_heap :=
  set_lj_type DUK_LJ_TYPE_THROW (yield_switch 1 0 h_yield_error).

(** The engines the examples run on: a build without throw-time
    augmentation, and one whose hook replaces the thrown value. *)
Definition engine : duk_engine := Ref.engine None.

Definition engine_hooked : duk_engine := Ref.engine (Some replacing_hook).

End Ex.

(** * Loads, logical not and the catcher instructions *)

(** ** What these instructions consume from the rest of the engine *)

Class duk_dispatch : Type := {
  (** Constants of duk_js_bytecode.h. *)
  DUK_BC_LDINT_BIAS : Z;
  DUK_BC_LDINTX_SHIFT : Z;
  DUK_BC_TRYCATCH_FLAG_HAVE_CATCH : Z;
  DUK_BC_TRYCATCH_FLAG_HAVE_FINALLY : Z;
  DUK_BC_TRYCATCH_FLAG_CATCH_BINDING : Z;
  DUK_BC_TRYCATCH_FLAG_WITH_BINDING : Z;
  (** duk_js_ops.c: ToBoolean, without side effects. *)
  duk_js_toboolean : duk_tval -> bool;
  (** duk_hthread_stacks.c: room for one more catcher, or the error thrown
      at the catch stack limit. *)
  duk_hthread_catchstack_grow : duk_hthread -> option duk_errcode;
  (** duk_api_stack.c: the pointer of the object duk_push_object_helper
      allocates, ToObject (an error for undefined and null), and the
      properties an object holds, as identifier lookup through an object
      environment sees them. *)
  duk_push_object_helper : duk_hthread -> nat;
  duk_to_object : duk_tval -> duk_errcode + duk_tval;
  duk_object_props : duk_tval -> gmap string duk_tval
}.

Definition DUK_CAT_CLEAR_LEXENV_ACTIVE (c : duk_catcher) : duk_catcher :=
  {| cat_type := cat_type c; cat_label := cat_label c;
     catch_enabled := catch_enabled c; finally_enabled := finally_enabled c;
     catch_binding_enabled := catch_binding_enabled c;
     lexenv_active := false;
     callstack_index := callstack_index c; pc_base := pc_base c;
     idx_base := idx_base c; h_varname := h_varname c |}.

Section Dispatch.
Context {A : duk_arith} {E : duk_engine} {D : duk_dispatch}.

(** The handlers below run after the fetch [ins = bcode[act->pc++]]: the
    PC of the current activation is that of the next instruction, and the
    fields of [ins] arrive decoded. *)

(** [*DUK__REGP(x)] as a value read. *)
Definition DUK__REGP (t : duk_hthread) (x : nat) : result duk_tval :=
  deref (valstack t !! (valstack_bottom t + x)).

(** [*DUK__CONSTP(x)] *)
Definition DUK__CONSTP (fn : duk_hcompiledfunction) (x : nat) : result duk_tval :=
  deref (consts fn !! x).

(** case DUK_OP_LDREG *)
Definition op_LDREG (a bc : nat) (h : duk_heap) (thr : nat) : result op_outcome :=
  t <- get_thread h thr;;
  tv2 <- DUK__REGP t bc;;
  t <- store_reg a tv2 t;;
  Ok (OpNext (put_thread thr t h)).

(** case DUK_OP_STREG *)
Definition op_STREG (a bc : nat) (h : duk_heap) (thr : nat) : result op_outcome :=
  t <- get_thread h thr;;
  tv1 <- DUK__REGP t a;;
  t <- store_reg bc tv1 t;;
  Ok (OpNext (put_thread thr t h)).

(** case DUK_OP_LDCONST *)
Definition op_LDCONST (a bc : nat) (h : duk_heap) (thr : nat) : result op_outcome :=
  t <- get_thread h thr;;
  fn <- current_function t;;
  tv2 <- DUK__CONSTP fn bc;;
  t <- store_reg a tv2 t;;
  Ok (OpNext (put_thread thr t h)).

(** case DUK_OP_LDINT: [bc] is read as a signed integer. *)
Definition op_LDINT (a : nat) (bc : Z) (h : duk_heap) (thr : nat) : result op_outcome :=
  t <- get_thread h thr;;
  let val := Dbl.of_int (bc - DUK_BC_LDINT_BIAS) in
  t <- store_reg a (TvNumber val) t;;
  Ok (OpNext (put_thread thr t h)).

(** case DUK_OP_LDINTX *)
Definition op_LDINTX (a : nat) (bc : Z) (h : duk_heap) (thr : nat) : result op_outcome :=
  t <- get_thread h thr;;
  tv1 <- DUK__REGP t a;;
  match tv1 with
  | TvNumber d =>
      let val :=
        c_add (c_mul d (Dbl.of_int (Z.shiftl 1 DUK_BC_LDINTX_SHIFT)))
              (Dbl.of_int bc) in
      t <- store_reg a (TvNumber val) t;;
      Ok (OpNext (put_thread thr t h))
  | _ =>
      (* LDINTX target not a number *)
      Throw DUK_ERR_INTERNAL_ERROR
  end.

(** case DUK_EXTRAOP_LDTHIS: the 'this' binding is just under bottom. *)
Definition op_LDTHIS (b : nat) (h : duk_heap) (thr : nat) : result op_outcome :=
  t <- get_thread h thr;;
  tv2 <- (if valstack_bottom t =? 0 then Undef
          else deref (valstack t !! (valstack_bottom t - 1)));;
  t <- store_reg b tv2 t;;
  Ok (OpNext (put_thread thr t h)).

(** case DUK_EXTRAOP_LDUNDEF *)
Definition op_LDUNDEF (bc : nat) (h : duk_heap) (thr : nat) : result op_outcome :=
  t <- get_thread h thr;;
  t <- store_reg bc TvUndefined t;;
  Ok (OpNext (put_thread thr t h)).

(** case DUK_EXTRAOP_LDNULL *)
Definition op_LDNULL (bc : nat) (h : duk_heap) (thr : nat) : result op_outcome :=
  t <- get_thread h thr;;
  t <- store_reg bc TvNull t;;
  Ok (OpNext (put_thread thr t h)).

(** case DUK_EXTRAOP_LDTRUE, DUK_EXTRAOP_LDFALSE *)
Definition op_LDTRUE_LDFALSE (is_ldtrue : bool) (bc : nat) (h : duk_heap) (thr : nat)
    : result op_outcome :=
  t <- get_thread h thr;;
  let bval := if is_ldtrue then true else false in
  t <- store_reg bc (TvBoolean bval) t;;
  Ok (OpNext (put_thread thr t h)).

Definition op_LDTRUE := op_LDTRUE_LDFALSE true.
Definition op_LDFALSE := op_LDTRUE_LDFALSE false.

(** E5 Section 11.4.9 *)
Definition duk__vm_logical_not (tv_x : duk_tval) (idx_z : nat) (t : duk_hthread)
    : result duk_hthread :=
  let res := duk_js_toboolean tv_x in
  let res := xorb res true in
  store_reg idx_z (TvBoolean res) t.

(** case DUK_OP_LNOT *)
Definition op_LNOT (a b : nat) (h : duk_heap) (thr : nat) : result op_outcome :=
  t <- get_thread h thr;;
  fn <- current_function t;;
  x <- DUK__REGCONSTP t fn b;;
  t <- duk__vm_logical_not x a t;;
  Ok (OpNext (put_thread thr t h)).

(** [duk_hthread_catchstack_grow(thr)] followed by the claim of the new
    top entry. *)
Definition catchstack_push (cat : duk_catcher) (t : duk_hthread) : duk_hthread :=
  set_catchstack (catchstack t ++ [cat]) t.

Definition catchstack_grow (t : duk_hthread) : result duk_hthread :=
  match duk_hthread_catchstack_grow t with
  | Some e => Throw e
  | None => Ok t
  end.

(** [act->pc += 2]: skip jump slots *)
Definition skip_jump_slots (t : duk_hthread) : duk_hthread :=
  upd_top_act (fun act => set_pc (pc act + 2) act) t.

(** case DUK_OP_LABEL.  Modelled from the spec: the label id is one of the
    catcher's flags (section 3); DUK_CAT_GET_LABEL gives back the [abc]
    stored here. *)
Definition op_LABEL (abc : Z) (h : duk_heap) (thr : nat) : result op_outcome :=
  t <- get_thread h thr;;
  act <- top_act t;;
  (* allocate catcher and populate it *)
  t <- catchstack_grow t;;
  let cat :=
    {| cat_type := DUK_CAT_TYPE_LABEL; cat_label := abc;
       catch_enabled := false; finally_enabled := false;
       catch_binding_enabled := false; lexenv_active := false;
       callstack_index := callstack_top t - 1;
       pc_base := pc act;  (* pre-incremented, points to first jump slot *)
       idx_base := 0;      (* unused for label *)
       h_varname := None |} in
  let t := catchstack_push cat t in
  Ok (OpNext (put_thread thr (skip_jump_slots t) h)).

(** case DUK_OP_ENDLABEL *)
Definition op_ENDLABEL (h : duk_heap) (thr : nat) : result op_outcome :=
  t <- get_thread h thr;;
  let t := duk_hthread_catchstack_unwind (catchstack_top t - 1) t in
  (* no need to unwind callstack *)
  Ok (OpNext (put_thread thr t h)).

(** [a & flag] as a truth value. *)
Definition has_flag (a flag : Z) : bool := negb (Z.land a flag =? 0)%Z.

(** The 'with' target of TRYCATCH: the environment object, the target
    coerced to an object and its copy are pushed, the two property
    definitions pop the copies.  The result has the environment object on
    top: [ ... env ]. *)
Definition with_binding_setup (fn : duk_hcompiledfunction) (c : nat) (t : duk_hthread)
    : result (duk_env_record * duk_hthread) :=
  act <- top_act t;;
  let t :=
    match lex_env act with
    | [] => upd_top_act duk_js_init_activation_environment_records_delayed t
    | _ => t
    end in
  t <- duk_push_tval (TvObject (duk_push_object_helper t)) t;;
  x <- DUK__REGCONSTP t fn c;;
  t <- duk_push_tval x t;;
  target <- match duk_to_object x with
            | inl e => Throw e
            | inr o => Ok o
            end;;
  t <- write_valstack (valstack_top t - 1) target t;;
  t <- duk_dup (duk_get_top t - 1) t;;
  t <- duk_pop t;;
  t <- duk_pop t;;
  Ok ({| env_class := DUK_HOBJECT_CLASS_OBJENV;
         env_props := duk_object_props target;
         env_this := target |}, t).

(** case DUK_OP_TRYCATCH: A -> flags, B -> reg_catch, base register for 2
    regs, C -> var_name or with_target, depending on the flags. *)
Definition op_TRYCATCH (a : Z) (b c : nat) (h : duk_heap) (thr : nat)
    : result op_outcome :=
  t <- get_thread h thr;;
  fn <- current_function t;;
  (* 'with' target must be created first *)
  w <- (if has_flag a DUK_BC_TRYCATCH_FLAG_WITH_BINDING
        then r <- with_binding_setup fn c t;; Ok (Some (fst r), snd r)
        else Ok (None, t));;
  let new_env := fst w in
  let t := snd w in
  (* allocate catcher and populate it *)
  t <- catchstack_grow t;;
  let cat_idx := catchstack_top t in
  let cat :=
    {| cat_type := DUK_CAT_TYPE_TCF; cat_label := 0;
       catch_enabled := has_flag a DUK_BC_TRYCATCH_FLAG_HAVE_CATCH;
       finally_enabled := has_flag a DUK_BC_TRYCATCH_FLAG_HAVE_FINALLY;
       catch_binding_enabled := false; lexenv_active := false;
       callstack_index := 0; pc_base := 0; idx_base := 0;
       h_varname := None |} in
  let t := catchstack_push cat t in
  t <- (if has_flag a DUK_BC_TRYCATCH_FLAG_CATCH_BINDING then
          tv1 <- DUK__CONSTP fn c;;
          varname <- match tv1 with TvString s => Ok s | _ => Undef end;;
          Ok (upd_cat cat_idx
                (fun cat =>
                   {| cat_type := cat_type cat; cat_label := cat_label cat;
                      catch_enabled := catch_enabled cat;
                      finally_enabled := finally_enabled cat;
                      catch_binding_enabled := true;
                      lexenv_active := lexenv_active cat;
                      callstack_index := callstack_index cat;
                      pc_base := pc_base cat; idx_base := idx_base cat;
                      h_varname := Some varname |}) t)
        else
          match new_env with
          | Some env =>
              (* env created above to stack top *)
              let t := upd_cat cat_idx DUK_CAT_SET_LEXENV_ACTIVE t in
              let t := upd_top_act (fun act => set_lex_env (env :: lex_env act) act) t in
              duk_pop t
          | None => Ok t
          end);;
  act <- top_act t;;
  let t :=
    upd_cat cat_idx
      (fun cat =>
         {| cat_type := cat_type cat; cat_label := cat_label cat;
            catch_enabled := catch_enabled cat;
            finally_enabled := finally_enabled cat;
            catch_binding_enabled := catch_binding_enabled cat;
            lexenv_active := lexenv_active cat;
            callstack_index := callstack_top t - 1;
            pc_base := pc act;  (* pre-incremented, points to first jump slot *)
            idx_base := valstack_bottom t + b;
            h_varname := h_varname cat |}) t in
  Ok (OpNext (put_thread thr (skip_jump_slots t) h)).

(** The part ENDTRY and ENDCATCH share: with the finally part active, jump
    through the 2nd jump slot with 'normal continuation'; without, dismantle
    the catcher and jump through the 2nd jump slot to the end of the
    statement.  [cat] is the top catcher as read on entry. *)
Definition finally_or_dismantle (cat : duk_catcher) (t : duk_hthread)
    : result duk_hthread :=
  t <- (if finally_enabled cat then
          t <- write_valstack (idx_base cat) TvUndefined t;;
          t <- write_valstack (idx_base cat + 1)
                 (TvNumber (Dbl.of_int DUK_LJ_TYPE_NORMAL)) t;;
          Ok (upd_cat (catchstack_top t - 1) DUK_CAT_CLEAR_FINALLY_ENABLED t)
        else
          (* no need to unwind callstack *)
          Ok (duk_hthread_catchstack_unwind (catchstack_top t - 1) t));;
  Ok (upd_top_act (set_pc (pc_base cat + 1)) t).

(** case DUK_EXTRAOP_ENDTRY *)
Definition op_ENDTRY (h : duk_heap) (thr : nat) : result op_outcome :=
  t <- get_thread h thr;;
  _ <- top_act t;;
  cat <- deref (last (catchstack t));;
  (* clearing catch active flag (regardless of whether it was set or not) *)
  let t := upd_cat (catchstack_top t - 1) DUK_CAT_CLEAR_CATCH_ENABLED t in
  t <- finally_or_dismantle cat t;;
  Ok (OpNext (put_thread thr t h)).

(** case DUK_EXTRAOP_ENDCATCH *)
Definition op_ENDCATCH (h : duk_heap) (thr : nat) : result op_outcome :=
  t <- get_thread h thr;;
  act <- top_act t;;
  cat <- deref (last (catchstack t));;
  t <- (if lexenv_active cat then
          (* popping catcher part lexical environment *)
          match lex_env act with
          | [] => Undef
          | prev_env :: outer =>
              let t := upd_top_act (set_lex_env outer) t in
              Ok (upd_cat (catchstack_top t - 1) DUK_CAT_CLEAR_LEXENV_ACTIVE t)
          end
        else Ok t);;
  t <- finally_or_dismantle cat t;;
  Ok (OpNext (put_thread thr t h)).

End Dispatch.

(** ** A reference instantiation of the rest *)

Module RefOps.

(** ToBoolean of E5 Section 9.2 on the values of the model. *)
Definition toboolean (tv : duk_tval) : bool :=
  match tv with
  | TvUndefinedUnused | TvUndefined | TvNull => false
  | TvBoolean b => b
  | TvNumber d =>
      negb (Dbl.DUK_ISNAN d) && negb (Z.land d (2 ^ 63 - 1) =? 0)%Z
  | TvString s => negb (String.eqb s "")
  | TvObject _ | TvLightfunc _ => true
  | TvBuffer b => negb (String.eqb b "")
  end.

(** Objects are their own coercion and hold no properties; other values
    are not covered by the examples. *)
Definition to_object (tv : duk_tval) : duk_errcode + duk_tval :=
  match tv with
  | TvObject p => inr (TvObject p)
  | _ => inl DUK_ERR_INTERNAL_ERROR
  end.

Definition dispatch : duk_dispatch :=
  {| DUK_BC_LDINT_BIAS := 2 ^ 17;
     DUK_BC_LDINTX_SHIFT := 18;
     DUK_BC_TRYCATCH_FLAG_HAVE_CATCH := 1;
     DUK_BC_TRYCATCH_FLAG_HAVE_FINALLY := 2;
     DUK_BC_TRYCATCH_FLAG_CATCH_BINDING := 4;
     DUK_BC_TRYCATCH_FLAG_WITH_BINDING := 8;
     duk_js_toboolean := toboolean;
     duk_hthread_catchstack_grow :=
       fun t => if 4096 <=? catchstack_top t then Some DUK_ERR_RANGE_ERROR
                else None;
     duk_push_object_helper := fun t => 1000 + valstack_top t;
     duk_to_object := to_object;
     duk_object_props := fun _ => ∅ |}.

End RefOps.

(** * More notions used in the statements *)

Section Notions2.
Context {A : duk_arith} {E : duk_engine} {D : duk_dispatch}.

(** An instruction that has written register [k] and nothing else of the
    thread: the frame is where it was, no temporary is left on the value
    stack, and every other slot in use holds what it held. *)
Definition only_register_changed (k : nat) (t t' : duk_hthread) : Prop :=
  same_frame t t'
  /\ state t' = state t /\ resumer t' = resumer t
  /\ valstack_max t' = valstack_max t
  /\ forall i, i < valstack_top t -> i <> valstack_bottom t + k ->
               valstack t' !! i = valstack t !! i.

(** The values that run no Ecmascript code when an arithmetic helper
    handles them: ToPrimitive, ToNumber, ToInt32 and ToString of such an
    operand call no valueOf or toString, and releasing such a value when a
    register is overwritten runs no finalizer.  Objects and lightfuncs are
    not among them (nor, to stay on the safe side, buffers). *)
Definition is_plain_primitive (v : duk_tval) : bool :=
  match v with
  | TvUndefined | TvNull | TvBoolean _ | TvNumber _ | TvString _ => true
  | TvUndefinedUnused | TvObject _ | TvLightfunc _ | TvBuffer _ => false
  end.

(** The operand fields an arithmetic instruction reads: B and C, B alone
    for BNOT, C alone for the EXTRAOP forms. *)
Definition arith_operand_fields (op : duk_opcode) (b c : nat) : list nat :=
  match op with
  | DUK_EXTRAOP_UNM | DUK_EXTRAOP_UNP | DUK_EXTRAOP_INC | DUK_EXTRAOP_DEC => [c]
  | DUK_OP_BNOT => [b]
  | _ => [b; c]
  end.

(** The catcher LABEL pushes in the frame [act] of thread [t]. *)
Definition label_catcher (abc : Z) (t : duk_hthread) (act : duk_activation)
    : duk_catcher :=
  {| cat_type := DUK_CAT_TYPE_LABEL; cat_label := abc;
     catch_enabled := false; finally_enabled := false;
     catch_binding_enabled := false; lexenv_active := false;
     callstack_index := callstack_top t - 1; pc_base := pc act;
     idx_base := 0; h_varname := None |}.

(** The catcher TRYCATCH pushes for the flags [a] and the base register
    [b] when it makes no 'with' binding; [varname] is the catch variable,
    if the flags ask for one. *)
Definition trycatch_catcher (a : Z) (b : nat) (varname : option string)
    (t : duk_hthread) (act : duk_activation) : duk_catcher :=
  {| cat_type := DUK_CAT_TYPE_TCF; cat_label := 0;
     catch_enabled := has_flag a DUK_BC_TRYCATCH_FLAG_HAVE_CATCH;
     finally_enabled := has_flag a DUK_BC_TRYCATCH_FLAG_HAVE_FINALLY;
     catch_binding_enabled := has_flag a DUK_BC_TRYCATCH_FLAG_CATCH_BINDING;
     lexenv_active := false;
     callstack_index := callstack_top t - 1; pc_base := pc act;
     idx_base := valstack_bottom t + b; h_varname := varname |}.

(** The activation with its environment records built, if they had not
    been. *)
Definition scope_ready (act : duk_activation) : duk_activation :=
  match lex_env act with
  | [] => duk_js_init_activation_environment_records_delayed act
  | _ => act
  end.

(** The activation inside a catch clause whose variable [varname] is
    bound to [v]. *)
Definition in_catch_scope (varname : string) (v : duk_tval) (act : duk_activation)
    : duk_activation :=
  let act := scope_ready act in
  set_lex_env
    ({| env_class := DUK_HOBJECT_CLASS_DECENV;
        env_props := {[ varname := v ]};
        env_this := TvUndefined |} :: lex_env act) act.

(** The current activation continues at [n]; nothing else of the call
    stack changes. *)
Definition continues_at (n : nat) (t t' : duk_hthread) : Prop :=
  callstack t' = alter (set_pc n) (callstack_top t - 1) (callstack t).

(** The registers in use hold what they held, but for those in [skip]. *)
Definition registers_kept (skip : list nat) (t t' : duk_hthread) : Prop :=
  valstack_bottom t' = valstack_bottom t
  /\ valstack_top t' = valstack_top t
  /\ forall i, i < valstack_top t -> i ∉ skip ->
               valstack t' !! i = valstack t !! i.

(** The catch stack is in order: every catcher belongs to an activation
    that is on the call stack, and the catchers lie in the order of their
    activations. *)
Definition catchstack_ordered (t : duk_hthread) : Prop :=
  forall i j c c',
    i <= j -> catchstack t !! i = Some c -> catchstack t !! j = Some c' ->
    callstack_index c <= callstack_index c' < callstack_top t.

(** What that order depends on: the height of the call stack and the
    frame indices of the catchers. *)
Definition shape (t : duk_hthread) : nat * list nat :=
  (length (callstack t), callstack_index <$> catchstack t).

Definition ordered_shape (s : nat * list nat) : Prop :=
  forall i j a b, i <= j -> s.2 !! i = Some a -> s.2 !! j = Some b ->
                  a <= b < s.1.

(** The thread the heap names as current exists and is Running. *)
Definition current_thread_running (h : duk_heap) : Prop :=
  exists t, get_thread h (curr_thread h) = Ok t
            /\ state t = DUK_HTHREAD_STATE_RUNNING.

(** The threads of the heap. *)
Definition threads_of (h : duk_heap) : gset nat := dom (heap_threads h).

(** The thread after LABEL or TRYCATCH has pushed [cat]. *)
Definition pushed (cat : duk_catcher) (t : duk_hthread) : duk_hthread :=
  skip_jump_slots (catchstack_push cat t).

End Notions2.

(** * More concrete states *)

Module ExOps.

(** The coroutine of [Ex.t_yielding] once its yield has been handled. *)
Definition t_yielded : duk_hthread :=
  set_resumer None (set_state DUK_HTHREAD_STATE_YIELDED Ex.t_yielding).

(** Thread 0 inside Duktape.Thread.resume(t1, v), the coroutine waiting
    in its yield() call. *)
Definition h_resuming (iserror : bool) (v : duk_tval) : duk_heap :=
  {| heap_threads :=
       {[ 0 := set_state DUK_HTHREAD_STATE_RUNNING Ex.t_resumer;
          1 := t_yielded ]};
     curr_thread := 0;
     lj := Ex.lj_of DUK_LJ_TYPE_RESUME iserror v (TvObject 1) |}.

(** A coroutine that was never yielded, resumed with an error. *)
Definition h_resuming_fresh : duk_heap :=
  {| heap_threads :=
       {[ 0 := set_state DUK_HTHREAD_STATE_RUNNING Ex.t_resumer;
          1 := set_resumer None
                 (set_state DUK_HTHREAD_STATE_INACTIVE Ex.t_coroutine) ]};
     curr_thread := 0;
     lj := Ex.lj_of DUK_LJ_TYPE_RESUME true (TvObject 9) (TvObject 1) |}.

(** The frame of [Ex.t_rethrow] with the error object of r0 thrown. *)
Definition h_throwing : duk_heap :=
  {| heap_threads := {[ 0 := Ex.t_rethrow ]}; curr_thread := 0;
     lj := Ex.lj_of DUK_LJ_TYPE_THROW false (TvObject 7) TvUndefinedUnused |}.

(** A heap waiting for the next instruction of [Ex.t_call]. *)
Definition h_call : duk_heap :=
  {| heap_threads := {[ 0 := Ex.t_call ]}; curr_thread := 0; lj := lj_wiped |}.

(** TRYCATCH flags. *)
Definition have_catch : Z := 1.
Definition have_finally : Z := 2.
Definition have_catch_binding : Z := 5.

Definition dispatch : duk_dispatch := RefOps.dispatch.

End ExOps.

(** * Proofs *)

(** ** Doubles as bit patterns *)

Section DblFacts.
Local Open Scope Z_scope.

Lemma pack_div_52 s e f :
  0 <= f < 2 ^ 52 ->
  Dbl.pack s e f / 2 ^ 52 = (if s then 2 ^ 11 else 0) + e.
Proof.
  intros Hf. unfold Dbl.pack. symmetry.
  apply Z.div_unique with (r := f); [lia|]. destruct s; lia.
Qed.

Lemma exp_of_pack s e f :
  0 <= e < 2 ^ 11 -> 0 <= f < 2 ^ 52 -> Dbl.exp_of (Dbl.pack s e f) = e.
Proof.
  intros He Hf. unfold Dbl.exp_of.
  change 0x7ff with (Z.ones 11).
  rewrite Z.land_ones by lia. rewrite Z.shiftr_div_pow2 by lia.
  rewrite pack_div_52 by lia. symmetry.
  apply Z.mod_unique with (q := if s then 1 else 0); [lia|]. destruct s; lia.
Qed.

Lemma frac_of_pack s e f :
  0 <= e < 2 ^ 11 -> 0 <= f < 2 ^ 52 -> Dbl.frac_of (Dbl.pack s e f) = f.
Proof.
  intros He Hf. unfold Dbl.frac_of, Dbl.pack.
  change 0xfffffffffffff with (Z.ones 52).
  rewrite Z.land_ones by lia. symmetry.
  apply Z.mod_unique with (q := (if s then 2 ^ 11 else 0) + e); [lia|].
  destruct s; lia.
Qed.

Lemma sign_of_pack s e f :
  0 <= e < 2 ^ 11 -> 0 <= f < 2 ^ 52 -> Dbl.sign_of (Dbl.pack s e f) = s.
Proof.
  intros He Hf. unfold Dbl.sign_of.
  rewrite Z.testbit_eqb by lia.
  assert (Hq : Dbl.pack s e f / 2 ^ 63 = if s then 1 else 0).
  { unfold Dbl.pack. symmetry.
    apply Z.div_unique with (r := e * 2 ^ 52 + f); [lia|]. destruct s; lia. }
  rewrite Hq. destruct s; reflexivity.
Qed.

(** The fields of [of_int i] for a non-zero [i] below [2^53]. *)
Lemma of_int_fields i :
  i <> 0 -> Z.abs i < 2 ^ 53 ->
  let e := Z.log2 (Z.abs i) in
  let f := Z.abs i * 2 ^ (52 - e) - 2 ^ 52 in
  Dbl.of_int i = Dbl.pack (i <? 0) (e + 1023) f
  /\ 0 <= e <= 52 /\ 0 <= f < 2 ^ 52.
Proof.
  intros Hnz Hlt e f. unfold Dbl.of_int.
  destruct (Z.eqb_spec i 0) as [->|_]; [done|].
  split; [reflexivity|].
  assert (Ha : 0 < Z.abs i) by lia.
  pose proof (Z.log2_spec (Z.abs i) Ha) as [Hlo Hhi]. fold e in Hlo, Hhi.
  assert (He0 : 0 <= e) by apply Z.log2_nonneg.
  assert (He : e <= 52).
  { destruct (Z.le_gt_cases e 52) as [|Hgt]; [done|].
    assert (2 ^ 53 <= 2 ^ e) by (apply Z.pow_le_mono_r; lia). lia. }
  split; [lia|].
  assert (Hp : 2 ^ e * 2 ^ (52 - e) = 2 ^ 52).
  { rewrite <- Z.pow_add_r by lia. f_equal. lia. }
  assert (Hq : 2 ^ Z.succ e * 2 ^ (52 - e) = 2 * 2 ^ 52).
  { rewrite Z.pow_succ_r by lia. lia. }
  assert (0 < 2 ^ (52 - e)) by (apply Z.pow_pos_nonneg; lia).
  unfold f. nia.
Qed.

Lemma of_int_not_nan i : Z.abs i < 2 ^ 53 -> Dbl.DUK_ISNAN (Dbl.of_int i) = false.
Proof.
  intros Hlt. destruct (Z.eq_dec i 0) as [->|Hnz]; [reflexivity|].
  destruct (of_int_fields i Hnz Hlt) as (-> & He & Hf).
  unfold Dbl.DUK_ISNAN. rewrite exp_of_pack by lia.
  destruct (Z.eqb_spec (Z.log2 (Z.abs i) + 1023) 0x7ff); [lia|reflexivity].
Qed.

Lemma trunc_of_int i : Z.abs i < 2 ^ 53 -> Dbl.trunc (Dbl.of_int i) = Some i.
Proof.
  intros Hlt. destruct (Z.eq_dec i 0) as [->|Hnz]; [reflexivity|].
  destruct (of_int_fields i Hnz Hlt) as (-> & He & Hf).
  set (e := Z.log2 (Z.abs i)) in *.
  unfold Dbl.trunc.
  rewrite exp_of_pack, frac_of_pack, sign_of_pack by lia.
  destruct (Z.eqb_spec (e + 1023) 0x7ff); [lia|].
  destruct (Z.eqb_spec (e + 1023) 0); [lia|].
  f_equal.
  replace (2 ^ 52 + (Z.abs i * 2 ^ (52 - e) - 2 ^ 52))
    with (Z.abs i * 2 ^ (52 - e)) by lia.
  replace (e + 1023 - 1075) with (- (52 - e)) by lia.
  rewrite Z.shiftl_opp_r, Z.shiftr_div_pow2 by lia.
  rewrite Z.div_mul by (apply Z.pow_nonzero; lia).
  destruct (Z.ltb_spec i 0); lia.
Qed.

Lemma to_uint_of_int n : 0 <= n < 2 ^ 32 -> Dbl.to_uint (Dbl.of_int n) = Some n.
Proof.
  intros Hn. unfold Dbl.to_uint. rewrite trunc_of_int by lia.
  destruct (Z.leb_spec 0 n); [|lia].
  destruct (Z.ltb_spec n (2 ^ 32)); [reflexivity|lia].
Qed.

Lemma normalize_is_normalized b :
  Dbl.DUK_DBLUNION_IS_NORMALIZED (Dbl.DUK_DBLUNION_NORMALIZE_NAN_CHECK b) = true.
Proof.
  unfold Dbl.DUK_DBLUNION_IS_NORMALIZED, Dbl.DUK_DBLUNION_NORMALIZE_NAN_CHECK.
  destruct (Dbl.DUK_ISNAN b) eqn:Hb; [reflexivity|]. by rewrite Hb.
Qed.

Lemma normalize_nan b :
  Dbl.DUK_ISNAN b = true ->
  Dbl.DUK_DBLUNION_NORMALIZE_NAN_CHECK b = Dbl.DUK_DOUBLE_NAN_NORMALIZED.
Proof. intros Hb. unfold Dbl.DUK_DBLUNION_NORMALIZE_NAN_CHECK. by rewrite Hb. Qed.

Lemma of_int_is_normalized i :
  Z.abs i < 2 ^ 53 -> Dbl.DUK_DBLUNION_IS_NORMALIZED (Dbl.of_int i) = true.
Proof.
  intros Hi. unfold Dbl.DUK_DBLUNION_IS_NORMALIZED. by rewrite of_int_not_nan.
Qed.
End DblFacts.

(** ** 32-bit integer arithmetic of the bitwise helpers *)

Section Bits.
Local Open Scope Z_scope.

Lemma signed_range_bits n x i :
  0 <= n -> - 2 ^ n <= x < 2 ^ n -> n <= i -> Z.testbit x i = (x <? 0).
Proof.
  intros Hn Hx Hi. destruct (Z.ltb_spec x 0) as [Hneg|Hpos].
  - assert (Hl : Z.testbit (Z.lnot x) i = false).
    { assert (0 <= Z.lnot x < 2 ^ n) as [H0 H1] by (unfold Z.lnot; lia).
      destruct (Z.eq_dec (Z.lnot x) 0) as [->|Hnz]; [apply Z.bits_0|].
      apply Z.bits_above_log2; [done|].
      assert (Z.log2 (Z.lnot x) < n) by (apply Z.log2_lt_pow2; lia). lia. }
    rewrite Z.lnot_spec in Hl by lia. by destruct (Z.testbit x i).
  - destruct (Z.eq_dec x 0) as [->|Hnz]; [apply Z.bits_0|].
    apply Z.bits_above_log2; [done|].
    assert (Z.log2 x < n) by (apply Z.log2_lt_pow2; lia). lia.
Qed.

Lemma bits_nonneg_range n x :
  0 <= n -> (forall i, n <= i -> Z.testbit x i = false) -> 0 <= x < 2 ^ n.
Proof.
  intros Hn Hb.
  assert (H0 : 0 <= x).
  { destruct (Z.le_gt_cases 0 x) as [|Hneg]; [done|].
    apply Z.bits_iff_neg_ex in Hneg as [k Hk].
    specialize (Hk (Z.max (k + 1) n) ltac:(lia)).
    rewrite Hb in Hk by lia. done. }
  split; [done|].
  destruct (Z.lt_ge_cases x (2 ^ n)) as [|Hge]; [done|].
  assert (0 < x) by (assert (0 < 2 ^ n) by (apply Z.pow_pos_nonneg; lia); lia).
  assert (n <= Z.log2 x) by (apply Z.log2_le_pow2; lia).
  pose proof (Z.bit_log2 x ltac:(lia)) as Hbit.
  rewrite Hb in Hbit by lia. done.
Qed.

Lemma bits_signed_range n x s :
  0 <= n -> (forall i, n <= i -> Z.testbit x i = s) -> - 2 ^ n <= x < 2 ^ n.
Proof.
  intros Hn Hb. destruct s.
  - assert (0 <= Z.lnot x < 2 ^ n).
    { apply bits_nonneg_range; [done|]. intros i Hi.
      rewrite Z.lnot_spec by lia. by rewrite Hb. }
    unfold Z.lnot in *. lia.
  - pose proof (bits_nonneg_range n x Hn Hb). lia.
Qed.

Lemma bitop_signed_range (f : Z -> Z -> Z) (g : bool -> bool -> bool) n a b :
  (forall x y i, 0 <= i -> Z.testbit (f x y) i = g (Z.testbit x i) (Z.testbit y i)) ->
  0 <= n -> - 2 ^ n <= a < 2 ^ n -> - 2 ^ n <= b < 2 ^ n ->
  - 2 ^ n <= f a b < 2 ^ n.
Proof.
  intros Hf Hn Ha Hb.
  apply bits_signed_range with (s := g (a <? 0) (b <? 0)); [done|].
  intros i Hi. rewrite Hf by lia.
  by rewrite (signed_range_bits n a i), (signed_range_bits n b i).
Qed.

Lemma to_sint32_range x : - 2 ^ 31 <= to_sint32 x < 2 ^ 31.
Proof.
  unfold to_sint32.
  pose proof (Z.mod_pos_bound (x + 2 ^ 31) (2 ^ 32) ltac:(lia)). lia.
Qed.

Lemma to_uint32_range x : 0 <= to_uint32 x < 2 ^ 32.
Proof. unfold to_uint32. apply Z.mod_pos_bound. lia. Qed.

Lemma land_ffffffff x : Z.land (to_uint32 x) 0xffffffff = to_uint32 x.
Proof.
  change 0xffffffff with (Z.ones 32). rewrite Z.land_ones by lia.
  unfold to_uint32. apply Z.mod_mod. lia.
Qed.

(** The shift count: the low five bits of the count as an unsigned
    32-bit number. *)
Lemma shift_count_mask i2 :
  Z.land (Z.land (to_uint32 i2) 0xffffffff) 0x1f = i2 mod 32.
Proof.
  rewrite land_ffffffff. change 0x1f with (Z.ones 5).
  rewrite Z.land_ones by lia. unfold to_uint32.
  change (2 ^ 32) with (2 ^ 5 * 2 ^ 27). change (2 ^ 5) with 32.
  rewrite Z.rem_mul_r by lia.
  rewrite Z.mul_comm, Z.mod_add by lia. apply Z.mod_mod. lia.
Qed.

Lemma bitwise_int_shift i1 i2 :
  let n := i2 mod 32 in
  bitwise_binary_int i1 i2 DUK_OP_BASL = to_sint32 (i1 * 2 ^ n)
  /\ bitwise_binary_int i1 i2 DUK_OP_BASR = i1 / 2 ^ n
  /\ bitwise_binary_int i1 i2 DUK_OP_BLSR = to_uint32 i1 / 2 ^ n.
Proof.
  intros n. assert (Hn : 0 <= n < 32) by (apply Z.mod_pos_bound; lia).
  unfold bitwise_binary_int. rewrite !shift_count_mask. fold n.
  rewrite land_ffffffff.
  rewrite Z.shiftl_mul_pow2, !Z.shiftr_div_pow2 by lia.
  split; [|done].
  change (to_sint32 0xffffffff) with (-1). apply Z.land_m1_r.
Qed.

Lemma bitwise_int_range i1 i2 opcode :
  - 2 ^ 31 <= i1 < 2 ^ 31 -> - 2 ^ 31 <= i2 < 2 ^ 31 ->
  - 2 ^ 31 <= bitwise_binary_int i1 i2 opcode < 2 ^ 32.
Proof.
  intros H1 H2.
  pose proof (bitwise_int_shift i1 i2) as (Hasl & Hasr & Hlsr).
  assert (Hn : 0 <= i2 mod 32 < 32) by (apply Z.mod_pos_bound; lia).
  assert (Hp : 0 < 2 ^ (i2 mod 32)) by (apply Z.pow_pos_nonneg; lia).
  destruct opcode; try (simpl; lia).
  - pose proof (bitop_signed_range Z.land andb 31 i1 i2
                  (fun x y i H => Z.land_spec x y i)). simpl; lia.
  - pose proof (bitop_signed_range Z.lor orb 31 i1 i2
                  (fun x y i H => Z.lor_spec x y i)). simpl; lia.
  - pose proof (bitop_signed_range Z.lxor xorb 31 i1 i2
                  (fun x y i H => Z.lxor_spec x y i)). simpl; lia.
  - rewrite Hasl. pose proof (to_sint32_range (i1 * 2 ^ (i2 mod 32))). lia.
  - rewrite Hlsr. pose proof (to_uint32_range i1).
    assert (0 <= to_uint32 i1 / 2 ^ (i2 mod 32)) by (apply Z.div_pos; lia).
    assert (to_uint32 i1 / 2 ^ (i2 mod 32) <= to_uint32 i1)
      by (apply Z.div_le_upper_bound; nia).
    lia.
  - rewrite Hasr.
    assert (- 2 ^ 31 <= i1 / 2 ^ (i2 mod 32))
      by (apply Z.div_le_lower_bound; nia).
    assert (i1 / 2 ^ (i2 mod 32) < 2 ^ 31)
      by (apply Z.div_lt_upper_bound; nia).
    lia.
Qed.
End Bits.

(** ** The value stack *)

Section StackFacts.
Context {E : duk_engine}.

(** [duk_set_top] with an index inside the allocated stack. *)
Lemma duk_set_top_ok (n : nat) (t : duk_hthread) :
  valstack_bottom t + n <= length (valstack t) ->
  exists vs : list duk_tval,
    duk_set_top (Z.of_nat n) t
    = Ok (set_valstack_top (valstack_bottom t + n) (set_valstack vs t))
    /\ length vs = length (valstack t)
    /\ (forall i, i < valstack_top t -> i < valstack_bottom t + n ->
                  vs !! i = valstack t !! i)
    /\ (forall i, valstack_top t <= i < valstack_bottom t + n ->
                  vs !! i = Some TvUndefined)
    /\ (forall i, valstack_bottom t + n <= i < valstack_top t ->
                  i < length (valstack t) ->
                  vs !! i = Some TvUndefinedUnused)
    /\ (forall i, valstack_top t <= i -> valstack_bottom t + n <= i ->
                  vs !! i = valstack t !! i).
Proof.
  intros Hlen. unfold duk_set_top.
  destruct (Z.ltb_spec (Z.of_nat n) 0) as [?|_]; [lia|].
  destruct (Z.ltb_spec (Z.of_nat n) 0) as [?|_]; [lia|].
  destruct (Z.ltb_spec (Z.of_nat (length (valstack t)) - Z.of_nat (valstack_bottom t))
              (Z.of_nat n)) as [?|_]; [lia|].
  simpl orb. cbv iota. rewrite Nat2Z.id.
  destruct (Nat.leb_spec (valstack_top t) (valstack_bottom t + n)) as [Hle|Hgt].
  - eexists. split; [reflexivity|].
    split; [apply length_inserts|].
    split; [intros i H1 H2; apply list_lookup_inserts_lt; lia|].
    split.
    { intros i Hi. rewrite list_lookup_inserts by (rewrite ?length_replicate; lia).
      apply lookup_replicate_2. lia. }
    split; [intros i Hi; lia|].
    intros i H1 H2. apply list_lookup_inserts_ge. rewrite length_replicate. lia.
  - eexists. split; [reflexivity|].
    split; [apply length_inserts|].
    split; [intros i H1 H2; apply list_lookup_inserts_lt; lia|].
    split; [intros i Hi; lia|].
    split.
    { intros i Hi Hl. rewrite list_lookup_inserts by (rewrite ?length_replicate; lia).
      apply lookup_replicate_2. lia. }
    intros i H1 H2. apply list_lookup_inserts_ge. rewrite length_replicate. lia.
Qed.

(** [duk__reconfig_valstack], step by step: the thread [t1] after the first
    [duk_set_top] and the thread [t'] it ends with. *)
Lemma duk__reconfig_valstack_ok
    (t : duk_hthread) (act_idx retval_count : nat)
    (act : duk_activation) (f : duk_hcompiledfunction) :
  callstack t !! act_idx = Some act ->
  act_func act = Some (HCompiledFunction f) ->
  retval_count <= 1 ->
  idx_bottom act <= idx_retval act ->
  idx_retval act + retval_count <= length (valstack t) ->
  idx_bottom act + nregs f + DUK_VALSTACK_INTERNAL_EXTRA < valstack_max t ->
  exists t1 t' : duk_hthread,
    duk_set_top
      (Z.of_nat (idx_retval act) - Z.of_nat (idx_bottom act)
       + Z.of_nat retval_count)%Z
      (set_valstack_bottom (idx_bottom act) t) = Ok t1
    /\ valstack_bottom t1 = idx_bottom act
    /\ duk_get_top t1 = idx_retval act - idx_bottom act + retval_count
    /\ duk__reconfig_valstack act_idx retval_count t = Ok t'
    /\ valstack_bottom t' = idx_bottom act
    /\ length (valstack t') = idx_bottom act + nregs f + DUK_VALSTACK_INTERNAL_EXTRA
    /\ duk_get_top t' = nregs f
    /\ valstack_top t' = idx_bottom act + nregs f
    /\ callstack t' = callstack t /\ catchstack t' = catchstack t
    /\ state t' = state t /\ resumer t' = resumer t
    /\ (forall i v, valstack t !! i = Some v ->
                    i < valstack_top t ->
                    i < idx_retval act + retval_count ->
                    i < idx_bottom act + nregs f ->
                    valstack t' !! i = Some v)
    /\ (forall i, idx_retval act + retval_count <= i < idx_bottom act + nregs f ->
                  valstack t' !! i = Some TvUndefined).
Proof.
  intros Hact Hf Hrc Hret Hlen Hmax.
  set (k := idx_retval act - idx_bottom act + retval_count).
  assert (Hk : (Z.of_nat (idx_retval act) - Z.of_nat (idx_bottom act)
                + Z.of_nat retval_count)%Z = Z.of_nat k) by (unfold k; lia).
  set (t0 := set_valstack_bottom (idx_bottom act) t).
  destruct (duk_set_top_ok k t0) as (vs1 & Hs1 & Hl1 & Hkeep1 & Hnew1 & Hold1 & Hfar1).
  { simpl. unfold k. lia. }
  set (t1 := set_valstack_top (valstack_bottom t0 + k) (set_valstack vs1 t0)) in *.
  assert (Hres : duk_valstack_resize_raw
                   (valstack_bottom t1 + nregs f + DUK_VALSTACK_INTERNAL_EXTRA) t1
                 = Ok (set_valstack
                         (resize (idx_bottom act + nregs f + DUK_VALSTACK_INTERNAL_EXTRA)
                            TvUndefinedUnused vs1) t1)).
  { unfold duk_valstack_resize_raw. simpl.
    destruct (Nat.leb_spec (valstack_max t)
                (idx_bottom act + nregs f + DUK_VALSTACK_INTERNAL_EXTRA)); [lia|done]. }
  set (t2 := set_valstack _ t1) in Hres.
  destruct (duk_set_top_ok (nregs f) t2) as (vs3 & Hs3 & Hl3 & Hkeep3 & Hnew3 & Hold3 & Hfar3).
  { simpl. rewrite length_resize. lia. }
  exists t1, (set_valstack_top (valstack_bottom t2 + nregs f) (set_valstack vs3 t2)).
  split; [by rewrite Hk|].
  split; [done|].
  split; [unfold duk_get_top; simpl; lia|].
  split.
  { unfold duk__reconfig_valstack. rewrite Hact. cbn [deref rbind].
    fold t0. rewrite Hk, Hs1. cbn [rbind].
    unfold act_compiledfunction. rewrite Hf. cbn [rbind].
    rewrite Hres. cbn [rbind]. exact Hs3. }
  split; [done|].
  split; [simpl; rewrite Hl3; simpl; apply length_resize|].
  split; [unfold duk_get_top; simpl; lia|].
  split; [done|].
  do 4 (split; [done|]).
  simpl in *. rewrite length_resize in *.
  split.
  - intros i v Hv Hi1 Hi2 Hi3. simpl.
    assert (i < length (valstack t)) by (by apply lookup_lt_Some in Hv).
    rewrite Hkeep3 by (simpl; unfold k; lia).
    rewrite lookup_resize by lia.
    rewrite Hkeep1 by (simpl; unfold k; lia). done.
  - intros i Hi. simpl. apply Hnew3. unfold k. lia.
Qed.

(** The steps of [duk__reconfig_valstack] for a compiled function. *)
Lemma duk__reconfig_valstack_steps
    (t : duk_hthread) (act_idx retval_count : nat)
    (act : duk_activation) (f : duk_hcompiledfunction) :
  callstack t !! act_idx = Some act ->
  act_func act = Some (HCompiledFunction f) ->
  duk__reconfig_valstack act_idx retval_count t
  = (t1 <- duk_set_top
             (Z.of_nat (idx_retval act) - Z.of_nat (idx_bottom act)
              + Z.of_nat retval_count)%Z
             (set_valstack_bottom (idx_bottom act) t);;
     t2 <- duk_valstack_resize_raw
             (valstack_bottom t1 + nregs f + DUK_VALSTACK_INTERNAL_EXTRA) t1;;
     duk_set_top (Z.of_nat (nregs f)) t2).
Proof.
  intros Hact Hf. unfold duk__reconfig_valstack. rewrite Hact. cbn [deref rbind].
  destruct (duk_set_top _ _); cbn [rbind]; try done.
  unfold act_compiledfunction. by rewrite Hf.
Qed.

(** Claim C7.  [duk__reconfig_valstack] on the activation of a compiled
    function with [retval_count] 0 or 1: the bottom becomes the frame's
    idx_bottom, the top is first clamped to idx_retval - idx_bottom +
    retval_count, and at the end the value stack reaches nregs + spare
    slots above the bottom and the top index is nregs.  The clamp is the
    first step of the call: the resize and the final top are applied to
    the clamped thread, in which every slot from the clamped top up to the
    old top has been dropped; so in the result the slots below the clamped
    top hold what they held and every register from the clamped top on is
    undefined. *)
Theorem reconfig_valstack_contract
    (t : duk_hthread) (act_idx retval_count : nat)
    (act : duk_activation) (f : duk_hcompiledfunction) :
  callstack t !! act_idx = Some act ->
  act_func act = Some (HCompiledFunction f) ->
  retval_count = 0 \/ retval_count = 1 ->
  idx_bottom act <= idx_retval act ->
  idx_retval act + retval_count <= length (valstack t) ->
  idx_bottom act + nregs f + DUK_VALSTACK_INTERNAL_EXTRA < valstack_max t ->
  exists t1 t' : duk_hthread,
    (* the bottom is moved and the top clamped first *)
    duk_set_top
      (Z.of_nat (idx_retval act) - Z.of_nat (idx_bottom act)
       + Z.of_nat retval_count)%Z
      (set_valstack_bottom (idx_bottom act) t) = Ok t1
    /\ valstack_bottom t1 = idx_bottom act
    /\ duk_get_top t1 = idx_retval act - idx_bottom act + retval_count
    (* then the stack is sized for the function and the top set *)
    /\ duk__reconfig_valstack act_idx retval_count t = Ok t'
    /\ valstack_bottom t' = idx_bottom act
    /\ length (valstack t') - valstack_bottom t'
       = nregs f + DUK_VALSTACK_INTERNAL_EXTRA
    /\ duk_get_top t' = nregs f
    (* the return value, if any, stays where it was written *)
    /\ (forall v, retval_count = 1 ->
           idx_retval act < valstack_top t ->
           idx_retval act < idx_bottom act + nregs f ->
           valstack t !! idx_retval act = Some v ->
           valstack t' !! idx_retval act = Some v)
    /\ callstack t' = callstack t /\ catchstack t' = catchstack t
    (* the result is the resize and the final top applied to the clamped
       thread *)
    /\ (t2 <- duk_valstack_resize_raw
                (valstack_bottom t1 + nregs f + DUK_VALSTACK_INTERNAL_EXTRA) t1;;
        duk_set_top (Z.of_nat (nregs f)) t2) = Ok t'
    (* what the clamp dropped, and what it kept *)
    /\ valstack_top t1 = idx_retval act + retval_count
    /\ (forall i, idx_retval act + retval_count <= i < valstack_top t ->
                  i < length (valstack t) ->
                  valstack t1 !! i = Some TvUndefinedUnused)
    /\ (forall i, i < valstack_top t -> i < idx_retval act + retval_count ->
                  valstack t1 !! i = valstack t !! i)
    (* in the result: below the clamped top as before, undefined from it on *)
    /\ (forall i v, valstack t !! i = Some v ->
                    i < valstack_top t ->
                    i < idx_retval act + retval_count ->
                    i < idx_bottom act + nregs f ->
                    valstack t' !! i = Some v)
    /\ (forall i, idx_retval act + retval_count <= i < idx_bottom act + nregs f ->
                  valstack t' !! i = Some TvUndefined).
Proof.
  intros Hact Hf Hrc Hret Hlen Hmax.
  destruct (duk__reconfig_valstack_ok t act_idx retval_count act f)
    as (t1 & t' & H1 & H2 & H3 & H4 & H5 & H6 & H7 & _ & H8 & H9 & _ & _
        & Hkeep & Hclear);
    try done; [lia|].
  exists t1, t'. do 5 (split; [done|]).
  split; [rewrite H6, H5; lia|].
  split; [done|].
  split; [intros v -> Hv1 Hv2 Hv; apply Hkeep; [done|lia..]|].
  split; [done|]. split; [done|].
  split.
  { rewrite <- H4, (duk__reconfig_valstack_steps t act_idx retval_count act f Hact Hf).
    by rewrite H1. }
  set (k := idx_retval act - idx_bottom act + retval_count).
  assert (Hk : (Z.of_nat (idx_retval act) - Z.of_nat (idx_bottom act)
                + Z.of_nat retval_count)%Z = Z.of_nat k) by (unfold k; lia).
  destruct (duk_set_top_ok k (set_valstack_bottom (idx_bottom act) t))
    as (vs1 & Hs1 & _ & Hkeep1 & _ & Hold1 & _).
  { simpl. unfold k. lia. }
  rewrite Hk, Hs1 in H1. injection H1 as <-. simpl in *.
  split; [unfold k; lia|].
  split; [intros i Hi Hl; apply Hold1; [unfold k; lia|done]|].
  split; [intros i Hi1 Hi2; apply Hkeep1; [done|unfold k; lia]|].
  done.
Qed.
End StackFacts.

(** ** The longjmp handler and finally *)

Section FinallyInterception.
Context {E : duk_engine}.

Lemma rbind_Ok {X Y} (r : result X) (k : X -> result Y) y :
  rbind r k = Ok y -> exists x, r = Ok x /\ k x = Ok y.
Proof. destruct r; simpl; [eauto|done..]. Qed.

Lemma rbind_NoFuel {X Y} (r : result X) (k : X -> result Y) :
  rbind r k = NoFuel -> r = NoFuel \/ exists x, r = Ok x /\ k x = NoFuel.
Proof. destruct r; simpl; eauto; done. Qed.

Lemma write_valstack_ok i v t :
  i < length (valstack t) ->
  write_valstack i v t = Ok (set_valstack (<[i := v]> (valstack t)) t).
Proof.
  intros Hi. unfold write_valstack.
  destruct (Nat.ltb_spec i (length (valstack t))); [done|lia].
Qed.

Lemma take_alter_last {A} (f : A -> A) (l : list A) i x :
  l !! i = Some x ->
  alter f (length (take (i + 1) l) - 1) (take (i + 1) l) = take i l ++ [f x].
Proof.
  intros Hx. pose proof (lookup_lt_Some _ _ _ Hx) as Hlt.
  rewrite Nat.add_1_r. rewrite (take_S_r _ _ _ Hx).
  rewrite length_app, length_take_le by lia. simpl.
  replace (i + 1 - 1) with (length (take i l) + 0)
    by (rewrite length_take_le; lia).
  by rewrite alter_app_r.
Qed.

Lemma take_alter {A} (f : A -> A) (l : list A) i x :
  l !! i = Some x ->
  alter f i (take (i + 1) l) = take i l ++ [f x].
Proof.
  intros Hx. rewrite <- (take_alter_last f l i x Hx).
  f_equal. pose proof (lookup_lt_Some _ _ _ Hx).
  rewrite length_take_le; lia.
Qed.

Lemma last_take_S {A} (l : list A) i x :
  l !! i = Some x -> last (take (i + 1) l) = Some x.
Proof.
  intros Hx. rewrite Nat.add_1_r, (take_S_r _ _ _ Hx). apply last_snoc.
Qed.

(** Entering the catch or finally part of catcher [cat_idx], whose frame
    [act] is a compiled function, when no catch binding is to be made. *)
Lemma handle_catch_or_finally_ok
    (l : duk_ljstate) (cat_idx : nat) (is_finally : bool) (t : duk_hthread)
    (cat : duk_catcher) (act : duk_activation) (f : duk_hcompiledfunction) :
  catchstack t !! cat_idx = Some cat ->
  callstack t !! callstack_index cat = Some act ->
  act_func act = Some (HCompiledFunction f) ->
  idx_base cat + 1 < length (valstack t) ->
  idx_bottom act + nregs f <= length (valstack t) ->
  negb is_finally && catch_binding_enabled cat = false ->
  exists vs : list duk_tval,
    duk__handle_catch_or_finally l cat_idx is_finally t
    = Ok {| valstack := vs;
            valstack_bottom := idx_bottom act;
            valstack_top := idx_bottom act + nregs f;
            valstack_max := valstack_max t;
            callstack :=
              take (callstack_index cat) (callstack t)
              ++ [set_pc (pc_base cat + (if is_finally then 1 else 0)) act];
            catchstack :=
              take cat_idx (catchstack t)
              ++ [(if is_finally then DUK_CAT_CLEAR_FINALLY_ENABLED
                   else DUK_CAT_CLEAR_CATCH_ENABLED) cat];
            state := state t;
            resumer := resumer t |}
    /\ length vs = length (valstack t)
    /\ (idx_base cat + 1 < valstack_top t ->
        idx_base cat + 1 < idx_bottom act + nregs f ->
        vs !! idx_base cat = Some (lj_value1 l)
        /\ vs !! (idx_base cat + 1) = Some (TvNumber (Dbl.of_int (lj_type l))))
    /\ (forall i, i < valstack_top t -> i < idx_bottom act + nregs f ->
                  i <> idx_base cat -> i <> idx_base cat + 1 ->
                  vs !! i = valstack t !! i).
Proof.
  intros Hcat Hact Hf Hslot Hlen Hbind.
  unfold duk__handle_catch_or_finally.
  rewrite Hcat. cbn [deref rbind].
  rewrite write_valstack_ok by lia. cbn [rbind].
  rewrite write_valstack_ok by (simpl; rewrite length_insert; lia). cbn [rbind].
  set (vs1 := <[idx_base cat + 1 := TvNumber (Dbl.of_int (lj_type l))]>
                (<[idx_base cat := lj_value1 l]> (valstack t))).
  unfold top_act, duk_hthread_callstack_unwind, duk_hthread_catchstack_unwind.
  cbn [callstack set_callstack set_catchstack set_valstack].
  rewrite (last_take_S _ _ _ Hact). cbn [deref rbind].
  unfold act_compiledfunction. rewrite Hf. cbn [rbind].
  match goal with |- context [duk_set_top _ ?t0] => set (t0' := t0) end.
  destruct (duk_set_top_ok (nregs f) t0') as (vs & Hs & Hl & Hkeep & _).
  { simpl. unfold vs1. rewrite !length_insert. lia. }
  rewrite Hs. cbn [rbind]. rewrite Hbind. cbn [rbind].
  exists vs. split.
  { f_equal. unfold upd_cat, upd_top_act, callstack_top. simpl.
    rewrite (take_alter_last _ _ _ _ Hact), (take_alter _ _ _ _ Hcat). done. }
  split; [rewrite Hl; simpl; unfold vs1; by rewrite !length_insert|].
  simpl in Hkeep. split.
  - intros H1 H2. rewrite !Hkeep by lia. unfold vs1. split.
    + rewrite list_lookup_insert_ne by lia.
      apply list_lookup_insert_eq. lia.
    + apply list_lookup_insert_eq. rewrite length_insert. lia.
  - intros i H1 H2 H3 H4. rewrite Hkeep by lia. unfold vs1.
    by rewrite !list_lookup_insert_ne by lia.
Qed.

Lemma get_put_thread_eq h p t : get_thread (put_thread p t h) p = Ok t.
Proof. unfold get_thread, put_thread. simpl. by rewrite lookup_insert_eq. Qed.

Lemma get_put_thread_ne h p q t :
  p <> q -> get_thread (put_thread p t h) q = get_thread h q.
Proof. intros. unfold get_thread, put_thread. simpl. by rewrite lookup_insert_ne. Qed.

Lemma get_thread_set_lj l h p : get_thread (set_lj l h) p = get_thread h p.
Proof. done. Qed.

Lemma get_thread_Ok h p t : get_thread h p = Ok t <-> heap_threads h !! p = Some t.
Proof.
  unfold get_thread. destruct (heap_threads h !! p); simpl; split; congruence.
Qed.

Lemma duk_push_tval_ok v t :
  valstack_top t < length (valstack t) ->
  duk_push_tval v t
  = Ok (set_valstack_top (S (valstack_top t))
          (set_valstack (<[valstack_top t := v]> (valstack t)) t)).
Proof.
  intros H. unfold duk_push_tval.
  destruct (Nat.leb_spec (length (valstack t)) (valstack_top t)); [lia|done].
Qed.

Lemma duk_pop_ok t :
  valstack_bottom t < valstack_top t ->
  duk_pop t
  = Ok (set_valstack_top (valstack_top t - 1)
          (set_valstack (<[valstack_top t - 1 := TvUndefinedUnused]> (valstack t)) t)).
Proof.
  intros H. unfold duk_pop.
  destruct (Nat.leb_spec (valstack_top t) (valstack_bottom t)); [lia|done].
Qed.

Lemma duk_replace_ok to_index t v :
  to_index < duk_get_top t ->
  valstack t !! (valstack_top t - 1) = Some v ->
  duk_replace to_index t
  = Ok (set_valstack_top (valstack_top t - 1)
          (set_valstack
             (<[valstack_top t - 1 := TvUndefinedUnused]>
                (<[valstack_bottom t + to_index := v]> (valstack t))) t)).
Proof.
  intros Hi Hv. unfold duk_replace.
  destruct (Nat.leb_spec (duk_get_top t) to_index); [lia|].
  rewrite Hv. done.
Qed.

Lemma push_and_raise thr ty v t h :
  valstack_bottom t <= valstack_top t ->
  valstack_top t < length (valstack t) ->
  (t' <- duk_push_tval v t;;
   duk_err_setup_heap_ljstate thr ty (put_thread thr t' h))
  = Ok (raised thr ty v t h).
Proof.
  intros Hb Hl. rewrite duk_push_tval_ok by done. cbn [rbind].
  unfold duk_err_setup_heap_ljstate. rewrite get_put_thread_eq. cbn [rbind].
  cbn [valstack_top set_valstack_top set_valstack valstack].
  replace (S (valstack_top t) - 1) with (valstack_top t) by lia.
  rewrite list_lookup_insert_eq by done. cbn [deref rbind Nat.eqb].
  rewrite duk_pop_ok by (simpl; lia). cbn [rbind].
  unfold raised. f_equal. simpl.
  replace (valstack_top t - 0) with (valstack_top t) by lia.
  done.
Qed.


(** ENDFIN on a catcher whose second register holds the longjmp type [k]. *)
Lemma op_ENDFIN_spec h thr t cat k v :
  get_thread h thr = Ok t ->
  last (catchstack t) = Some cat ->
  valstack t !! (idx_base cat + 1) = Some (TvNumber (Dbl.of_int k)) ->
  valstack t !! idx_base cat = Some v ->
  (0 <= k < 2 ^ 32)%Z ->
  valstack_bottom t <= valstack_top t ->
  valstack_top t < length (valstack t) ->
  op_ENDFIN h thr
  = if (k =? DUK_LJ_TYPE_NORMAL)%Z
    then Ok (OpNext (put_thread thr
                       (duk_hthread_catchstack_unwind (catchstack_top t - 1) t) h))
    else Ok (OpLongjmp (raised thr k v t h)).
Proof.
  intros Ht Hcat Hk Hv Hrange Hb Hl. unfold op_ENDFIN.
  rewrite Ht. cbn [rbind]. rewrite Hcat. cbn [deref rbind].
  rewrite Hk. cbn [deref rbind]. rewrite to_uint_of_int by done. cbn [deref rbind].
  destruct (k =? DUK_LJ_TYPE_NORMAL)%Z; [done|].
  rewrite Hv. cbn [deref rbind].
  pose proof (push_and_raise thr k v t h Hb Hl) as Hp.
  destruct (duk_push_tval v t) as [t'| | |]; cbn [rbind] in *; try done.
  by rewrite Hp.
Qed.

Lemma longjmp_once_return h thr e et :
  lj_type (lj h) = DUK_LJ_TYPE_RETURN ->
  duk__handle_longjmp_once h thr e et = handle_return h thr e et.
Proof. unfold duk__handle_longjmp_once. by intros ->. Qed.

Lemma longjmp_once_throw h thr e et :
  lj_type (lj h) = DUK_LJ_TYPE_THROW ->
  duk__handle_longjmp_once h thr e et = handle_throw h thr e et.
Proof. unfold duk__handle_longjmp_once. by intros ->. Qed.

Lemma longjmp_once_break_continue h thr e et :
  lj_type (lj h) = DUK_LJ_TYPE_BREAK \/ lj_type (lj h) = DUK_LJ_TYPE_CONTINUE ->
  duk__handle_longjmp_once h thr e et = handle_break_continue h thr.
Proof. unfold duk__handle_longjmp_once. by intros [-> | ->]. Qed.

Lemma longjmp_once_yield h thr e et :
  lj_type (lj h) = DUK_LJ_TYPE_YIELD ->
  duk__handle_longjmp_once h thr e et = handle_yield h thr.
Proof. unfold duk__handle_longjmp_once. by intros ->. Qed.

Lemma last_rev_head {A} (l : list A) x :
  last l = Some x -> exists l', rev l = x :: l'.
Proof.
  intros Hl. destruct l as [|y l _] using rev_ind; [done|].
  rewrite last_snoc in Hl. injection Hl as ->.
  rewrite rev_app_distr. simpl. eauto.
Qed.

(** What the walk does once it has chosen the finally part of [cat_idx]. *)
Lemma finally_intercepts_once h thr e et t cat_idx :
  get_thread h thr = Ok t ->
  finally_intercepts h thr e et t cat_idx ->
  duk__handle_longjmp_once h thr e et
  = (t' <- duk__handle_catch_or_finally (lj h) cat_idx true t;;
     Ok (LjReturn DUK__LONGJMP_RESTART (set_lj lj_wiped (put_thread thr t' h)))).
Proof.
  intros Ht [[Hty Hs] | [[Hty Hs] | [Hty (d & lbl & top_cat & Hv & Hd & Hlast & Hs)]]].
  - rewrite longjmp_once_return by done. unfold handle_return.
    rewrite Ht. cbn [rbind]. by rewrite Hs.
  - rewrite longjmp_once_throw by done. unfold handle_throw.
    rewrite Ht. cbn [rbind]. by rewrite Hs.
  - rewrite longjmp_once_break_continue by done. unfold handle_break_continue.
    rewrite Ht. cbn [rbind]. rewrite Hv, Hd. cbn [deref rbind].
    destruct (last_rev_head _ _ Hlast) as [l' Hrev].
    rewrite Hrev in *. by rewrite Hs.
Qed.

Lemma finally_intercepts_type h thr e et t cat_idx :
  finally_intercepts h thr e et t cat_idx ->
  (1 <= lj_type (lj h) <= 4)%Z.
Proof.
  unfold finally_intercepts. cbv zeta.
  intros [[Hty _] | [[Hty _] | [[Hty | Hty] _]]]; rewrite Hty; done.
Qed.

(** Claim C1.  A return, throw, break or continue that the walk hands to
    the finally part of a catcher of the current frame: the handler stores
    value1 in the catcher's first register and the longjmp type, as a
    number, in the second, clears the catcher's finally flag, sets the
    frame's PC to pc_base + 1 and returns RESTART.  ENDFIN on that state
    raises the recorded type and value again; in general ENDFIN with the
    recorded type [k] and value [v] unwinds the catcher and goes on with the
    next instruction when [k] is NORMAL, and raises a longjmp of type [k]
    with value [v] otherwise. *)
Theorem finally_interception_then_endfin
    (h : duk_heap) (thr entry_thread entry_callstack_top : nat)
    (t : duk_hthread) (cat_idx : nat) (cat : duk_catcher)
    (act : duk_activation) (f : duk_hcompiledfunction) :
  get_thread h thr = Ok t ->
  finally_intercepts h thr entry_thread entry_callstack_top t cat_idx ->
  catchstack t !! cat_idx = Some cat ->
  cat_type cat = DUK_CAT_TYPE_TCF ->
  finally_enabled cat = true ->
  S (callstack_index cat) = callstack_top t ->
  callstack t !! callstack_index cat = Some act ->
  act_func act = Some (HCompiledFunction f) ->
  idx_base cat + 1 < idx_bottom act + nregs f ->
  idx_bottom act + nregs f <= valstack_top t ->
  valstack_top t < length (valstack t) ->
  exists (t' : duk_hthread) (h' : duk_heap),
    duk__handle_longjmp_once h thr entry_thread entry_callstack_top
    = Ok (LjReturn DUK__LONGJMP_RESTART h')
    /\ get_thread h' thr = Ok t'
    /\ valstack t' !! idx_base cat = Some (lj_value1 (lj h))
    /\ valstack t' !! (idx_base cat + 1)
       = Some (TvNumber (Dbl.of_int (lj_type (lj h))))
    /\ catchstack t'
       = take cat_idx (catchstack t) ++ [DUK_CAT_CLEAR_FINALLY_ENABLED cat]
    /\ callstack t'
       = take (callstack_index cat) (callstack t) ++ [set_pc (pc_base cat + 1) act]
    /\ duk_get_top t' = nregs f
    /\ (exists h'' : duk_heap,
          op_ENDFIN h' thr = Ok (OpLongjmp h'')
          /\ lj_type (lj h'') = lj_type (lj h)
          /\ lj_value1 (lj h'') = lj_value1 (lj h))
    /\ (forall (t2 : duk_hthread) (v : duk_tval) (k : Z),
          catchstack t2 = catchstack t' ->
          valstack t2 !! idx_base cat = Some v ->
          valstack t2 !! (idx_base cat + 1) = Some (TvNumber (Dbl.of_int k)) ->
          (0 <= k < 2 ^ 32)%Z ->
          valstack_bottom t2 <= valstack_top t2 < length (valstack t2) ->
          let h2 := put_thread thr t2 h' in
          (k = DUK_LJ_TYPE_NORMAL ->
           op_ENDFIN h2 thr
           = Ok (OpNext (put_thread thr
                           (set_catchstack (take cat_idx (catchstack t)) t2) h2)))
          /\ (k <> DUK_LJ_TYPE_NORMAL ->
              exists h3 : duk_heap,
                op_ENDFIN h2 thr = Ok (OpLongjmp h3)
                /\ lj_type (lj h3) = k /\ lj_value1 (lj h3) = v)).
Proof.
  intros Ht Hint Hcat Htcf Hfin Hframe Hact Hf Hslot Htop Hlen.
  pose proof (finally_intercepts_type _ _ _ _ _ _ Hint) as Hty.
  destruct (handle_catch_or_finally_ok (lj h) cat_idx true t cat act f)
    as (vs & Hh & Hvl & Hslots & Hrest); try done; try lia.
  destruct Hslots as [Hs0 Hs1]; [lia..|].
  rewrite (finally_intercepts_once _ _ _ _ _ _ Ht Hint), Hh. cbn [rbind].
  eexists _, _. split; [reflexivity|].
  split; [by rewrite get_thread_set_lj, get_put_thread_eq|].
  cbn [valstack catchstack callstack].
  do 4 (split; [done|]).
  split; [unfold duk_get_top; simpl; lia|].
  assert (Hpcat : take cat_idx (catchstack t) = take cat_idx (catchstack t)) by done.
  split.
  - eexists. split.
    + erewrite op_ENDFIN_spec with (k := lj_type (lj h)); cycle 1.
      * by rewrite get_thread_set_lj, get_put_thread_eq.
      * simpl. apply last_snoc.
      * exact Hs1.
      * exact Hs0.
      * lia.
      * simpl. lia.
      * simpl. lia.
      * destruct (Z.eqb_spec (lj_type (lj h)) DUK_LJ_TYPE_NORMAL) as [Heq|_];
          [unfold DUK_LJ_TYPE_NORMAL in Heq; lia|reflexivity].
    + done.
  - intros t2 v k Hcs Hv0 Hv1 Hk Hb.
    match goal with |- context [op_ENDFIN ?x thr] => set (h2 := x) end.
    assert (Hlast : last (catchstack t2) = Some (DUK_CAT_CLEAR_FINALLY_ENABLED cat)).
    { rewrite Hcs. simpl. apply last_snoc. }
    pose proof (op_ENDFIN_spec h2 thr t2 _ k v
                  (get_put_thread_eq _ _ _) Hlast Hv1 Hv0 Hk
                  ltac:(lia) ltac:(lia)) as Hend.
    split.
    + intros ->. rewrite Hend. simpl. do 3 f_equal.
      unfold duk_hthread_catchstack_unwind, catchstack_top. f_equal.
      rewrite Hcs. simpl. rewrite length_app. simpl.
      replace (length (take cat_idx (catchstack t)) + 1 - 1)
        with (length (take cat_idx (catchstack t))) by lia.
      by rewrite take_app_length.
    + intros Hne. rewrite Hend.
      destruct (Z.eqb_spec k DUK_LJ_TYPE_NORMAL); [done|].
      eexists. split; [reflexivity|done].
Qed.

End FinallyInterception.

(** ** The walks over the catch stack *)

Section Scans.

Lemma rev_snoc {A} (l : list A) x : rev (l ++ [x]) = x :: rev l.
Proof. by rewrite rev_app_distr. Qed.

Lemma lookup_snoc_inv {A} (l : list A) x j c :
  (l ++ [x]) !! j = Some c ->
  (j < length l /\ l !! j = Some c) \/ (j = length l /\ c = x).
Proof.
  intros H. destruct (Nat.lt_ge_cases j (length l)) as [Hlt|Hge].
  - left. split; [done|]. by rewrite lookup_app_l in H.
  - right. rewrite lookup_app_r in H by done.
    destruct (j - length l) as [|n] eqn:Hn; simpl in H; [|done].
    split; [lia|congruence].
Qed.

Lemma return_scan_spec orig cs :
  match return_scan orig (rev cs) with
  | ScanFinally i =>
      exists cat, cs !! i = Some cat
        /\ Some (callstack_index cat) = orig
        /\ cat_type cat = DUK_CAT_TYPE_TCF /\ finally_enabled cat = true
        /\ forall j c, i < j -> cs !! j = Some c -> return_skips orig c
  | ScanEnd k =>
      k <= length cs
      /\ (forall j c, k <= j -> cs !! j = Some c -> return_skips orig c)
      /\ match k with
         | 0 => True
         | S j => exists cat, cs !! j = Some cat
                    /\ Some (callstack_index cat) <> orig
         end
  | _ => False
  end.
Proof.
  induction cs as [|x cs IH] using rev_ind.
  - simpl. split; [done|]. split; [|done]. intros j c _ H. done.
  - rewrite rev_snoc. cbn [return_scan]. rewrite length_rev.
    destruct (decide (Some (callstack_index x) = orig)) as [Heq|Hne].
    + rewrite bool_decide_eq_true_2 by done. cbn [negb].
      destruct (DUK_CAT_GET_TYPE_is_TCF x && finally_enabled x) eqn:Hfin.
      * apply andb_true_iff in Hfin as [Htcf Hfin].
        exists x. split; [by rewrite lookup_app_r, Nat.sub_diag|].
        split; [done|]. split.
        { unfold DUK_CAT_GET_TYPE_is_TCF in Htcf. by destruct (cat_type x). }
        split; [done|].
        intros j c Hj Hc. apply lookup_lt_Some in Hc.
        rewrite length_app in Hc. simpl in Hc. lia.
      * destruct (return_scan orig (rev cs)) as [| i | |k]; try done.
        -- destruct IH as (cat & Hcat & H1 & H2 & H3 & Habove).
           exists cat. split; [by apply lookup_app_l_Some|].
           do 3 (split; [done|]).
           intros j c Hj Hc. apply lookup_snoc_inv in Hc as [[_ Hc] | [_ ->]].
           ++ by eapply Habove.
           ++ done.
        -- destruct IH as (Hk & Habove & Hbelow).
           split; [rewrite length_app; simpl; lia|]. split.
           ++ intros j c Hj Hc. apply lookup_snoc_inv in Hc as [[_ Hc] | [_ ->]].
              ** by eapply Habove.
              ** done.
           ++ destruct k as [|j]; [done|].
              destruct Hbelow as (cat & Hcat & Hne). exists cat.
              split; [by apply lookup_app_l_Some|done].
    + rewrite bool_decide_eq_false_2 by done. cbn [negb].
      split; [rewrite length_app; simpl; lia|]. split.
      * intros j c Hj Hc. apply lookup_lt_Some in Hc.
        rewrite length_app in Hc. simpl in Hc. lia.
      * exists x. split; [by rewrite lookup_app_r, Nat.sub_diag|done].
Qed.


Lemma throw_scan_spec ie et cs :
  match throw_scan ie et (rev cs) with
  | ScanCatch i =>
      exists cat, cs !! i = Some cat
        /\ ie && lt_size_pred (callstack_index cat) et = false
        /\ catch_enabled cat = true
        /\ forall j c, i < j -> cs !! j = Some c -> throw_skips ie et c
  | ScanFinally i =>
      exists cat, cs !! i = Some cat
        /\ ie && lt_size_pred (callstack_index cat) et = false
        /\ catch_enabled cat = false /\ finally_enabled cat = true
        /\ forall j c, i < j -> cs !! j = Some c -> throw_skips ie et c
  | ScanEnd k =>
      k <= length cs
      /\ (forall j c, k <= j -> cs !! j = Some c -> throw_skips ie et c)
      /\ match k with
         | 0 => True
         | S j => exists cat, cs !! j = Some cat
                    /\ ie = true
                    /\ lt_size_pred (callstack_index cat) et = true
         end
  | ScanLabel _ => False
  end.
Proof.
  induction cs as [|x cs IH] using rev_ind.
  - simpl. split; [done|]. split; [|done]. intros j c _ H. done.
  - rewrite rev_snoc. cbn [throw_scan]. rewrite length_rev.
    assert (Hx : (cs ++ [x]) !! length cs = Some x)
      by (by rewrite lookup_app_r, Nat.sub_diag).
    assert (Hnone : forall j c, length cs < j -> (cs ++ [x]) !! j = Some c -> False).
    { intros j c Hj Hc. apply lookup_lt_Some in Hc.
      rewrite length_app in Hc. simpl in Hc. lia. }
    destruct (ie && lt_size_pred (callstack_index x) et) eqn:Hentry.
    + apply andb_true_iff in Hentry as [-> Hlt].
      split; [rewrite length_app; simpl; lia|]. split.
      * intros j c Hj Hc. destruct (Hnone j c); [lia|done].
      * by exists x.
    + destruct (catch_enabled x) eqn:Hc.
      { exists x. do 3 (split; [done|]).
        intros j c Hj Hcj. by destruct (Hnone j c). }
      destruct (finally_enabled x) eqn:Hf.
      { exists x. do 4 (split; [done|]).
        intros j c Hj Hcj. by destruct (Hnone j c). }
      assert (Hskip : throw_skips ie et x) by done.
      destruct (throw_scan ie et (rev cs)) as [ i | i | |k]; try done.
      * destruct IH as (cat & Hcat & H1 & H2 & Habove).
        exists cat. split; [by apply lookup_app_l_Some|].
        do 2 (split; [done|]).
        intros j c Hj Hcj. apply lookup_snoc_inv in Hcj as [[_ Hcj] | [_ ->]];
          [by eapply Habove|done].
      * destruct IH as (cat & Hcat & H1 & H2 & H3 & Habove).
        exists cat. split; [by apply lookup_app_l_Some|].
        do 3 (split; [done|]).
        intros j c Hj Hcj. apply lookup_snoc_inv in Hcj as [[_ Hcj] | [_ ->]];
          [by eapply Habove|done].
      * destruct IH as (Hk & Habove & Hbelow).
        split; [rewrite length_app; simpl; lia|]. split.
        -- intros j c Hj Hcj. apply lookup_snoc_inv in Hcj as [[_ Hcj] | [_ ->]];
             [by eapply Habove|done].
        -- destruct k as [|j]; [done|].
           destruct Hbelow as (cat & Hcat & Hne). exists cat.
           split; [by apply lookup_app_l_Some|done].
Qed.

End Scans.

(** ** Return *)

Section ReturnOutcomes.
Context {E : duk_engine}.

Lemma deliver_and_reconfig v act_idx act f t cs :
  callstack t !! act_idx = Some act ->
  can_return_into act f t ->
  exists t',
    (r <- write_valstack (idx_retval act) v t;;
     duk__reconfig_valstack act_idx 1
       (duk_hthread_callstack_unwind (act_idx + 1) (set_catchstack cs r)))
    = Ok t'
    /\ returned_into v act f t'
    /\ callstack t' = take (act_idx + 1) (callstack t)
    /\ catchstack t' = cs
    /\ state t' = state t /\ resumer t' = resumer t.
Proof.
  intros Hact (Hf & Hret & Htop & Hmax).
  rewrite write_valstack_ok by lia. cbn [rbind].
  set (t0 := duk_hthread_callstack_unwind _ _).
  destruct (duk__reconfig_valstack_ok t0 act_idx 1 act f)
    as (t1 & t' & _ & _ & _ & Hr & Hb & Hl & Hg & Ht & Hcs & Hcat & Hst & Hres & Hkeep & _);
    try done; try lia.
  { unfold t0. simpl. rewrite lookup_take_lt by lia. done. }
  { unfold t0. simpl. rewrite length_insert. lia. }
  exists t'. split; [done|]. split.
  - repeat split; try done.
    apply Hkeep; try (unfold t0; simpl; lia).
    unfold t0. simpl. apply list_lookup_insert_eq. lia.
  - rewrite Hcs, Hcat, Hst, Hres. done.
Qed.

Lemma duk__handle_yield_ok l act_idx rt act f :
  callstack rt !! act_idx = Some act ->
  can_return_into act f rt ->
  exists rt',
    duk__handle_yield l act_idx rt = Ok rt'
    /\ returned_into (lj_value1 l) act f rt'
    /\ callstack rt' = take (act_idx + 1) (callstack rt)
    /\ catchstack rt' = catchstack rt
    /\ state rt' = state rt /\ resumer rt' = resumer rt.
Proof.
  intros Hact Hcan. unfold duk__handle_yield. rewrite Hact. cbn [deref rbind].
  destruct (deliver_and_reconfig (lj_value1 l) act_idx act f rt (catchstack rt)
              Hact Hcan) as (rt' & Hd & Hrest).
  exists rt'. split; [|done]. rewrite <- Hd.
  assert (Hlen : idx_retval act < length (valstack rt))
    by (destruct Hcan as (_ & _ & ? & _); lia).
  rewrite !write_valstack_ok by done. cbn [rbind]. by destruct rt.
Qed.

Lemma size_minus_2_ok n : 2 <= n -> size_minus_2 n = Ok (n - 2).
Proof.
  intros. unfold size_minus_2. destruct (Nat.ltb_spec n 2); [lia|done].
Qed.

Lemma get_upd_thread_eq h p f t :
  get_thread h p = Ok t -> get_thread (upd_thread p f h) p = Ok (f t).
Proof.
  rewrite !get_thread_Ok. unfold upd_thread. simpl. intros H.
  by rewrite lookup_alter_eq, H.
Qed.

Lemma get_upd_thread_ne h p q f :
  p <> q -> get_thread (upd_thread p f h) q = get_thread h q.
Proof.
  intros. unfold get_thread, upd_thread. simpl. by rewrite lookup_alter_ne.
Qed.

Lemma get_thread_switch h p q :
  get_thread (DUK_HEAP_SWITCH_THREAD p h) q = get_thread h q.
Proof. done. Qed.

(** The heap after a thread [thr] has ended and its resumer [r] goes on. *)
Lemma terminate_switch_spec h thr r t rt :
  thr <> r ->
  get_thread h thr = Ok t -> get_thread h r = Ok rt ->
  let h' := terminate_switch thr r h in
  curr_thread h' = r /\ lj h' = lj h
  /\ get_thread h' thr = Ok (set_resumer None (duk_hthread_terminate t))
  /\ get_thread h' r = Ok (set_state DUK_HTHREAD_STATE_RUNNING rt)
  /\ forall q, q <> thr -> q <> r -> get_thread h' q = get_thread h q.
Proof.
  intros Hne Ht Hrt h'. unfold h', terminate_switch.
  assert (Hne' : r <> thr) by congruence.
  split; [done|]. split; [done|].
  rewrite !get_thread_switch. split; [|split].
  - rewrite get_upd_thread_ne by done.
    rewrite (get_upd_thread_eq _ thr _ (duk_hthread_terminate t)); [done|].
    by rewrite (get_upd_thread_eq _ thr _ t).
  - rewrite (get_upd_thread_eq _ r _ rt); [done|].
    by rewrite !get_upd_thread_ne by done.
  - intros q H1 H2. rewrite get_thread_switch.
    by rewrite !get_upd_thread_ne by congruence.
Qed.

Lemma handle_longjmp_return fuel h thr e et r h' :
  duk__handle_longjmp_once h thr e et = Ok (LjReturn r h') ->
  duk__handle_longjmp (S fuel) h thr e et = Ok (r, h').
Proof. intros H. cbn [duk__handle_longjmp]. by rewrite H. Qed.

Lemma handle_longjmp_again fuel h thr e et h' thr' :
  duk__handle_longjmp_once h thr e et = Ok (LjAgain h' thr') ->
  duk__handle_longjmp (S fuel) h thr e et = duk__handle_longjmp fuel h' thr' e et.
Proof. intros H. cbn [duk__handle_longjmp]. by rewrite H. Qed.

Lemma at_entry_test (thr e n m : nat) :
  bool_decide (thr = e) && (n =? m) = true <-> thr = e /\ n = m.
Proof.
  rewrite andb_true_iff, bool_decide_eq_true, Nat.eqb_eq. done.
Qed.


End ReturnOutcomes.

(** ** Throw across threads *)

Section ThrowAcrossThreads.
Context {E : duk_engine}.

Lemma yield_switch_spec h thr r t rt :
  thr <> r ->
  get_thread h thr = Ok t -> get_thread h r = Ok rt ->
  let h' := yield_switch thr r h in
  curr_thread h' = r /\ lj h' = lj h
  /\ get_thread h' thr
     = Ok (set_resumer None (set_state DUK_HTHREAD_STATE_YIELDED t))
  /\ get_thread h' r = Ok (set_state DUK_HTHREAD_STATE_RUNNING rt)
  /\ forall q, q <> thr -> q <> r -> get_thread h' q = get_thread h q.
Proof.
  intros Hne Ht Hrt h'. unfold h', yield_switch.
  assert (Hne' : r <> thr) by congruence.
  split; [done|]. split; [done|].
  rewrite !get_thread_switch. split; [|split].
  - rewrite get_upd_thread_ne by done.
    rewrite (get_upd_thread_eq _ thr _ (set_state DUK_HTHREAD_STATE_YIELDED t));
      [done|].
    by rewrite (get_upd_thread_eq _ thr _ t).
  - rewrite (get_upd_thread_eq _ r _ rt); [done|].
    by rewrite !get_upd_thread_ne by done.
  - intros q H1 H2. rewrite get_thread_switch.
    by rewrite !get_upd_thread_ne by congruence.
Qed.

(** One pass of the handler for a THROW that a catch part of the thread
    takes: the catcher's frame is restored with the value and the longjmp
    type in the catcher's two registers, the other registers of the frame
    as they were, and the PC at the catch part. *)
Lemma handle_throw_caught
    (h : duk_heap) (r entry_thread entry_callstack_top : nat) (rt : duk_hthread)
    (i : nat) (cat : duk_catcher) (act : duk_activation)
    (f : duk_hcompiledfunction) :
  get_thread h r = Ok rt ->
  lj_type (lj h) = DUK_LJ_TYPE_THROW ->
  throw_scan (bool_decide (r = entry_thread)) entry_callstack_top
    (rev (catchstack rt)) = ScanCatch i ->
  catchstack rt !! i = Some cat ->
  catch_binding_enabled cat = false ->
  callstack rt !! callstack_index cat = Some act ->
  act_func act = Some (HCompiledFunction f) ->
  idx_base cat + 1 < idx_bottom act + nregs f ->
  idx_bottom act + nregs f <= valstack_top rt <= length (valstack rt) ->
  exists rt' : duk_hthread,
    duk__handle_longjmp_once h r entry_thread entry_callstack_top
    = Ok (LjReturn DUK__LONGJMP_RESTART (set_lj lj_wiped (put_thread r rt' h)))
    /\ state rt' = state rt /\ resumer rt' = resumer rt
    /\ valstack_bottom rt' = idx_bottom act
    /\ valstack_top rt' = idx_bottom act + nregs f
    /\ valstack rt' !! idx_base cat = Some (lj_value1 (lj h))
    /\ valstack rt' !! (idx_base cat + 1)
       = Some (TvNumber (Dbl.of_int DUK_LJ_TYPE_THROW))
    /\ (forall j, j < idx_bottom act + nregs f ->
                  j <> idx_base cat -> j <> idx_base cat + 1 ->
                  valstack rt' !! j = valstack rt !! j)
    /\ callstack rt'
       = take (callstack_index cat) (callstack rt) ++ [set_pc (pc_base cat) act]
    /\ catchstack rt'
       = take i (catchstack rt) ++ [DUK_CAT_CLEAR_CATCH_ENABLED cat].
Proof.
  intros Hrt Hty Hscan Hcat Hbind Hact Hf Hslot Htop.
  rewrite longjmp_once_throw by done.
  unfold handle_throw. rewrite Hrt. cbn [rbind]. rewrite Hscan.
  destruct (handle_catch_or_finally_ok (lj h) i false rt cat act f
              Hcat Hact Hf ltac:(lia) ltac:(lia)
              ltac:(simpl; by rewrite Hbind))
    as (vs & Hh & Hvl & Hslots & Hkeep).
  destruct Hslots as [Hs0 Hs1]; [lia..|].
  rewrite Hh. cbn [rbind]. unfold wipe_and_return.
  eexists. split; [reflexivity|]. simpl.
  do 4 (split; [done|]). split; [done|].
  split; [by rewrite <- Hty|].
  split; [intros j Hj H1 H2; apply Hkeep; [lia|done..]|].
  by rewrite Nat.add_0_r.
Qed.

(** Claim C3.  A THROW longjmp that no catcher of the thread takes.  In
    the entry thread the handler returns RETHROW with the longjmp state as
    it was, and the setjmp branch of the executor rethrows.  In any other
    thread the thread is terminated, its resumer becomes the running
    current thread, the longjmp state (type THROW, the same value) is kept
    and the handler runs again for the resumer; a catcher around the
    resumer's resume() call then receives the value in its catch
    register. *)
Theorem uncaught_throw_rethrown_or_redirected
    (fuel : nat) (h : duk_heap) (thr entry_thread entry_callstack_top : nat)
    (t : duk_hthread) (k : nat) :
  get_thread h thr = Ok t ->
  lj_type (lj h) = DUK_LJ_TYPE_THROW ->
  throw_scan (bool_decide (thr = entry_thread)) entry_callstack_top
    (rev (catchstack t)) = ScanEnd k ->
  (* no catcher the walk passed has its catch or finally part enabled *)
  (forall j c, k <= j -> catchstack t !! j = Some c ->
               catch_enabled c = false /\ finally_enabled c = false)
  (* the entry thread: rethrow, the longjmp state intact *)
  /\ (thr = entry_thread ->
      match k with
      | 0 => True
      | S j => exists cat, catchstack t !! j = Some cat
                 /\ lt_size_pred (callstack_index cat) entry_callstack_top = true
      end
      /\ duk__handle_longjmp (S fuel) h thr entry_thread entry_callstack_top
         = Ok (DUK__LONGJMP_RETHROW, h)
      /\ (curr_thread h = thr ->
          executor_longjmp_caught (S fuel) h entry_thread entry_callstack_top
          = Ok (ExecRethrow h)))
  (* another thread: it ends and the throw is handled again in its resumer *)
  /\ (thr <> entry_thread ->
      forall r rt,
        resumer t = Some r -> r <> thr -> get_thread h r = Ok rt ->
        let h' := terminate_switch thr r h in
        duk__handle_longjmp (S fuel) h thr entry_thread entry_callstack_top
        = duk__handle_longjmp fuel h' r entry_thread entry_callstack_top
        /\ curr_thread h' = r
        /\ lj h' = lj h
        /\ (exists t1, get_thread h' thr = Ok t1
              /\ state t1 = DUK_HTHREAD_STATE_TERMINATED
              /\ resumer t1 = None
              /\ callstack t1 = [] /\ catchstack t1 = [])
        /\ get_thread h' r = Ok (set_state DUK_HTHREAD_STATE_RUNNING rt)
        (* a 'catch' around the resumer's resume() call takes the error *)
        /\ (forall i cat act f,
              throw_scan (bool_decide (r = entry_thread)) entry_callstack_top
                (rev (catchstack rt)) = ScanCatch i ->
              catchstack rt !! i = Some cat ->
              catch_binding_enabled cat = false ->
              callstack rt !! callstack_index cat = Some act ->
              act_func act = Some (HCompiledFunction f) ->
              idx_base cat + 1 < idx_bottom act + nregs f ->
              idx_bottom act + nregs f <= valstack_top rt <= length (valstack rt) ->
              exists rt' h'',
                duk__handle_longjmp (S (S fuel)) h thr entry_thread entry_callstack_top
                = Ok (DUK__LONGJMP_RESTART, h'')
                /\ curr_thread h'' = r
                /\ get_thread h'' r = Ok rt'
                /\ state rt' = DUK_HTHREAD_STATE_RUNNING
                /\ valstack rt' !! idx_base cat = Some (lj_value1 (lj h))
                /\ callstack rt'
                   = take (callstack_index cat) (callstack rt)
                     ++ [set_pc (pc_base cat) act]
                /\ catchstack rt'
                   = take i (catchstack rt) ++ [DUK_CAT_CLEAR_CATCH_ENABLED cat])).
Proof.
  intros Ht Hty Hscan.
  pose proof (throw_scan_spec (bool_decide (thr = entry_thread))
                entry_callstack_top (catchstack t)) as Hspec.
  rewrite Hscan in Hspec. destruct Hspec as (_ & Habove & Hbelow).
  assert (Honce : duk__handle_longjmp_once h thr entry_thread entry_callstack_top
                  = handle_throw h thr entry_thread entry_callstack_top)
    by (by apply longjmp_once_throw).
  unfold handle_throw in Honce. rewrite Ht in Honce. cbn [rbind] in Honce.
  rewrite Hscan in Honce.
  split; [intros j c Hj Hc; by destruct (Habove j c Hj Hc) as (_ & ? & ?)|].
  split.
  - intros Heq. rewrite bool_decide_eq_true_2 in Honce by done.
    unfold just_return in Honce.
    pose proof (handle_longjmp_return fuel _ _ _ _ _ _ Honce) as Hrun.
    split.
    { destruct k as [|j]; [done|]. destruct Hbelow as (cat & ? & _ & ?). eauto. }
    split; [done|].
    intros Hcur. unfold executor_longjmp_caught. by rewrite Hcur, Hrun.
  - intros Hne r rt Hres Hr Hrt h'.
    rewrite bool_decide_eq_false_2 in Honce by done.
    rewrite Hres in Honce. cbn [deref rbind] in Honce.
    rewrite Hrt in Honce. cbn [deref rbind] in Honce. fold h' in Honce.
    pose proof (handle_longjmp_again fuel _ _ _ _ _ _ Honce) as Hrun.
    destruct (terminate_switch_spec h thr r t rt ltac:(congruence) Ht Hrt)
      as (Hcur & Hlj & Hthr & Hrthr & _). fold h' in Hcur, Hlj, Hthr, Hrthr.
    split; [done|]. split; [done|]. split; [done|].
    split; [eexists; split; [exact Hthr|done]|].
    split; [done|].
    intros i cat act f Hscan' Hcat Hbind Hact Hf Hslot Htop.
    rewrite (handle_longjmp_again (S fuel) _ _ _ _ _ _ Honce).
    assert (Honce' : duk__handle_longjmp_once h' r entry_thread entry_callstack_top
                     = handle_throw h' r entry_thread entry_callstack_top).
    { apply longjmp_once_throw. by rewrite Hlj. }
    unfold handle_throw in Honce'. rewrite Hrthr in Honce'. cbn [rbind] in Honce'.
    cbn [catchstack set_state] in Honce'. rewrite Hscan' in Honce'.
    destruct (handle_catch_or_finally_ok (lj h') i false
                (set_state DUK_HTHREAD_STATE_RUNNING rt) cat act f
                Hcat Hact Hf ltac:(simpl; lia) ltac:(simpl; lia)
                ltac:(simpl; by rewrite Hbind))
      as (vs & Hh & Hvl & Hslots & _).
    destruct Hslots as [Hs0 _]; [simpl; lia..|].
    rewrite Hh in Honce'. cbn [rbind] in Honce'. unfold wipe_and_return in Honce'.
    eexists _, _. split; [by apply handle_longjmp_return|].
    split; [done|].
    rewrite get_thread_set_lj, get_put_thread_eq. split; [done|].
    simpl. split; [done|]. split; [by rewrite <- Hlj|].
    rewrite Nat.add_0_r. done.
Qed.

End ThrowAcrossThreads.

(** ** Break and continue *)

Section BreakContinue.
Context {E : duk_engine}.

Lemma duk__handle_label_ok l cat_idx t cat act :
  top_act t = Ok act ->
  catchstack t !! cat_idx = Some cat ->
  duk__handle_label l cat_idx t
  = Ok (duk_hthread_catchstack_unwind (cat_idx + 1)
          (upd_top_act
             (set_pc (pc_base cat
                      + (if (lj_type l =? DUK_LJ_TYPE_CONTINUE)%Z then 1 else 0))) t)).
Proof.
  intros Hact Hcat. unfold duk__handle_label.
  rewrite Hact. cbn [rbind]. rewrite Hcat. done.
Qed.


End BreakContinue.

(** ** THROW and TYPEOFID *)

Section ThrowAndTypeof.
Context {E : duk_engine}.

Lemma duk_dup_ok b t x :
  b < duk_get_top t ->
  valstack t !! (valstack_bottom t + b) = Some x ->
  valstack_top t < length (valstack t) ->
  duk_dup b t
  = Ok (set_valstack_top (S (valstack_top t))
          (set_valstack (<[valstack_top t := x]> (valstack t)) t)).
Proof.
  intros Hb Hx Hl. unfold duk_dup.
  destruct (Nat.leb_spec (duk_get_top t) b); [lia|].
  rewrite Hx. cbn [deref rbind]. by apply duk_push_tval_ok.
Qed.

Lemma op_THROW_ok b h thr t x :
  get_thread h thr = Ok t ->
  b < duk_get_top t ->
  valstack t !! (valstack_bottom t + b) = Some x ->
  valstack_top t < length (valstack t) ->
  op_THROW b h thr = Ok (OpLongjmp (raised thr DUK_LJ_TYPE_THROW (thrown_value x) t h)).
Proof.
  intros Ht Hb Hx Hl. unfold op_THROW. rewrite Ht. cbn [rbind].
  assert (Hbt : valstack_bottom t <= valstack_top t) by (unfold duk_get_top in Hb; lia).
  pose proof (push_and_raise thr DUK_LJ_TYPE_THROW (thrown_value x) t h Hbt Hl) as Hp.
  rewrite duk_push_tval_ok in Hp by done. cbn [rbind] in Hp.
  rewrite (duk_dup_ok b t x) by done. cbn [rbind].
  unfold thrown_value in *. destruct DUK_USE_AUGMENT_ERROR_THROW.
  - unfold augment_top. cbn [valstack_top set_valstack_top set_valstack valstack].
    cbn [Nat.eqb]. replace (S (valstack_top t) - 1) with (valstack_top t) by lia.
    rewrite list_lookup_insert_eq by done. cbn [deref rbind].
    rewrite write_valstack_ok by (simpl; rewrite length_insert; lia).
    cbn [rbind].
    cbn [valstack_top set_valstack_top set_valstack valstack].
    rewrite list_insert_insert_eq.
    match goal with
    | |- rbind (duk_err_setup_heap_ljstate _ _ (put_thread _ ?a _)) _ = _ =>
        match type of Hp with
        | duk_err_setup_heap_ljstate _ _ (put_thread _ ?b _) = _ =>
            replace a with b by (by destruct t)
        end
    end.
    by rewrite Hp.
  - cbn [rbind]. by rewrite Hp.
Qed.


(** Claim C9.  TYPEOFID on a name that no record of the activation's
    environment chain binds does not throw: it goes on with the next
    instruction, the target register holds the string "undefined", top,
    bottom and size of the value stack are as before, and so are the other
    slots in use. *)
Theorem typeofid_unresolvable_gives_undefined
    (b c : nat) (h : duk_heap) (thr : nat) (t : duk_hthread)
    (act : duk_activation) (fn : duk_hcompiledfunction) (name : string) :
  get_thread h thr = Ok t ->
  top_act t = Ok act ->
  act_func act = Some (HCompiledFunction fn) ->
  DUK__REGCONSTP t fn c = Ok (TvString name) ->
  (* the identifier is not bound in any record of the environment chain *)
  (forall r, r ∈ lex_env act -> env_props r !! name = None) ->
  b < duk_get_top t ->
  valstack_top t < length (valstack t) ->
  exists t' : duk_hthread,
    op_TYPEOFID b c h thr = Ok (OpNext (put_thread thr t' h))
    /\ valstack t' !! (valstack_bottom t' + b) = Some (TvString "undefined")
    /\ valstack_top t' = valstack_top t
    /\ valstack_bottom t' = valstack_bottom t
    /\ length (valstack t') = length (valstack t)
    /\ (forall i, i < valstack_top t -> i <> valstack_bottom t + b ->
                  valstack t' !! i = valstack t !! i)
    /\ callstack t' = callstack t /\ catchstack t' = catchstack t
    /\ state t' = state t /\ resumer t' = resumer t.
Proof.
  intros Ht Hact Hf Hname Hunres Hb Hl.
  assert (Hlook : env_lookup name (lex_env act) = None).
  { induction (lex_env act) as [|r env IH]; [done|].
    simpl. rewrite (Hunres r) by apply list_elem_of_here.
    apply IH. intros r' Hr'. apply Hunres. by apply list_elem_of_further. }
  unfold op_TYPEOFID. rewrite Ht. cbn [rbind]. rewrite Hact. cbn [rbind].
  unfold act_compiledfunction. rewrite Hf. cbn [rbind].
  rewrite Hname. cbn [rbind].
  unfold duk_js_getvar_activation. rewrite Hlook. cbn [rbind fst snd].
  rewrite duk_push_tval_ok by done. cbn [rbind].
  erewrite duk_replace_ok; cycle 1.
  { unfold duk_get_top in *. simpl. lia. }
  { simpl. rewrite Nat.sub_0_r. by apply list_lookup_insert_eq. }
  cbn [rbind]. eexists. split; [reflexivity|].
  cbn [valstack valstack_top valstack_bottom callstack catchstack state resumer
         set_valstack set_valstack_top].
  replace (S (valstack_top t) - 1) with (valstack_top t) by lia.
  rewrite ?Nat.sub_0_r.
  unfold duk_get_top in Hb.
  split.
  { rewrite list_lookup_insert_ne by lia.
    apply list_lookup_insert_eq. rewrite length_insert. lia. }
  do 2 (split; [done|]).
  split; [by rewrite !length_insert|].
  split; [|done].
  intros i Hi Hne. by rewrite !list_lookup_insert_ne by lia.
Qed.

End ThrowAndTypeof.

(** ** Arithmetic instructions *)

Section ArithResults.
Context {A : duk_arith} {E : duk_engine}.

Lemma normalized_check_tval b :
  tval_normalized (TvNumber (Dbl.DUK_DBLUNION_NORMALIZE_NAN_CHECK b)).
Proof.
  intros d [= <-]. split; [apply normalize_is_normalized|].
  unfold Dbl.DUK_DBLUNION_NORMALIZE_NAN_CHECK.
  destruct (Dbl.DUK_ISNAN b) eqn:Hb; [done|]. congruence.
Qed.

Lemma of_int_tval i : (Z.abs i < 2 ^ 53)%Z -> tval_normalized (TvNumber (Dbl.of_int i)).
Proof.
  intros Hi d [= <-]. split; [by apply of_int_is_normalized|].
  rewrite of_int_not_nan by done. done.
Qed.

Lemma arith_value_normalized op x y : tval_normalized (arith_value op x y).
Proof.
  destruct op; cbn [arith_value].
  - unfold duk__vm_arith_add_result.
    destruct x, y; try apply normalized_check_tval;
      (destruct (_ || _); [intros ? ?; discriminate|apply normalized_check_tval]).
  - unfold duk__vm_arith_binary_op_result. destruct (arith_operands x y).
    apply normalized_check_tval.
  - unfold duk__vm_arith_binary_op_result. destruct (arith_operands x y).
    apply normalized_check_tval.
  - unfold duk__vm_arith_binary_op_result. destruct (arith_operands x y).
    apply normalized_check_tval.
  - unfold duk__vm_arith_binary_op_result. destruct (arith_operands x y).
    apply normalized_check_tval.
  - apply of_int_tval.
    pose proof (bitwise_int_range _ _ DUK_OP_BAND
                  (duk_to_int32_range x) (duk_to_int32_range y)). lia.
  - apply of_int_tval.
    pose proof (bitwise_int_range _ _ DUK_OP_BOR
                  (duk_to_int32_range x) (duk_to_int32_range y)). lia.
  - apply of_int_tval.
    pose proof (bitwise_int_range _ _ DUK_OP_BXOR
                  (duk_to_int32_range x) (duk_to_int32_range y)). lia.
  - apply of_int_tval.
    pose proof (bitwise_int_range _ _ DUK_OP_BASL
                  (duk_to_int32_range x) (duk_to_int32_range y)). lia.
  - apply of_int_tval.
    pose proof (bitwise_int_range _ _ DUK_OP_BLSR
                  (duk_to_int32_range x) (duk_to_int32_range y)). lia.
  - apply of_int_tval.
    pose proof (bitwise_int_range _ _ DUK_OP_BASR
                  (duk_to_int32_range x) (duk_to_int32_range y)). lia.
  - apply of_int_tval. unfold duk__vm_bitwise_not_result.
    pose proof (duk_to_int32_range x). unfold Z.lnot. lia.
  - apply normalized_check_tval.
  - apply normalized_check_tval.
  - apply normalized_check_tval.
  - apply normalized_check_tval.
Qed.

Lemma duk_push_tval_inv v t t' :
  duk_push_tval v t = Ok t' ->
  valstack_top t < length (valstack t)
  /\ t' = set_valstack_top (S (valstack_top t))
            (set_valstack (<[valstack_top t := v]> (valstack t)) t).
Proof.
  unfold duk_push_tval.
  destruct (Nat.leb_spec (length (valstack t)) (valstack_top t)); [done|].
  intros [= <-]. done.
Qed.

Lemma duk_pop_inv t t' :
  duk_pop t = Ok t' ->
  valstack_bottom t < valstack_top t
  /\ t' = set_valstack_top (valstack_top t - 1)
            (set_valstack (<[valstack_top t - 1 := TvUndefinedUnused]> (valstack t)) t).
Proof.
  unfold duk_pop.
  destruct (Nat.leb_spec (valstack_top t) (valstack_bottom t)); [done|].
  intros [= <-]. done.
Qed.

Lemma push_pop_same x t t' : push_pop x t = Ok t' -> same_frame t t'.
Proof.
  unfold push_pop. intros H.
  apply rbind_Ok in H as (t1 & H1 & H2).
  apply duk_push_tval_inv in H1 as [? ->].
  apply duk_pop_inv in H2 as [? ->].
  repeat split; simpl; rewrite ?length_insert; lia || done.
Qed.

Lemma push_pop_2_same x y t t' : push_pop_2 x y t = Ok t' -> same_frame t t'.
Proof.
  unfold push_pop_2. intros H.
  apply rbind_Ok in H as (t1 & H1 & H).
  apply rbind_Ok in H as (t2 & H2 & H).
  apply rbind_Ok in H as (t3 & H3 & H4).
  apply duk_push_tval_inv in H1 as [? ->].
  apply duk_push_tval_inv in H2 as [? ->].
  apply duk_pop_inv in H3 as [? ->].
  apply duk_pop_inv in H4 as [? ->].
  repeat split; simpl; rewrite ?length_insert; lia || done.
Qed.

Lemma store_reg_stored idx_z v t0 t t' :
  same_frame t0 t -> store_reg idx_z v t = Ok t' -> stored idx_z v t0 t'.
Proof.
  intros (Hb & _ & _ & Hcs & Hcat). unfold store_reg, write_valstack.
  destruct (Nat.ltb_spec (valstack_bottom t + idx_z) (length (valstack t)));
    [|done].
  intros [= <-]. repeat split; try done.
  exists v. split; [|by left]. simpl. rewrite <- Hb.
  by apply list_lookup_insert_eq.
Qed.

Lemma same_frame_refl t : same_frame t t.
Proof. done. Qed.

Lemma replace_stored idx_z v t0 t t' :
  same_frame t0 t ->
  (t1 <- duk_push_tval v t;; duk_replace idx_z t1) = Ok t' ->
  stored idx_z v t0 t'.
Proof.
  intros (Hb & _ & _ & Hcs & Hcat) H.
  apply rbind_Ok in H as (t1 & H1 & H2).
  apply duk_push_tval_inv in H1 as [Hl ->].
  unfold duk_replace in H2.
  destruct (Nat.leb_spec (duk_get_top (set_valstack_top (S (valstack_top t))
               (set_valstack (<[valstack_top t:=v]> (valstack t)) t))) idx_z)
    as [|Hidx]; [done|].
  cbn [valstack valstack_top valstack_bottom set_valstack set_valstack_top] in H2.
  replace (S (valstack_top t) - 1) with (valstack_top t) in H2 by lia.
  rewrite list_lookup_insert_eq in H2 by done. cbn [deref rbind] in H2.
  injection H2 as <-. repeat split; try done.
  unfold duk_get_top in Hidx. simpl in Hidx. simpl. rewrite <- Hb.
  destruct (decide (valstack_bottom t + idx_z = valstack_top t)) as [Heq|Hne].
  - exists TvUndefinedUnused. split; [|by right].
    rewrite Heq. apply list_lookup_insert_eq. rewrite !length_insert. done.
  - exists v. split; [|by left].
    rewrite list_lookup_insert_ne by done.
    apply list_lookup_insert_eq. rewrite length_insert. lia.
Qed.

Lemma op_arith_stored op a b c h thr h' :
  op_arith op a b c h thr = Ok (OpNext h') ->
  exists t t' fn x y,
    get_thread h thr = Ok t
    /\ h' = put_thread thr t' h
    /\ current_function t = Ok fn
    /\ match op with
       | DUK_OP_BNOT => DUK__REGCONSTP t fn b = Ok x
       | DUK_EXTRAOP_UNM | DUK_EXTRAOP_UNP | DUK_EXTRAOP_INC | DUK_EXTRAOP_DEC =>
           DUK__REGCONSTP t fn c = Ok y
       | _ => DUK__REGCONSTP t fn b = Ok x /\ DUK__REGCONSTP t fn c = Ok y
       end
    /\ stored (arith_target op a b) (arith_value op x y) t t'.
Proof.
  unfold op_arith. intros H.
  apply rbind_Ok in H as (t & Ht & H).
  apply rbind_Ok in H as (fn & Hfn & H).
  apply rbind_Ok in H as (t' & Hop & [= <-]).
  exists t, t', fn.
  destruct op; cbn [arith_target arith_value];
    try (apply rbind_Ok in Hop as (x & Hx & Hop);
         apply rbind_Ok in Hop as (y & Hy & Hop);
         exists x, y; do 3 (split; [done|]); split; [done|]).
  - (* ADD *)
    unfold duk__vm_arith_add in Hop.
    assert (Hslow : (t1 <- push_pop_2 x y t;;
                     t2 <- duk_push_tval (duk__vm_arith_add_result x y) t1;;
                     duk_replace a t2) = Ok t' ->
                    stored a (duk__vm_arith_add_result x y) t t').
    { intros Hs. apply rbind_Ok in Hs as (t1 & H1 & H2).
      eapply replace_stored; [by eapply push_pop_2_same|done]. }
    destruct x, y; try (by apply Hslow).
    eapply store_reg_stored; [apply same_frame_refl|done].
  - (* SUB *)
    unfold duk__vm_arith_binary_op in Hop. apply rbind_Ok in Hop as (t1 & H1 & H2).
    eapply store_reg_stored; [|done].
    destruct x, y; try (by eapply push_pop_2_same); by injection H1 as <-.
  - unfold duk__vm_arith_binary_op in Hop. apply rbind_Ok in Hop as (t1 & H1 & H2).
    eapply store_reg_stored; [|done].
    destruct x, y; try (by eapply push_pop_2_same); by injection H1 as <-.
  - unfold duk__vm_arith_binary_op in Hop. apply rbind_Ok in Hop as (t1 & H1 & H2).
    eapply store_reg_stored; [|done].
    destruct x, y; try (by eapply push_pop_2_same); by injection H1 as <-.
  - unfold duk__vm_arith_binary_op in Hop. apply rbind_Ok in Hop as (t1 & H1 & H2).
    eapply store_reg_stored; [|done].
    destruct x, y; try (by eapply push_pop_2_same); by injection H1 as <-.
  - unfold duk__vm_bitwise_binary_op in Hop. apply rbind_Ok in Hop as (t1 & H1 & H2).
    eapply store_reg_stored; [by eapply push_pop_2_same|done].
  - unfold duk__vm_bitwise_binary_op in Hop. apply rbind_Ok in Hop as (t1 & H1 & H2).
    eapply store_reg_stored; [by eapply push_pop_2_same|done].
  - unfold duk__vm_bitwise_binary_op in Hop. apply rbind_Ok in Hop as (t1 & H1 & H2).
    eapply store_reg_stored; [by eapply push_pop_2_same|done].
  - unfold duk__vm_bitwise_binary_op in Hop. apply rbind_Ok in Hop as (t1 & H1 & H2).
    eapply store_reg_stored; [by eapply push_pop_2_same|done].
  - unfold duk__vm_bitwise_binary_op in Hop. apply rbind_Ok in Hop as (t1 & H1 & H2).
    eapply store_reg_stored; [by eapply push_pop_2_same|done].
  - unfold duk__vm_bitwise_binary_op in Hop. apply rbind_Ok in Hop as (t1 & H1 & H2).
    eapply store_reg_stored; [by eapply push_pop_2_same|done].
  - (* BNOT *)
    apply rbind_Ok in Hop as (x & Hx & Hop). exists x, TvUndefined.
    do 4 (split; [done|]).
    unfold duk__vm_bitwise_not in Hop. apply rbind_Ok in Hop as (t1 & H1 & H2).
    eapply store_reg_stored; [by eapply push_pop_same|done].
  - apply rbind_Ok in Hop as (y & Hy & Hop). exists TvUndefined, y.
    do 4 (split; [done|]).
    unfold duk__vm_arith_unary_op in Hop. apply rbind_Ok in Hop as (t1 & H1 & H2).
    eapply store_reg_stored; [|done].
    destruct y; try (by eapply push_pop_same); by injection H1 as <-.
  - apply rbind_Ok in Hop as (y & Hy & Hop). exists TvUndefined, y.
    do 4 (split; [done|]).
    unfold duk__vm_arith_unary_op in Hop. apply rbind_Ok in Hop as (t1 & H1 & H2).
    eapply store_reg_stored; [|done].
    destruct y; try (by eapply push_pop_same); by injection H1 as <-.
  - apply rbind_Ok in Hop as (y & Hy & Hop). exists TvUndefined, y.
    do 4 (split; [done|]).
    unfold duk__vm_arith_unary_op in Hop. apply rbind_Ok in Hop as (t1 & H1 & H2).
    eapply store_reg_stored; [|done].
    destruct y; try (by eapply push_pop_same); by injection H1 as <-.
  - apply rbind_Ok in Hop as (y & Hy & Hop). exists TvUndefined, y.
    do 4 (split; [done|]).
    unfold duk__vm_arith_unary_op in Hop. apply rbind_Ok in Hop as (t1 & H1 & H2).
    eapply store_reg_stored; [|done].
    destruct y; try (by eapply push_pop_same); by injection H1 as <-.
Qed.

(** Whatever an arithmetic instruction that completes has left in its
    target register is normalized. *)
Lemma op_arith_writes_normalized
    (op : duk_opcode) (a b c : nat) (h h' : duk_heap) (thr : nat) :
  op_arith op a b c h thr = Ok (OpNext h') ->
  exists (t t' : duk_hthread) (w : duk_tval),
    get_thread h thr = Ok t
    /\ get_thread h' thr = Ok t'
    /\ valstack_bottom t' = valstack_bottom t
    /\ valstack t' !! (valstack_bottom t' + arith_target op a b) = Some w
    /\ forall d, w = TvNumber d ->
         Dbl.DUK_DBLUNION_IS_NORMALIZED d = true
         /\ (Dbl.DUK_ISNAN d = true -> d = Dbl.DUK_DOUBLE_NAN_NORMALIZED).
Proof.
  intros H.
  destruct (op_arith_stored _ _ _ _ _ _ _ H)
    as (t & t' & fn & x & y & Ht & -> & _ & _ & Hb & _ & _ & w & Hw & Hv).
  exists t, t', w. split; [done|]. split; [apply get_put_thread_eq|].
  split; [done|]. rewrite Hb. split; [done|].
  destruct Hv as [-> | ->]; [apply arith_value_normalized|done].
Qed.

Lemma push_pop_2_ok x y t :
  valstack_bottom t <= valstack_top t ->
  valstack_top t + 2 <= length (valstack t) ->
  exists t1, push_pop_2 x y t = Ok t1 /\ same_frame t t1
    /\ forall i, i < valstack_top t -> valstack t1 !! i = valstack t !! i.
Proof.
  intros Hb Hl. unfold push_pop_2.
  rewrite duk_push_tval_ok by lia. cbn [rbind].
  rewrite duk_push_tval_ok by (simpl; rewrite length_insert; lia). cbn [rbind].
  rewrite duk_pop_ok by (simpl; lia). cbn [rbind].
  rewrite duk_pop_ok by (simpl; lia).
  eexists. split; [reflexivity|]. split.
  - repeat split; simpl; rewrite ?length_insert; lia || done.
  - intros i Hi. simpl. by rewrite !list_lookup_insert_ne by lia.
Qed.

Lemma push_pop_ok x t :
  valstack_bottom t <= valstack_top t ->
  valstack_top t + 1 <= length (valstack t) ->
  exists t1, push_pop x t = Ok t1 /\ same_frame t t1
    /\ forall i, i < valstack_top t -> valstack t1 !! i = valstack t !! i.
Proof.
  intros Hb Hl. unfold push_pop.
  rewrite duk_push_tval_ok by lia. cbn [rbind].
  rewrite duk_pop_ok by (simpl; lia).
  eexists. split; [reflexivity|]. split.
  - repeat split; simpl; rewrite ?length_insert; lia || done.
  - intros i Hi. simpl. by rewrite !list_lookup_insert_ne by lia.
Qed.

Lemma store_reg_ok idx_z v t0 t :
  same_frame t0 t -> idx_z < duk_get_top t0 ->
  valstack_top t0 <= length (valstack t0) ->
  exists t', store_reg idx_z v t = Ok t'
    /\ valstack t' !! (valstack_bottom t0 + idx_z) = Some v.
Proof.
  intros (Hb & Ht & Hl & _) Hi Hlen. unfold store_reg. unfold duk_get_top in Hi.
  rewrite write_valstack_ok by lia.
  eexists. split; [reflexivity|]. simpl. rewrite Hb.
  apply list_lookup_insert_eq. lia.
Qed.

Lemma replace_ok idx_z v t0 t :
  same_frame t0 t -> idx_z < duk_get_top t0 ->
  valstack_top t0 < length (valstack t0) ->
  exists t', (t1 <- duk_push_tval v t;; duk_replace idx_z t1) = Ok t'
    /\ valstack t' !! (valstack_bottom t0 + idx_z) = Some v.
Proof.
  intros (Hb & Ht & Hl & _) Hi Hlen. unfold duk_get_top in Hi.
  rewrite duk_push_tval_ok by lia. cbn [rbind].
  erewrite duk_replace_ok; cycle 1.
  { unfold duk_get_top. simpl. lia. }
  { simpl. rewrite Nat.sub_0_r. apply list_lookup_insert_eq. lia. }
  eexists. split; [reflexivity|]. simpl. rewrite Nat.sub_0_r, Hb.
  rewrite list_lookup_insert_ne by lia.
  apply list_lookup_insert_eq. rewrite length_insert. lia.
Qed.

(** With its operands readable, its target a register of the frame and
    two free slots for the temporaries, an arithmetic instruction
    completes and the target holds the value computed. *)
Lemma op_arith_total op a b c h thr t fn x y :
  get_thread h thr = Ok t ->
  current_function t = Ok fn ->
  DUK__REGCONSTP t fn b = Ok x ->
  DUK__REGCONSTP t fn c = Ok y ->
  arith_target op a b < duk_get_top t ->
  valstack_top t + 2 <= length (valstack t) ->
  exists t',
    op_arith op a b c h thr = Ok (OpNext (put_thread thr t' h))
    /\ valstack t' !! (valstack_bottom t + arith_target op a b)
       = Some (arith_value op x y).
Proof.
  intros Ht Hfn Hx Hy Htgt Hroom.
  assert (Hb : valstack_bottom t <= valstack_top t) by (unfold duk_get_top in Htgt; lia).
  destruct (push_pop_2_ok x y t Hb Hroom) as (t2 & Hpp2 & Hsame2 & _).
  destruct (push_pop_ok x t Hb ltac:(lia)) as (tx & Hppx & Hsamex & _).
  destruct (push_pop_ok y t Hb ltac:(lia)) as (ty & Hppy & Hsamey & _).
  unfold op_arith. rewrite Ht. cbn [rbind]. rewrite Hfn. cbn [rbind].
  assert (Hfin : forall r v,
             (exists t', r = Ok t'
                /\ valstack t' !! (valstack_bottom t + arith_target op a b) = Some v) ->
             exists t', (t0 <- r;; Ok (OpNext (put_thread thr t0 h)))
                        = Ok (OpNext (put_thread thr t' h))
               /\ valstack t' !! (valstack_bottom t + arith_target op a b) = Some v).
  { intros r v (t' & -> & Hv). by exists t'. }
  destruct op; cbn [arith_target arith_value] in *; apply Hfin;
    rewrite ?Hx, ?Hy; cbn [rbind].
  - unfold duk__vm_arith_add.
    assert (Hslow : exists t',
               (t1 <- push_pop_2 x y t;;
                t3 <- duk_push_tval (duk__vm_arith_add_result x y) t1;;
                duk_replace a t3) = Ok t'
               /\ valstack t' !! (valstack_bottom t + a)
                  = Some (duk__vm_arith_add_result x y)).
    { rewrite Hpp2. cbn [rbind]. eapply replace_ok; [done|done|lia]. }
    destruct x, y; try exact Hslow.
    eapply store_reg_ok; [apply same_frame_refl|done|lia].
  - unfold duk__vm_arith_binary_op.
    destruct x, y; rewrite ?Hpp2; cbn [rbind];
      (eapply store_reg_ok; [done || apply same_frame_refl|done|lia]).
  - unfold duk__vm_arith_binary_op.
    destruct x, y; rewrite ?Hpp2; cbn [rbind];
      (eapply store_reg_ok; [done || apply same_frame_refl|done|lia]).
  - unfold duk__vm_arith_binary_op.
    destruct x, y; rewrite ?Hpp2; cbn [rbind];
      (eapply store_reg_ok; [done || apply same_frame_refl|done|lia]).
  - unfold duk__vm_arith_binary_op.
    destruct x, y; rewrite ?Hpp2; cbn [rbind];
      (eapply store_reg_ok; [done || apply same_frame_refl|done|lia]).
  - unfold duk__vm_bitwise_binary_op. rewrite Hpp2. cbn [rbind].
    eapply store_reg_ok; [done|done|lia].
  - unfold duk__vm_bitwise_binary_op. rewrite Hpp2. cbn [rbind].
    eapply store_reg_ok; [done|done|lia].
  - unfold duk__vm_bitwise_binary_op. rewrite Hpp2. cbn [rbind].
    eapply store_reg_ok; [done|done|lia].
  - unfold duk__vm_bitwise_binary_op. rewrite Hpp2. cbn [rbind].
    eapply store_reg_ok; [done|done|lia].
  - unfold duk__vm_bitwise_binary_op. rewrite Hpp2. cbn [rbind].
    eapply store_reg_ok; [done|done|lia].
  - unfold duk__vm_bitwise_binary_op. rewrite Hpp2. cbn [rbind].
    eapply store_reg_ok; [done|done|lia].
  - unfold duk__vm_bitwise_not. rewrite Hppx. cbn [rbind].
    eapply store_reg_ok; [done|done|lia].
  - unfold duk__vm_arith_unary_op.
    destruct y; rewrite ?Hppy; cbn [rbind];
      (eapply store_reg_ok; [done || apply same_frame_refl|done|lia]).
  - unfold duk__vm_arith_unary_op.
    destruct y; rewrite ?Hppy; cbn [rbind];
      (eapply store_reg_ok; [done || apply same_frame_refl|done|lia]).
  - unfold duk__vm_arith_unary_op.
    destruct y; rewrite ?Hppy; cbn [rbind];
      (eapply store_reg_ok; [done || apply same_frame_refl|done|lia]).
  - unfold duk__vm_arith_unary_op.
    destruct y; rewrite ?Hppy; cbn [rbind];
      (eapply store_reg_ok; [done || apply same_frame_refl|done|lia]).
Qed.

(** Claim C8.  An arithmetic, bitwise or unary instruction with readable
    operands, a target register in the frame and room for two temporaries
    completes, and what it has written to the target register is the value
    the helper computed; if that value is a number, its bit pattern
    satisfies DUK_DBLUNION_IS_NORMALIZED, and it is the canonical NaN
    whenever it is a NaN. *)
Theorem arith_register_results_normalized
    (op : duk_opcode) (a b c : nat) (h : duk_heap) (thr : nat)
    (t : duk_hthread) (fn : duk_hcompiledfunction) (x y : duk_tval) :
  get_thread h thr = Ok t ->
  current_function t = Ok fn ->
  DUK__REGCONSTP t fn b = Ok x ->
  DUK__REGCONSTP t fn c = Ok y ->
  arith_target op a b < duk_get_top t ->
  valstack_top t + 2 <= length (valstack t) ->
  exists (t' : duk_hthread) (w : duk_tval),
    op_arith op a b c h thr = Ok (OpNext (put_thread thr t' h))
    /\ valstack_bottom t' = valstack_bottom t
    /\ valstack t' !! (valstack_bottom t' + arith_target op a b) = Some w
    /\ w = arith_value op x y
    /\ forall d, w = TvNumber d ->
         Dbl.DUK_DBLUNION_IS_NORMALIZED d = true
         /\ (Dbl.DUK_ISNAN d = true -> d = Dbl.DUK_DOUBLE_NAN_NORMALIZED).
Proof.
  intros Ht Hfn Hx Hy Htgt Hroom.
  destruct (op_arith_total op a b c h thr t fn x y) as (t' & Hop & Hv); try done.
  destruct (op_arith_stored _ _ _ _ _ _ _ Hop)
    as (t0 & t0' & _ & _ & _ & Ht0 & Heq & _ & _ & Hb & _).
  assert (t0 = t) as -> by congruence.
  assert (t0' = t') as ->.
  { apply (f_equal (fun h0 => get_thread h0 thr)) in Heq.
    rewrite !get_put_thread_eq in Heq. congruence. }
  exists t', (arith_value op x y).
  split; [done|]. split; [done|]. rewrite Hb. split; [done|]. split; [done|].
  apply arith_value_normalized.
Qed.

End ArithResults.

Section Shifts.
Context {A : duk_arith}.
Local Open Scope Z_scope.

(** Claim C6.  For the shift opcodes the count is the ToInt32 of the
    second operand reduced to its low five bits, so that a count of 32
    shifts by 0 (1 << 32 is 1).  BASL stores the shifted value wrapped to a
    signed 32-bit integer (-1, which is ToInt32 of 4294967295, << 1 is -2),
    BASR the arithmetic shift, BLSR the shift of the unsigned 32-bit
    reading; each stored double is the exact integer and not a NaN. *)
Theorem shift_count_masked_result_exact (tv_x tv_y : duk_tval) :
  let i1 := duk_to_int32 tv_x in
  let i2 := duk_to_int32 tv_y in
  let n := i2 mod 32 in
  let asl := to_sint32 (i1 * 2 ^ n) in
  let asr := i1 / 2 ^ n in
  let lsr := to_uint32 i1 / 2 ^ n in
  (* the count is masked to its low five bits *)
  0 <= n < 32
  /\ Z.land (Z.land (to_uint32 i2) 0xffffffff) 0x1f = n
  /\ (i2 = 32 -> n = 0 /\ asl = i1 /\ asr = i1 /\ lsr = to_uint32 i1)
  /\ (i1 = 1 -> i2 = 32 -> asl = 1)
  /\ (i1 = -1 -> i2 = 1 -> asl = -2 /\ lsr = 2147483647)
  (* what each opcode stores *)
  /\ duk__vm_bitwise_binary_op_result tv_x tv_y DUK_OP_BASL = TvNumber (Dbl.of_int asl)
  /\ duk__vm_bitwise_binary_op_result tv_x tv_y DUK_OP_BASR = TvNumber (Dbl.of_int asr)
  /\ duk__vm_bitwise_binary_op_result tv_x tv_y DUK_OP_BLSR = TvNumber (Dbl.of_int lsr)
  (* signed and unsigned 32-bit results *)
  /\ - 2 ^ 31 <= asl < 2 ^ 31
  /\ - 2 ^ 31 <= asr < 2 ^ 31
  /\ 0 <= lsr < 2 ^ 32
  (* exact and never NaN *)
  /\ (forall v, v = asl \/ v = asr \/ v = lsr ->
        Dbl.DUK_ISNAN (Dbl.of_int v) = false
        /\ Dbl.trunc (Dbl.of_int v) = Some v).
Proof.
  intros i1 i2 n asl asr lsr.
  pose proof (duk_to_int32_range tv_x) as H1. fold i1 in H1.
  pose proof (duk_to_int32_range tv_y) as H2. fold i2 in H2.
  pose proof (bitwise_int_shift i1 i2) as (Hasl & Hasr & Hlsr).
  fold n asl asr lsr in Hasl, Hasr, Hlsr.
  assert (Hn : 0 <= n < 32) by (apply Z.mod_pos_bound; lia).
  pose proof (bitwise_int_range i1 i2 DUK_OP_BASL H1 H2) as Rasl.
  pose proof (bitwise_int_range i1 i2 DUK_OP_BASR H1 H2) as Rasr.
  pose proof (bitwise_int_range i1 i2 DUK_OP_BLSR H1 H2) as Rlsr.
  rewrite Hasl in Rasl. rewrite Hasr in Rasr. rewrite Hlsr in Rlsr.
  assert (Basl : - 2 ^ 31 <= asl < 2 ^ 31) by apply to_sint32_range.
  assert (Hp : 0 < 2 ^ n) by (apply Z.pow_pos_nonneg; lia).
  assert (Basr : - 2 ^ 31 <= asr < 2 ^ 31).
  { split; [apply Z.div_le_lower_bound; nia|apply Z.div_lt_upper_bound; nia]. }
  assert (Blsr : 0 <= lsr < 2 ^ 32).
  { pose proof (to_uint32_range i1). split; [apply Z.div_pos; lia|].
    apply Z.div_lt_upper_bound; nia. }
  split; [done|]. split; [apply shift_count_mask|].
  split.
  { intros H32. assert (Hn0 : n = 0) by (unfold n; rewrite H32; reflexivity).
    unfold asl, asr, lsr. rewrite Hn0. change (2 ^ 0) with 1.
    rewrite Z.mul_1_r, !Z.div_1_r. repeat split.
    unfold to_sint32. rewrite Z.mod_small by lia. lia. }
  split; [intros Ha Hb; unfold asl, n; rewrite Ha, Hb; reflexivity|].
  split; [intros Ha Hb; unfold asl, lsr, n; rewrite Ha, Hb; split; reflexivity|].
  unfold duk__vm_bitwise_binary_op_result. fold i1 i2.
  rewrite Hasl, Hasr, Hlsr. do 3 (split; [done|]).
  do 3 (split; [done|]).
  intros v Hv. split; [apply of_int_not_nan|apply trunc_of_int];
    destruct Hv as [-> | [-> | ->]]; lia.
Qed.
End Shifts.

(** ** The handler returns *)

Section Termination.
Context {E : duk_engine}.

Lemma elem_of_resumed_threads h p :
  p ∈ resumed_threads h
  <-> exists t, heap_threads h !! p = Some t /\ is_Some (resumer t).
Proof.
  unfold resumed_threads. rewrite elem_of_dom. unfold is_Some at 1.
  setoid_rewrite map_lookup_filter_Some. simpl. done.
Qed.

Lemma upd_thread_lookup p f h q :
  heap_threads (upd_thread p f h) !! q
  = if decide (p = q) then f <$> heap_threads h !! q else heap_threads h !! q.
Proof.
  unfold upd_thread. simpl. destruct (decide (p = q)) as [->|Hne].
  - apply lookup_alter_eq.
  - by apply lookup_alter_ne.
Qed.

(** A field update that keeps or clears resumers does not add to the set. *)
Lemma resumed_threads_upd_subseteq p f h :
  (forall t, is_Some (resumer (f t)) -> is_Some (resumer t)) ->
  resumed_threads (upd_thread p f h) ⊆ resumed_threads h.
Proof.
  intros Hf q. rewrite !elem_of_resumed_threads, upd_thread_lookup.
  intros (t & Ht & Hr). destruct (decide (p = q)) as [->|Hne]; [|eauto].
  destruct (heap_threads h !! q) as [t0|] eqn:Ht0; [|done].
  simpl in Ht. injection Ht as <-. eauto.
Qed.

Lemma resumed_threads_upd_clear p f h :
  (forall t, resumer (f t) = None) ->
  p ∉ resumed_threads (upd_thread p f h).
Proof.
  intros Hf. rewrite elem_of_resumed_threads, upd_thread_lookup.
  intros (t & Ht & Hr). rewrite decide_True in Ht by done.
  destruct (heap_threads h !! p) as [t0|]; [|done].
  simpl in Ht. injection Ht as <-. rewrite Hf in Hr. by destruct Hr.
Qed.

Lemma resumed_threads_switch p h :
  resumed_threads (DUK_HEAP_SWITCH_THREAD p h) = resumed_threads h.
Proof. done. Qed.

Lemma resumed_threads_set_lj l h :
  resumed_threads (set_lj l h) = resumed_threads h.
Proof. done. Qed.

Lemma terminate_switch_decreases h thr r t :
  get_thread h thr = Ok t -> is_Some (resumer t) ->
  size (resumed_threads (terminate_switch thr r h)) < size (resumed_threads h).
Proof.
  intros Ht Hr. apply subset_size. apply get_thread_Ok in Ht.
  assert (Hin : thr ∈ resumed_threads h)
    by (apply elem_of_resumed_threads; eauto).
  assert (Hout : thr ∉ resumed_threads (terminate_switch thr r h)).
  { unfold terminate_switch. rewrite resumed_threads_switch.
    intros Hc. apply resumed_threads_upd_subseteq in Hc; [|done].
    by apply resumed_threads_upd_clear in Hc. }
  assert (Hsub : resumed_threads (terminate_switch thr r h) ⊆ resumed_threads h).
  { unfold terminate_switch. rewrite resumed_threads_switch.
    etrans; [apply resumed_threads_upd_subseteq; done|].
    etrans; [apply resumed_threads_upd_subseteq; by intros ? [? ?]|].
    apply resumed_threads_upd_subseteq. by intros ? [? ?]. }
  set_solver.
Qed.

Lemma yield_switch_decreases h thr r t :
  get_thread h thr = Ok t -> is_Some (resumer t) ->
  size (resumed_threads (yield_switch thr r h)) < size (resumed_threads h).
Proof.
  intros Ht Hr. apply subset_size. apply get_thread_Ok in Ht.
  assert (Hin : thr ∈ resumed_threads h)
    by (apply elem_of_resumed_threads; eauto).
  assert (Hout : thr ∉ resumed_threads (yield_switch thr r h)).
  { unfold yield_switch. rewrite resumed_threads_switch.
    intros Hc. apply resumed_threads_upd_subseteq in Hc; [|done].
    by apply resumed_threads_upd_clear in Hc. }
  assert (Hsub : resumed_threads (yield_switch thr r h) ⊆ resumed_threads h).
  { unfold yield_switch. rewrite resumed_threads_switch.
    etrans; [apply resumed_threads_upd_subseteq; done|].
    etrans; [apply resumed_threads_upd_subseteq; by intros ? [? ?]|].
    apply resumed_threads_upd_subseteq. done. }
  set_solver.
Qed.

Lemma resume_switch_grows h thr resumee :
  size (resumed_threads (resume_switch thr resumee h))
  <= S (size (resumed_threads h)).
Proof.
  assert (Hsub : resumed_threads (resume_switch thr resumee h)
                 ⊆ {[resumee]} ∪ resumed_threads h).
  { unfold resume_switch. rewrite resumed_threads_switch.
    etrans; [apply resumed_threads_upd_subseteq; done|].
    etrans; [apply resumed_threads_upd_subseteq; done|].
    intros q. rewrite elem_of_union, elem_of_singleton.
    rewrite !elem_of_resumed_threads, upd_thread_lookup.
    intros (t & Ht & Hr). destruct (decide (resumee = q)) as [->|Hne]; [by left|].
    right. eauto. }
  apply subseteq_size in Hsub.
  rewrite size_union_alt, size_singleton in Hsub.
  assert (size (resumed_threads h ∖ {[resumee]}) <= size (resumed_threads h))
    by (apply subseteq_size, subseteq_difference_l; done).
  lia.
Qed.

(** What a pass that re-enters leaves for the next one. *)
Lemma longjmp_once_again h thr e et h' thr' :
  duk__handle_longjmp_once h thr e et = Ok (LjAgain h' thr') ->
  lj_type (lj h') = DUK_LJ_TYPE_THROW
  /\ (lj_type (lj h) = DUK_LJ_TYPE_THROW ->
      size (resumed_threads h') < size (resumed_threads h))
  /\ size (resumed_threads h') <= S (size (resumed_threads h)).
Proof.
  unfold duk__handle_longjmp_once.
  destruct (lj_type (lj h) =? DUK_LJ_TYPE_RESUME)%Z eqn:H1.
  { apply Z.eqb_eq in H1. unfold handle_resume. intros H.
    apply rbind_Ok in H as (_ & _ & H).
    apply rbind_Ok in H as (resumee & _ & H).
    apply rbind_Ok in H as (rt & _ & H).
    destruct (lj_iserror (lj h)).
    - injection H as <- <-. split; [done|]. split.
      + intros H2. rewrite H1 in H2. done.
      + apply resume_switch_grows.
    - unfold wipe_and_return in H.
      destruct (state rt);
        repeat (apply rbind_Ok in H as (? & _ & H)); try done;
        by destruct (negb _). }
  destruct (lj_type (lj h) =? DUK_LJ_TYPE_YIELD)%Z eqn:H2.
  { apply Z.eqb_eq in H2. unfold handle_yield. intros H.
    apply rbind_Ok in H as (t & Ht & H).
    apply rbind_Ok in H as (r & Hr & H).
    apply rbind_Ok in H as (rt & _ & H).
    destruct (lj_iserror (lj h)).
    - injection H as <- <-. split; [done|].
      assert (Hdec : size (resumed_threads (yield_switch thr r h))
                     < size (resumed_threads h)).
      { eapply yield_switch_decreases; [done|].
        destruct (resumer t); [eauto|done]. }
      change (resumed_threads (set_lj_type DUK_LJ_TYPE_THROW (yield_switch thr r h)))
        with (resumed_threads (yield_switch thr r h)).
      split; [done|lia].
    - unfold wipe_and_return in H.
      repeat (apply rbind_Ok in H as (? & _ & H)). done. }
  destruct (lj_type (lj h) =? DUK_LJ_TYPE_RETURN)%Z eqn:H3.
  { unfold handle_return, wipe_and_return. intros H.
    apply rbind_Ok in H as (t & Ht & H).
    destruct (return_scan _ _); try done.
    - by repeat (apply rbind_Ok in H as (? & _ & H)).
    - destruct (_ && _); [by repeat (apply rbind_Ok in H as (? & _ & H))|].
      destruct (2 <=? callstack_top t);
        by repeat (apply rbind_Ok in H as (? & _ & H)). }
  destruct ((lj_type (lj h) =? DUK_LJ_TYPE_BREAK)
            || (lj_type (lj h) =? DUK_LJ_TYPE_CONTINUE))%Z eqn:H4.
  { unfold handle_break_continue, wipe_and_return, convert_to_internal_error.
    intros H.
    apply rbind_Ok in H as (t & Ht & H).
    apply rbind_Ok in H as (lbl & _ & H).
    destruct (rev (catchstack t)); [done|].
    destruct (break_scan _ _ _); try done;
      by repeat (apply rbind_Ok in H as (? & _ & H)). }
  destruct (lj_type (lj h) =? DUK_LJ_TYPE_THROW)%Z eqn:H5; [|done].
  unfold handle_throw, wipe_and_return, just_return. intros H.
  apply rbind_Ok in H as (t & Ht & H).
  destruct (throw_scan _ _ _); try done;
    try (by repeat (apply rbind_Ok in H as (? & _ & H))).
  destruct (bool_decide (thr = e)); [done|].
  apply rbind_Ok in H as (r & Hr & H).
  apply rbind_Ok in H as (rt & _ & H).
  injection H as <- <-.
  assert (Hdec : size (resumed_threads (terminate_switch thr r h))
                 < size (resumed_threads h)).
  { eapply terminate_switch_decreases; [done|].
    destruct (resumer t); [eauto|done]. }
  split; [|split; [done|lia]].
  unfold terminate_switch. simpl. by apply Z.eqb_eq.
Qed.

Lemma returns_bind {X Y} (r : result X) (k : X -> result Y) :
  returns r -> (forall x, returns (k x)) -> returns (rbind r k).
Proof. unfold returns. destruct r; simpl; auto. Qed.

Lemma deref_returns {X} (o : option X) : returns (deref o).
Proof. by destruct o. Qed.

Lemma write_valstack_returns i v t : returns (write_valstack i v t).
Proof. unfold write_valstack. by destruct (_ <? _). Qed.

Lemma duk_set_top_returns i t : returns (duk_set_top i t).
Proof. unfold duk_set_top. destruct (_ || _)%Z; [done|]. by destruct (_ <=? _). Qed.

Lemma duk_valstack_resize_raw_returns n t : returns (duk_valstack_resize_raw n t).
Proof. unfold duk_valstack_resize_raw. by destruct (_ <=? _). Qed.

Lemma duk_push_tval_returns v t : returns (duk_push_tval v t).
Proof. unfold duk_push_tval. by destruct (_ <=? _). Qed.

Lemma act_compiledfunction_returns a : returns (act_compiledfunction a).
Proof. unfold act_compiledfunction. by destruct (act_func a) as [[]|]. Qed.

Lemma size_minus_2_returns n : returns (size_minus_2 n).
Proof. unfold size_minus_2. by destruct (_ <? _). Qed.

Lemma get_thread_returns h p : returns (get_thread h p).
Proof. apply deref_returns. Qed.

Lemma top_act_returns t : returns (top_act t).
Proof. apply deref_returns. Qed.

Lemma Ok_returns {X} (x : X) : returns (Ok x).
Proof. done. Qed.

Lemma Throw_returns {X} e : returns (@Throw X e).
Proof. done. Qed.

Lemma Undef_returns {X} : returns (@Undef X).
Proof. done. Qed.

Create HintDb nofuel.

Hint Resolve deref_returns write_valstack_returns duk_set_top_returns
  duk_valstack_resize_raw_returns duk_push_tval_returns
  act_compiledfunction_returns size_minus_2_returns get_thread_returns
  top_act_returns Ok_returns Throw_returns Undef_returns : nofuel.

(** Through the binds of a definition, one computation at a time. *)
Ltac binds :=
  repeat first
    [ apply returns_bind; [solve [auto with nofuel]|intros ?]
    | solve [auto with nofuel] ].

Lemma duk__reconfig_valstack_returns i n t : returns (duk__reconfig_valstack i n t).
Proof. unfold duk__reconfig_valstack. binds. Qed.

Lemma catch_binding_returns l i t : returns (catch_binding l i t).
Proof.
  unfold catch_binding. binds. destruct (_ <? _); binds.
Qed.

Hint Resolve duk__reconfig_valstack_returns catch_binding_returns : nofuel.

Lemma duk__handle_catch_or_finally_returns l i b t :
  returns (duk__handle_catch_or_finally l i b t).
Proof.
  unfold duk__handle_catch_or_finally. binds.
  apply returns_bind; [destruct (_ && _); auto with nofuel|intros ?]. binds.
Qed.

Lemma duk__handle_label_returns l i t : returns (duk__handle_label l i t).
Proof. unfold duk__handle_label. binds. Qed.

Lemma duk__handle_yield_returns l i t : returns (duk__handle_yield l i t).
Proof. unfold duk__handle_yield. binds. Qed.

Hint Resolve duk__handle_catch_or_finally_returns duk__handle_label_returns
  duk__handle_yield_returns : nofuel.

Lemma duk__handle_longjmp_once_returns h thr e et :
  returns (duk__handle_longjmp_once h thr e et).
Proof.
  unfold duk__handle_longjmp_once.
  destruct (_ =? _)%Z.
  { unfold handle_resume, wipe_and_return. binds.
    apply returns_bind; [destruct (lj_value2 (lj h)); auto with nofuel|intros ?].
    binds. destruct (lj_iserror (lj h)); [binds|].
    destruct (state _); binds;
      (apply returns_bind;
       [destruct (duk_handle_ecma_call_setup _ _); auto with nofuel|intros ?]);
      destruct (negb _); binds. }
  destruct (_ =? _)%Z.
  { unfold handle_yield, wipe_and_return. binds.
    destruct (lj_iserror (lj h)); binds. }
  destruct (_ =? _)%Z.
  { unfold handle_return, wipe_and_return. binds.
    destruct (return_scan _ _); binds.
    destruct (_ && _); binds.
    destruct (_ <=? _); binds. }
  destruct (_ || _)%Z.
  { unfold handle_break_continue, wipe_and_return, convert_to_internal_error.
    binds.
    apply returns_bind;
      [destruct (lj_value1 (lj h)); auto with nofuel|intros ?].
    destruct (rev _); binds.
    destruct (break_scan _ _ _); binds. }
  destruct (_ =? _)%Z; [|done].
  unfold handle_throw, wipe_and_return, just_return. binds.
  destruct (throw_scan _ _ _); binds.
  destruct (bool_decide _); binds.
Qed.

Lemma handle_longjmp_throw_fuel fuel h thr e et :
  lj_type (lj h) = DUK_LJ_TYPE_THROW ->
  size (resumed_threads h) < fuel ->
  duk__handle_longjmp fuel h thr e et <> NoFuel.
Proof.
  revert h thr. induction fuel as [|fuel IH]; intros h thr Hty Hlt; [lia|].
  cbn [duk__handle_longjmp].
  destruct (duk__handle_longjmp_once h thr e et) as [[r h'|h' thr'] | | |] eqn:Hon;
    cbn [rbind]; try done.
  - apply longjmp_once_again in Hon as (Hty' & Hdec & _).
    apply IH; [done|]. specialize (Hdec Hty). lia.
  - by apply duk__handle_longjmp_once_returns in Hon.
Qed.

(** Property X9.  The handler's goto check_longjmp loop ends: the number of
    passes is at most the number of threads that have a resumer plus two, so
    with more fuel than that the model never runs out of it. *)
Theorem handle_longjmp_enough_fuel fuel h thr e et :
  size (resumed_threads h) + 2 < fuel ->
  returns (duk__handle_longjmp fuel h thr e et).
Proof.
  unfold returns. intros Hlt. destruct fuel as [|fuel]; [lia|].
  cbn [duk__handle_longjmp].
  destruct (duk__handle_longjmp_once h thr e et) as [[r h'|h' thr'] | | |] eqn:Hon;
    cbn [rbind]; try done.
  - apply longjmp_once_again in Hon as (Hty' & _ & Hle).
    apply handle_longjmp_throw_fuel; [done|lia].
  - by apply duk__handle_longjmp_once_returns in Hon.
Qed.
End Termination.

(** ** The statements on concrete states *)

Section Examples.
Local Existing Instance Ex.engine.
Local Existing Instance Ref.arith.

(** A return of 42 inside [L1: try ... finally]: the finally part at PC 11
    with 42 and the type RETURN in r2 and r3, and ENDFIN returning 42 again. *)
Lemma finally_interception_then_endfin_witness :
  exists (t' : duk_hthread) (h' h'' : duk_heap),
    duk__handle_longjmp_once (Ex.h_try_finally DUK_LJ_TYPE_RETURN (Ex.num 42)) 0 0 1
    = Ok (LjReturn DUK__LONGJMP_RESTART h')
    /\ get_thread h' 0 = Ok t'
    /\ valstack t' !! 3 = Some (Ex.num 42)
    /\ valstack t' !! 4 = Some (Ex.num DUK_LJ_TYPE_RETURN)
    /\ catchstack t' = [Ex.label 0 5 1; Ex.tcf 0 10 3 false false]
    /\ callstack t' = [Ex.frame 1 0 11]
    /\ op_ENDFIN h' 0 = Ok (OpLongjmp h'')
    /\ lj_type (lj h'') = DUK_LJ_TYPE_RETURN
    /\ lj_value1 (lj h'') = Ex.num 42.
Proof.
  destruct (finally_interception_then_endfin
              (Ex.h_try_finally DUK_LJ_TYPE_RETURN (Ex.num 42)) 0 0 1
              Ex.t_try_finally 1 (Ex.tcf 0 10 3 false true)
              (Ex.frame 1 0 20) Ex.fn4)
    as (t' & h' & H1 & H2 & H3 & H4 & H5 & H6 & _ & (h'' & H7 & H8 & H9) & _).
  - reflexivity.
  - left. split; reflexivity.
  - reflexivity.
  - reflexivity.
  - reflexivity.
  - reflexivity.
  - reflexivity.
  - reflexivity.
  - simpl. lia.
  - simpl. lia.
  - simpl. lia.
  - exists t', h', h''. repeat split; assumption.
Defined.


(** A coroutine throwing object 7 with no catcher: the catch clause around
    the resumer's resume() call receives it. *)
Lemma uncaught_throw_rethrown_or_redirected_witness :
  exists (rt' : duk_hthread) (h'' : duk_heap),
    duk__handle_longjmp 2 (Ex.h_coroutine DUK_LJ_TYPE_THROW false (TvObject 7)) 1 0 1
    = Ok (DUK__LONGJMP_RESTART, h'')
    /\ curr_thread h'' = 0
    /\ get_thread h'' 0 = Ok rt'
    /\ state rt' = DUK_HTHREAD_STATE_RUNNING
    /\ valstack rt' !! 3 = Some (TvObject 7)
    /\ callstack rt' = [Ex.frame 1 2 15].
Proof.
  destruct (uncaught_throw_rethrown_or_redirected 0
              (Ex.h_coroutine DUK_LJ_TYPE_THROW false (TvObject 7)) 1 0 1
              Ex.t_coroutine 0 eq_refl eq_refl eq_refl) as (_ & _ & H).
  destruct (H ltac:(discriminate) 0 Ex.t_resumer eq_refl ltac:(discriminate) eq_refl)
    as (_ & _ & _ & _ & _ & Hcatch).
  destruct (Hcatch 0 (Ex.tcf 0 15 3 true false) (Ex.frame 1 2 40) Ex.fn4
              eq_refl eq_refl eq_refl eq_refl eq_refl
              ltac:(simpl; lia) ltac:(simpl; lia))
    as (rt' & h'' & H1 & H2 & H3 & H4 & H5 & H6 & _).
  exists rt', h''. repeat split; assumption.
Defined.



(** The same rethrow on a build with DUK_USE_AUGMENT_ERROR_THROW and an
    errThrow handler that returns another value: what THROW raises is the
    handler's value, not the error object of r0. *)
Lemma throw_hook_replaces_thrown_value :
  exists h' : duk_heap,
    get_thread Ex.h_rethrow 0 = Ok Ex.t_rethrow
    /\ valstack Ex.t_rethrow !! (valstack_bottom Ex.t_rethrow + 0) = Some (TvObject 7)
    /\ @op_THROW Ex.engine_hooked 0 Ex.h_rethrow 0 = Ok (OpLongjmp h')
    /\ lj_value1 (lj h') = TvString "replaced"
    /\ ~ @throw_raises_register_value Ex.engine_hooked.
Proof.
  eexists. split; [reflexivity|]. split; [reflexivity|].
  split; [vm_compute; reflexivity|]. split; [reflexivity|].
  intros H.
  specialize (H 0 Ex.h_rethrow _ 0 Ex.t_rethrow (TvObject 7)
                eq_refl eq_refl eq_refl).
  discriminate H.
Qed.

(** Reconfiguring for the caller of the example, one return value kept,
    the caller's r3 holding 9 from before the call: the clamp drops r3 and
    the callee's register holding 7, so that in the end the caller's r1
    keeps its 2 and its r3, above the return value, is undefined. *)
Lemma reconfig_valstack_contract_witness :
  exists t1 t' : duk_hthread,
    duk_set_top 3 (set_valstack_bottom 1 Ex.t_call_r3) = Ok t1
    /\ valstack Ex.t_call_r3 !! 4 = Some (Ex.num 9)
    /\ valstack Ex.t_call_r3 !! 6 = Some (Ex.num 7)
    /\ valstack t1 !! 4 = Some TvUndefinedUnused
    /\ valstack t1 !! 6 = Some TvUndefinedUnused
    /\ duk__reconfig_valstack 0 1 Ex.t_call_r3 = Ok t'
    /\ valstack_bottom t' = 1
    /\ duk_get_top t' = 4
    /\ length (valstack t') = 1 + (4 + 64)
    /\ valstack t' !! 3 = Some TvUndefined
    /\ valstack t' !! 2 = Some (Ex.num 2)
    /\ valstack t' !! 4 = Some TvUndefined.
Proof.
  destruct (reconfig_valstack_contract Ex.t_call_r3 0 1 (Ex.frame 1 3 30) Ex.fn4
              eq_refl eq_refl ltac:(right; reflexivity)
              ltac:(simpl; lia) ltac:(simpl; lia) ltac:(simpl; lia))
    as (t1 & t' & H0 & _ & _ & H1 & H2 & H3 & H4 & H5 & _ & _ & _ & _
        & Hold & _ & Hkeep & Hclear).
  exists t1, t'. split; [exact H0|]. split; [reflexivity|]. split; [reflexivity|].
  split; [apply Hold; simpl; lia|].
  split; [apply Hold; simpl; lia|].
  split; [assumption|]. split; [assumption|]. split; [assumption|].
  split; [rewrite H2 in H3; simpl in H3; lia|].
  split; [apply H5; [reflexivity|simpl; lia|simpl; lia|reflexivity]|].
  split; [apply Hkeep; [reflexivity|simpl; lia..]|].
  apply Hclear. simpl. lia.
Defined.

(** 0 / 0 into r2: the canonical NaN. *)
Lemma arith_register_results_normalized_witness :
  exists t' : duk_hthread,
    op_arith DUK_OP_DIV 2 0 1 Ex.h_zeros 0 = Ok (OpNext (put_thread 0 t' Ex.h_zeros))
    /\ valstack t' !! 3 = Some (TvNumber Dbl.DUK_DOUBLE_NAN_NORMALIZED).
Proof.
  destruct (arith_register_results_normalized (A := Ref.arith) (E := Ex.engine)
              DUK_OP_DIV 2 0 1 Ex.h_zeros 0
              Ex.t_zeros Ex.fn4 (TvNumber 0) (TvNumber 0)
              eq_refl eq_refl eq_refl eq_refl
              ltac:(vm_compute; lia) ltac:(vm_compute; lia))
    as (t' & w & Hop & Hb & Hw & -> & _).
  exists t'. split; [assumption|].
  rewrite Hb in Hw. exact Hw.
Defined.

(** typeof x where the scope binds y only. *)
Lemma typeofid_unresolvable_gives_undefined_witness :
  exists t' : duk_hthread,
    op_TYPEOFID 1 256 Ex.h_scoped 0 = Ok (OpNext (put_thread 0 t' Ex.h_scoped))
    /\ valstack t' !! 2 = Some (TvString "undefined")
    /\ valstack_top t' = 5 /\ valstack_bottom t' = 1.
Proof.
  destruct (typeofid_unresolvable_gives_undefined (E := Ex.engine) 1 256 Ex.h_scoped 0 Ex.t_scoped
              Ex.scoped_frame Ex.fn4 "x" eq_refl eq_refl eq_refl eq_refl)
    as (t' & Hop & Hv & Htop & Hb & _).
  - intros r Hr. apply list_elem_of_singleton in Hr as ->. reflexivity.
  - vm_compute. lia.
  - vm_compute. lia.
  - exists t'. split; [assumption|]. rewrite Hb in Hv.
    split; [exact Hv|]. split; assumption.
Defined.

(** 1 << 32 and 4294967295 << 1 on the reference arithmetic. *)
Example shift_examples :
  duk__vm_bitwise_binary_op_result (Ex.num 1) (Ex.num 32) DUK_OP_BASL = Ex.num 1
  /\ duk__vm_bitwise_binary_op_result (Ex.num 4294967295) (Ex.num 1) DUK_OP_BASL
     = Ex.num (-2)
  /\ duk__vm_bitwise_binary_op_result (Ex.num (-1)) (Ex.num 1) DUK_OP_BLSR
     = Ex.num 2147483647.
Proof. repeat split; vm_compute; reflexivity. Qed.

(** 0/0 and NaN + 1 on the reference arithmetic: the canonical NaN, also
    from a NaN with another sign and payload. *)
Example nan_examples :
  duk__vm_arith_binary_op_result (TvNumber 0) (TvNumber 0) DUK_OP_DIV
  = TvNumber Dbl.DUK_DOUBLE_NAN_NORMALIZED
  /\ duk__vm_arith_add_result (TvNumber 0xfff8000000000001) (Ex.num 1)
     = TvNumber Dbl.DUK_DOUBLE_NAN_NORMALIZED.
Proof. repeat split; vm_compute; reflexivity. Qed.

End Examples.

(** ** Yield and resume *)

Section Coroutines.
Context {E : duk_engine}.

Lemma longjmp_once_resume h thr e et :
  lj_type (lj h) = DUK_LJ_TYPE_RESUME ->
  duk__handle_longjmp_once h thr e et = handle_resume h thr.
Proof. intros H. unfold duk__handle_longjmp_once. by rewrite H. Qed.

Lemma resume_switch_spec h thr p t rt :
  thr <> p ->
  get_thread h thr = Ok t -> get_thread h p = Ok rt ->
  let h' := resume_switch thr p h in
  curr_thread h' = p /\ lj h' = lj h
  /\ get_thread h' p
     = Ok (set_state DUK_HTHREAD_STATE_RUNNING (set_resumer (Some thr) rt))
  /\ get_thread h' thr = Ok (set_state DUK_HTHREAD_STATE_RESUMED t)
  /\ forall q, q <> thr -> q <> p -> get_thread h' q = get_thread h q.
Proof.
  intros Hne Ht Hrt h'. unfold h', resume_switch.
  assert (Hne' : p <> thr) by congruence.
  split; [done|]. split; [done|].
  rewrite !get_thread_switch. split; [|split].
  - rewrite get_upd_thread_ne by done.
    rewrite (get_upd_thread_eq _ p _ (set_resumer (Some thr) rt)); [done|].
    by rewrite (get_upd_thread_eq _ p _ rt).
  - rewrite (get_upd_thread_eq _ thr _ t); [done|].
    by rewrite !get_upd_thread_ne by done.
  - intros q H1 H2. rewrite get_thread_switch.
    by rewrite !get_upd_thread_ne by congruence.
Qed.

Lemma handle_yield_delivers
    (h : duk_heap) (thr entry_thread entry_callstack_top : nat)
    (t : duk_hthread) (r : nat) (rt : duk_hthread)
    (act : duk_activation) (f : duk_hcompiledfunction) :
  get_thread h thr = Ok t ->
  lj_type (lj h) = DUK_LJ_TYPE_YIELD ->
  lj_iserror (lj h) = false ->
  resumer t = Some r -> r <> thr ->
  get_thread h r = Ok rt ->
  2 <= callstack_top rt ->
  callstack rt !! (callstack_top rt - 2) = Some act ->
  can_return_into act f rt ->
  exists (rt' : duk_hthread) (h' : duk_heap),
    duk__handle_longjmp_once h thr entry_thread entry_callstack_top
    = Ok (LjReturn DUK__LONGJMP_RESTART h')
    /\ lj h' = lj_wiped
    /\ curr_thread h' = r
    (* the resumer goes on after its resume() call, which returns the value *)
    /\ get_thread h' r = Ok rt'
    /\ returned_into (lj_value1 (lj h)) act f rt'
    /\ state rt' = DUK_HTHREAD_STATE_RUNNING
    /\ callstack rt' = take (callstack_top rt - 1) (callstack rt)
    /\ catchstack rt' = catchstack rt
    (* the yielding thread keeps its stacks and can be resumed again *)
    /\ get_thread h' thr
       = Ok (set_resumer None (set_state DUK_HTHREAD_STATE_YIELDED t))
    /\ (forall q, q <> thr -> q <> r -> get_thread h' q = get_thread h q).
Proof.
  intros Ht Hty Herr Hres Hne Hrt Htop Hact Hcan.
  assert (Honce : duk__handle_longjmp_once h thr entry_thread entry_callstack_top
                  = handle_yield h thr)
    by (by apply longjmp_once_yield).
  unfold handle_yield in Honce. rewrite Ht in Honce. cbn [rbind] in Honce.
  rewrite Hres in Honce. cbn [deref rbind] in Honce.
  rewrite Hrt in Honce. cbn [rbind] in Honce. rewrite Herr in Honce.
  rewrite size_minus_2_ok in Honce by done. cbn [rbind] in Honce.
  destruct (duk__handle_yield_ok (lj h) _ rt act f Hact Hcan)
    as (rt' & Hy & Hret & Hcs & Hcat & Hst & Hresr).
  rewrite Hy in Honce. cbn [rbind] in Honce. unfold wipe_and_return in Honce.
  exists (set_state DUK_HTHREAD_STATE_RUNNING rt'). eexists.
  split; [done|].
  pose proof (yield_switch_spec (put_thread r rt' h) thr r t rt'
                ltac:(congruence)) as Hys.
  rewrite get_put_thread_ne, get_put_thread_eq in Hys by done.
  destruct (Hys Ht eq_refl) as (Hcur & Hlj & Hthr & Hr & Hother).
  split; [done|]. split; [done|].
  rewrite !get_thread_set_lj. split; [done|]. split; [done|]. split; [done|].
  split; [simpl; rewrite Hcs; f_equal; lia|].
  split; [done|]. split; [done|].
  intros q H1 H2. rewrite get_thread_set_lj, Hother by done.
  by rewrite get_put_thread_ne.
Qed.

(** Property X1.  A yield without the error flag hands its value to the
    resumer: the handler restarts the executor in the resumer's thread,
    whose resume() call has been unwound and whose return-value register
    holds the yielded value, with its catch stack untouched. The yielding
    thread keeps its stacks, is left in the Yielded state without a resumer,
    and no other thread changes. *)
Theorem yield_value_delivered
    (fuel : nat) (h : duk_heap) (thr entry_thread entry_callstack_top : nat)
    (t : duk_hthread) (r : nat) (rt : duk_hthread)
    (act : duk_activation) (f : duk_hcompiledfunction) :
  get_thread h thr = Ok t ->
  lj_type (lj h) = DUK_LJ_TYPE_YIELD ->
  lj_iserror (lj h) = false ->
  resumer t = Some r -> r <> thr ->
  get_thread h r = Ok rt ->
  2 <= callstack_top rt ->
  callstack rt !! (callstack_top rt - 2) = Some act ->
  can_return_into act f rt ->
  exists (rt' : duk_hthread) (h' : duk_heap),
    duk__handle_longjmp (S fuel) h thr entry_thread entry_callstack_top
    = Ok (DUK__LONGJMP_RESTART, h')
    /\ lj h' = lj_wiped
    /\ curr_thread h' = r
    (* the resumer goes on after its resume() call, which returns the value *)
    /\ get_thread h' r = Ok rt'
    /\ returned_into (lj_value1 (lj h)) act f rt'
    /\ state rt' = DUK_HTHREAD_STATE_RUNNING
    /\ callstack rt' = take (callstack_top rt - 1) (callstack rt)
    /\ catchstack rt' = catchstack rt
    (* the yielding thread keeps its stacks and can be resumed again *)
    /\ get_thread h' thr
       = Ok (set_resumer None (set_state DUK_HTHREAD_STATE_YIELDED t))
    /\ (forall q, q <> thr -> q <> r -> get_thread h' q = get_thread h q).
Proof.
  intros Ht Hty Herr Hres Hne Hrt Htop Hact Hcan.
  destruct (handle_yield_delivers h thr entry_thread entry_callstack_top
              t r rt act f) as (rt' & h' & Honce & Hrest); try done.
  exists rt', h'. split; [|done]. by apply handle_longjmp_return.
Qed.

Lemma handle_resume_delivers
    (h : duk_heap) (thr entry_thread entry_callstack_top : nat)
    (t : duk_hthread) (p : nat) (rt : duk_hthread)
    (act : duk_activation) (f : duk_hcompiledfunction) :
  get_thread h thr = Ok t ->
  lj_type (lj h) = DUK_LJ_TYPE_RESUME ->
  lj_iserror (lj h) = false ->
  lj_value2 (lj h) = TvObject p -> p <> thr ->
  get_thread h p = Ok rt ->
  state rt = DUK_HTHREAD_STATE_YIELDED ->
  2 <= callstack_top rt ->
  callstack rt !! (callstack_top rt - 2) = Some act ->
  can_return_into act f rt ->
  exists (rt' : duk_hthread) (h' : duk_heap),
    duk__handle_longjmp_once h thr entry_thread entry_callstack_top
    = Ok (LjReturn DUK__LONGJMP_RESTART h')
    /\ lj h' = lj_wiped
    /\ curr_thread h' = p
    (* the resumed thread goes on after its yield() call, which returns
       the value *)
    /\ get_thread h' p = Ok rt'
    /\ returned_into (lj_value1 (lj h)) act f rt'
    /\ state rt' = DUK_HTHREAD_STATE_RUNNING
    /\ resumer rt' = Some thr
    /\ callstack rt' = take (callstack_top rt - 1) (callstack rt)
    /\ catchstack rt' = catchstack rt
    (* the resuming thread waits, untouched *)
    /\ get_thread h' thr = Ok (set_state DUK_HTHREAD_STATE_RESUMED t)
    /\ (forall q, q <> thr -> q <> p -> get_thread h' q = get_thread h q).
Proof.
  intros Ht Hty Herr Hv2 Hne Hrt Hst Htop Hact Hcan.
  assert (Honce : duk__handle_longjmp_once h thr entry_thread entry_callstack_top
                  = handle_resume h thr)
    by (by apply longjmp_once_resume).
  unfold handle_resume in Honce. rewrite Ht in Honce. cbn [rbind] in Honce.
  rewrite Hv2 in Honce. cbn [rbind] in Honce.
  rewrite Hrt in Honce. cbn [rbind] in Honce. rewrite Herr, Hst in Honce.
  rewrite size_minus_2_ok in Honce by done. cbn [rbind] in Honce.
  rewrite Hact in Honce. cbn [deref rbind] in Honce.
  destruct (deliver_and_reconfig (lj_value1 (lj h)) (callstack_top rt - 2) act f rt
              (catchstack rt) Hact Hcan)
    as (rt' & Hd & Hret & Hcs & Hcat & Hstate & Hresr).
  assert (Hlen : idx_retval act < length (valstack rt))
    by (destruct Hcan as (_ & _ & ? & _); lia).
  rewrite write_valstack_ok in Honce, Hd by done.
  cbn [rbind] in Honce, Hd.
  match type of Hd with
  | duk__reconfig_valstack _ _ (duk_hthread_callstack_unwind _ ?a) = _ =>
      match type of Honce with
      | context [duk_hthread_callstack_unwind _ ?b] =>
          replace a with b in Hd by (by destruct rt)
      end
  end.
  rewrite Hd in Honce. cbn [rbind] in Honce. unfold wipe_and_return in Honce.
  exists (set_state DUK_HTHREAD_STATE_RUNNING (set_resumer (Some thr) rt')).
  eexists. split; [done|].
  pose proof (resume_switch_spec (put_thread p rt' h) thr p t rt'
                ltac:(congruence)) as Hrs.
  rewrite get_put_thread_ne, get_put_thread_eq in Hrs by done.
  destruct (Hrs Ht eq_refl) as (Hcur & Hlj & Hp & Hthr & Hother).
  split; [done|]. split; [done|].
  rewrite !get_thread_set_lj. split; [done|]. split; [done|]. split; [done|].
  split; [done|].
  split; [simpl; rewrite Hcs; f_equal; lia|].
  split; [done|]. split; [done|].
  intros q H1 H2. rewrite get_thread_set_lj, Hother by done.
  by rewrite get_put_thread_ne.
Qed.

(** Property X2.  A resume without the error flag of a thread in the Yielded
    state hands the value to that thread: the handler restarts the executor
    in the resumee, whose yield() call has been unwound and whose return-
    value register holds the resume value; the resumee is Running with the
    resuming thread as its resumer, and the resuming thread only changes its
    state to Resumed. *)
Theorem resume_value_delivered
    (fuel : nat) (h : duk_heap) (thr entry_thread entry_callstack_top : nat)
    (t : duk_hthread) (p : nat) (rt : duk_hthread)
    (act : duk_activation) (f : duk_hcompiledfunction) :
  get_thread h thr = Ok t ->
  lj_type (lj h) = DUK_LJ_TYPE_RESUME ->
  lj_iserror (lj h) = false ->
  lj_value2 (lj h) = TvObject p -> p <> thr ->
  get_thread h p = Ok rt ->
  state rt = DUK_HTHREAD_STATE_YIELDED ->
  2 <= callstack_top rt ->
  callstack rt !! (callstack_top rt - 2) = Some act ->
  can_return_into act f rt ->
  exists (rt' : duk_hthread) (h' : duk_heap),
    duk__handle_longjmp (S fuel) h thr entry_thread entry_callstack_top
    = Ok (DUK__LONGJMP_RESTART, h')
    /\ lj h' = lj_wiped
    /\ curr_thread h' = p
    (* the resumed thread goes on after its yield() call, which returns
       the value *)
    /\ get_thread h' p = Ok rt'
    /\ returned_into (lj_value1 (lj h)) act f rt'
    /\ state rt' = DUK_HTHREAD_STATE_RUNNING
    /\ resumer rt' = Some thr
    /\ callstack rt' = take (callstack_top rt - 1) (callstack rt)
    /\ catchstack rt' = catchstack rt
    (* the resuming thread waits, untouched *)
    /\ get_thread h' thr = Ok (set_state DUK_HTHREAD_STATE_RESUMED t)
    /\ (forall q, q <> thr -> q <> p -> get_thread h' q = get_thread h q).
Proof.
  intros Ht Hty Herr Hv2 Hne Hrt Hst Htop Hact Hcan.
  destruct (handle_resume_delivers h thr entry_thread entry_callstack_top
              t p rt act f) as (rt' & h' & Honce & Hrest); try done.
  exists rt', h'. split; [|done]. by apply handle_longjmp_return.
Qed.

End Coroutines.

(** ** What the results of the handler mean *)

Section Exits.
Context {E : duk_engine}.

Ltac unbind H :=
  repeat (let x := fresh "x" in let Hx := fresh "Hx" in
          apply rbind_Ok in H as (x & Hx & H)).

(** How a pass that returns has left the longjmp state. *)
Lemma longjmp_once_return_cases h thr e et rv h' :
  duk__handle_longjmp_once h thr e et = Ok (LjReturn rv h') ->
  match rv with
  | DUK__LONGJMP_RESTART => lj h' = lj_wiped
  | DUK__LONGJMP_FINISHED =>
      lj_type (lj h) = DUK_LJ_TYPE_RETURN /\ thr = e
      /\ exists t t',
           get_thread h thr = Ok t /\ callstack_top t = et
           /\ duk_push_tval (lj_value1 (lj h)) t = Ok t'
           /\ h' = set_lj lj_wiped (put_thread thr t' h)
  | DUK__LONGJMP_RETHROW =>
      h' = h /\ thr = e /\ lj_type (lj h) = DUK_LJ_TYPE_THROW
  end.
Proof.
  unfold duk__handle_longjmp_once.
  destruct (lj_type (lj h) =? DUK_LJ_TYPE_RESUME)%Z eqn:H1.
  { unfold handle_resume, wipe_and_return. intros H. unbind H.
    destruct (lj_iserror (lj h)); [done|].
    destruct (state x1); unbind H;
      try (destruct (negb _); [done|]); by injection H as <- <-. }
  destruct (lj_type (lj h) =? DUK_LJ_TYPE_YIELD)%Z eqn:H2.
  { unfold handle_yield, wipe_and_return. intros H. unbind H.
    destruct (lj_iserror (lj h)); [done|]. unbind H. by injection H as <- <-. }
  destruct (lj_type (lj h) =? DUK_LJ_TYPE_RETURN)%Z eqn:H3.
  { apply Z.eqb_eq in H3.
    unfold handle_return, wipe_and_return. intros H.
    apply rbind_Ok in H as (t & Ht & H).
    destruct (return_scan _ _); try done.
    - unbind H. by injection H as <- <-.
    - destruct (bool_decide (thr = e) && (callstack_top t =? et)) eqn:Hentry.
      + apply at_entry_test in Hentry as [-> Htop].
        apply rbind_Ok in H as (t' & Hpush & H). injection H as <- <-.
        split; [done|]. split; [done|]. by exists t, t'.
      + destruct (2 <=? callstack_top t); unbind H; by injection H as <- <-. }
  destruct ((lj_type (lj h) =? DUK_LJ_TYPE_BREAK)
            || (lj_type (lj h) =? DUK_LJ_TYPE_CONTINUE))%Z eqn:H4.
  { unfold handle_break_continue, wipe_and_return, convert_to_internal_error.
    intros H. unbind H.
    destruct (rev (catchstack x)); [done|].
    destruct (break_scan _ _ _); try done; unbind H; by injection H as <- <-. }
  destruct (lj_type (lj h) =? DUK_LJ_TYPE_THROW)%Z eqn:H5; [|done].
  apply Z.eqb_eq in H5.
  unfold handle_throw, wipe_and_return, just_return. intros H.
  apply rbind_Ok in H as (t & Ht & H).
  destruct (throw_scan _ _ _); try done;
    try (unbind H; by injection H as <- <-).
  destruct (bool_decide (thr = e)) eqn:He.
  - apply bool_decide_eq_true in He. by injection H as <- <-.
  - by unbind H.
Qed.

(** What a pass that re-enters hands to the next one. *)
Lemma longjmp_once_again_cases h thr e et h' thr' :
  curr_thread h = thr ->
  duk__handle_longjmp_once h thr e et = Ok (LjAgain h' thr') ->
  curr_thread h' = thr'
  /\ lj_type (lj h') = DUK_LJ_TYPE_THROW
  /\ lj_value1 (lj h') = lj_value1 (lj h)
  /\ lj_type (lj h) <> DUK_LJ_TYPE_RETURN.
Proof.
  intros Hcur. unfold duk__handle_longjmp_once.
  destruct (lj_type (lj h) =? DUK_LJ_TYPE_RESUME)%Z eqn:H1.
  { apply Z.eqb_eq in H1.
    unfold handle_resume, wipe_and_return. intros H. unbind H.
    destruct (lj_iserror (lj h)).
    - injection H as <- <-. rewrite H1. done.
    - destruct (state x1); unbind H; try (destruct (negb _)); done. }
  destruct (lj_type (lj h) =? DUK_LJ_TYPE_YIELD)%Z eqn:H2.
  { apply Z.eqb_eq in H2.
    unfold handle_yield, wipe_and_return. intros H. unbind H.
    destruct (lj_iserror (lj h)).
    - injection H as <- <-. rewrite H2. done.
    - by unbind H. }
  destruct (lj_type (lj h) =? DUK_LJ_TYPE_RETURN)%Z eqn:H3.
  { unfold handle_return, wipe_and_return. intros H.
    apply rbind_Ok in H as (t & Ht & H).
    destruct (return_scan _ _); try done.
    - by unbind H.
    - destruct (_ && _); [by unbind H|].
      destruct (2 <=? callstack_top t); by unbind H. }
  destruct ((lj_type (lj h) =? DUK_LJ_TYPE_BREAK)
            || (lj_type (lj h) =? DUK_LJ_TYPE_CONTINUE))%Z eqn:H4.
  { unfold handle_break_continue, wipe_and_return, convert_to_internal_error.
    intros H. unbind H.
    destruct (rev (catchstack x)); [done|].
    destruct (break_scan _ _ _); try done; by unbind H. }
  destruct (lj_type (lj h) =? DUK_LJ_TYPE_THROW)%Z eqn:H5; [|done].
  apply Z.eqb_eq in H5.
  unfold handle_throw, wipe_and_return, just_return. intros H.
  apply rbind_Ok in H as (t & Ht & H).
  destruct (throw_scan _ _ _); try done; try (by unbind H).
  destruct (bool_decide (thr = e)); [done|]. unbind H.
  injection H as <- <-. rewrite H5. done.
Qed.

(** Property X5.  Whatever the longjmp handler is entered with, its three
    results mean what the executor assumes: RESTART leaves a wiped longjmp
    state; FINISHED happens only for a return in the entry thread at the
    entry call-stack level and leaves the return value pushed on that
    thread's value stack with call and catch stacks untouched; RETHROW
    leaves the entry thread current and the longjmp state a throw of the
    value the handler came in with. *)
Theorem handler_exit_discipline
    (fuel : nat) (h : duk_heap) (thr entry_thread entry_callstack_top : nat)
    (rv : duk_lj_retval) (h' : duk_heap) :
  curr_thread h = thr ->
  duk__handle_longjmp fuel h thr entry_thread entry_callstack_top = Ok (rv, h') ->
  match rv with
  | DUK__LONGJMP_RESTART =>
      (* dispatch goes on with a wiped longjmp state *)
      lj h' = lj_wiped
  | DUK__LONGJMP_FINISHED =>
      (* only a return at the entry level finishes the executor *)
      lj h' = lj_wiped
      /\ lj_type (lj h) = DUK_LJ_TYPE_RETURN
      /\ thr = entry_thread /\ curr_thread h' = entry_thread
      /\ exists t t',
           get_thread h entry_thread = Ok t
           /\ callstack_top t = entry_callstack_top
           /\ get_thread h' entry_thread = Ok t'
           /\ valstack_top t' = S (valstack_top t)
           /\ valstack t' !! valstack_top t = Some (lj_value1 (lj h))
           /\ callstack t' = callstack t /\ catchstack t' = catchstack t
  | DUK__LONGJMP_RETHROW =>
      (* an error leaves the executor from the entry thread, as a throw of
         the value it came in with *)
      curr_thread h' = entry_thread
      /\ lj_type (lj h') = DUK_LJ_TYPE_THROW
      /\ lj_value1 (lj h') = lj_value1 (lj h)
  end.
Proof.
  revert h thr. induction fuel as [|fuel IH]; intros h thr Hcur Hrun; [done|].
  cbn [duk__handle_longjmp] in Hrun.
  apply rbind_Ok in Hrun as ([rv1 h1 | h1 thr1] & Honce & Hrun).
  - injection Hrun as -> ->.
    pose proof (longjmp_once_return_cases _ _ _ _ _ _ Honce) as Hc.
    destruct rv; [done| |].
    + destruct Hc as (Hty & -> & t & t' & Ht & Htop & Hpush & ->).
      split; [done|]. split; [done|]. split; [done|]. split; [done|].
      exists t, t'. split; [done|]. split; [done|].
      rewrite get_thread_set_lj, get_put_thread_eq. split; [done|].
      apply duk_push_tval_inv in Hpush as [Hroom ->].
      simpl. split; [done|]. split; [|done].
      by apply list_lookup_insert_eq.
    + destruct Hc as (-> & -> & Hty). done.
  - destruct (longjmp_once_again_cases _ _ _ _ _ _ Hcur Honce)
      as (Hcur1 & Hty1 & Hv1 & Hnr).
    specialize (IH _ _ Hcur1 Hrun).
    destruct rv; [done| |].
    + destruct IH as (_ & Hty & _). rewrite Hty1 in Hty. done.
    + destruct IH as (H1 & H2 & H3). by rewrite <- Hv1.
Qed.

End Exits.

(** ** Errors across yield and resume; yield, then resume *)

Section ResumeErrors.
Context {E : duk_engine}.

(** Claim C10.  A YIELD longjmp with the iserror flag set: the yielding
    thread is left in the state YIELDED, with no resumer and its stacks
    untouched; the resumer becomes the running current thread, nothing is
    written to its value stack, and the handler runs again with the same
    value as a THROW in the resumer.  So a catch part around the resumer's
    resume() call takes it: the handler returns RESTART with the value in
    that catcher's register and the PC at the catch part, every other
    register of the frame (the one of the resume() call among them) as it
    was; a resumer that is the entry thread and has no catcher for it gets
    RETHROW.  In both cases the yielder is still YIELDED, and a later
    resume continues it after its yield() call. *)
Theorem yield_error_thrown_in_resumer
    (fuel : nat) (h : duk_heap) (thr entry_thread entry_callstack_top : nat)
    (t : duk_hthread) (r : nat) (rt : duk_hthread) :
  get_thread h thr = Ok t ->
  lj_type (lj h) = DUK_LJ_TYPE_YIELD ->
  lj_iserror (lj h) = true ->
  resumer t = Some r -> r <> thr ->
  get_thread h r = Ok rt ->
  let h' := set_lj_type DUK_LJ_TYPE_THROW (yield_switch thr r h) in
  (* handled again, as a throw, with the resumer as the current thread *)
  duk__handle_longjmp (S fuel) h thr entry_thread entry_callstack_top
  = duk__handle_longjmp fuel h' r entry_thread entry_callstack_top
  /\ curr_thread h' = r
  /\ lj_type (lj h') = DUK_LJ_TYPE_THROW
  /\ lj_value1 (lj h') = lj_value1 (lj h)
  /\ lj_iserror (lj h') = true
  (* the yielding thread: Yielded, no resumer, its stacks as they were *)
  /\ (exists t1, get_thread h' thr = Ok t1
        /\ state t1 = DUK_HTHREAD_STATE_YIELDED
        /\ resumer t1 = None
        /\ callstack t1 = callstack t /\ catchstack t1 = catchstack t
        /\ valstack t1 = valstack t)
  (* the resumer: Running, and no value was written into its stack *)
  /\ get_thread h' r = Ok (set_state DUK_HTHREAD_STATE_RUNNING rt)
  (* a catch part around the resumer's resume() call takes the error *)
  /\ (forall i cat act f,
        throw_scan (bool_decide (r = entry_thread)) entry_callstack_top
          (rev (catchstack rt)) = ScanCatch i ->
        catchstack rt !! i = Some cat ->
        catch_binding_enabled cat = false ->
        callstack rt !! callstack_index cat = Some act ->
        act_func act = Some (HCompiledFunction f) ->
        idx_base cat + 1 < idx_bottom act + nregs f ->
        idx_bottom act + nregs f <= valstack_top rt <= length (valstack rt) ->
        exists rt' h'',
          duk__handle_longjmp (S (S fuel)) h thr entry_thread entry_callstack_top
          = Ok (DUK__LONGJMP_RESTART, h'')
          /\ curr_thread h'' = r
          /\ lj h'' = lj_wiped
          /\ get_thread h'' r = Ok rt'
          /\ state rt' = DUK_HTHREAD_STATE_RUNNING
          /\ valstack rt' !! idx_base cat = Some (lj_value1 (lj h))
          /\ valstack rt' !! (idx_base cat + 1)
             = Some (TvNumber (Dbl.of_int DUK_LJ_TYPE_THROW))
          /\ (forall j, j < idx_bottom act + nregs f ->
                        j <> idx_base cat -> j <> idx_base cat + 1 ->
                        valstack rt' !! j = valstack rt !! j)
          /\ callstack rt'
             = take (callstack_index cat) (callstack rt)
               ++ [set_pc (pc_base cat) act]
          /\ catchstack rt'
             = take i (catchstack rt) ++ [DUK_CAT_CLEAR_CATCH_ENABLED cat]
          /\ get_thread h'' thr
             = Ok (set_resumer None (set_state DUK_HTHREAD_STATE_YIELDED t)))
  (* a resumer that is the entry thread and does not catch it: rethrow *)
  /\ (forall k,
        r = entry_thread ->
        throw_scan true entry_callstack_top (rev (catchstack rt)) = ScanEnd k ->
        duk__handle_longjmp (S (S fuel)) h thr entry_thread entry_callstack_top
        = Ok (DUK__LONGJMP_RETHROW, h'))
  (* the thread can be resumed again: it goes on after its yield() call *)
  /\ (forall (fuel2 : nat) (h2 : duk_heap) (r2 : nat) (t2 : duk_hthread)
             (act : duk_activation) (f : duk_hcompiledfunction),
        get_thread h2 thr
        = Ok (set_resumer None (set_state DUK_HTHREAD_STATE_YIELDED t)) ->
        get_thread h2 r2 = Ok t2 -> r2 <> thr ->
        lj_type (lj h2) = DUK_LJ_TYPE_RESUME ->
        lj_iserror (lj h2) = false ->
        lj_value2 (lj h2) = TvObject thr ->
        2 <= callstack_top t ->
        callstack t !! (callstack_top t - 2) = Some act ->
        can_return_into act f t ->
        exists (t' : duk_hthread) (h3 : duk_heap),
          duk__handle_longjmp (S fuel2) h2 r2 entry_thread entry_callstack_top
          = Ok (DUK__LONGJMP_RESTART, h3)
          /\ curr_thread h3 = thr
          /\ get_thread h3 thr = Ok t'
          /\ state t' = DUK_HTHREAD_STATE_RUNNING
          /\ resumer t' = Some r2
          /\ returned_into (lj_value1 (lj h2)) act f t'
          /\ callstack t' = take (callstack_top t - 1) (callstack t)
          /\ catchstack t' = catchstack t).
Proof.
  intros Ht Hty Herr Hres Hr Hrt h'.
  assert (Honce : duk__handle_longjmp_once h thr entry_thread entry_callstack_top
                  = Ok (LjAgain h' r)).
  { rewrite longjmp_once_yield by done. unfold handle_yield.
    rewrite Ht. cbn [rbind]. rewrite Hres. cbn [deref rbind].
    rewrite Hrt. cbn [rbind]. by rewrite Herr. }
  destruct (yield_switch_spec h thr r t rt ltac:(congruence) Ht Hrt)
    as (Hcur & Hlj & Hthr & Hrthr & _).
  assert (Hthr' : get_thread h' thr
                  = Ok (set_resumer None (set_state DUK_HTHREAD_STATE_YIELDED t)))
    by done.
  assert (Hrthr' : get_thread h' r = Ok (set_state DUK_HTHREAD_STATE_RUNNING rt))
    by done.
  split; [by apply handle_longjmp_again|].
  split; [done|]. split; [done|]. split; [done|]. split; [done|].
  split; [eexists; split; [exact Hthr|done]|].
  split; [done|].
  split; [|split].
  - intros i cat act f Hscan Hcat Hbind Hact Hf Hslot Htop.
    rewrite (handle_longjmp_again (S fuel) _ _ _ _ _ _ Honce).
    destruct (handle_throw_caught h' r entry_thread entry_callstack_top
                (set_state DUK_HTHREAD_STATE_RUNNING rt) i cat act f
                Hrthr' eq_refl Hscan Hcat Hbind Hact Hf Hslot Htop)
      as (rt' & Hrun & Hst & _ & _ & _ & Hv & Hty' & Hkeep & Hcs & Hcat').
    eexists rt', _. split; [by apply handle_longjmp_return|].
    split; [done|]. split; [done|].
    rewrite !get_thread_set_lj.
    split; [apply get_put_thread_eq|].
    split; [done|]. split; [done|]. split; [done|]. split; [done|].
    split; [done|]. split; [done|].
    by rewrite get_put_thread_ne.
  - intros k Hentry Hscan.
    rewrite (handle_longjmp_again (S fuel) _ _ _ _ _ _ Honce).
    apply handle_longjmp_return.
    rewrite longjmp_once_throw by done. unfold handle_throw.
    rewrite Hrthr'. cbn [rbind catchstack set_state].
    rewrite (bool_decide_eq_true_2 _ Hentry), Hscan. done.
  - intros fuel2 h2 r2 t2 act f Hsame Ht2 Hne2 Hty2 Herr2 Hv2 Htop Hact Hcan.
    destruct (handle_resume_delivers h2 r2 entry_thread entry_callstack_top
                t2 thr _ act f Ht2 Hty2 Herr2 Hv2 ltac:(congruence) Hsame)
      as (t' & h3 & Hrun3 & _ & Hcur3 & Ht' & Hret & Hst & Hresr & Hcs & Hcat & _);
      try done.
    exists t', h3. split; [by apply handle_longjmp_return|done].
Qed.

(** Property X4.  A resume with the error flag does not deliver a value: the
    handler switches to the resumee and handles the same value again as a
    throw there. If a catch part of the resumee takes it, the handler
    returns RESTART with the value in that catcher's register, the resumee
    Running with the resuming thread as its resumer and the resuming thread
    Resumed. If the resumee is not the entry thread and has no catcher that
    takes the throw, it is terminated with empty stacks and the throw is
    handled once more in the resuming thread, which is Running again: a
    catch part around its resume() call takes the value in its register and
    the handler returns RESTART, and an entry thread without a catcher for
    it gets RETHROW. *)
Theorem resume_error_thrown_in_resumee
    (fuel : nat) (h : duk_heap) (thr entry_thread entry_callstack_top : nat)
    (t : duk_hthread) (p : nat) (rt : duk_hthread) :
  get_thread h thr = Ok t ->
  lj_type (lj h) = DUK_LJ_TYPE_RESUME ->
  lj_iserror (lj h) = true ->
  lj_value2 (lj h) = TvObject p -> p <> thr ->
  get_thread h p = Ok rt ->
  let h1 := set_lj_type DUK_LJ_TYPE_THROW (resume_switch thr p h) in
  (* handled again, as a throw, with the resumee as the current thread *)
  duk__handle_longjmp (S fuel) h thr entry_thread entry_callstack_top
  = duk__handle_longjmp fuel h1 p entry_thread entry_callstack_top
  /\ curr_thread h1 = p
  /\ lj_type (lj h1) = DUK_LJ_TYPE_THROW
  /\ lj_value1 (lj h1) = lj_value1 (lj h)
  /\ get_thread h1 p
     = Ok (set_state DUK_HTHREAD_STATE_RUNNING (set_resumer (Some thr) rt))
  /\ get_thread h1 thr = Ok (set_state DUK_HTHREAD_STATE_RESUMED t)
  (* a resumee without a catcher for it ends, and the error comes back *)
  /\ (forall k,
        p <> entry_thread ->
        throw_scan false entry_callstack_top (rev (catchstack rt)) = ScanEnd k ->
        let h2 := terminate_switch p thr h1 in
        duk__handle_longjmp (S (S fuel)) h thr entry_thread entry_callstack_top
        = duk__handle_longjmp fuel h2 thr entry_thread entry_callstack_top
        /\ curr_thread h2 = thr
        /\ lj_type (lj h2) = DUK_LJ_TYPE_THROW
        /\ lj_value1 (lj h2) = lj_value1 (lj h)
        /\ get_thread h2 thr
           = Ok (set_state DUK_HTHREAD_STATE_RUNNING
                   (set_state DUK_HTHREAD_STATE_RESUMED t))
        /\ (exists t1, get_thread h2 p = Ok t1
             /\ state t1 = DUK_HTHREAD_STATE_TERMINATED
             /\ resumer t1 = None
             /\ callstack t1 = [] /\ catchstack t1 = [])
        (* a catch part around the resume() call takes it *)
        /\ (forall i cat act f,
              throw_scan (bool_decide (thr = entry_thread)) entry_callstack_top
                (rev (catchstack t)) = ScanCatch i ->
              catchstack t !! i = Some cat ->
              catch_binding_enabled cat = false ->
              callstack t !! callstack_index cat = Some act ->
              act_func act = Some (HCompiledFunction f) ->
              idx_base cat + 1 < idx_bottom act + nregs f ->
              idx_bottom act + nregs f <= valstack_top t <= length (valstack t) ->
              exists t' h3,
                duk__handle_longjmp (S (S (S fuel))) h thr
                  entry_thread entry_callstack_top
                = Ok (DUK__LONGJMP_RESTART, h3)
                /\ curr_thread h3 = thr
                /\ lj h3 = lj_wiped
                /\ get_thread h3 thr = Ok t'
                /\ state t' = DUK_HTHREAD_STATE_RUNNING
                /\ valstack t' !! idx_base cat = Some (lj_value1 (lj h))
                /\ (forall j, j < idx_bottom act + nregs f ->
                              j <> idx_base cat -> j <> idx_base cat + 1 ->
                              valstack t' !! j = valstack t !! j)
                /\ callstack t'
                   = take (callstack_index cat) (callstack t)
                     ++ [set_pc (pc_base cat) act]
                /\ catchstack t'
                   = take i (catchstack t) ++ [DUK_CAT_CLEAR_CATCH_ENABLED cat]
                /\ get_thread h3 p
                   = Ok (set_resumer None
                           (duk_hthread_terminate
                              (set_state DUK_HTHREAD_STATE_RUNNING
                                 (set_resumer (Some thr) rt)))))
        (* the entry thread without a catcher for it: rethrow *)
        /\ (forall k',
              thr = entry_thread ->
              throw_scan true entry_callstack_top (rev (catchstack t))
              = ScanEnd k' ->
              duk__handle_longjmp (S (S (S fuel))) h thr
                entry_thread entry_callstack_top
              = Ok (DUK__LONGJMP_RETHROW, h2)))
  (* a catch part of the resumee takes it: the resumee runs its catch
     part, the resuming thread waits *)
  /\ (forall i cat act f,
        throw_scan (bool_decide (p = entry_thread)) entry_callstack_top
          (rev (catchstack rt)) = ScanCatch i ->
        catchstack rt !! i = Some cat ->
        catch_binding_enabled cat = false ->
        callstack rt !! callstack_index cat = Some act ->
        act_func act = Some (HCompiledFunction f) ->
        idx_base cat + 1 < idx_bottom act + nregs f ->
        idx_bottom act + nregs f <= valstack_top rt <= length (valstack rt) ->
        exists rt' h'',
          duk__handle_longjmp (S (S fuel)) h thr entry_thread entry_callstack_top
          = Ok (DUK__LONGJMP_RESTART, h'')
          /\ curr_thread h'' = p
          /\ lj h'' = lj_wiped
          /\ get_thread h'' p = Ok rt'
          /\ state rt' = DUK_HTHREAD_STATE_RUNNING
          /\ resumer rt' = Some thr
          /\ valstack rt' !! idx_base cat = Some (lj_value1 (lj h))
          /\ (forall j, j < idx_bottom act + nregs f ->
                        j <> idx_base cat -> j <> idx_base cat + 1 ->
                        valstack rt' !! j = valstack rt !! j)
          /\ callstack rt'
             = take (callstack_index cat) (callstack rt)
               ++ [set_pc (pc_base cat) act]
          /\ catchstack rt'
             = take i (catchstack rt) ++ [DUK_CAT_CLEAR_CATCH_ENABLED cat]
          /\ get_thread h'' thr = Ok (set_state DUK_HTHREAD_STATE_RESUMED t)).
Proof.
  intros Ht Hty Herr Hv2 Hne Hrt h1.
  assert (Honce : duk__handle_longjmp_once h thr entry_thread entry_callstack_top
                  = Ok (LjAgain h1 p)).
  { rewrite longjmp_once_resume by done. unfold handle_resume.
    rewrite Ht. cbn [rbind]. rewrite Hv2. cbn [rbind].
    rewrite Hrt. cbn [rbind]. by rewrite Herr. }
  destruct (resume_switch_spec h thr p t rt ltac:(congruence) Ht Hrt)
    as (Hcur & Hlj & Hp & Hthr & _).
  assert (Hval : lj_value1 (lj h1) = lj_value1 (lj h)).
  { change (lj_value1 (lj h1)) with (lj_value1 (lj (resume_switch thr p h))).
    by rewrite Hlj. }
  assert (Hp1 : get_thread h1 p
                = Ok (set_state DUK_HTHREAD_STATE_RUNNING (set_resumer (Some thr) rt)))
    by (unfold h1, set_lj_type; by rewrite get_thread_set_lj).
  assert (Ht1 : get_thread h1 thr = Ok (set_state DUK_HTHREAD_STATE_RESUMED t))
    by (unfold h1, set_lj_type; by rewrite get_thread_set_lj).
  split; [by apply handle_longjmp_again|].
  split; [done|]. split; [done|]. split; [done|].
  split; [done|]. split; [done|].
  split.
  - intros k Hpe Hscan h2.
    assert (Honce2 : duk__handle_longjmp_once h1 p entry_thread entry_callstack_top
                     = Ok (LjAgain h2 thr)).
    { rewrite longjmp_once_throw by done. unfold handle_throw.
      rewrite Hp1. cbn [rbind catchstack set_state set_resumer].
      rewrite bool_decide_eq_false_2 by done. rewrite Hscan.
      cbn [resumer set_state set_resumer deref rbind]. by rewrite Ht1. }
    assert (Hrun2 : forall n,
               duk__handle_longjmp (S (S n)) h thr entry_thread entry_callstack_top
               = duk__handle_longjmp n h2 thr entry_thread entry_callstack_top).
    { intros n. rewrite (handle_longjmp_again _ _ _ _ _ _ _ Honce).
      by apply handle_longjmp_again. }
    destruct (terminate_switch_spec h1 p thr _ _ Hne Hp1 Ht1)
      as (Hcur2 & Hlj2 & Hp2 & Hthr2 & _).
    fold h2 in Hcur2, Hlj2, Hp2, Hthr2.
    split; [apply Hrun2|].
    split; [done|].
    split; [by rewrite Hlj2|].
    split; [by rewrite Hlj2|].
    split; [done|].
    split; [eexists; split; [exact Hp2|done]|].
    split.
    + intros i cat act f Hscan' Hcat Hbind Hact Hf Hslot Htop.
      rewrite Hrun2.
      destruct (handle_throw_caught h2 thr entry_thread entry_callstack_top
                  _ i cat act f Hthr2 ltac:(by rewrite Hlj2)
                  Hscan' Hcat Hbind Hact Hf Hslot Htop)
        as (t' & Hrun & Hst & _ & _ & _ & Hv & _ & Hkeep & Hcs & Hcat').
      eexists t', _. split; [by apply handle_longjmp_return|].
      split; [done|]. split; [done|].
      rewrite !get_thread_set_lj.
      split; [apply get_put_thread_eq|].
      split; [done|].
      split; [by rewrite Hv, Hlj2, Hval|].
      split; [done|]. split; [done|]. split; [done|].
      rewrite get_put_thread_ne by congruence. done.
    + intros k' Hentry Hscan'.
      rewrite Hrun2. apply handle_longjmp_return.
      rewrite longjmp_once_throw by (by rewrite Hlj2). unfold handle_throw.
      rewrite Hthr2. cbn [rbind catchstack set_state].
      rewrite (bool_decide_eq_true_2 _ Hentry), Hscan'. done.
  - intros i cat act f Hscan Hcat Hbind Hact Hf Hslot Htop.
    rewrite (handle_longjmp_again (S fuel) _ _ _ _ _ _ Honce).
    destruct (handle_throw_caught h1 p entry_thread entry_callstack_top
                _ i cat act f Hp1 eq_refl Hscan Hcat Hbind Hact Hf Hslot Htop)
      as (rt' & Hrun & Hst & Hresr & _ & _ & Hv & _ & Hkeep & Hcs & Hcat').
    eexists rt', _. split; [by apply handle_longjmp_return|].
    split; [done|]. split; [done|].
    rewrite !get_thread_set_lj.
    split; [apply get_put_thread_eq|].
    split; [done|]. split; [done|].
    split; [by rewrite Hv, Hval|].
    split; [done|]. split; [done|]. split; [done|].
    rewrite get_put_thread_ne by done. done.
Qed.

(** Property X3.  Yield and resume compose: after a thread has yielded a
    value, any later resume of it (while it is as the yield left it)
    continues it after its yield() call, with the resume value in the
    register named by that call, its call stack shortened by the yield()
    frame only and its catch stack as before the yield. *)
Theorem yield_then_resume
    (fuel : nat) (h : duk_heap) (thr entry_thread entry_callstack_top : nat)
    (t : duk_hthread) (r : nat) (rt : duk_hthread)
    (ract : duk_activation) (rf : duk_hcompiledfunction)
    (act : duk_activation) (f : duk_hcompiledfunction) :
  get_thread h thr = Ok t ->
  lj_type (lj h) = DUK_LJ_TYPE_YIELD ->
  lj_iserror (lj h) = false ->
  resumer t = Some r -> r <> thr ->
  get_thread h r = Ok rt ->
  2 <= callstack_top rt ->
  callstack rt !! (callstack_top rt - 2) = Some ract ->
  can_return_into ract rf rt ->
  (* the activation that called yield() *)
  2 <= callstack_top t ->
  callstack t !! (callstack_top t - 2) = Some act ->
  can_return_into act f t ->
  exists h1 : duk_heap,
    duk__handle_longjmp (S fuel) h thr entry_thread entry_callstack_top
    = Ok (DUK__LONGJMP_RESTART, h1)
    /\ forall (fuel2 : nat) (h2 : duk_heap) (r2 : nat) (t2 : duk_hthread),
         (* whoever resumes the thread while it is as the yield left it *)
         get_thread h2 thr = get_thread h1 thr ->
         get_thread h2 r2 = Ok t2 -> r2 <> thr ->
         lj_type (lj h2) = DUK_LJ_TYPE_RESUME ->
         lj_iserror (lj h2) = false ->
         lj_value2 (lj h2) = TvObject thr ->
         exists (t' : duk_hthread) (h3 : duk_heap),
           duk__handle_longjmp (S fuel2) h2 r2 entry_thread entry_callstack_top
           = Ok (DUK__LONGJMP_RESTART, h3)
           /\ curr_thread h3 = thr
           /\ get_thread h3 thr = Ok t'
           /\ returned_into (lj_value1 (lj h2)) act f t'
           /\ state t' = DUK_HTHREAD_STATE_RUNNING
           /\ resumer t' = Some r2
           /\ callstack t' = take (callstack_top t - 1) (callstack t)
           /\ catchstack t' = catchstack t.
Proof.
  intros Ht Hty Herr Hres Hne Hrt Hrtop Hract Hrcan Htop Hact Hcan.
  destruct (handle_yield_delivers h thr entry_thread entry_callstack_top
              t r rt ract rf) as (rt' & h1 & Hrun & _ & _ & _ & _ & _ & _ & _ & Hthr & _);
    try done.
  exists h1. split; [by apply handle_longjmp_return|].
  intros fuel2 h2 r2 t2 Hsame Ht2 Hne2 Hty2 Herr2 Hv2.
  rewrite Hthr in Hsame.
  destruct (handle_resume_delivers h2 r2 entry_thread entry_callstack_top
              t2 thr _ act f Ht2 Hty2 Herr2 Hv2 ltac:(congruence) Hsame)
    as (t' & h3 & Hrun3 & _ & Hcur & Ht' & Hret & Hst & Hresr & Hcs & Hcat & _);
    try done.
  exists t', h3. split; [by apply handle_longjmp_return|done].
Qed.

End ResumeErrors.

(** ** Throw: the nearest catcher and the entry level *)

Section Throws.
Context {E : duk_engine}.

(** Property X6.  A throw is taken by the topmost catcher that has a part
    enabled: when that is a catch part without a catch variable binding,
    every catcher above it has both parts disabled, the value lands in the
    catcher's first register, the activations and catchers above the catcher
    are unwound, execution continues at the first jump slot, and the
    catcher's catch part is disabled, so that a throw from inside the catch
    clause goes to its finally part or further down. *)
Theorem throw_taken_by_nearest_catch
    (fuel : nat) (h : duk_heap) (thr entry_thread entry_callstack_top : nat)
    (t : duk_hthread) (i : nat) (cat : duk_catcher)
    (act : duk_activation) (f : duk_hcompiledfunction) :
  get_thread h thr = Ok t ->
  lj_type (lj h) = DUK_LJ_TYPE_THROW ->
  throw_scan (bool_decide (thr = entry_thread)) entry_callstack_top
    (rev (catchstack t)) = ScanCatch i ->
  catchstack t !! i = Some cat ->
  catch_binding_enabled cat = false ->
  callstack t !! callstack_index cat = Some act ->
  act_func act = Some (HCompiledFunction f) ->
  idx_base cat + 1 < idx_bottom act + nregs f ->
  idx_bottom act + nregs f <= valstack_top t <= length (valstack t) ->
  exists t' : duk_hthread,
    duk__handle_longjmp (S fuel) h thr entry_thread entry_callstack_top
    = Ok (DUK__LONGJMP_RESTART, set_lj lj_wiped (put_thread thr t' h))
    (* it is the topmost catcher with a part enabled, and its catch part *)
    /\ catch_enabled cat = true
    /\ (forall j c, i < j -> catchstack t !! j = Some c ->
                    catch_enabled c = false /\ finally_enabled c = false)
    (* the value, in the catcher's first register *)
    /\ valstack t' !! idx_base cat = Some (lj_value1 (lj h))
    (* the activations above the catcher's are gone, and so are the
       catchers above it; execution goes on at the first jump slot *)
    /\ callstack t'
       = take (callstack_index cat) (callstack t) ++ [set_pc (pc_base cat) act]
    /\ catchstack t'
       = take i (catchstack t) ++ [DUK_CAT_CLEAR_CATCH_ENABLED cat]
    /\ valstack_bottom t' = idx_bottom act
    /\ duk_get_top t' = nregs f
    (* a throw from inside the catch clause is not caught by it again *)
    /\ throw_scan (bool_decide (thr = entry_thread)) entry_callstack_top
         (rev (catchstack t'))
       = if finally_enabled cat then ScanFinally i
         else throw_scan (bool_decide (thr = entry_thread)) entry_callstack_top
                (rev (take i (catchstack t))).
Proof.
  intros Ht Hty Hscan Hcat Hbind Hact Hf Hslot Htop.
  pose proof (throw_scan_spec (bool_decide (thr = entry_thread))
                entry_callstack_top (catchstack t)) as Hspec.
  rewrite Hscan in Hspec. destruct Hspec as (cat0 & Hcat0 & Hlev & Hen & Habove).
  assert (cat0 = cat) as -> by congruence.
  destruct (handle_catch_or_finally_ok (lj h) i false t cat act f)
    as (vs & Hh & Hvl & Hslots & _); try done; try lia.
  destruct Hslots as [Hs0 _]; [lia..|].
  assert (Honce : duk__handle_longjmp_once h thr entry_thread entry_callstack_top
                  = handle_throw h thr entry_thread entry_callstack_top)
    by (by apply longjmp_once_throw).
  unfold handle_throw in Honce. rewrite Ht in Honce. cbn [rbind] in Honce.
  rewrite Hscan, Hh in Honce. cbn [rbind] in Honce. unfold wipe_and_return in Honce.
  eexists. split; [by apply handle_longjmp_return|].
  split; [done|].
  split.
  { intros j c Hj Hc. destruct (Habove j c Hj Hc) as (_ & ? & ?). done. }
  cbn [valstack callstack catchstack valstack_bottom].
  split; [done|]. split; [by rewrite Nat.add_0_r|]. split; [done|].
  split; [done|].
  split; [unfold duk_get_top; simpl; lia|].
  rewrite rev_snoc.
  cbn [throw_scan callstack_index catch_enabled finally_enabled
         DUK_CAT_CLEAR_CATCH_ENABLED].
  rewrite Hlev.
  rewrite length_rev, length_take_le; [done|].
  apply lookup_lt_Some in Hcat. lia.
Qed.

(** What a successful [duk__handle_catch_or_finally] has done to the call
    stack: nothing below the catcher's activation. *)
Lemma handle_catch_or_finally_callstack l cat_idx is_finally t t' :
  duk__handle_catch_or_finally l cat_idx is_finally t = Ok t' ->
  exists cat, catchstack t !! cat_idx = Some cat
    /\ length (callstack t')
       = Nat.min (callstack_index cat + 1) (length (callstack t))
    /\ (forall j, j < callstack_index cat -> j + 1 < length (callstack t) ->
                  callstack t' !! j = callstack t !! j)
    /\ (forall j, j < cat_idx -> catchstack t' !! j = catchstack t !! j).
Proof.
  unfold duk__handle_catch_or_finally. intros H.
  apply rbind_Ok in H as (cat & Hcat & H).
  destruct (catchstack t !! cat_idx) as [c0|] eqn:Hc; [|done].
  injection Hcat as ->.
  exists cat. split; [done|].
  apply rbind_Ok in H as (t1 & H1 & H).
  apply rbind_Ok in H as (t2 & H2 & H).
  apply rbind_Ok in H as (act & Hact & H).
  apply rbind_Ok in H as (fn & Hfn & H).
  apply rbind_Ok in H as (t3 & H3 & H).
  apply rbind_Ok in H as (t4 & H4 & H).
  injection H as <-.
  assert (W1 : callstack t1 = callstack t /\ catchstack t1 = catchstack t).
  { unfold write_valstack in H1. destruct (_ <? _); [|done]. by injection H1 as <-. }
  assert (W2 : callstack t2 = callstack t /\ catchstack t2 = catchstack t).
  { unfold write_valstack in H2. destruct (_ <? _); [|done]. injection H2 as <-.
    simpl. done. }
  destruct W2 as [Wcs Wcat].
  set (t2' := duk_hthread_callstack_unwind (callstack_index cat + 1)
                (duk_hthread_catchstack_unwind (cat_idx + 1) t2)) in *.
  assert (Hcs2 : callstack t2' = take (callstack_index cat + 1) (callstack t))
    by (simpl; by rewrite Wcs).
  assert (Hcat2 : catchstack t2' = take (cat_idx + 1) (catchstack t))
    by (simpl; by rewrite Wcat).
  assert (S3 : callstack t3 = callstack t2' /\ catchstack t3 = catchstack t2').
  { unfold duk_set_top in H3. destruct (_ || _)%Z; [done|].
    destruct (_ <=? _); by injection H3 as <-. }
  destruct S3 as [S3cs S3cat].
  set (t3' := upd_top_act _ t3) in *.
  assert (Hcs3 : callstack t3'
                 = alter (set_pc (pc_base cat + (if is_finally then 1 else 0)))
                     (length (callstack t2') - 1) (callstack t2')).
  { unfold t3', upd_top_act, callstack_top. simpl. by rewrite S3cs. }
  assert (Hcat3 : catchstack t3' = catchstack t2') by done.
  assert (H4' : length (callstack t4) = length (callstack t3')
                /\ (forall j, j <> length (callstack t2') - 1 ->
                              callstack t4 !! j = callstack t3' !! j)
                /\ (forall j, j <> cat_idx ->
                              catchstack t4 !! j = catchstack t3' !! j)).
  { destruct (negb is_finally && catch_binding_enabled cat).
    - unfold catch_binding in H4.
      apply rbind_Ok in H4 as (a0 & Ha0 & H4).
      destruct (_ <? _); [done|].
      apply rbind_Ok in H4 as (c0 & Hc0 & H4).
      apply rbind_Ok in H4 as (vn & Hvn & H4).
      injection H4 as <-.
      unfold upd_cat, upd_top_act, callstack_top.
      cbn [callstack catchstack set_valstack set_callstack set_catchstack].
      rewrite !length_alter, Hcs3, !length_alter.
      split; [done|]. split.
      + intros j Hj. by rewrite !list_lookup_alter_ne by lia.
      + intros j Hj. by rewrite !list_lookup_alter_ne by lia.
    - by injection H4 as <-. }
  destruct H4' as (Hlen4 & Hcs4 & Hcat4).
  unfold upd_cat. cbn [callstack catchstack set_catchstack].
  rewrite Hlen4, Hcs3, length_alter, Hcs2, length_take.
  split; [done|]. split.
  - intros j Hj Hlt.
    rewrite Hcs4 by (rewrite Hcs2, length_take; lia).
    rewrite Hcs3, Hcs2.
    rewrite list_lookup_alter_ne by (rewrite length_take; lia).
    apply lookup_take_lt. lia.
  - intros j Hj. rewrite list_lookup_alter_ne by lia.
    rewrite Hcat4 by lia. rewrite Hcat3, Hcat2.
    apply lookup_take_lt. lia.
Qed.

(** Property X7.  A throw handled in the entry thread never unwinds below
    the executor's entry level: whatever the result, the call stack keeps at
    least entry_callstack_top activations, the activations below the entry
    activation are unchanged, and so are the catchers that belong to them. *)
Theorem throw_stays_above_entry_level
    (fuel : nat) (h h' : duk_heap) (entry_thread entry_callstack_top : nat)
    (rv : duk_lj_retval) (t : duk_hthread) :
  get_thread h entry_thread = Ok t ->
  lj_type (lj h) = DUK_LJ_TYPE_THROW ->
  1 <= entry_callstack_top <= callstack_top t ->
  duk__handle_longjmp (S fuel) h entry_thread entry_thread entry_callstack_top
  = Ok (rv, h') ->
  exists t' : duk_hthread,
    get_thread h' entry_thread = Ok t'
    /\ entry_callstack_top <= callstack_top t'
    (* the activations of the executor's callers are as they were *)
    /\ (forall j, j < entry_callstack_top - 1 ->
                  callstack t' !! j = callstack t !! j)
    (* and so are the catchers below the one that took the throw, which
       is none of theirs *)
    /\ (forall j c, catchstack t !! j = Some c ->
                    callstack_index c < entry_callstack_top - 1 ->
                    catchstack t' !! j = Some c).
Proof.
  intros Ht Hty Het Hrun.
  cbn [duk__handle_longjmp] in Hrun.
  apply rbind_Ok in Hrun as (s & Honce & Hrun).
  rewrite longjmp_once_throw in Honce by done.
  unfold handle_throw in Honce. rewrite Ht in Honce. cbn [rbind] in Honce.
  rewrite bool_decide_eq_true_2 in Honce by done.
  unfold wipe_and_return, just_return in Honce.
  pose proof (throw_scan_spec true entry_callstack_top (catchstack t)) as Hspec.
  assert (Hlev : forall c, lt_size_pred (callstack_index c) entry_callstack_top = false ->
                   entry_callstack_top - 1 <= callstack_index c).
  { intros c Hc. unfold lt_size_pred in Hc.
    destruct entry_callstack_top as [|n]; [done|].
    apply Nat.ltb_ge in Hc. lia. }
  assert (Hgen : forall i is_finally cat t',
             catchstack t !! i = Some cat ->
             lt_size_pred (callstack_index cat) entry_callstack_top = false ->
             (forall j c, i < j -> catchstack t !! j = Some c ->
                          throw_skips true entry_callstack_top c) ->
             duk__handle_catch_or_finally (lj h) i is_finally t = Ok t' ->
             entry_callstack_top <= callstack_top t'
             /\ (forall j, j < entry_callstack_top - 1 ->
                           callstack t' !! j = callstack t !! j)
             /\ (forall j c, catchstack t !! j = Some c ->
                             callstack_index c < entry_callstack_top - 1 ->
                             catchstack t' !! j = Some c)).
  { intros i is_finally cat t' Hcat Hl Habove Hh.
    apply Hlev in Hl.
    destruct (handle_catch_or_finally_callstack _ _ _ _ _ Hh)
      as (cat' & Hcat' & Hlen & Hcs & Hcats).
    assert (cat' = cat) as -> by congruence.
    unfold callstack_top in *.
    split; [lia|]. split; [intros j Hj; apply Hcs; lia|].
    intros j c Hc Hidx.
    destruct (Nat.lt_trichotomy j i) as [Hlt | [-> | Hgt]].
    - by rewrite Hcats.
    - assert (c = cat) as -> by congruence. lia.
    - destruct (Habove j c Hgt Hc) as (Hskip & _).
      simpl in Hskip. apply Hlev in Hskip. lia. }
  destruct (throw_scan true entry_callstack_top (rev (catchstack t)))
    as [i | i | | k] eqn:Hscan; try done.
  - destruct Hspec as (cat & Hcat & Hl & _ & Habove). simpl in Hl.
    apply rbind_Ok in Honce as (t' & Hh & Honce). injection Honce as <-.
    injection Hrun as <- <-.
    exists t'. rewrite get_thread_set_lj, get_put_thread_eq.
    split; [done|]. by eapply Hgen.
  - destruct Hspec as (cat & Hcat & Hl & _ & _ & Habove). simpl in Hl.
    apply rbind_Ok in Honce as (t' & Hh & Honce). injection Honce as <-.
    injection Hrun as <- <-.
    exists t'. rewrite get_thread_set_lj, get_put_thread_eq.
    split; [done|]. by eapply Hgen.
  - injection Honce as <-. injection Hrun as <- <-.
    exists t. split; [done|]. split; [lia|done].
Qed.

End Throws.

(** ** RETURN and the handler *)

Section Returns.
Context {E : duk_engine}.

Lemma get_thread_raised thr ty v t h :
  get_thread (raised thr ty v t h) thr
  = Ok (set_valstack (<[valstack_top t := TvUndefinedUnused]>
                        (<[valstack_top t := v]> (valstack t))) t).
Proof. unfold raised. apply get_put_thread_eq. Qed.



End Returns.

(** ** What arithmetic instructions leave alone *)

Section ArithFrame.
Context {A : duk_arith} {E : duk_engine}.

(** The slots in use and the thread's other fields across temporaries. *)
Lemma push_pop_kept x t t' :
  push_pop x t = Ok t' ->
  state t' = state t /\ resumer t' = resumer t
  /\ valstack_max t' = valstack_max t
  /\ forall i, i < valstack_top t -> valstack t' !! i = valstack t !! i.
Proof.
  unfold push_pop. intros H.
  apply rbind_Ok in H as (t1 & H1 & H2).
  apply duk_push_tval_inv in H1 as [? ->].
  apply duk_pop_inv in H2 as [? ->].
  do 3 (split; [done|]). intros i Hi. simpl.
  by rewrite !list_lookup_insert_ne by lia.
Qed.

Lemma push_pop_2_kept x y t t' :
  push_pop_2 x y t = Ok t' ->
  state t' = state t /\ resumer t' = resumer t
  /\ valstack_max t' = valstack_max t
  /\ forall i, i < valstack_top t -> valstack t' !! i = valstack t !! i.
Proof.
  unfold push_pop_2. intros H.
  apply rbind_Ok in H as (t1 & H1 & H).
  apply rbind_Ok in H as (t2 & H2 & H).
  apply rbind_Ok in H as (t3 & H3 & H4).
  apply duk_push_tval_inv in H1 as [? ->].
  apply duk_push_tval_inv in H2 as [? ->].
  apply duk_pop_inv in H3 as [? ->].
  apply duk_pop_inv in H4 as [? ->].
  do 3 (split; [done|]). intros i Hi. simpl.
  by rewrite !list_lookup_insert_ne by lia.
Qed.

Lemma store_reg_only idx_z v t0 t t' :
  same_frame t0 t ->
  state t = state t0 /\ resumer t = resumer t0
  /\ valstack_max t = valstack_max t0
  /\ (forall i, i < valstack_top t0 -> valstack t !! i = valstack t0 !! i) ->
  store_reg idx_z v t = Ok t' ->
  only_register_changed idx_z t0 t'.
Proof.
  intros (Hb & Htop & Hlen & Hcs & Hcat) (Hst & Hres & Hmax & Hkeep).
  unfold store_reg, write_valstack.
  destruct (Nat.ltb_spec (valstack_bottom t + idx_z) (length (valstack t)));
    [|done].
  intros [= <-]. repeat split; try done.
  - simpl. by rewrite length_insert.
  - intros i Hi Hne. simpl. rewrite list_lookup_insert_ne by lia. by apply Hkeep.
Qed.

Lemma replace_only idx_z v t0 t t' :
  same_frame t0 t ->
  state t = state t0 /\ resumer t = resumer t0
  /\ valstack_max t = valstack_max t0
  /\ (forall i, i < valstack_top t0 -> valstack t !! i = valstack t0 !! i) ->
  (t1 <- duk_push_tval v t;; duk_replace idx_z t1) = Ok t' ->
  only_register_changed idx_z t0 t'.
Proof.
  intros (Hb & Htop & Hlen & Hcs & Hcat) (Hst & Hres & Hmax & Hkeep) H.
  apply rbind_Ok in H as (t1 & H1 & H2).
  apply duk_push_tval_inv in H1 as [Hl ->].
  unfold duk_replace in H2.
  destruct (Nat.leb_spec (duk_get_top (set_valstack_top (S (valstack_top t))
               (set_valstack (<[valstack_top t:=v]> (valstack t)) t))) idx_z)
    as [|Hidx]; [done|].
  cbn [valstack valstack_top valstack_bottom set_valstack set_valstack_top] in H2.
  replace (S (valstack_top t) - 1) with (valstack_top t) in H2 by lia.
  rewrite list_lookup_insert_eq in H2 by done. cbn [deref rbind] in H2.
  injection H2 as <-. repeat split; try done.
  - simpl. by rewrite !length_insert.
  - intros i Hi Hne. simpl.
    rewrite !list_lookup_insert_ne by lia. by apply Hkeep.
Qed.

Lemma kept_refl (t : duk_hthread) :
  state t = state t /\ resumer t = resumer t
  /\ valstack_max t = valstack_max t
  /\ (forall i, i < valstack_top t -> valstack t !! i = valstack t !! i).
Proof. done. Qed.

Ltac arith_binary Hop :=
  let x := fresh "x" in let y := fresh "y" in let t1 := fresh "t1" in
  let Hx := fresh "Hx" in let Hy := fresh "Hy" in
  let H1 := fresh "H1" in let H2 := fresh "H2" in
  apply rbind_Ok in Hop as (x & Hx & Hop);
  apply rbind_Ok in Hop as (y & Hy & Hop);
  unfold duk__vm_arith_binary_op in Hop;
  apply rbind_Ok in Hop as (t1 & H1 & H2);
  destruct x, y;
  try (eapply store_reg_only;
       [by eapply push_pop_2_same|by eapply push_pop_2_kept|done]);
  injection H1 as <-;
  (eapply store_reg_only; [apply same_frame_refl|apply kept_refl|done]).

Ltac bitwise_binary Hop :=
  let x := fresh "x" in let y := fresh "y" in let t1 := fresh "t1" in
  let Hx := fresh "Hx" in let Hy := fresh "Hy" in
  let H1 := fresh "H1" in let H2 := fresh "H2" in
  apply rbind_Ok in Hop as (x & Hx & Hop);
  apply rbind_Ok in Hop as (y & Hy & Hop);
  unfold duk__vm_bitwise_binary_op in Hop;
  apply rbind_Ok in Hop as (t1 & H1 & H2);
  eapply store_reg_only;
  [by eapply push_pop_2_same|by eapply push_pop_2_kept|done].

Ltac arith_unary Hop :=
  let y := fresh "y" in let t1 := fresh "t1" in
  let Hy := fresh "Hy" in
  let H1 := fresh "H1" in let H2 := fresh "H2" in
  apply rbind_Ok in Hop as (y & Hy & Hop);
  unfold duk__vm_arith_unary_op in Hop;
  apply rbind_Ok in Hop as (t1 & H1 & H2);
  destruct y;
  try (eapply store_reg_only;
       [by eapply push_pop_same|by eapply push_pop_kept|done]);
  injection H1 as <-;
  (eapply store_reg_only; [apply same_frame_refl|apply kept_refl|done]).

(** Property X10.  An arithmetic or bitwise instruction whose operands are
    primitive values (undefined, null, boolean, number or string, so that
    the coercions call no valueOf or toString) and whose target register
    holds such a value (so that overwriting it runs no finalizer), and that
    completes, leaves no temporary behind: value-stack bottom and top, call
    stack, catch stack, thread state and resumer are unchanged, and every
    value-stack slot in use other than the target register holds what it
    held. *)
Theorem arith_changes_only_its_target
    (op : duk_opcode) (a b c : nat) (h h' : duk_heap) (thr : nat)
    (t : duk_hthread) (fn : duk_hcompiledfunction) :
  get_thread h thr = Ok t ->
  current_function t = Ok fn ->
  (* the operands are primitive values: no valueOf or toString is called *)
  (forall k v, k ∈ arith_operand_fields op b c ->
               DUK__REGCONSTP t fn k = Ok v -> is_plain_primitive v = true) ->
  (* and so is the value the target register loses: no finalizer runs *)
  (forall v, valstack t !! (valstack_bottom t + arith_target op a b) = Some v ->
             is_plain_primitive v = true) ->
  op_arith op a b c h thr = Ok (OpNext h') ->
  exists t' : duk_hthread,
    h' = put_thread thr t' h
    /\ only_register_changed (arith_target op a b) t t'.
Proof.
  intros Ht Hfn _ _. unfold op_arith. rewrite Ht. cbn [rbind].
  rewrite Hfn. cbn [rbind]. intros H.
  apply rbind_Ok in H as (t' & Hop & [= <-]).
  exists t'. split; [done|].
  destruct op; cbn [arith_target].
  - (* ADD *)
    apply rbind_Ok in Hop as (x & Hx & Hop).
    apply rbind_Ok in Hop as (y & Hy & Hop).
    unfold duk__vm_arith_add in Hop.
    assert (Hslow : (t1 <- push_pop_2 x y t;;
                     t2 <- duk_push_tval (duk__vm_arith_add_result x y) t1;;
                     duk_replace a t2) = Ok t' ->
                    only_register_changed a t t').
    { intros Hs. apply rbind_Ok in Hs as (t1 & H1 & H2).
      eapply replace_only;
        [by eapply push_pop_2_same|by eapply push_pop_2_kept|done]. }
    destruct x, y; try (by apply Hslow).
    eapply store_reg_only; [apply same_frame_refl|apply kept_refl|done].
  - arith_binary Hop.
  - arith_binary Hop.
  - arith_binary Hop.
  - arith_binary Hop.
  - bitwise_binary Hop.
  - bitwise_binary Hop.
  - bitwise_binary Hop.
  - bitwise_binary Hop.
  - bitwise_binary Hop.
  - bitwise_binary Hop.
  - (* BNOT *)
    apply rbind_Ok in Hop as (x & Hx & Hop).
    unfold duk__vm_bitwise_not in Hop. apply rbind_Ok in Hop as (t1 & H1 & H2).
    eapply store_reg_only; [by eapply push_pop_same|by eapply push_pop_kept|done].
  - arith_unary Hop.
  - arith_unary Hop.
  - arith_unary Hop.
  - arith_unary Hop.
Qed.

End ArithFrame.

Section BitwiseLogic.
Context {A : duk_arith}.
Local Open Scope Z_scope.

(** Property X11.  BAND, BOR, BXOR and BNOT compute on the ToInt32 values of
    their operands and store the result as a number that is a signed 32-bit
    integer held exactly (never NaN); x | 0 and x & -1 give ToInt32(x), x ^
    x gives 0 and ~x equals x ^ -1. *)
Theorem bitwise_logic_exact_int32 (tv_x tv_y : duk_tval) :
  let i1 := duk_to_int32 tv_x in
  let i2 := duk_to_int32 tv_y in
  duk__vm_bitwise_binary_op_result tv_x tv_y DUK_OP_BAND
  = TvNumber (Dbl.of_int (Z.land i1 i2))
  /\ duk__vm_bitwise_binary_op_result tv_x tv_y DUK_OP_BOR
     = TvNumber (Dbl.of_int (Z.lor i1 i2))
  /\ duk__vm_bitwise_binary_op_result tv_x tv_y DUK_OP_BXOR
     = TvNumber (Dbl.of_int (Z.lxor i1 i2))
  /\ duk__vm_bitwise_not_result tv_x = TvNumber (Dbl.of_int (- i1 - 1))
  (* each result is a signed 32-bit integer, stored exactly *)
  /\ (forall v,
        v = Z.land i1 i2 \/ v = Z.lor i1 i2 \/ v = Z.lxor i1 i2 \/ v = - i1 - 1 ->
        - 2 ^ 31 <= v < 2 ^ 31
        /\ Dbl.DUK_ISNAN (Dbl.of_int v) = false
        /\ Dbl.trunc (Dbl.of_int v) = Some v)
  (* x | 0 and x & -1 are ToInt32(x); x ^ x is 0; ~x is x ^ -1 *)
  /\ (i2 = 0 -> Z.lor i1 i2 = i1 /\ Z.lxor i1 i2 = i1 /\ Z.land i1 i2 = 0)
  /\ (i2 = -1 -> Z.land i1 i2 = i1 /\ Z.lxor i1 i2 = - i1 - 1)
  /\ (i2 = i1 -> Z.lxor i1 i2 = 0 /\ Z.land i1 i2 = i1 /\ Z.lor i1 i2 = i1).
Proof.
  intros i1 i2.
  pose proof (duk_to_int32_range tv_x) as H1. fold i1 in H1.
  pose proof (duk_to_int32_range tv_y) as H2. fold i2 in H2.
  do 3 (split; [done|]).
  split.
  { done. }
  assert (Rand : - 2 ^ 31 <= Z.land i1 i2 < 2 ^ 31)
    by (apply (bitop_signed_range Z.land andb); [intros; apply Z.land_spec|lia..]).
  assert (Ror : - 2 ^ 31 <= Z.lor i1 i2 < 2 ^ 31)
    by (apply (bitop_signed_range Z.lor orb); [intros; apply Z.lor_spec|lia..]).
  assert (Rxor : - 2 ^ 31 <= Z.lxor i1 i2 < 2 ^ 31)
    by (apply (bitop_signed_range Z.lxor xorb); [intros; apply Z.lxor_spec|lia..]).
  split.
  { intros v Hv.
    assert (Hr : - 2 ^ 31 <= v < 2 ^ 31) by (destruct Hv as [-> | [-> | [-> | ->]]]; lia).
    split; [done|]. split; [apply of_int_not_nan|apply trunc_of_int]; lia. }
  split.
  { intros ->. rewrite Z.lor_0_r, Z.lxor_0_r, Z.land_0_r. done. }
  split.
  { intros ->. rewrite Z.land_m1_r. split; [done|].
    rewrite Z.lxor_m1_r. pose proof (Z.add_lnot_diag i1). lia. }
  intros ->. rewrite Z.lxor_nilpotent, Z.land_diag, Z.lor_diag. done.
Qed.

End BitwiseLogic.

(** ** LDINT and LNOT *)

Section Loads.
Context {A : duk_arith} {E : duk_engine} {D : duk_dispatch}.

Lemma store_register_ok (k : nat) (v : duk_tval) (t : duk_hthread) :
  valstack_bottom t + k < length (valstack t) ->
  store_reg k v t
  = Ok (set_valstack (<[valstack_bottom t + k := v]> (valstack t)) t).
Proof. intros Hk. unfold store_reg. by apply write_valstack_ok. Qed.

Lemma set_register_only (k : nat) (v : duk_tval) (t : duk_hthread) :
  only_register_changed k t
    (set_valstack (<[valstack_bottom t + k := v]> (valstack t)) t).
Proof.
  repeat split; try done.
  - simpl. by rewrite length_insert.
  - intros i Hi Hne. simpl. by rewrite list_lookup_insert_ne by lia.
Qed.

Lemma only_register_changed_trans k t t1 t2 :
  only_register_changed k t t1 -> only_register_changed k t1 t2 ->
  only_register_changed k t t2.
Proof.
  intros ((Hb1 & Ht1 & Hl1 & Hc1 & Hk1) & Hs1 & Hr1 & Hm1 & Hv1)
         ((Hb2 & Ht2 & Hl2 & Hc2 & Hk2) & Hs2 & Hr2 & Hm2 & Hv2).
  repeat split; try congruence.
  intros i Hi Hne. rewrite Hv2 by (rewrite ?Ht1, ?Hb1; done). by apply Hv1.
Qed.

(** Property X12.  LDINT stores the integer bc - DUK_BC_LDINT_BIAS in
    register A exactly: the stored number truncates back to that integer, is
    not NaN, and no other slot in use, nor the call or catch stack, changes. *)
Theorem ldint_loads_exact_integer
    (a : nat) (bc : Z) (h : duk_heap) (thr : nat) (t : duk_hthread) :
  get_thread h thr = Ok t ->
  valstack_bottom t + a < length (valstack t) ->
  (Z.abs (bc - DUK_BC_LDINT_BIAS) < 2 ^ 53)%Z ->
  exists (t' : duk_hthread) (d : Z),
    op_LDINT a bc h thr = Ok (OpNext (put_thread thr t' h))
    /\ only_register_changed a t t'
    /\ valstack t' !! (valstack_bottom t + a) = Some (TvNumber d)
    /\ Dbl.trunc d = Some (bc - DUK_BC_LDINT_BIAS)%Z
    /\ Dbl.DUK_ISNAN d = false
    /\ Dbl.DUK_DBLUNION_IS_NORMALIZED d = true.
Proof.
  intros Ht Ha Hbc. unfold op_LDINT. rewrite Ht. cbn [rbind].
  rewrite store_register_ok by done. cbn [rbind].
  eexists _, _. split; [done|]. split; [apply set_register_only|].
  split; [simpl; by rewrite list_lookup_insert_eq|].
  split; [by apply trunc_of_int|].
  split; [by apply of_int_not_nan|by apply of_int_is_normalized].
Qed.

Lemma op_LNOT_ok a b h thr t fn x :
  get_thread h thr = Ok t ->
  current_function t = Ok fn ->
  DUK__REGCONSTP t fn b = Ok x ->
  valstack_bottom t + a < length (valstack t) ->
  op_LNOT a b h thr
  = Ok (OpNext (put_thread thr
          (set_valstack
             (<[valstack_bottom t + a := TvBoolean (negb (duk_js_toboolean x))]>
                (valstack t)) t) h)).
Proof.
  intros Ht Hfn Hx Ha. unfold op_LNOT. rewrite Ht. cbn [rbind].
  rewrite Hfn. cbn [rbind]. rewrite Hx. cbn [rbind].
  unfold duk__vm_logical_not. rewrite store_register_ok by done. cbn [rbind].
  by rewrite xorb_true_r.
Qed.

(** Property X13.  LNOT stores the boolean negation of ToBoolean of its
    operand in register A and changes nothing else; applied to its own
    result it stores ToBoolean of the original operand (given that ToBoolean
    of a boolean is that boolean). *)
Theorem lnot_twice_is_toboolean
    (a b : nat) (h : duk_heap) (thr : nat) (t : duk_hthread)
    (fn : duk_hcompiledfunction) (x : duk_tval) :
  (forall v : bool, duk_js_toboolean (TvBoolean v) = v) ->
  get_thread h thr = Ok t ->
  current_function t = Ok fn ->
  DUK__REGCONSTP t fn b = Ok x ->
  a < DUK_BC_REGLIMIT ->
  valstack_bottom t + a < length (valstack t) ->
  exists (h1 h2 : duk_heap) (t1 t2 : duk_hthread),
    op_LNOT a b h thr = Ok (OpNext h1)
    /\ op_LNOT a a h1 thr = Ok (OpNext h2)
    /\ get_thread h1 thr = Ok t1 /\ get_thread h2 thr = Ok t2
    /\ valstack t1 !! (valstack_bottom t + a)
       = Some (TvBoolean (negb (duk_js_toboolean x)))
    /\ valstack t2 !! (valstack_bottom t + a)
       = Some (TvBoolean (duk_js_toboolean x))
    /\ only_register_changed a t t1
    /\ only_register_changed a t t2.
Proof.
  intros Hbool Ht Hfn Hx Hreg Ha.
  set (t1 := set_valstack
               (<[valstack_bottom t + a := TvBoolean (negb (duk_js_toboolean x))]>
                  (valstack t)) t).
  assert (Hfn1 : current_function t1 = Ok fn) by done.
  assert (Hx1 : DUK__REGCONSTP t1 fn a
                = Ok (TvBoolean (negb (duk_js_toboolean x)))).
  { unfold DUK__REGCONSTP. destruct (Nat.ltb_spec a DUK_BC_REGLIMIT); [|lia].
    simpl. by rewrite list_lookup_insert_eq. }
  assert (Ha1 : valstack_bottom t1 + a < length (valstack t1))
    by (simpl; by rewrite length_insert).
  eexists _, _, t1, _.
  split; [by apply (op_LNOT_ok a b h thr t fn x)|].
  split.
  { rewrite (op_LNOT_ok a a _ thr t1 fn _ (get_put_thread_eq _ _ _) Hfn1 Hx1 Ha1).
    done. }
  split; [apply get_put_thread_eq|]. split; [apply get_put_thread_eq|].
  split; [simpl; by rewrite list_lookup_insert_eq|].
  split.
  { simpl. rewrite list_lookup_insert_eq by (by rewrite length_insert).
    by rewrite Hbool, negb_involutive. }
  split; [apply set_register_only|].
  eapply only_register_changed_trans; [apply set_register_only|].
  apply (set_register_only a _ t1).
Qed.

End Loads.

(** ** LABEL, TRYCATCH and their ends *)

Section Catchers.
Context {A : duk_arith} {E : duk_engine} {D : duk_dispatch}.

Lemma put_put_thread p t1 t2 h :
  put_thread p t2 (put_thread p t1 h) = put_thread p t2 h.
Proof. unfold put_thread. simpl. by rewrite insert_insert_eq. Qed.

Lemma alter_snoc {X} (f : X -> X) (l : list X) (x : X) :
  alter f (length l) (l ++ [x]) = l ++ [f x].
Proof.
  replace (length l) with (length l + 0) by lia.
  by rewrite (alter_app_r f l [x] 0).
Qed.

Lemma alter_snoc_at {X} (f : X -> X) (l : list X) (x : X) i :
  length l = i -> alter f i (l ++ [x]) = l ++ [f x].
Proof. intros <-. apply alter_snoc. Qed.

Lemma top_act_lookup t act :
  top_act t = Ok act <-> callstack t !! (callstack_top t - 1) = Some act.
Proof.
  unfold top_act, callstack_top. rewrite last_lookup.
  replace (pred (length (callstack t))) with (length (callstack t) - 1) by lia.
  destruct (callstack t !! (length (callstack t) - 1)); simpl; split; congruence.
Qed.

Lemma top_act_upd f t act :
  top_act t = Ok act -> top_act (upd_top_act f t) = Ok (f act).
Proof.
  rewrite !top_act_lookup. unfold upd_top_act, callstack_top. simpl.
  rewrite length_alter. intros H. by rewrite list_lookup_alter_eq, H.
Qed.

Lemma op_LABEL_ok abc h thr t act :
  get_thread h thr = Ok t ->
  top_act t = Ok act ->
  duk_hthread_catchstack_grow t = None ->
  op_LABEL abc h thr
  = Ok (OpNext (put_thread thr
          (skip_jump_slots (catchstack_push (label_catcher abc t act) t)) h)).
Proof.
  intros Ht Hact Hgrow. unfold op_LABEL. rewrite Ht. cbn [rbind].
  rewrite Hact. cbn [rbind]. unfold catchstack_grow. rewrite Hgrow. done.
Qed.

Lemma op_TRYCATCH_ok a b c h thr t act fn varname :
  get_thread h thr = Ok t ->
  top_act t = Ok act ->
  act_func act = Some (HCompiledFunction fn) ->
  duk_hthread_catchstack_grow t = None ->
  has_flag a DUK_BC_TRYCATCH_FLAG_WITH_BINDING = false ->
  (if has_flag a DUK_BC_TRYCATCH_FLAG_CATCH_BINDING
   then exists s, consts fn !! c = Some (TvString s) /\ varname = Some s
   else varname = None) ->
  op_TRYCATCH a b c h thr
  = Ok (OpNext (put_thread thr
          (skip_jump_slots
             (catchstack_push (trycatch_catcher a b varname t act) t)) h)).
Proof.
  intros Ht Hact Hf Hgrow Hwith Hname. unfold op_TRYCATCH.
  rewrite Ht. cbn [rbind]. unfold current_function. rewrite Hact. cbn [rbind].
  unfold act_compiledfunction. rewrite Hf. cbn [rbind].
  rewrite Hwith. cbn [rbind fst snd].
  unfold catchstack_grow. rewrite Hgrow. cbn [rbind].
  unfold trycatch_catcher.
  destruct (has_flag a DUK_BC_TRYCATCH_FLAG_CATCH_BINDING).
  - destruct Hname as (s & Hs & ->). unfold DUK__CONSTP. rewrite Hs.
    cbn [deref rbind]. unfold upd_cat, catchstack_push, catchstack_top.
    cbn [catchstack set_catchstack]. rewrite alter_snoc.
    unfold top_act. cbn [callstack set_catchstack].
    unfold top_act in Hact. rewrite Hact. cbn [rbind].
    cbn [catchstack set_catchstack]. rewrite alter_snoc. done.
  - subst varname. cbn [rbind fst].
    unfold upd_cat, catchstack_push, catchstack_top.
    unfold top_act in *. cbn [callstack set_catchstack]. rewrite Hact.
    cbn [rbind catchstack set_catchstack]. rewrite alter_snoc. done.
Qed.

Lemma alter_set_pc_skip n i (cs : list duk_activation) :
  alter (set_pc n) i (alter (fun act => set_pc (pc act + 2) act) i cs)
  = alter (set_pc n) i cs.
Proof. rewrite list_alter_alter_eq. by apply list_alter_ext. Qed.

Lemma callstack_top_skip t : callstack_top (skip_jump_slots t) = callstack_top t.
Proof. unfold skip_jump_slots, upd_top_act, callstack_top. simpl. by rewrite length_alter. Qed.

Lemma pushed_fields cat t act :
  top_act t = Ok act ->
  valstack (pushed cat t) = valstack t
  /\ valstack_bottom (pushed cat t) = valstack_bottom t
  /\ valstack_top (pushed cat t) = valstack_top t
  /\ catchstack (pushed cat t) = catchstack t ++ [cat]
  /\ callstack_top (pushed cat t) = callstack_top t
  /\ last (catchstack (pushed cat t)) = Some cat
  /\ top_act (pushed cat t) = Ok (set_pc (pc act + 2) act).
Proof.
  intros Hact. do 4 (split; [done|]).
  split; [unfold pushed; by rewrite callstack_top_skip|].
  split; [simpl; apply last_snoc|].
  unfold pushed, skip_jump_slots.
  by apply (top_act_upd (fun act => set_pc (pc act + 2) act)).
Qed.

(** Property X14.  LABEL pushes a label catcher for the current activation
    and ENDLABEL pops it again: after the pair the thread is as before,
    except that the PC has skipped the two jump slots. *)
Theorem label_endlabel_round_trip
    (abc : Z) (h : duk_heap) (thr : nat) (t : duk_hthread) (act : duk_activation) :
  get_thread h thr = Ok t ->
  top_act t = Ok act ->
  duk_hthread_catchstack_grow t = None ->
  exists (h1 : duk_heap) (t1 : duk_hthread),
    op_LABEL abc h thr = Ok (OpNext h1)
    /\ get_thread h1 thr = Ok t1
    /\ catchstack t1 = catchstack t ++ [label_catcher abc t act]
    /\ op_ENDLABEL h1 thr
       = Ok (OpNext (put_thread thr
               (upd_top_act (fun act => set_pc (pc act + 2) act) t) h)).
Proof.
  intros Ht Hact Hgrow.
  eexists _, _. split; [by apply op_LABEL_ok|].
  split; [apply get_put_thread_eq|]. split; [done|].
  unfold op_ENDLABEL. rewrite get_put_thread_eq. cbn [rbind].
  rewrite put_put_thread. do 3 f_equal.
  unfold duk_hthread_catchstack_unwind, skip_jump_slots, catchstack_push,
    upd_top_act, catchstack_top, callstack_top.
  cbn [catchstack callstack set_callstack set_catchstack].
  rewrite length_app. cbn [length].
  replace (length (catchstack t) + 1 - 1) with (length (catchstack t)) by lia.
  rewrite take_app_length. by destruct t.
Qed.

(** Property X15.  A BREAK or CONTINUE with the label id of a LABEL executed
    just before it is handled in the same activation: the executor restarts
    at the label's first jump slot for a break and at the second for a
    continue, the label catcher stays on the catch stack, and the registers
    in use are unchanged. *)
Theorem label_break_continue_lands_on_jump_slot
    (fuel : nat) (ty abc : Z) (h : duk_heap) (thr e et : nat)
    (t : duk_hthread) (act : duk_activation) :
  curr_thread h = thr ->
  get_thread h thr = Ok t ->
  top_act t = Ok act ->
  duk_hthread_catchstack_grow t = None ->
  ty = DUK_LJ_TYPE_BREAK \/ ty = DUK_LJ_TYPE_CONTINUE ->
  (0 <= abc < 2 ^ 24)%Z ->
  valstack_bottom t <= valstack_top t < length (valstack t) ->
  exists (h1 h2 h3 : duk_heap) (t3 : duk_hthread),
    op_LABEL abc h thr = Ok (OpNext h1)
    /\ op_BREAK_CONTINUE ty abc h1 thr = Ok (OpLongjmp h2)
    /\ executor_longjmp_caught (S fuel) h2 e et = Ok (ExecRestart h3)
    /\ lj h3 = lj_wiped
    /\ curr_thread h3 = thr
    /\ get_thread h3 thr = Ok t3
    /\ (forall q, q <> thr -> get_thread h3 q = get_thread h q)
    /\ continues_at
         (pc act + (if (ty =? DUK_LJ_TYPE_CONTINUE)%Z then 1 else 0)) t t3
    /\ catchstack t3 = catchstack t ++ [label_catcher abc t act]
    /\ registers_kept [] t t3.
Proof.
  intros Hcur Ht Hact Hgrow Hty Habc Htop.
  set (cat := label_catcher abc t act).
  set (t1 := pushed cat t).
  destruct (pushed_fields cat t act Hact)
    as (Hvs & Hb & Htp & Hcat & Hctop & Hlast & Hact1).
  fold t1 in Hvs, Hb, Htp, Hcat, Hctop, Hlast, Hact1.
  set (h1 := put_thread thr t1 h).
  set (v := TvNumber (Dbl.of_int abc)).
  set (h2 := raised thr ty v t1 h1).
  assert (Hbreak : op_BREAK_CONTINUE ty abc h1 thr = Ok (OpLongjmp h2)).
  { unfold op_BREAK_CONTINUE.
    assert (Hg : get_thread h1 thr = Ok t1) by apply get_put_thread_eq.
    rewrite Hg. cbn [rbind].
    pose proof (push_and_raise thr ty v t1 h1) as Hp.
    rewrite Hb, Htp, Hvs in Hp. specialize (Hp ltac:(lia) ltac:(lia)).
    fold v.
    destruct (duk_push_tval v t1) as [t'| | |]; cbn [rbind] in *; try done.
    by rewrite Hp. }
  set (t2 := set_valstack (<[valstack_top t1 := TvUndefinedUnused]>
                             (<[valstack_top t1 := v]> (valstack t1))) t1).
  assert (Ht2 : get_thread h2 thr = Ok t2) by apply get_thread_raised.
  assert (Hact2 : top_act t2 = Ok (set_pc (pc act + 2) act)) by done.
  assert (Hcat2 : catchstack t2 !! length (catchstack t) = Some cat).
  { change (catchstack t2) with (catchstack t1). rewrite Hcat.
    by apply list_lookup_middle. }
  assert (Hlj : lj_type (lj h2) = ty /\ lj_value1 (lj h2) = v) by done.
  destruct Hlj as [Hlty Hlv].
  set (k := if (ty =? DUK_LJ_TYPE_CONTINUE)%Z then 1 else 0).
  set (t3 := duk_hthread_catchstack_unwind (length (catchstack t) + 1)
               (upd_top_act (set_pc (pc act + k)) t2)).
  assert (Honce : duk__handle_longjmp_once h2 thr e et
                  = Ok (LjReturn DUK__LONGJMP_RESTART
                          (set_lj lj_wiped (put_thread thr t3 h2)))).
  { rewrite longjmp_once_break_continue by (rewrite Hlty; done).
    unfold handle_break_continue. rewrite Ht2. cbn [rbind].
    rewrite Hlv. unfold v. rewrite to_uint_of_int by lia. cbn [deref rbind].
    change (catchstack t2) with (catchstack t1). rewrite Hcat, rev_snoc.
    cbn [break_scan]. rewrite Nat.eqb_refl. cbn [negb].
    unfold DUK_CAT_GET_TYPE_is_TCF, DUK_CAT_GET_TYPE_is_LABEL.
    cbn [cat label_catcher cat_type cat_label andb]. rewrite Z.eqb_refl.
    rewrite length_rev.
    rewrite (duk__handle_label_ok _ _ t2 cat _ Hact2 Hcat2). cbn [rbind].
    rewrite Hlty. done. }
  exists h1, h2, (set_lj lj_wiped (put_thread thr t3 h2)), t3.
  split; [by apply op_LABEL_ok|]. split; [done|].
  split.
  { unfold executor_longjmp_caught.
    replace (curr_thread h2) with thr by (by rewrite <- Hcur).
    rewrite (handle_longjmp_return fuel _ _ _ _ _ _ Honce). done. }
  split; [done|]. split; [by rewrite <- Hcur|].
  split; [rewrite get_thread_set_lj; apply get_put_thread_eq|].
  split.
  { intros q Hq. rewrite get_thread_set_lj.
    rewrite get_put_thread_ne by done. unfold h2, raised.
    rewrite get_put_thread_ne, get_thread_set_lj, get_put_thread_ne by done.
    unfold h1. by rewrite get_put_thread_ne. }
  split.
  { unfold continues_at, t3, duk_hthread_catchstack_unwind, upd_top_act.
    cbn [callstack set_callstack set_catchstack].
    change (callstack_top t2) with (callstack_top t1). rewrite Hctop.
    change (callstack t2) with (callstack t1).
    unfold t1, pushed, skip_jump_slots, upd_top_act, catchstack_push.
    cbn [callstack set_callstack set_catchstack].
    change (callstack_top (set_catchstack _ t)) with (callstack_top t).
    apply alter_set_pc_skip. }
  split.
  { unfold t3, duk_hthread_catchstack_unwind, upd_top_act.
    cbn [catchstack set_callstack set_catchstack].
    change (catchstack t2) with (catchstack t1). rewrite Hcat.
    rewrite take_ge; [done|]. rewrite length_app. simpl. lia. }
  repeat split; try done.
  intros i Hi _. unfold t3, t2. simpl.
  change (valstack_top (skip_jump_slots _)) with (valstack_top t).
  by rewrite !list_lookup_insert_ne by lia.
Qed.

Lemma alter_last_snoc {X} (f : X -> X) (l : list X) (x : X) :
  l !! (length l - 1) = Some x ->
  alter f (length l - 1) l = take (length l - 1) l ++ [f x].
Proof.
  intros Hx. pose proof (lookup_lt_Some _ _ _ Hx) as Hlt.
  rewrite <- (take_drop (length l - 1) l) at 2.
  rewrite (drop_S _ _ _ Hx).
  replace (S (length l - 1)) with (length l) by lia.
  rewrite drop_all.
  replace (length l - 1) with (length (take (length l - 1) l) + 0) at 1
    by (rewrite length_take_le; lia).
  by rewrite alter_app_r.
Qed.

Lemma take_alter_same {X} (f : X -> X) (l : list X) i :
  take i (alter f i l) = take i l.
Proof.
  apply list_eq. intros j. destruct (decide (j < i)).
  - rewrite !lookup_take_lt by done. by rewrite list_lookup_alter_ne by lia.
  - by rewrite !lookup_take_ge by lia.
Qed.

Lemma entry_level_not_reached (thr e et : nat) (t : duk_hthread) :
  thr <> e \/ 1 <= et <= callstack_top t ->
  bool_decide (thr = e) && lt_size_pred (callstack_top t - 1) et = false.
Proof.
  intros [Hne | Het].
  - by rewrite bool_decide_eq_false_2.
  - apply andb_false_iff. right. unfold lt_size_pred.
    destruct et as [|et']; [lia|]. apply Nat.ltb_ge. lia.
Qed.

(** Property X16.  A THROW right after a TRYCATCH with a catch part (and no
    catch or with binding) enters the catch clause: the executor restarts at
    the first jump slot, the thrown value is in register B and the longjmp
    type in register B+1, the catcher stays with its catch part disabled,
    and the other registers are unchanged. *)
Theorem trycatch_throw_enters_catch
    (fuel : nat) (a : Z) (b c b' : nat) (h : duk_heap) (thr e et : nat)
    (t : duk_hthread) (act : duk_activation) (fn : duk_hcompiledfunction)
    (x : duk_tval) :
  curr_thread h = thr ->
  get_thread h thr = Ok t ->
  top_act t = Ok act ->
  act_func act = Some (HCompiledFunction fn) ->
  duk_hthread_catchstack_grow t = None ->
  has_flag a DUK_BC_TRYCATCH_FLAG_HAVE_CATCH = true ->
  has_flag a DUK_BC_TRYCATCH_FLAG_CATCH_BINDING = false ->
  has_flag a DUK_BC_TRYCATCH_FLAG_WITH_BINDING = false ->
  (* the frame's registers are the slots in use *)
  idx_bottom act = valstack_bottom t ->
  valstack_top t = valstack_bottom t + nregs fn ->
  valstack_top t < length (valstack t) ->
  b + 1 < nregs fn ->
  b' < nregs fn ->
  valstack t !! (valstack_bottom t + b') = Some x ->
  thr <> e \/ 1 <= et <= callstack_top t ->
  exists (h1 h2 h3 : duk_heap) (t3 : duk_hthread),
    op_TRYCATCH a b c h thr = Ok (OpNext h1)
    /\ op_THROW b' h1 thr = Ok (OpLongjmp h2)
    /\ executor_longjmp_caught (S fuel) h2 e et = Ok (ExecRestart h3)
    /\ lj h3 = lj_wiped
    /\ curr_thread h3 = thr
    /\ get_thread h3 thr = Ok t3
    /\ (forall q, q <> thr -> get_thread h3 q = get_thread h q)
    (* execution goes on at the first jump slot *)
    /\ continues_at (pc act) t t3
    (* the catcher stays, its catch part used up *)
    /\ catchstack t3
       = catchstack t
         ++ [DUK_CAT_CLEAR_CATCH_ENABLED (trycatch_catcher a b None t act)]
    (* the value and the longjmp type, in the two catch registers *)
    /\ valstack t3 !! (valstack_bottom t + b) = Some (thrown_value x)
    /\ valstack t3 !! (valstack_bottom t + b + 1)
       = Some (TvNumber (Dbl.of_int DUK_LJ_TYPE_THROW))
    /\ registers_kept [valstack_bottom t + b; valstack_bottom t + b + 1] t t3.
Proof.
  intros Hcur Ht Hact Hf Hgrow Hcatch Hbind Hwith Hib Hregs Htop Hb Hb' Hx Hlevel.
  set (cat := trycatch_catcher a b None t act).
  set (t1 := pushed cat t).
  destruct (pushed_fields cat t act Hact)
    as (Hvs & Hbt & Htp & Hcat & Hctop & Hlast & Hact1).
  fold t1 in Hvs, Hbt, Htp, Hcat, Hctop, Hlast, Hact1.
  set (h1 := put_thread thr t1 h).
  assert (Hg1 : get_thread h1 thr = Ok t1) by apply get_put_thread_eq.
  set (v := thrown_value x).
  set (h2 := raised thr DUK_LJ_TYPE_THROW v t1 h1).
  assert (Hthrow : op_THROW b' h1 thr = Ok (OpLongjmp h2)).
  { apply (op_THROW_ok b' h1 thr t1 x Hg1);
      [unfold duk_get_top; rewrite Hbt, Htp; lia
      |by rewrite Hvs, Hbt|by rewrite Hvs, Htp]. }
  set (t2 := set_valstack (<[valstack_top t1 := TvUndefinedUnused]>
                             (<[valstack_top t1 := v]> (valstack t1))) t1).
  assert (Ht2 : get_thread h2 thr = Ok t2) by apply get_thread_raised.
  set (act2 := set_pc (pc act + 2) act).
  assert (Hact2 : callstack t2 !! callstack_index cat = Some act2).
  { change (callstack t2) with (callstack t1).
    cbn [cat trycatch_catcher callstack_index]. rewrite <- Hctop.
    by apply top_act_lookup. }
  assert (Hcat2 : catchstack t2 !! length (catchstack t) = Some cat).
  { change (catchstack t2) with (catchstack t1). rewrite Hcat.
    by apply list_lookup_middle. }
  assert (Hlen2 : length (valstack t2) = length (valstack t)).
  { unfold t2. simpl. by rewrite !length_insert. }
  destruct (handle_catch_or_finally_ok (lj h2) (length (catchstack t)) false
              t2 cat act2 fn Hcat2 Hact2 Hf)
    as (vs & Hh & Hvl & Hslots & Hkeep).
  { rewrite Hlen2. cbn [cat trycatch_catcher idx_base]. lia. }
  { rewrite Hlen2. cbn [act2 set_pc idx_bottom]. lia. }
  { cbn [negb andb]. cbn [cat trycatch_catcher catch_binding_enabled]. done. }
  destruct Hslots as [Hs0 Hs1].
  { cbn [cat trycatch_catcher idx_base]. change (valstack_top t2) with (valstack_top t). lia. }
  { cbn [cat trycatch_catcher idx_base act2 set_pc idx_bottom]. lia. }
  match type of Hh with _ = Ok ?r => set (t3 := r) in * end.
  assert (Honce : duk__handle_longjmp_once h2 thr e et
                  = Ok (LjReturn DUK__LONGJMP_RESTART
                          (set_lj lj_wiped (put_thread thr t3 h2)))).
  { rewrite longjmp_once_throw by done.
    unfold handle_throw. rewrite Ht2. cbn [rbind].
    change (catchstack t2) with (catchstack t1). rewrite Hcat, rev_snoc.
    cbn [throw_scan]. cbn [cat trycatch_catcher callstack_index catch_enabled].
    rewrite (entry_level_not_reached thr e et t Hlevel), Hcatch, length_rev.
    change (catchstack t1) with (catchstack t2) in Hh.
    fold cat. rewrite Hh. done. }
  exists h1, h2, (set_lj lj_wiped (put_thread thr t3 h2)), t3.
  split; [by apply (op_TRYCATCH_ok a b c h thr t act fn None); try done; rewrite Hbind|].
  split; [done|].
  split.
  { unfold executor_longjmp_caught.
    replace (curr_thread h2) with thr by (by rewrite <- Hcur).
    rewrite (handle_longjmp_return fuel _ _ _ _ _ _ Honce). done. }
  split; [done|]. split; [by rewrite <- Hcur|].
  split; [rewrite get_thread_set_lj; apply get_put_thread_eq|].
  split.
  { intros q Hq. rewrite get_thread_set_lj.
    rewrite get_put_thread_ne by done. unfold h2, raised.
    rewrite get_put_thread_ne, get_thread_set_lj, get_put_thread_ne by done.
    unfold h1. by rewrite get_put_thread_ne. }
  split.
  { unfold continues_at. cbn [t3 callstack].
    cbn [cat trycatch_catcher callstack_index pc_base].
    change (callstack t2)
      with (alter (fun act => set_pc (pc act + 2) act) (callstack_top t - 1)
              (callstack t)).
    rewrite take_alter_same, Nat.add_0_r.
    apply top_act_lookup in Hact.
    by rewrite (alter_last_snoc _ _ _ Hact). }
  split.
  { cbn [t3 catchstack]. change (catchstack t2) with (catchstack t1).
    by rewrite Hcat, take_app_length. }
  cbn [cat trycatch_catcher idx_base] in Hs0, Hs1, Hkeep.
  split; [done|]. split; [done|].
  split; [cbn [t3 valstack_bottom act2 set_pc idx_bottom]; done|].
  split; [cbn [t3 valstack_top act2 set_pc idx_bottom]; lia|].
  intros i Hi Hnot. cbn [t3 valstack].
  rewrite Hkeep.
  - unfold t2. simpl. change (valstack_top (skip_jump_slots _)) with (valstack_top t).
    by rewrite !list_lookup_insert_ne by lia.
  - done.
  - cbn [act2 set_pc idx_bottom]. lia.
  - intros ->. apply Hnot, list_elem_of_here.
  - intros ->. apply Hnot, list_elem_of_further, list_elem_of_here.
Qed.

Lemma alter_set_pc_twice n m i (cs : list duk_activation) :
  alter (set_pc n) i (alter (set_pc m) i cs) = alter (set_pc n) i cs.
Proof. rewrite list_alter_alter_eq. by apply list_alter_ext. Qed.

(** Property X17.  A try block without a finally part (and without a catch
    or with binding) that completes normally leaves no trace: TRYCATCH
    followed by ENDTRY gives the thread back as it was, with the PC at the
    second jump slot. *)
Theorem try_without_finally_completes
    (a : Z) (b c : nat) (h : duk_heap) (thr : nat)
    (t : duk_hthread) (act : duk_activation) (fn : duk_hcompiledfunction) :
  get_thread h thr = Ok t ->
  top_act t = Ok act ->
  act_func act = Some (HCompiledFunction fn) ->
  duk_hthread_catchstack_grow t = None ->
  has_flag a DUK_BC_TRYCATCH_FLAG_HAVE_FINALLY = false ->
  has_flag a DUK_BC_TRYCATCH_FLAG_CATCH_BINDING = false ->
  has_flag a DUK_BC_TRYCATCH_FLAG_WITH_BINDING = false ->
  exists h1 : duk_heap,
    op_TRYCATCH a b c h thr = Ok (OpNext h1)
    /\ op_ENDTRY h1 thr
       = Ok (OpNext (put_thread thr (upd_top_act (set_pc (pc act + 1)) t) h)).
Proof.
  intros Ht Hact Hf Hgrow Hfin Hbind Hwith.
  set (cat := trycatch_catcher a b None t act).
  destruct (pushed_fields cat t act Hact)
    as (Hvs & Hbt & Htp & Hcat & Hctop & Hlast & Hact1).
  eexists. split.
  { apply (op_TRYCATCH_ok a b c h thr t act fn None); try done. by rewrite Hbind. }
  fold cat. fold (pushed cat t).
  unfold op_ENDTRY. rewrite get_put_thread_eq. cbn [rbind].
  rewrite Hact1. cbn [rbind]. rewrite Hlast. cbn [deref rbind].
  unfold finally_or_dismantle.
  cbn [cat trycatch_catcher finally_enabled pc_base]. rewrite Hfin.
  cbn [rbind]. rewrite put_put_thread. do 3 f_equal.
  unfold duk_hthread_catchstack_unwind, upd_cat, upd_top_act, catchstack_top,
    callstack_top.
  cbn [catchstack callstack set_callstack set_catchstack pushed
       skip_jump_slots catchstack_push upd_top_act].
  rewrite !length_alter, length_app. cbn [length].
  replace (length (catchstack t) + 1 - 1) with (length (catchstack t)) by lia.
  rewrite take_alter_same, take_app_length.
  unfold callstack_top. cbn [callstack set_catchstack].
  rewrite alter_set_pc_skip. by destruct t.
Qed.

(** Property X18.  A try block with a finally part (and without a catch or
    with binding) that completes normally runs the finally clause and goes
    on: ENDTRY continues at the second jump slot with both parts of the
    catcher disabled, undefined in register B and the type NORMAL in
    register B+1; ENDFIN then raises nothing, drops the catcher so that the
    catch stack is as before the TRYCATCH, and leaves the other registers
    and the longjmp state unchanged. *)
Theorem try_finally_normal_completion
    (a : Z) (b c : nat) (h : duk_heap) (thr : nat)
    (t : duk_hthread) (act : duk_activation) (fn : duk_hcompiledfunction) :
  get_thread h thr = Ok t ->
  top_act t = Ok act ->
  act_func act = Some (HCompiledFunction fn) ->
  duk_hthread_catchstack_grow t = None ->
  has_flag a DUK_BC_TRYCATCH_FLAG_HAVE_FINALLY = true ->
  has_flag a DUK_BC_TRYCATCH_FLAG_CATCH_BINDING = false ->
  has_flag a DUK_BC_TRYCATCH_FLAG_WITH_BINDING = false ->
  valstack_bottom t + b + 1 < valstack_top t <= length (valstack t) ->
  exists (h1 h2 h3 : duk_heap) (t2 t3 : duk_hthread),
    op_TRYCATCH a b c h thr = Ok (OpNext h1)
    /\ op_ENDTRY h1 thr = Ok (OpNext h2)
    /\ get_thread h2 thr = Ok t2
    (* ENDTRY goes to the finally clause through the second jump slot,
       with both parts of the catcher used up and a normal completion in
       the catch registers *)
    /\ continues_at (pc act + 1) t t2
    /\ catchstack t2
       = catchstack t
         ++ [DUK_CAT_CLEAR_FINALLY_ENABLED
               (DUK_CAT_CLEAR_CATCH_ENABLED (trycatch_catcher a b None t act))]
    /\ valstack t2 !! (valstack_bottom t + b) = Some TvUndefined
    /\ valstack t2 !! (valstack_bottom t + b + 1)
       = Some (TvNumber (Dbl.of_int DUK_LJ_TYPE_NORMAL))
    (* ENDFIN then drops the catcher and goes on with the next
       instruction *)
    /\ op_ENDFIN h2 thr = Ok (OpNext h3)
    /\ get_thread h3 thr = Ok t3
    /\ (forall q, q <> thr -> get_thread h3 q = get_thread h q)
    /\ lj h3 = lj h
    /\ catchstack t3 = catchstack t
    /\ callstack t3 = callstack t2
    /\ registers_kept [valstack_bottom t + b; valstack_bottom t + b + 1] t t3.
Proof.
  intros Ht Hact Hf Hgrow Hfin Hbind Hwith Hslots.
  set (cat := trycatch_catcher a b None t act).
  set (t1 := pushed cat t).
  destruct (pushed_fields cat t act Hact)
    as (Hvs & Hbt & Htp & Hcat & Hctop & Hlast & Hact1).
  fold t1 in Hvs, Hbt, Htp, Hcat, Hctop, Hlast, Hact1.
  set (h1 := put_thread thr t1 h).
  set (ib := valstack_bottom t + b).
  set (vs2 := <[ib + 1 := TvNumber (Dbl.of_int DUK_LJ_TYPE_NORMAL)]>
                (<[ib := TvUndefined]> (valstack t))).
  set (cat2 := DUK_CAT_CLEAR_FINALLY_ENABLED (DUK_CAT_CLEAR_CATCH_ENABLED cat)).
  set (t2 := {| valstack := vs2; valstack_bottom := valstack_bottom t;
                valstack_top := valstack_top t; valstack_max := valstack_max t;
                callstack := alter (set_pc (pc act + 1)) (callstack_top t - 1)
                               (callstack t);
                catchstack := catchstack t ++ [cat2];
                state := state t; resumer := resumer t |}).
  assert (Hendtry : op_ENDTRY h1 thr = Ok (OpNext (put_thread thr t2 h))).
  { unfold op_ENDTRY, h1. rewrite get_put_thread_eq. cbn [rbind].
    rewrite Hact1. cbn [rbind]. rewrite Hlast. cbn [deref rbind].
    unfold finally_or_dismantle.
    cbn [cat trycatch_catcher finally_enabled pc_base idx_base]. rewrite Hfin.
    rewrite write_valstack_ok by (simpl; lia). cbn [rbind].
    rewrite write_valstack_ok by (simpl; rewrite length_insert; lia).
    cbn [rbind]. rewrite put_put_thread. do 3 f_equal.
    unfold t2, upd_cat, upd_top_act, catchstack_top, callstack_top.
    cbn [catchstack callstack valstack set_valstack set_callstack set_catchstack
         t1 pushed skip_jump_slots catchstack_push upd_top_act].
    rewrite !length_alter, length_app. cbn [length].
    replace (length (catchstack t) + 1 - 1) with (length (catchstack t)) by lia.
    rewrite !alter_snoc.
    unfold callstack_top. cbn [callstack set_catchstack].
    rewrite alter_set_pc_skip. done. }
  set (h2 := put_thread thr t2 h).
  set (t3 := duk_hthread_catchstack_unwind (catchstack_top t2 - 1) t2).
  assert (Hendfin : op_ENDFIN h2 thr = Ok (OpNext (put_thread thr t3 h2))).
  { unfold op_ENDFIN, h2. rewrite get_put_thread_eq. cbn [rbind].
    cbn [t2 catchstack]. rewrite last_snoc. cbn [deref rbind].
    cbn [cat2 cat trycatch_catcher idx_base DUK_CAT_CLEAR_FINALLY_ENABLED
         DUK_CAT_CLEAR_CATCH_ENABLED valstack]. fold ib.
    change (valstack t2) with vs2. unfold vs2.
    rewrite list_lookup_insert_eq by (rewrite length_insert; unfold ib; lia).
    cbn [deref rbind]. rewrite to_uint_of_int by done. cbn [deref rbind].
    done. }
  exists h1, h2, (put_thread thr t3 h2), t2, t3.
  split.
  { apply (op_TRYCATCH_ok a b c h thr t act fn None); try done. by rewrite Hbind. }
  split; [done|]. split; [apply get_put_thread_eq|].
  split; [done|]. split; [done|].
  split.
  { cbn [t2 valstack]. unfold vs2. rewrite list_lookup_insert_ne by lia.
    apply list_lookup_insert_eq. unfold ib. lia. }
  split.
  { cbn [t2 valstack]. unfold vs2. apply list_lookup_insert_eq.
    rewrite length_insert. unfold ib. lia. }
  split; [done|]. split; [apply get_put_thread_eq|].
  split.
  { intros q Hq. unfold h2. by rewrite !get_put_thread_ne by done. }
  split; [done|].
  split.
  { unfold t3, duk_hthread_catchstack_unwind, catchstack_top.
    cbn [t2 catchstack set_catchstack]. rewrite length_app. cbn [length].
    replace (length (catchstack t) + 1 - 1) with (length (catchstack t)) by lia.
    apply take_app_length. }
  split; [done|].
  split; [done|]. split; [done|].
  intros i Hi Hnot. cbn [t3 t2 duk_hthread_catchstack_unwind valstack set_catchstack].
  unfold vs2. rewrite !list_lookup_insert_ne; [done| |].
  - intros <-. apply Hnot, list_elem_of_here.
  - intros <-. apply Hnot, list_elem_of_further, list_elem_of_here.
Qed.

(** Entering the catch part of catcher [cat_idx] with a catch binding. *)
Lemma handle_catch_binding_ok
    (l : duk_ljstate) (cat_idx : nat) (t : duk_hthread)
    (cat : duk_catcher) (act : duk_activation) (f : duk_hcompiledfunction)
    (varname : string) :
  catchstack t !! cat_idx = Some cat ->
  callstack t !! callstack_index cat = Some act ->
  act_func act = Some (HCompiledFunction f) ->
  idx_base cat + 1 < length (valstack t) ->
  idx_bottom act + nregs f + 3 <= length (valstack t) ->
  catch_binding_enabled cat = true ->
  h_varname cat = Some varname ->
  exists vs : list duk_tval,
    duk__handle_catch_or_finally l cat_idx false t
    = Ok {| valstack := vs;
            valstack_bottom := idx_bottom act;
            valstack_top := idx_bottom act + nregs f;
            valstack_max := valstack_max t;
            callstack :=
              take (callstack_index cat) (callstack t)
              ++ [in_catch_scope varname (lj_value1 l) (set_pc (pc_base cat) act)];
            catchstack :=
              take cat_idx (catchstack t)
              ++ [DUK_CAT_CLEAR_CATCH_ENABLED (DUK_CAT_SET_LEXENV_ACTIVE cat)];
            state := state t;
            resumer := resumer t |}
    /\ length vs = length (valstack t)
    /\ (idx_base cat + 1 < valstack_top t ->
        idx_base cat + 1 < idx_bottom act + nregs f ->
        vs !! idx_base cat = Some (lj_value1 l)
        /\ vs !! (idx_base cat + 1) = Some (TvNumber (Dbl.of_int (lj_type l))))
    /\ (forall i, i < valstack_top t -> i < idx_bottom act + nregs f ->
                  i <> idx_base cat -> i <> idx_base cat + 1 ->
                  vs !! i = valstack t !! i).
Proof.
  intros Hcat Hact Hf Hslot Hlen Hbind Hname.
  unfold duk__handle_catch_or_finally.
  rewrite Hcat. cbn [deref rbind].
  rewrite write_valstack_ok by lia. cbn [rbind].
  rewrite write_valstack_ok by (simpl; rewrite length_insert; lia). cbn [rbind].
  set (vs1 := <[idx_base cat + 1 := TvNumber (Dbl.of_int (lj_type l))]>
                (<[idx_base cat := lj_value1 l]> (valstack t))).
  unfold top_act, duk_hthread_callstack_unwind, duk_hthread_catchstack_unwind.
  cbn [callstack set_callstack set_catchstack set_valstack].
  rewrite (last_take_S _ _ _ Hact). cbn [deref rbind].
  unfold act_compiledfunction. rewrite Hf. cbn [rbind].
  match goal with |- context [duk_set_top _ ?t0] => set (t0' := t0) end.
  destruct (duk_set_top_ok (nregs f) t0') as (vs & Hs & Hl & Hkeep & _).
  { simpl. unfold vs1. rewrite !length_insert. lia. }
  rewrite Hs. cbn [rbind]. rewrite Hbind. cbn [negb andb rbind].
  assert (Hl' : length vs = length (valstack t)).
  { rewrite Hl. simpl. unfold vs1. by rewrite !length_insert. }
  unfold catch_binding, top_act, upd_top_act, upd_cat, callstack_top.
  cbn [callstack catchstack valstack valstack_top valstack_bottom
       set_callstack set_catchstack set_valstack set_valstack_top
       set_valstack_bottom t0'].
  rewrite !length_alter.
  rewrite (take_alter_last _ _ _ _ Hact).
  rewrite last_snoc. cbn [deref rbind].
  rewrite Nat.add_0_r.
  set (act1 := set_pc (pc_base cat) act).
  fold (scope_ready act1).
  assert (Hlt : callstack_index cat < length (callstack t))
    by (by apply lookup_lt_Some in Hact).
  assert (Htk : length (take (callstack_index cat) (callstack t))
                = callstack_index cat) by (rewrite length_take_le; lia).
  assert (Hci : length (take (callstack_index cat + 1) (callstack t)) - 1
                = callstack_index cat) by (rewrite length_take_le; lia).
  rewrite !Hci.
  rewrite !(alter_snoc_at (fun _ => scope_ready act1) _ act1 _ Htk).
  rewrite length_app, Htk. cbn [length].
  replace (callstack_index cat + 1 - 1) with (callstack_index cat) by lia.
  destruct (Nat.ltb_spec (length vs) (idx_bottom act + nregs f + 3)); [lia|].
  assert (Hcat' : take (cat_idx + 1) (catchstack t) !! cat_idx = Some cat).
  { rewrite lookup_take_lt by lia. done. }
  rewrite Hcat'. cbn [deref rbind]. rewrite Hname. cbn [deref rbind].
  rewrite (alter_snoc_at _ _ (scope_ready act1) _ Htk).
  exists (list_inserts (idx_bottom act + nregs f) (replicate 3 TvUndefinedUnused) vs).
  split.
  { cbn [catchstack set_valstack set_catchstack].
    rewrite list_alter_alter_eq.
    rewrite (take_alter _ _ _ _ Hcat).
    unfold set_catchstack, set_valstack, set_callstack. simpl. done. }
  split; [by rewrite length_inserts|].
  simpl in Hkeep. split.
  - intros H1 H2. rewrite !list_lookup_inserts_lt by lia.
    rewrite !Hkeep by lia. unfold vs1. split.
    + rewrite list_lookup_insert_ne by lia.
      apply list_lookup_insert_eq. lia.
    + apply list_lookup_insert_eq. rewrite length_insert. lia.
  - intros i H1 H2 H3 H4. rewrite list_lookup_inserts_lt by lia.
    rewrite Hkeep by lia. unfold vs1.
    by rewrite !list_lookup_insert_ne by lia.
Qed.

Lemma set_pc_back (act : duk_activation) n :
  set_pc (pc act) (set_pc n act) = act.
Proof. by destruct act. Qed.

Lemma alter_const_last {X} (y : X) (l : list X) (x : X) :
  l !! (length l - 1) = Some x ->
  take (length l - 1) l ++ [y] = alter (fun _ => y) (length l - 1) l.
Proof. intros Hx. by rewrite (alter_last_snoc (fun _ => y) l x Hx). Qed.

(** Property X19.  The variable of a catch clause is in scope in the clause
    and only there: after TRYCATCH with a catch binding (no finally part)
    and a THROW, the activation's scope chain, built first if it had not
    been, starts with a new declarative environment that binds the catch
    variable to the thrown value and resolves every other name as before;
    ENDCATCH removes that environment again, drops the catcher and continues
    at the second jump slot. *)
Theorem catch_variable_scope
    (fuel : nat) (a : Z) (b c b' : nat) (h : duk_heap) (thr e et : nat)
    (t : duk_hthread) (act : duk_activation) (fn : duk_hcompiledfunction)
    (x : duk_tval) (varname : string) :
  curr_thread h = thr ->
  get_thread h thr = Ok t ->
  top_act t = Ok act ->
  act_func act = Some (HCompiledFunction fn) ->
  duk_hthread_catchstack_grow t = None ->
  has_flag a DUK_BC_TRYCATCH_FLAG_HAVE_CATCH = true ->
  has_flag a DUK_BC_TRYCATCH_FLAG_HAVE_FINALLY = false ->
  has_flag a DUK_BC_TRYCATCH_FLAG_CATCH_BINDING = true ->
  has_flag a DUK_BC_TRYCATCH_FLAG_WITH_BINDING = false ->
  consts fn !! c = Some (TvString varname) ->
  (* the frame's registers are the slots in use, with room for the three
     temporaries of the binding *)
  idx_bottom act = valstack_bottom t ->
  valstack_top t = valstack_bottom t + nregs fn ->
  valstack_top t + 3 <= length (valstack t) ->
  b + 1 < nregs fn ->
  b' < nregs fn ->
  valstack t !! (valstack_bottom t + b') = Some x ->
  thr <> e \/ 1 <= et <= callstack_top t ->
  exists (h1 h2 h3 h4 : duk_heap) (t3 t4 : duk_hthread),
    op_TRYCATCH a b c h thr = Ok (OpNext h1)
    /\ op_THROW b' h1 thr = Ok (OpLongjmp h2)
    /\ executor_longjmp_caught (S fuel) h2 e et = Ok (ExecRestart h3)
    /\ get_thread h3 thr = Ok t3
    (* in the catch clause the variable is bound to the thrown value, in
       an environment of its own in front of the frame's scope chain *)
    /\ callstack t3
       = alter (fun _ => in_catch_scope varname (thrown_value x) act)
           (callstack_top t - 1) (callstack t)
    /\ env_lookup varname
         (lex_env (in_catch_scope varname (thrown_value x) act))
       = Some (thrown_value x, TvUndefined)
    /\ (forall other, other <> varname ->
          env_lookup other
            (lex_env (in_catch_scope varname (thrown_value x) act))
          = env_lookup other (lex_env (scope_ready act)))
    /\ last (catchstack t3)
       = Some (DUK_CAT_CLEAR_CATCH_ENABLED
                 (DUK_CAT_SET_LEXENV_ACTIVE
                    (trycatch_catcher a b (Some varname) t act)))
    /\ valstack t3 !! (valstack_bottom t + b) = Some (thrown_value x)
    (* ENDCATCH takes the environment off again and drops the catcher *)
    /\ op_ENDCATCH h3 thr = Ok (OpNext h4)
    /\ get_thread h4 thr = Ok t4
    /\ callstack t4
       = alter (fun _ => set_pc (pc act + 1) (scope_ready act))
           (callstack_top t - 1) (callstack t)
    /\ catchstack t4 = catchstack t
    /\ registers_kept [valstack_bottom t + b; valstack_bottom t + b + 1] t t4.
Proof.
  intros Hcur Ht Hact Hf Hgrow Hcatch Hfin Hbind Hwith Hc Hib Hregs Htop
    Hb Hb' Hx Hlevel.
  set (cat := trycatch_catcher a b (Some varname) t act).
  set (t1 := pushed cat t).
  destruct (pushed_fields cat t act Hact)
    as (Hvs & Hbt & Htp & Hcat & Hctop & Hlast & Hact1).
  fold t1 in Hvs, Hbt, Htp, Hcat, Hctop, Hlast, Hact1.
  set (h1 := put_thread thr t1 h).
  assert (Hg1 : get_thread h1 thr = Ok t1) by apply get_put_thread_eq.
  set (v := thrown_value x).
  set (h2 := raised thr DUK_LJ_TYPE_THROW v t1 h1).
  assert (Hthrow : op_THROW b' h1 thr = Ok (OpLongjmp h2)).
  { apply (op_THROW_ok b' h1 thr t1 x Hg1);
      [unfold duk_get_top; rewrite Hbt, Htp; lia
      |by rewrite Hvs, Hbt|rewrite Hvs, Htp; lia]. }
  set (t2 := set_valstack (<[valstack_top t1 := TvUndefinedUnused]>
                             (<[valstack_top t1 := v]> (valstack t1))) t1).
  assert (Ht2 : get_thread h2 thr = Ok t2) by apply get_thread_raised.
  set (act2 := set_pc (pc act + 2) act).
  assert (Hact2 : callstack t2 !! callstack_index cat = Some act2).
  { change (callstack t2) with (callstack t1).
    cbn [cat trycatch_catcher callstack_index]. rewrite <- Hctop.
    by apply top_act_lookup. }
  assert (Hcat2 : catchstack t2 !! length (catchstack t) = Some cat).
  { change (catchstack t2) with (catchstack t1). rewrite Hcat.
    by apply list_lookup_middle. }
  assert (Hlen2 : length (valstack t2) = length (valstack t)).
  { unfold t2. simpl. by rewrite !length_insert. }
  destruct (handle_catch_binding_ok (lj h2) (length (catchstack t))
              t2 cat act2 fn varname Hcat2 Hact2 Hf)
    as (vs & Hh & Hvl & Hslots & Hkeep).
  { rewrite Hlen2. cbn [cat trycatch_catcher idx_base]. lia. }
  { rewrite Hlen2. cbn [act2 set_pc idx_bottom]. lia. }
  { cbn [cat trycatch_catcher catch_binding_enabled]. done. }
  { done. }
  destruct Hslots as [Hs0 Hs1].
  { cbn [cat trycatch_catcher idx_base]. change (valstack_top t2) with (valstack_top t). lia. }
  { cbn [cat trycatch_catcher idx_base act2 set_pc idx_bottom]. lia. }
  cbn [cat trycatch_catcher pc_base] in Hh. unfold act2 in Hh.
  rewrite set_pc_back in Hh.
  change (lj_value1 (lj h2)) with v in Hh, Hs0.
  match type of Hh with _ = Ok ?r => set (t3 := r) in * end.
  assert (Honce : duk__handle_longjmp_once h2 thr e et
                  = Ok (LjReturn DUK__LONGJMP_RESTART
                          (set_lj lj_wiped (put_thread thr t3 h2)))).
  { rewrite longjmp_once_throw by done.
    unfold handle_throw. rewrite Ht2. cbn [rbind].
    change (catchstack t2) with (catchstack t1). rewrite Hcat, rev_snoc.
    cbn [throw_scan]. cbn [cat trycatch_catcher callstack_index catch_enabled].
    rewrite (entry_level_not_reached thr e et t Hlevel), Hcatch, length_rev.
    change (catchstack t1) with (catchstack t2) in Hh.
    fold cat. rewrite Hh. done. }
  set (h3 := set_lj lj_wiped (put_thread thr t3 h2)).
  assert (Hg3 : get_thread h3 thr = Ok t3).
  { unfold h3. rewrite get_thread_set_lj. apply get_put_thread_eq. }
  pose proof Hact as Hact0. apply top_act_lookup in Hact0.
  unfold callstack_top in Hact0.
  assert (Hcs3 : callstack t3
                 = alter (fun _ => in_catch_scope varname v act)
                     (callstack_top t - 1) (callstack t)).
  { cbn [t3 callstack]. cbn [cat trycatch_catcher callstack_index].
    change (callstack t2)
      with (alter (fun act => set_pc (pc act + 2) act) (callstack_top t - 1)
              (callstack t)).
    rewrite take_alter_same. unfold callstack_top.
    by apply alter_const_last with (x := act). }
  set (sr := scope_ready act).
  set (t4 := {| valstack := vs; valstack_bottom := valstack_bottom t3;
                valstack_top := valstack_top t3; valstack_max := valstack_max t3;
                callstack := alter (fun _ => set_pc (pc act + 1) sr)
                               (callstack_top t - 1) (callstack t);
                catchstack := catchstack t;
                state := state t3; resumer := resumer t3 |}).
  assert (Hendcatch : op_ENDCATCH h3 thr = Ok (OpNext (put_thread thr t4 h3))).
  { unfold op_ENDCATCH. rewrite Hg3. cbn [rbind].
    assert (Htop3 : top_act t3 = Ok (in_catch_scope varname v act)).
    { unfold top_act. cbn [t3 callstack]. by rewrite last_snoc. }
    rewrite Htop3. cbn [rbind].
    cbn [t3 catchstack]. rewrite last_snoc. cbn [deref rbind].
    cbn [lexenv_active DUK_CAT_CLEAR_CATCH_ENABLED DUK_CAT_SET_LEXENV_ACTIVE].
    cbn [in_catch_scope set_lex_env lex_env]. fold sr. cbn [rbind].
    unfold finally_or_dismantle.
    cbn [finally_enabled DUK_CAT_CLEAR_CATCH_ENABLED DUK_CAT_SET_LEXENV_ACTIVE
         cat trycatch_catcher pc_base].
    rewrite Hfin. cbn [rbind]. do 3 f_equal.
    assert (Hcat3 : catchstack t3
                    = catchstack t
                      ++ [DUK_CAT_CLEAR_CATCH_ENABLED
                            (DUK_CAT_SET_LEXENV_ACTIVE cat)]).
    { cbn [t3 catchstack]. change (catchstack t2) with (catchstack t1).
      by rewrite Hcat, take_app_length. }
    unfold t4, duk_hthread_catchstack_unwind, upd_cat, upd_top_act,
      catchstack_top, callstack_top, set_callstack, set_catchstack.
    cbn [catchstack callstack valstack valstack_bottom valstack_top valstack_max
         state resumer].
    rewrite !length_alter, Hcat3, Hcs3, !length_alter, length_app.
    cbn [length].
    replace (length (catchstack t) + 1 - 1) with (length (catchstack t)) by lia.
    rewrite take_alter_same, take_app_length.
    unfold callstack_top. rewrite !list_alter_alter_eq.
    done. }
  exists h1, h2, h3, (put_thread thr t4 h3), t3, t4.
  split.
  { apply (op_TRYCATCH_ok a b c h thr t act fn (Some varname)); try done.
    rewrite Hbind. by exists varname. }
  split; [done|].
  split.
  { unfold executor_longjmp_caught.
    replace (curr_thread h2) with thr by (by rewrite <- Hcur).
    rewrite (handle_longjmp_return fuel _ _ _ _ _ _ Honce). done. }
  split; [done|]. split; [done|].
  split.
  { cbn [in_catch_scope set_lex_env lex_env env_lookup env_props env_class].
    by rewrite lookup_singleton_eq. }
  split.
  { intros other Hother.
    cbn [in_catch_scope set_lex_env lex_env env_lookup env_props env_class].
    by rewrite lookup_singleton_ne. }
  split; [cbn [t3 catchstack]; by rewrite last_snoc|].
  split; [done|].
  split; [done|]. split; [apply get_put_thread_eq|].
  split; [done|]. split; [done|].
  cbn [cat trycatch_catcher idx_base] in Hkeep.
  split; [cbn [t4 t3 valstack_bottom act2 set_pc idx_bottom]; done|].
  split; [cbn [t4 t3 valstack_top act2 set_pc idx_bottom]; lia|].
  intros i Hi Hnot. cbn [t4 valstack].
  rewrite Hkeep.
  - unfold t2. simpl. change (valstack_top (skip_jump_slots _)) with (valstack_top t).
    by rewrite !list_lookup_insert_ne by lia.
  - done.
  - cbn [act2 set_pc idx_bottom]. lia.
  - intros ->. apply Hnot, list_elem_of_here.
  - intros ->. apply Hnot, list_elem_of_further, list_elem_of_here.
Qed.

End Catchers.

(** ** The order of the catch stack *)

Section CatchStackOrder.
Context {A : duk_arith} {E : duk_engine} {D : duk_dispatch}.

Ltac unbind H :=
  repeat (let x := fresh "x" in let Hx := fresh "Hx" in
          apply rbind_Ok in H as (x & Hx & H)).

Lemma ordered_iff t : catchstack_ordered t <-> ordered_shape (shape t).
Proof.
  unfold catchstack_ordered, ordered_shape, shape, callstack_top. simpl. split.
  - intros H i j a b Hij Ha Hb.
    rewrite list_lookup_fmap in Ha, Hb.
    destruct (catchstack t !! i) as [c|] eqn:Hc; [|done].
    destruct (catchstack t !! j) as [c'|] eqn:Hc'; [|done].
    injection Ha as <-. injection Hb as <-. by apply (H i j).
  - intros H i j c c' Hij Hc Hc'.
    apply (H i j); [done|rewrite list_lookup_fmap, Hc|rewrite list_lookup_fmap, Hc']; done.
Qed.

Lemma ordered_take n l k : ordered_shape (n, l) -> ordered_shape (n, take k l).
Proof.
  intros H i j a b Hij Ha Hb. simpl in *.
  apply lookup_take_Some in Ha as [Ha _]. apply lookup_take_Some in Hb as [Hb _].
  by apply (H i j).
Qed.

Lemma ordered_push n l : 1 <= n -> ordered_shape (n, l) -> ordered_shape (n, l ++ [n - 1]).
Proof.
  intros Hn H i j a b Hij Ha Hb. simpl in *.
  destruct (decide (j < length l)) as [Hj|Hj].
  - rewrite lookup_app_l in Ha, Hb by lia. by apply (H i j).
  - rewrite lookup_app_r in Hb by lia.
    destruct (j - length l) as [|?] eqn:Hd; [|done]. injection Hb as <-.
    destruct (decide (i < length l)) as [Hi|Hi].
    + rewrite lookup_app_l in Ha by lia.
      destruct (H i i a a) as [_ ?]; [done..|]. simpl in *. lia.
    + rewrite lookup_app_r in Ha by lia.
      destruct (i - length l) as [|?] eqn:Hd'; [|done]. injection Ha as <-. lia.
Qed.

(** Unwinding the call stack to the frame of catcher [i] and the catch
    stack to that catcher. *)
Lemma ordered_unwind_to n l i ci :
  ordered_shape (n, l) -> l !! i = Some ci ->
  ordered_shape (Nat.min (ci + 1) n, take (i + 1) l).
Proof.
  intros H Hi k j a b Hkj Ha Hb. simpl in *.
  apply lookup_take_Some in Ha as [Ha _]. apply lookup_take_Some in Hb as [Hb Hj].
  destruct (H k j a b Hkj Ha Hb) as [? ?].
  destruct (H j i b ci) as [? ?]; [lia|done..|]. simpl in *. lia.
Qed.

(** Dropping the top frame and its catchers. *)
Lemma ordered_drop_frame n l k :
  ordered_shape (n, l) ->
  (forall j a, k <= j -> l !! j = Some a -> a = n - 1) ->
  match k with 0 => True | S j => exists a, l !! j = Some a /\ a <> n - 1 end ->
  ordered_shape (n - 1, take k l).
Proof.
  intros H Habove Hbelow i j a b Hij Ha Hb. simpl in *.
  apply lookup_take_Some in Ha as [Ha _]. apply lookup_take_Some in Hb as [Hb Hj].
  destruct (H i j a b Hij Ha Hb) as [? ?]. split; [done|]. simpl in *.
  destruct k as [|k']; [lia|]. destruct Hbelow as (a0 & Ha0 & Hne).
  destruct (H j k' b a0) as [? ?]; [lia|done..|]. simpl in *. lia.
Qed.

Lemma fmap_alter_same {X Y} (g : X -> Y) (f : X -> X) i (l : list X) :
  (forall x, g (f x) = g x) -> g <$> alter f i l = g <$> l.
Proof.
  intros Hf. apply list_eq. intros j. rewrite !list_lookup_fmap.
  destruct (decide (i = j)) as [->|Hne].
  - rewrite list_lookup_alter_eq. destruct (l !! j); simpl; by rewrite ?Hf.
  - by rewrite list_lookup_alter_ne.
Qed.

(** The value stack primitives leave the shape alone. *)
Lemma shape_write_valstack i v t t' : write_valstack i v t = Ok t' -> shape t' = shape t.
Proof. unfold write_valstack. destruct (_ <? _); [|done]. by intros [= <-]. Qed.

Lemma shape_push v t t' : duk_push_tval v t = Ok t' -> shape t' = shape t.
Proof. intros H. by apply duk_push_tval_inv in H as [_ ->]. Qed.

Lemma shape_pop t t' : duk_pop t = Ok t' -> shape t' = shape t.
Proof. intros H. by apply duk_pop_inv in H as [_ ->]. Qed.

Lemma shape_dup i t t' : duk_dup i t = Ok t' -> shape t' = shape t.
Proof.
  unfold duk_dup. destruct (_ <=? _); [done|]. intros H. unbind H.
  by apply shape_push in H.
Qed.

Lemma shape_set_top n t t' : duk_set_top n t = Ok t' -> shape t' = shape t.
Proof.
  unfold duk_set_top. destruct (_ || _)%Z; [done|].
  destruct (_ <=? _); by intros [= <-].
Qed.

Lemma shape_resize n t t' : duk_valstack_resize_raw n t = Ok t' -> shape t' = shape t.
Proof. unfold duk_valstack_resize_raw. destruct (_ <=? _); [done|]. by intros [= <-]. Qed.

Lemma shape_reconfig i n t t' :
  duk__reconfig_valstack i n t = Ok t' -> shape t' = shape t.
Proof.
  unfold duk__reconfig_valstack. intros H. unbind H.
  apply shape_set_top in H. apply shape_resize in Hx2. apply shape_set_top in Hx0.
  rewrite H, Hx2, Hx0. done.
Qed.

Lemma shape_upd_top_act f t : shape (upd_top_act f t) = shape t.
Proof. unfold shape, upd_top_act. simpl. by rewrite length_alter. Qed.

Lemma shape_upd_cat i f t :
  (forall c, callstack_index (f c) = callstack_index c) ->
  shape (upd_cat i f t) = shape t.
Proof. intros Hf. unfold shape, upd_cat. simpl. by rewrite fmap_alter_same. Qed.

Lemma shape_catchstack_unwind k t :
  shape (duk_hthread_catchstack_unwind k t) = ((shape t).1, take k (shape t).2).
Proof. unfold shape. simpl. by rewrite fmap_take. Qed.

Lemma shape_push_catcher cat t :
  shape (catchstack_push cat t) = ((shape t).1, (shape t).2 ++ [callstack_index cat]).
Proof. unfold shape. simpl. by rewrite fmap_app. Qed.

Lemma top_act_nonempty t act : top_act t = Ok act -> 1 <= length (callstack t).
Proof.
  unfold top_act. destruct (callstack t) as [|? ?]; [done|]. simpl. lia.
Qed.

Lemma shape_with_binding_setup fn c t r :
  with_binding_setup fn c t = Ok r -> shape r.2 = shape t.
Proof.
  unfold with_binding_setup. intros H. unbind H. injection H as <-. simpl.
  apply shape_pop in Hx7. apply shape_pop in Hx6. apply shape_dup in Hx5.
  apply shape_write_valstack in Hx4. apply shape_push in Hx2.
  apply shape_push in Hx0.
  rewrite Hx7, Hx6, Hx5, Hx4, Hx2, Hx0.
  destruct (lex_env x); [apply shape_upd_top_act|done].
Qed.

Lemma shape_LABEL abc h thr h' t :
  get_thread h thr = Ok t ->
  op_LABEL abc h thr = Ok (OpNext h') ->
  exists t', get_thread h' thr = Ok t'
    /\ 1 <= (shape t).1
    /\ shape t' = ((shape t).1, (shape t).2 ++ [(shape t).1 - 1]).
Proof.
  intros Ht. unfold op_LABEL. rewrite Ht. cbn [rbind]. intros H. unbind H.
  injection H as <-. eexists. split; [apply get_put_thread_eq|].
  unfold catchstack_grow in Hx0. destruct (duk_hthread_catchstack_grow t); [done|].
  injection Hx0 as <-.
  split; [by apply top_act_nonempty in Hx|].
  unfold skip_jump_slots. rewrite shape_upd_top_act, shape_push_catcher. done.
Qed.

Lemma shape_TRYCATCH a b c h thr h' t :
  get_thread h thr = Ok t ->
  op_TRYCATCH a b c h thr = Ok (OpNext h') ->
  exists t', get_thread h' thr = Ok t'
    /\ 1 <= (shape t).1
    /\ shape t' = ((shape t).1, (shape t).2 ++ [(shape t).1 - 1]).
Proof.
  intros Ht. unfold op_TRYCATCH. rewrite Ht. cbn [rbind]. intros H.
  apply rbind_Ok in H as (fn & Hfn & H).
  apply rbind_Ok in H as (w & Hw & H).
  apply rbind_Ok in H as (t1 & Hgrow & H).
  apply rbind_Ok in H as (t2 & Hbind & H).
  apply rbind_Ok in H as (act & Hact & H).
  injection H as <-. eexists. split; [apply get_put_thread_eq|].
  assert (Hn : 1 <= (shape t).1).
  { unfold current_function in Hfn. unbind Hfn. by apply top_act_nonempty in Hx. }
  split; [done|].
  assert (Hw' : shape w.2 = shape t).
  { destruct (has_flag a DUK_BC_TRYCATCH_FLAG_WITH_BINDING).
    - unbind Hw. injection Hw as <-. simpl. by apply shape_with_binding_setup in Hx.
    - by injection Hw as <-. }
  unfold catchstack_grow in Hgrow.
  destruct (duk_hthread_catchstack_grow w.2); [done|]. injection Hgrow as <-.
  assert (Hw2 : length (callstack w.2) = length (callstack t)
                /\ callstack_index <$> catchstack w.2
                   = callstack_index <$> catchstack t).
  { unfold shape in Hw'. by injection Hw' as -> ->. }
  destruct Hw2 as [Hwcs Hwcat].
  assert (Ht2 : length (callstack t2) = length (callstack t)
                /\ exists c1, catchstack t2 = catchstack w.2 ++ [c1]).
  { unfold catchstack_push, upd_cat, catchstack_top in Hbind.
    cbn [catchstack set_catchstack] in Hbind.
    destruct (has_flag a DUK_BC_TRYCATCH_FLAG_CATCH_BINDING).
    - unbind Hbind. injection Hbind as <-. simpl. rewrite alter_snoc.
      split; [done|]. by eexists.
    - destruct w.1.
      + apply duk_pop_inv in Hbind as [_ ->]. unfold upd_top_act. simpl.
        rewrite length_alter, alter_snoc. split; [done|]. by eexists.
      + injection Hbind as <-. simpl. split; [done|]. by eexists. }
  destruct Ht2 as (Hcs2 & c1 & Hcat2).
  unfold skip_jump_slots. rewrite shape_upd_top_act.
  unfold shape, upd_cat, catchstack_top, callstack_top.
  cbn [callstack catchstack set_catchstack]. rewrite Hcs2. f_equal.
  rewrite Hcat2, alter_snoc, fmap_app, Hwcat. done.
Qed.

Lemma shape_finally_or_dismantle cat t t' :
  finally_or_dismantle cat t = Ok t' ->
  exists k, shape t' = ((shape t).1, take k (shape t).2).
Proof.
  unfold finally_or_dismantle. intros H. apply rbind_Ok in H as (t1 & H1 & H).
  injection H as <-. rewrite shape_upd_top_act.
  destruct (finally_enabled cat).
  - unbind H1. injection H1 as <-.
    apply shape_write_valstack in Hx, Hx0.
    rewrite shape_upd_cat, Hx0, Hx by done.
    exists (length (shape t).2). rewrite firstn_all. by destruct (shape t).
  - injection H1 as <-. eexists. apply shape_catchstack_unwind.
Qed.

Lemma shape_pops h thr h' t :
  get_thread h thr = Ok t ->
  op_ENDLABEL h thr = Ok (OpNext h')
  \/ op_ENDTRY h thr = Ok (OpNext h')
  \/ op_ENDCATCH h thr = Ok (OpNext h')
  \/ op_ENDFIN h thr = Ok (OpNext h') ->
  exists t' k, get_thread h' thr = Ok t'
    /\ shape t' = ((shape t).1, take k (shape t).2).
Proof.
  intros Ht [H | [H | [H | H]]].
  - unfold op_ENDLABEL in H. rewrite Ht in H. cbn [rbind] in H.
    injection H as <-. eexists _, _. split; [apply get_put_thread_eq|].
    apply shape_catchstack_unwind.
  - unfold op_ENDTRY in H. rewrite Ht in H. cbn [rbind] in H. unbind H.
    injection H as <-.
    apply shape_finally_or_dismantle in Hx1 as [k Hk].
    rewrite shape_upd_cat in Hk by done.
    eexists _, k. split; [apply get_put_thread_eq|done].
  - unfold op_ENDCATCH in H. rewrite Ht in H. cbn [rbind] in H. unbind H.
    injection H as <-.
    apply shape_finally_or_dismantle in Hx2 as [k Hk].
    assert (Hs : shape x1 = shape t).
    { destruct (lexenv_active x0); [|by injection Hx1 as <-].
      destruct (lex_env x); [done|]. injection Hx1 as <-.
      by rewrite shape_upd_cat, shape_upd_top_act by done. }
    rewrite Hs in Hk.
    eexists _, k. split; [apply get_put_thread_eq|done].
  - unfold op_ENDFIN in H. rewrite Ht in H. cbn [rbind] in H. unbind H.
    destruct (x1 =? DUK_LJ_TYPE_NORMAL)%Z; [|by unbind H].
    injection H as <-. eexists _, _. split; [apply get_put_thread_eq|].
    apply shape_catchstack_unwind.
Qed.

(** Property X20.  LABEL, TRYCATCH (with any flags), ENDLABEL, ENDTRY,
    ENDCATCH and an ENDFIN that goes on keep the catch stack in order: if
    every catcher belongs to an activation on the call stack and the
    catchers lie in the order of their activations, the same holds
    afterwards; the call stack keeps its height and the catch stack grows by
    at most one. *)
Theorem catcher_instructions_keep_order
    (a abc : Z) (b c : nat) (h h' : duk_heap) (thr : nat) (t : duk_hthread) :
  get_thread h thr = Ok t ->
  catchstack_ordered t ->
  op_LABEL abc h thr = Ok (OpNext h')
  \/ op_TRYCATCH a b c h thr = Ok (OpNext h')
  \/ op_ENDLABEL h thr = Ok (OpNext h')
  \/ op_ENDTRY h thr = Ok (OpNext h')
  \/ op_ENDCATCH h thr = Ok (OpNext h')
  \/ op_ENDFIN h thr = Ok (OpNext h') ->
  exists t' : duk_hthread,
    get_thread h' thr = Ok t'
    /\ catchstack_ordered t'
    /\ callstack_top t' = callstack_top t
    /\ catchstack_top t' <= catchstack_top t + 1.
Proof.
  intros Ht Hord Hop. apply ordered_iff in Hord.
  assert (Hshape : forall t' : duk_hthread,
            (1 <= (shape t).1
             /\ shape t' = ((shape t).1, (shape t).2 ++ [(shape t).1 - 1]))
            \/ (exists k, shape t' = ((shape t).1, take k (shape t).2)) ->
            catchstack_ordered t'
            /\ callstack_top t' = callstack_top t
            /\ catchstack_top t' <= catchstack_top t + 1).
  { intros t' Hs.
    assert (Hlen : forall u, catchstack_top u = length (shape u).2).
    { intros u. unfold shape, catchstack_top. simpl. by rewrite length_fmap. }
    rewrite ordered_iff, !Hlen.
    change (callstack_top t') with (shape t').1.
    change (callstack_top t) with (shape t).1.
    destruct Hs as [[Hn ->] | [k ->]]; simpl.
    - split; [by apply ordered_push|].
      split; [done|]. rewrite length_app. simpl. lia.
    - split; [by apply ordered_take|].
      split; [done|]. rewrite length_take. lia. }
  destruct Hop as [H | [H | H]].
  - destruct (shape_LABEL _ _ _ _ _ Ht H) as (t' & Hg & Hn & Hs).
    exists t'. split; [done|]. apply Hshape. by left.
  - destruct (shape_TRYCATCH _ _ _ _ _ _ _ Ht H) as (t' & Hg & Hn & Hs).
    exists t'. split; [done|]. apply Hshape. by left.
  - destruct (shape_pops _ _ _ _ Ht H) as (t' & k & Hg & Hs).
    exists t'. split; [done|]. apply Hshape. right. by exists k.
Qed.

Lemma shape_callstack_unwind k t :
  shape (duk_hthread_callstack_unwind k t)
  = (Nat.min k (shape t).1, (shape t).2).
Proof. unfold shape. simpl. by rewrite length_take. Qed.

Lemma shape_catch_binding l i t t' : catch_binding l i t = Ok t' -> shape t' = shape t.
Proof.
  unfold catch_binding. intros H. unbind H.
  destruct (_ <? _); [done|]. unbind H. injection H as <-.
  assert (Hs : forall vs u, shape (set_valstack vs u) = shape u) by done.
  by rewrite Hs, shape_upd_cat, !shape_upd_top_act.
Qed.

Lemma shape_handle_catch_or_finally l i is_finally t t' :
  duk__handle_catch_or_finally l i is_finally t = Ok t' ->
  exists ci, (shape t).2 !! i = Some ci
    /\ shape t' = (Nat.min (ci + 1) (shape t).1, take (i + 1) (shape t).2).
Proof.
  unfold duk__handle_catch_or_finally. intros H.
  apply rbind_Ok in H as (cat & Hcat & H).
  destruct (catchstack t !! i) as [c0|] eqn:Hc; [|done]. injection Hcat as ->.
  exists (callstack_index cat).
  split; [unfold shape; simpl; by rewrite list_lookup_fmap, Hc|].
  apply rbind_Ok in H as (t1 & H1 & H).
  apply rbind_Ok in H as (t2 & H2 & H).
  apply rbind_Ok in H as (act & Hact & H).
  apply rbind_Ok in H as (fn & Hfn & H).
  apply rbind_Ok in H as (t3 & H3 & H).
  apply rbind_Ok in H as (t4 & H4 & H).
  injection H as <-.
  apply shape_write_valstack in H1, H2. apply shape_set_top in H3.
  assert (Hs4 : shape t4 = shape (upd_top_act
                  (set_pc (pc_base cat + (if is_finally then 1 else 0))) t3)).
  { destruct (negb is_finally && catch_binding_enabled cat).
    - by apply shape_catch_binding in H4.
    - by injection H4 as <-. }
  rewrite shape_upd_cat by (by destruct is_finally).
  rewrite Hs4, shape_upd_top_act, H3.
  assert (Hsb : forall n u, shape (set_valstack_bottom n u) = shape u) by done.
  rewrite Hsb, shape_callstack_unwind, shape_catchstack_unwind, H2, H1. done.
Qed.

Lemma shape_handle_label l i t t' :
  duk__handle_label l i t = Ok t' ->
  shape t' = ((shape t).1, take (i + 1) (shape t).2).
Proof.
  unfold duk__handle_label. intros H. unbind H. injection H as <-.
  by rewrite shape_catchstack_unwind, shape_upd_top_act.
Qed.

Lemma ordered_shape_lookup n l i a :
  ordered_shape (n, l) -> l !! i = Some a -> a < n.
Proof. intros H Ha. by destruct (H i i a a). Qed.

(** One pass of the handler in the entry thread. *)
Lemma longjmp_once_keeps_order h e et t s :
  get_thread h e = Ok t ->
  ordered_shape (shape t) ->
  1 <= et <= callstack_top t ->
  lj_type (lj h) = DUK_LJ_TYPE_RETURN \/ lj_type (lj h) = DUK_LJ_TYPE_THROW
  \/ lj_type (lj h) = DUK_LJ_TYPE_BREAK \/ lj_type (lj h) = DUK_LJ_TYPE_CONTINUE ->
  duk__handle_longjmp_once h e e et = Ok s ->
  exists rv h' t' n' k,
    s = LjReturn rv h'
    /\ get_thread h' e = Ok t'
    /\ shape t' = (n', take k (shape t).2)
    /\ n' <= (shape t).1
    /\ ordered_shape (shape t').
Proof.
  intros Ht Hord Het Hty Honce.
  assert (Hfin : forall i is_finally t',
            duk__handle_catch_or_finally (lj h) i is_finally t = Ok t' ->
            exists n' k, shape t' = (n', take k (shape t).2)
              /\ n' <= (shape t).1 /\ ordered_shape (shape t')).
  { intros i is_finally t' Hh.
    apply shape_handle_catch_or_finally in Hh as (ci & Hci & Hs).
    eexists _, _. split; [done|]. split; [lia|]. rewrite Hs.
    apply ordered_unwind_to; [by destruct (shape t)|done]. }
  assert (Hsame : forall t', shape t' = shape t ->
            exists n' k, shape t' = (n', take k (shape t).2)
              /\ n' <= (shape t).1 /\ ordered_shape (shape t')).
  { intros t' Hs. exists (shape t).1, (length (shape t).2).
    rewrite firstn_all, Hs. by destruct (shape t). }
  assert (Hput : forall t', get_thread (set_lj lj_wiped (put_thread e t' h)) e = Ok t').
  { intros t'. rewrite get_thread_set_lj. apply get_put_thread_eq. }
  unfold duk__handle_longjmp_once in Honce.
  destruct Hty as [Hty | [Hty | Hty]].
  - (* RETURN *)
    rewrite Hty in Honce. cbn [Z.eqb Pos.eqb DUK_LJ_TYPE_RETURN
      DUK_LJ_TYPE_RESUME DUK_LJ_TYPE_YIELD] in Honce.
    unfold handle_return, wipe_and_return in Honce.
    rewrite Ht in Honce. cbn [rbind] in Honce.
    pose proof (return_scan_spec
                  (match callstack_top t with 0 => None | S n => Some n end)
                  (catchstack t)) as Hspec.
    destruct (return_scan _ _) as [| i | | k]; try done.
    + apply rbind_Ok in Honce as (t' & Hh & Honce). injection Honce as <-.
      destruct (Hfin i true t' Hh) as (n' & k & ?).
      by eexists _, _, t', n', k.
    + destruct (bool_decide (e = e) && (callstack_top t =? et)) eqn:Hentry.
      * apply rbind_Ok in Honce as (t' & Hh & Honce). injection Honce as <-.
        apply shape_push in Hh. destruct (Hsame t' Hh) as (n' & k' & ?).
        by eexists _, _, t', n', k'.
      * destruct (Nat.leb_spec 2 (callstack_top t)) as [H2|H2].
        2:{ rewrite bool_decide_eq_true_2 in Hentry by done.
            apply Nat.eqb_neq in Hentry. lia. }
        apply rbind_Ok in Honce as (act & Hact & Honce).
        apply rbind_Ok in Honce as (t1 & H1 & Honce).
        apply rbind_Ok in Honce as (t' & Hh & Honce). injection Honce as <-.
        apply shape_write_valstack in H1. apply shape_reconfig in Hh.
        rewrite shape_callstack_unwind, shape_catchstack_unwind in Hh.
        unfold callstack_top in Hh at 1.
        cbn [callstack duk_hthread_catchstack_unwind set_catchstack] in Hh.
        rewrite H1 in Hh. cbn [fst snd] in Hh.
        assert (Hl1 : length (callstack t1) = (shape t).1)
          by (unfold shape in H1; by injection H1).
        rewrite Hl1 in Hh.
        change (callstack_top t) with (shape t).1 in H2.
        replace (Nat.min ((shape t).1 - 1) (shape t).1)
          with ((shape t).1 - 1) in Hh by lia.
        eexists _, _, t', _, k. split; [done|]. split; [apply Hput|].
        split; [done|]. split; [lia|]. rewrite Hh.
        destruct Hspec as (Hk & Hskip & Hbelow).
        destruct (shape t) as [n l] eqn:Hsh. cbn [fst snd] in *.
        assert (Hn : callstack_top t = n) by (unfold shape in Hsh; by injection Hsh).
        assert (Hl : callstack_index <$> catchstack t = l)
          by (unfold shape in Hsh; by injection Hsh).
        rewrite Hn in Hskip, Hbelow.
        destruct n as [|n0]; [lia|].
        apply ordered_drop_frame; [done| |].
        { intros j a Hj Ha. rewrite <- Hl, list_lookup_fmap in Ha.
          destruct (catchstack t !! j) as [c|] eqn:Hc; [|done]. injection Ha as <-.
          destruct (Hskip j c Hj Hc) as [Heq _]. injection Heq as ->. simpl. lia. }
        { destruct k as [|k0]; [done|]. destruct Hbelow as (cat & Hcat & Hne).
          exists (callstack_index cat).
          split; [by rewrite <- Hl, list_lookup_fmap, Hcat|].
          intros Heq. apply Hne. f_equal. simpl in Heq. lia. }
  - (* THROW *)
    rewrite Hty in Honce. cbn [Z.eqb Pos.eqb DUK_LJ_TYPE_RETURN DUK_LJ_TYPE_THROW
      DUK_LJ_TYPE_BREAK DUK_LJ_TYPE_CONTINUE orb
      DUK_LJ_TYPE_RESUME DUK_LJ_TYPE_YIELD] in Honce.
    unfold handle_throw, wipe_and_return, just_return in Honce.
    rewrite Ht in Honce. cbn [rbind] in Honce.
    destruct (throw_scan _ _ _) as [i | i | | k]; try done.
    + apply rbind_Ok in Honce as (t' & Hh & Honce). injection Honce as <-.
      destruct (Hfin i false t' Hh) as (n' & k & ?).
      by eexists _, _, t', n', k.
    + apply rbind_Ok in Honce as (t' & Hh & Honce). injection Honce as <-.
      destruct (Hfin i true t' Hh) as (n' & k & ?).
      by eexists _, _, t', n', k.
    + rewrite bool_decide_eq_true_2 in Honce by done. injection Honce as <-.
      destruct (Hsame t eq_refl) as (n' & k' & ?).
      by eexists _, _, t, n', k'.
  - (* BREAK, CONTINUE *)
    assert (Hbc : duk__handle_longjmp_once h e e et = handle_break_continue h e)
      by (by apply longjmp_once_break_continue).
    unfold duk__handle_longjmp_once in Hbc. rewrite Hbc in Honce.
    unfold handle_break_continue, wipe_and_return, convert_to_internal_error
      in Honce.
    rewrite Ht in Honce. cbn [rbind] in Honce.
    apply rbind_Ok in Honce as (lbl & Hlbl & Honce).
    destruct (rev (catchstack t)) as [|cat rcs]; [done|].
    destruct (break_scan _ _ _) as [| i | i |]; try done.
    + apply rbind_Ok in Honce as (t' & Hh & Honce). injection Honce as <-.
      destruct (Hfin i true t' Hh) as (n' & k & ?).
      by eexists _, _, t', n', k.
    + apply rbind_Ok in Honce as (t' & Hh & Honce). injection Honce as <-.
      apply shape_handle_label in Hh.
      eexists _, _, t', _, _. split; [done|]. split; [apply Hput|].
      split; [done|]. split; [done|]. rewrite Hh.
      apply ordered_take. by destruct (shape t).
Qed.

(** Property X21.  Handling a return, throw, break or continue in the entry
    thread, at or above the entry level, keeps its catch stack in order:
    whichever catcher takes the longjmp, or none, afterwards every catcher
    still belongs to an activation on the call stack and the catchers lie in
    the order of their activations; neither stack has grown. *)
Theorem handler_keeps_catch_stack_order
    (fuel : nat) (h : duk_heap) (entry_thread entry_callstack_top : nat)
    (t : duk_hthread) (rv : duk_lj_retval) (h' : duk_heap) :
  get_thread h entry_thread = Ok t ->
  catchstack_ordered t ->
  1 <= entry_callstack_top <= callstack_top t ->
  lj_type (lj h) = DUK_LJ_TYPE_RETURN \/ lj_type (lj h) = DUK_LJ_TYPE_THROW
  \/ lj_type (lj h) = DUK_LJ_TYPE_BREAK \/ lj_type (lj h) = DUK_LJ_TYPE_CONTINUE ->
  duk__handle_longjmp fuel h entry_thread entry_thread entry_callstack_top
  = Ok (rv, h') ->
  exists t' : duk_hthread,
    get_thread h' entry_thread = Ok t'
    /\ catchstack_ordered t'
    /\ callstack_top t' <= callstack_top t
    /\ catchstack_top t' <= catchstack_top t.
Proof.
  intros Ht Hord Het Hty Hrun. apply ordered_iff in Hord.
  destruct fuel as [|fuel]; [done|].
  cbn [duk__handle_longjmp] in Hrun.
  apply rbind_Ok in Hrun as (s & Honce & Hrun).
  destruct (longjmp_once_keeps_order h entry_thread entry_callstack_top t s
              Ht Hord Het Hty Honce)
    as (rv1 & h1 & t' & n' & k & -> & Hg & Hs & Hn & Ho).
  injection Hrun as <- <-.
  exists t'. split; [done|]. split; [by apply ordered_iff|].
  assert (Hlen : forall u, catchstack_top u = length (shape u).2).
  { intros u. unfold shape, catchstack_top. simpl. by rewrite length_fmap. }
  rewrite !Hlen.
  change (callstack_top t') with (shape t').1.
  change (callstack_top t) with (shape t).1.
  rewrite Hs. simpl. split; [done|]. rewrite length_take. lia.
Qed.

End CatchStackOrder.

(** ** The current thread *)

Section Scheduling.
Context {E : duk_engine}.

Ltac unbind H :=
  repeat (let x := fresh "x" in let Hx := fresh "Hx" in
          apply rbind_Ok in H as (x & Hx & H)).

Lemma threads_upd p f h : threads_of (upd_thread p f h) = threads_of h.
Proof. unfold threads_of, upd_thread. simpl. apply dom_alter_L. Qed.

Lemma threads_put p t t0 h :
  get_thread h p = Ok t0 -> threads_of (put_thread p t h) = threads_of h.
Proof.
  rewrite get_thread_Ok. intros H. unfold threads_of, put_thread. simpl.
  apply dom_insert_lookup_L. by rewrite H.
Qed.

Lemma threads_set_lj l h : threads_of (set_lj l h) = threads_of h.
Proof. done. Qed.

Lemma get_thread_elem h p t : get_thread h p = Ok t -> p ∈ threads_of h.
Proof.
  rewrite get_thread_Ok. intros H. unfold threads_of. apply elem_of_dom.
  by rewrite H.
Qed.

Lemma elem_get_thread h p : p ∈ threads_of h -> exists t, get_thread h p = Ok t.
Proof.
  unfold threads_of. intros [t Ht]%elem_of_dom. exists t. by apply get_thread_Ok.
Qed.

(** Control handed to [r]: the last two steps of every switch. *)
Lemma switched_running r h :
  r ∈ threads_of h ->
  current_thread_running
    (DUK_HEAP_SWITCH_THREAD r
       (upd_thread r (set_state DUK_HTHREAD_STATE_RUNNING) h)).
Proof.
  intros [t Ht]%elem_get_thread. exists (set_state DUK_HTHREAD_STATE_RUNNING t).
  split; [|done]. cbn [curr_thread DUK_HEAP_SWITCH_THREAD].
  rewrite get_thread_switch. by apply get_upd_thread_eq.
Qed.

Lemma yield_switch_running thr r h :
  r ∈ threads_of h ->
  current_thread_running (yield_switch thr r h)
  /\ threads_of (yield_switch thr r h) = threads_of h.
Proof.
  intros Hr. unfold yield_switch. split.
  - apply switched_running. by rewrite !threads_upd.
  - unfold threads_of. cbn [heap_threads DUK_HEAP_SWITCH_THREAD].
    fold (threads_of (upd_thread r (set_state DUK_HTHREAD_STATE_RUNNING)
            (upd_thread thr (set_resumer None)
               (upd_thread thr (set_state DUK_HTHREAD_STATE_YIELDED) h)))).
    by rewrite !threads_upd.
Qed.

Lemma terminate_switch_running thr r h :
  r ∈ threads_of h ->
  current_thread_running (terminate_switch thr r h)
  /\ threads_of (terminate_switch thr r h) = threads_of h.
Proof.
  intros Hr. unfold terminate_switch. split.
  - apply switched_running. by rewrite !threads_upd.
  - unfold threads_of. cbn [heap_threads DUK_HEAP_SWITCH_THREAD].
    fold (threads_of (upd_thread r (set_state DUK_HTHREAD_STATE_RUNNING)
            (upd_thread thr (set_resumer None)
               (upd_thread thr duk_hthread_terminate h)))).
    by rewrite !threads_upd.
Qed.

Lemma resume_switch_running thr p h :
  p ∈ threads_of h -> p <> thr ->
  current_thread_running (resume_switch thr p h)
  /\ threads_of (resume_switch thr p h) = threads_of h.
Proof.
  intros [t Ht]%elem_get_thread Hne. unfold resume_switch. split.
  - exists (set_state DUK_HTHREAD_STATE_RUNNING (set_resumer (Some thr) t)).
    split; [|done]. cbn [curr_thread DUK_HEAP_SWITCH_THREAD].
    rewrite get_thread_switch, get_upd_thread_ne by done.
    apply get_upd_thread_eq. by apply get_upd_thread_eq.
  - unfold threads_of. cbn [heap_threads DUK_HEAP_SWITCH_THREAD].
    fold (threads_of (upd_thread thr (set_state DUK_HTHREAD_STATE_RESUMED)
            (upd_thread p (set_state DUK_HTHREAD_STATE_RUNNING)
               (upd_thread p (set_resumer (Some thr)) h)))).
    by rewrite !threads_upd.
Qed.

Lemma running_set_lj l h :
  current_thread_running h -> current_thread_running (set_lj l h).
Proof. intros (t & Ht & Hs). exists t. by rewrite get_thread_set_lj. Qed.

(** The value stack primitives and the handler's helpers leave the state
    of the thread alone. *)
Lemma state_write_valstack i v t t' : write_valstack i v t = Ok t' -> state t' = state t.
Proof. unfold write_valstack. destruct (_ <? _); [|done]. by intros [= <-]. Qed.

Lemma state_push v t t' : duk_push_tval v t = Ok t' -> state t' = state t.
Proof. intros H. by apply duk_push_tval_inv in H as [_ ->]. Qed.

Lemma state_set_top n t t' : duk_set_top n t = Ok t' -> state t' = state t.
Proof.
  unfold duk_set_top. destruct (_ || _)%Z; [done|].
  destruct (_ <=? _); by intros [= <-].
Qed.

Lemma state_resize n t t' : duk_valstack_resize_raw n t = Ok t' -> state t' = state t.
Proof. unfold duk_valstack_resize_raw. destruct (_ <=? _); [done|]. by intros [= <-]. Qed.

Lemma state_reconfig i n t t' :
  duk__reconfig_valstack i n t = Ok t' -> state t' = state t.
Proof.
  unfold duk__reconfig_valstack. intros H. unbind H.
  apply state_set_top in H. apply state_resize in Hx2. apply state_set_top in Hx0.
  rewrite H, Hx2, Hx0. done.
Qed.

Lemma state_catch_binding l i t t' : catch_binding l i t = Ok t' -> state t' = state t.
Proof.
  unfold catch_binding. intros H. unbind H.
  destruct (_ <? _); [done|]. unbind H. by injection H as <-.
Qed.

Lemma state_handle_catch_or_finally l i is_finally t t' :
  duk__handle_catch_or_finally l i is_finally t = Ok t' -> state t' = state t.
Proof.
  unfold duk__handle_catch_or_finally. intros H.
  apply rbind_Ok in H as (cat & Hcat & H).
  apply rbind_Ok in H as (t1 & H1 & H).
  apply rbind_Ok in H as (t2 & H2 & H).
  apply rbind_Ok in H as (act & Hact & H).
  apply rbind_Ok in H as (fn & Hfn & H).
  apply rbind_Ok in H as (t3 & H3 & H).
  apply rbind_Ok in H as (t4 & H4 & H).
  injection H as <-.
  apply state_write_valstack in H1, H2. apply state_set_top in H3.
  assert (Hs4 : state t4 = state t3).
  { destruct (negb is_finally && catch_binding_enabled cat).
    - by apply state_catch_binding in H4.
    - by injection H4 as <-. }
  cbn [state upd_cat set_catchstack]. rewrite Hs4, H3. simpl. by rewrite H2, H1.
Qed.

Lemma state_handle_label l i t t' :
  duk__handle_label l i t = Ok t' -> state t' = state t.
Proof. unfold duk__handle_label. intros H. unbind H. by injection H as <-. Qed.

(** The current thread goes on, as [t'], in the state it was in. *)
Lemma same_thread_running h thr t t' :
  curr_thread h = thr ->
  get_thread h thr = Ok t ->
  state t = DUK_HTHREAD_STATE_RUNNING ->
  state t' = state t ->
  current_thread_running (set_lj lj_wiped (put_thread thr t' h))
  /\ threads_of (set_lj lj_wiped (put_thread thr t' h)) = threads_of h.
Proof.
  intros Hcur Ht Hrun Hs. split.
  - exists t'. split; [|congruence]. cbn [curr_thread set_lj put_thread].
    rewrite Hcur, get_thread_set_lj. apply get_put_thread_eq.
  - rewrite threads_set_lj. by apply threads_put with (t0 := t).
Qed.

(** One pass of the handler. *)
Lemma longjmp_once_scheduling h thr e et s :
  curr_thread h = thr ->
  current_thread_running h ->
  (lj_type (lj h) = DUK_LJ_TYPE_RESUME -> lj_value2 (lj h) <> TvObject thr) ->
  duk__handle_longjmp_once h thr e et = Ok s ->
  match s with
  | LjReturn _ h' =>
      current_thread_running h' /\ threads_of h' = threads_of h
  | LjAgain h' thr' =>
      curr_thread h' = thr' /\ lj_type (lj h') = DUK_LJ_TYPE_THROW
      /\ current_thread_running h' /\ threads_of h' = threads_of h
  end.
Proof.
  intros Hcur (t0 & Ht0 & Hrun) Hself Honce. rewrite Hcur in Ht0.
  unfold duk__handle_longjmp_once in Honce.
  destruct (lj_type (lj h) =? DUK_LJ_TYPE_RESUME)%Z eqn:H1.
  { apply Z.eqb_eq in H1. specialize (Hself H1).
    unfold handle_resume, wipe_and_return in Honce.
    apply rbind_Ok in Honce as (t & Ht & Honce).
    apply rbind_Ok in Honce as (p & Hp & Honce).
    apply rbind_Ok in Honce as (rt & Hrt & Honce).
    assert (Hne : p <> thr).
    { intros ->. destruct (lj_value2 (lj h)); try done. by injection Hp as ->. }
    pose proof (get_thread_elem _ _ _ Hrt) as Hin.
    destruct (lj_iserror (lj h)).
    - injection Honce as <-.
      destruct (resume_switch_running thr p h Hin Hne) as [Hr Hd].
      split; [done|]. split; [done|].
      split; [by apply running_set_lj|done].
    - assert (Hput : forall rt',
                current_thread_running
                  (set_lj lj_wiped (resume_switch thr p (put_thread p rt' h)))
                /\ threads_of
                     (set_lj lj_wiped (resume_switch thr p (put_thread p rt' h)))
                   = threads_of h).
      { intros rt'.
        assert (Hin' : p ∈ threads_of (put_thread p rt' h))
          by (by rewrite (threads_put p rt' rt h Hrt)).
        destruct (resume_switch_running thr p _ Hin' Hne) as [Hr Hd].
        split; [by apply running_set_lj|].
        by rewrite threads_set_lj, Hd, (threads_put p rt' rt h Hrt). }
      destruct (state rt); unbind Honce;
        try (destruct (negb _); [done|]); injection Honce as <-; apply Hput. }
  destruct (lj_type (lj h) =? DUK_LJ_TYPE_YIELD)%Z eqn:H2.
  { unfold handle_yield, wipe_and_return in Honce.
    apply rbind_Ok in Honce as (t & Ht & Honce).
    apply rbind_Ok in Honce as (r & Hr & Honce).
    apply rbind_Ok in Honce as (rt & Hrt & Honce).
    pose proof (get_thread_elem _ _ _ Hrt) as Hin.
    destruct (lj_iserror (lj h)).
    - injection Honce as <-.
      destruct (yield_switch_running thr r h Hin) as [Hy Hd].
      split; [done|]. split; [done|].
      split; [by apply running_set_lj|done].
    - unbind Honce. injection Honce as <-.
      assert (Hin' : r ∈ threads_of (put_thread r x0 h))
        by (by rewrite (threads_put r x0 rt h Hrt)).
      destruct (yield_switch_running thr r _ Hin') as [Hy Hd].
      split; [by apply running_set_lj|].
      by rewrite threads_set_lj, Hd, (threads_put r x0 rt h Hrt). }
  destruct (lj_type (lj h) =? DUK_LJ_TYPE_RETURN)%Z eqn:H3.
  { unfold handle_return, wipe_and_return in Honce.
    rewrite Ht0 in Honce. cbn [rbind] in Honce.
    destruct (return_scan _ _); try done.
    - apply rbind_Ok in Honce as (t' & Hh & Honce). injection Honce as <-.
      apply state_handle_catch_or_finally in Hh.
      by apply same_thread_running with (t := t0).
    - destruct (bool_decide (thr = e) && (callstack_top t0 =? et)).
      + apply rbind_Ok in Honce as (t' & Hh & Honce). injection Honce as <-.
        apply state_push in Hh. by apply same_thread_running with (t := t0).
      + destruct (2 <=? callstack_top t0).
        * apply rbind_Ok in Honce as (act & Hact & Honce).
          apply rbind_Ok in Honce as (t1 & Hw & Honce).
          apply rbind_Ok in Honce as (t' & Hh & Honce). injection Honce as <-.
          apply state_write_valstack in Hw. apply state_reconfig in Hh.
          apply same_thread_running with (t := t0); try done.
          rewrite Hh. simpl. done.
        * apply rbind_Ok in Honce as (r & Hr & Honce).
          apply rbind_Ok in Honce as (rt & Hrt & Honce).
          unbind Honce. injection Honce as <-.
          assert (Hin' : r ∈ threads_of (put_thread r x0 h)).
          { rewrite (threads_put r x0 rt h Hrt). by apply get_thread_elem in Hrt. }
          destruct (terminate_switch_running thr r _ Hin') as [Hy Hd].
          split; [by apply running_set_lj|].
          by rewrite threads_set_lj, Hd, (threads_put r x0 rt h Hrt). }
  destruct ((lj_type (lj h) =? DUK_LJ_TYPE_BREAK)
            || (lj_type (lj h) =? DUK_LJ_TYPE_CONTINUE))%Z eqn:H4.
  { unfold handle_break_continue, wipe_and_return, convert_to_internal_error
      in Honce.
    rewrite Ht0 in Honce. cbn [rbind] in Honce.
    apply rbind_Ok in Honce as (lbl & Hlbl & Honce).
    destruct (rev (catchstack t0)); [done|].
    destruct (break_scan _ _ _); try done.
    - apply rbind_Ok in Honce as (t' & Hh & Honce). injection Honce as <-.
      apply state_handle_catch_or_finally in Hh.
      by apply same_thread_running with (t := t0).
    - apply rbind_Ok in Honce as (t' & Hh & Honce). injection Honce as <-.
      apply state_handle_label in Hh.
      by apply same_thread_running with (t := t0). }
  destruct (lj_type (lj h) =? DUK_LJ_TYPE_THROW)%Z eqn:H5; [|done].
  apply Z.eqb_eq in H5.
  unfold handle_throw, wipe_and_return, just_return in Honce.
  rewrite Ht0 in Honce. cbn [rbind] in Honce.
  destruct (throw_scan _ _ _); try done.
  - apply rbind_Ok in Honce as (t' & Hh & Honce). injection Honce as <-.
    apply state_handle_catch_or_finally in Hh.
    by apply same_thread_running with (t := t0).
  - apply rbind_Ok in Honce as (t' & Hh & Honce). injection Honce as <-.
    apply state_handle_catch_or_finally in Hh.
    by apply same_thread_running with (t := t0).
  - destruct (bool_decide (thr = e)).
    + injection Honce as <-. split; [|done]. exists t0. by rewrite Hcur.
    + apply rbind_Ok in Honce as (r & Hr & Honce).
      apply rbind_Ok in Honce as (rt & Hrt & Honce). injection Honce as <-.
      pose proof (get_thread_elem _ _ _ Hrt) as Hin.
      destruct (terminate_switch_running thr r h Hin) as [Hy Hd].
      done.
Qed.

(** Property X22.  The longjmp handler always hands control to a Running
    thread and never creates or removes a thread: entered for the current
    thread, which is Running (and, for a resume, is not itself the thread to
    resume), it returns with the heap's current thread existing and Running,
    whichever thread that is, and with the same set of threads. *)
Theorem handler_continues_in_running_thread
    (fuel : nat) (h : duk_heap) (thr entry_thread entry_callstack_top : nat)
    (rv : duk_lj_retval) (h' : duk_heap) :
  curr_thread h = thr ->
  current_thread_running h ->
  (lj_type (lj h) = DUK_LJ_TYPE_RESUME -> lj_value2 (lj h) <> TvObject thr) ->
  duk__handle_longjmp fuel h thr entry_thread entry_callstack_top = Ok (rv, h') ->
  current_thread_running h'
  /\ threads_of h' = threads_of h.
Proof.
  revert h thr. induction fuel as [|fuel IH]; intros h thr Hcur Hrun Hself Hres;
    [done|].
  cbn [duk__handle_longjmp] in Hres.
  apply rbind_Ok in Hres as (s & Honce & Hres).
  pose proof (longjmp_once_scheduling h thr entry_thread entry_callstack_top s
                Hcur Hrun Hself Honce) as Hs.
  destruct s as [rv1 h1 | h1 thr1].
  - injection Hres as <- <-. done.
  - destruct Hs as (Hc1 & Hty & Hrun1 & Hd1).
    destruct (IH h1 thr1 Hc1 Hrun1) as [Hr Hd]; [|done|].
    + rewrite Hty. discriminate.
    + split; [done|]. by rewrite Hd.
Qed.

End Scheduling.

(** ** Break and continue through finally *)

Section ThroughFinally.
Context {E : duk_engine}.

Lemma get_thread_restart thr t' h :
  get_thread (set_lj lj_wiped (put_thread thr t' h)) thr = Ok t'.
Proof. rewrite get_thread_set_lj. apply get_put_thread_eq. Qed.

Lemma executor_restart fuel h thr e et h' :
  curr_thread h = thr ->
  duk__handle_longjmp_once h thr e et = Ok (LjReturn DUK__LONGJMP_RESTART h') ->
  executor_longjmp_caught (S fuel) h e et = Ok (ExecRestart h').
Proof.
  intros Hcur Honce. unfold executor_longjmp_caught. rewrite Hcur.
  by rewrite (handle_longjmp_return fuel _ _ _ _ _ _ Honce).
Qed.

(** Property X23.  A break or continue out of a try with a finally part
    inside a labelled statement of the same activation reaches the label
    after the finally clause: the handler first enters the finally part
    (second jump slot of the try catcher, whose finally part is then
    disabled); ENDFIN raises the same break or continue with the same label
    again; the handler then continues at the label's first jump slot for a
    break and the second for a continue, with the try catcher unwound, the
    label catcher kept and all registers but the catcher's two unchanged. *)
Theorem break_through_finally_reaches_label
    (fuel : nat) (ty abc : Z) (h : duk_heap) (thr e et : nat)
    (t : duk_hthread) (act : duk_activation) (fn : duk_hcompiledfunction)
    (cs : list duk_catcher) (lbl tcf : duk_catcher) :
  curr_thread h = thr ->
  get_thread h thr = Ok t ->
  top_act t = Ok act ->
  act_func act = Some (HCompiledFunction fn) ->
  ty = DUK_LJ_TYPE_BREAK \/ ty = DUK_LJ_TYPE_CONTINUE ->
  (0 <= abc < 2 ^ 32)%Z ->
  (* a labelled statement around a try with a finally part, both of the
     current activation *)
  catchstack t = cs ++ [lbl; tcf] ->
  cat_type lbl = DUK_CAT_TYPE_LABEL -> cat_label lbl = abc ->
  callstack_index lbl = callstack_top t - 1 ->
  cat_type tcf = DUK_CAT_TYPE_TCF -> finally_enabled tcf = true ->
  callstack_index tcf = callstack_top t - 1 ->
  (* the frame's registers are the slots in use, the catcher's two among
     them *)
  idx_bottom act = valstack_bottom t ->
  valstack_top t = valstack_bottom t + nregs fn ->
  valstack_top t < length (valstack t) ->
  valstack_bottom t <= idx_base tcf ->
  idx_base tcf + 1 < valstack_top t ->
  exists (h1 h2 h3 h4 : duk_heap) (t2 t4 : duk_hthread),
    (* the break is taken by the finally part first *)
    op_BREAK_CONTINUE ty abc h thr = Ok (OpLongjmp h1)
    /\ executor_longjmp_caught (S fuel) h1 e et = Ok (ExecRestart h2)
    /\ get_thread h2 thr = Ok t2
    /\ continues_at (pc_base tcf + 1) t t2
    /\ catchstack t2 = cs ++ [lbl; DUK_CAT_CLEAR_FINALLY_ENABLED tcf]
    (* at the end of the finally part it is raised again and reaches the
       label *)
    /\ op_ENDFIN h2 thr = Ok (OpLongjmp h3)
    /\ lj_type (lj h3) = ty
    /\ lj_value1 (lj h3) = TvNumber (Dbl.of_int abc)
    /\ executor_longjmp_caught (S fuel) h3 e et = Ok (ExecRestart h4)
    /\ lj h4 = lj_wiped
    /\ get_thread h4 thr = Ok t4
    /\ continues_at
         (pc_base lbl + (if (ty =? DUK_LJ_TYPE_CONTINUE)%Z then 1 else 0)) t t4
    /\ catchstack t4 = cs ++ [lbl]
    /\ registers_kept [idx_base tcf; idx_base tcf + 1] t t4.
Proof.
  intros Hcur Ht Hact Hf Hty Habc Hcats Hlty Hlabel Hlidx Htty Hfin Htidx
    Hib Hregs Hroom Hlo Hhi.
  set (n := length cs).
  set (v := TvNumber (Dbl.of_int abc)).
  assert (Htyr : (0 <= ty < 2 ^ 32)%Z) by (destruct Hty as [-> | ->]; done).
  assert (Hnorm : (ty =? DUK_LJ_TYPE_NORMAL)%Z = false)
    by (destruct Hty as [-> | ->]; done).
  pose proof Hact as Hact0. apply top_act_lookup in Hact0.
  (* BREAK *)
  set (h1 := raised thr ty v t h).
  assert (H1 : op_BREAK_CONTINUE ty abc h thr = Ok (OpLongjmp h1)).
  { unfold op_BREAK_CONTINUE. rewrite Ht. cbn [rbind].
    pose proof (push_and_raise thr ty v t h ltac:(lia) Hroom) as Hp. fold v.
    destruct (duk_push_tval v t) as [t'| | |]; cbn [rbind] in *; try done.
    by rewrite Hp. }
  set (t1 := set_valstack (<[valstack_top t := TvUndefinedUnused]>
                             (<[valstack_top t := v]> (valstack t))) t).
  assert (Ht1 : get_thread h1 thr = Ok t1) by apply get_thread_raised.
  assert (Hlen1 : length (valstack t1) = length (valstack t))
    by (unfold t1; simpl; by rewrite !length_insert).
  assert (Hc1 : curr_thread h1 = thr) by (by rewrite <- Hcur).
  (* the finally part *)
  assert (Hcat1 : catchstack t1 !! (n + 1) = Some tcf).
  { change (catchstack t1) with (catchstack t). rewrite Hcats.
    rewrite lookup_app_r by (unfold n; lia).
    by replace (n + 1 - length cs) with 1 by (unfold n; lia). }
  assert (Hact1 : callstack t1 !! callstack_index tcf = Some act)
    by (by rewrite Htidx).
  destruct (handle_catch_or_finally_ok (lj h1) (n + 1) true t1 tcf act fn
              Hcat1 Hact1 Hf)
    as (vs2 & Hh2 & Hvl2 & Hslots2 & Hkeep2).
  { rewrite Hlen1. lia. }
  { rewrite Hlen1. lia. }
  { done. }
  destruct Hslots2 as [Hs0 Hs1]; [simpl; lia|lia|].
  change (lj_value1 (lj h1)) with v in Hs0.
  change (lj_type (lj h1)) with ty in Hs1.
  match type of Hh2 with _ = Ok ?r => set (t2 := r) in * end.
  set (h2 := set_lj lj_wiped (put_thread thr t2 h1)).
  assert (Honce1 : duk__handle_longjmp_once h1 thr e et
                   = Ok (LjReturn DUK__LONGJMP_RESTART h2)).
  { rewrite longjmp_once_break_continue by done.
    unfold handle_break_continue. rewrite Ht1. cbn [rbind].
    change (lj_value1 (lj h1)) with v. unfold v.
    rewrite to_uint_of_int by done. cbn [deref rbind].
    change (catchstack t1) with (catchstack t).
    rewrite Hcats.
    replace (cs ++ [lbl; tcf]) with ((cs ++ [lbl]) ++ [tcf])
      by (by rewrite <- app_assoc).
    rewrite rev_snoc. cbn [break_scan]. rewrite Nat.eqb_refl. cbn [negb].
    unfold DUK_CAT_GET_TYPE_is_TCF. rewrite Htty, Hfin. cbn [andb].
    rewrite length_rev, length_app. cbn [length]. fold n.
    rewrite Hh2. done. }
  assert (Hg2 : get_thread h2 thr = Ok t2) by apply get_thread_restart.
  assert (Hcat2 : catchstack t2 = cs ++ [lbl; DUK_CAT_CLEAR_FINALLY_ENABLED tcf]).
  { cbn [t2 catchstack]. change (catchstack t1) with (catchstack t).
    rewrite Hcats.
    replace (cs ++ [lbl; tcf]) with ((cs ++ [lbl]) ++ [tcf])
      by (by rewrite <- app_assoc).
    rewrite take_app_length' by (rewrite length_app; simpl; unfold n; lia).
    by rewrite <- app_assoc. }
  assert (Hcs2 : callstack t2
                 = alter (set_pc (pc_base tcf + 1)) (callstack_top t - 1)
                     (callstack t)).
  { cbn [t2 callstack]. change (callstack t1) with (callstack t).
    rewrite Htidx. unfold callstack_top in *.
    by rewrite (alter_last_snoc _ _ _ Hact0). }
  (* ENDFIN *)
  set (tcf' := DUK_CAT_CLEAR_FINALLY_ENABLED tcf).
  set (h3 := raised thr ty v t2 h2).
  assert (H3 : op_ENDFIN h2 thr = Ok (OpLongjmp h3)).
  { assert (Hlast2 : last (catchstack t2) = Some tcf').
    { rewrite Hcat2.
      replace (cs ++ [lbl; DUK_CAT_CLEAR_FINALLY_ENABLED tcf])
        with ((cs ++ [lbl]) ++ [tcf']) by (by rewrite <- app_assoc).
      apply last_snoc. }
    assert (Hb2 : valstack_bottom t2 <= valstack_top t2)
      by (cbn [t2 valstack_bottom valstack_top]; lia).
    assert (Hl2 : valstack_top t2 < length (valstack t2))
      by (cbn [t2 valstack_top valstack]; lia).
    rewrite (op_ENDFIN_spec h2 thr t2 tcf' ty v Hg2 Hlast2 Hs1 Hs0 Htyr Hb2 Hl2).
    by rewrite Hnorm. }
  set (t3 := set_valstack (<[valstack_top t2 := TvUndefinedUnused]>
                             (<[valstack_top t2 := v]> (valstack t2))) t2).
  assert (Ht3 : get_thread h3 thr = Ok t3) by apply get_thread_raised.
  assert (Hc3 : curr_thread h3 = thr) by (by rewrite <- Hcur).
  (* the label *)
  set (k := if (ty =? DUK_LJ_TYPE_CONTINUE)%Z then 1 else 0).
  set (t4 := duk_hthread_catchstack_unwind (n + 1)
               (upd_top_act (set_pc (pc_base lbl + k)) t3)).
  set (h4 := set_lj lj_wiped (put_thread thr t4 h3)).
  assert (Htop3 : top_act t3 = Ok (set_pc (pc_base tcf + 1) act)).
  { unfold top_act. change (callstack t3) with (callstack t2).
    cbn [t2 callstack]. by rewrite last_snoc. }
  assert (Hcat3 : catchstack t3 !! n = Some lbl).
  { change (catchstack t3) with (catchstack t2). rewrite Hcat2.
    by apply list_lookup_middle. }
  assert (Honce3 : duk__handle_longjmp_once h3 thr e et
                   = Ok (LjReturn DUK__LONGJMP_RESTART h4)).
  { rewrite longjmp_once_break_continue by done.
    unfold handle_break_continue. rewrite Ht3. cbn [rbind].
    change (lj_value1 (lj h3)) with v. unfold v.
    rewrite to_uint_of_int by done. cbn [deref rbind].
    change (catchstack t3) with (catchstack t2). rewrite Hcat2.
    replace (cs ++ [lbl; DUK_CAT_CLEAR_FINALLY_ENABLED tcf])
      with ((cs ++ [lbl]) ++ [tcf']) by (by rewrite <- app_assoc).
    rewrite !rev_snoc. cbn [break_scan]. rewrite Nat.eqb_refl. cbn [negb].
    unfold DUK_CAT_GET_TYPE_is_TCF, DUK_CAT_GET_TYPE_is_LABEL.
    cbn [tcf' DUK_CAT_CLEAR_FINALLY_ENABLED cat_type finally_enabled
         callstack_index].
    rewrite Htty, Hlty, Hlidx, Htidx, Nat.eqb_refl, Hlabel, Z.eqb_refl.
    cbn [andb negb]. rewrite length_rev. fold n.
    rewrite (duk__handle_label_ok _ _ t3 lbl _ Htop3 Hcat3). cbn [rbind].
    change (lj_type (lj h3)) with ty. done. }
  exists h1, h2, h3, h4, t2, t4.
  split; [done|]. split; [by apply (executor_restart fuel h1 thr)|].
  split; [done|]. split; [done|]. split; [done|]. split; [done|].
  split; [done|]. split; [done|].
  split; [by apply (executor_restart fuel h3 thr)|]. split; [done|].
  split; [apply get_thread_restart|].
  split.
  { unfold continues_at, t4, duk_hthread_catchstack_unwind, upd_top_act.
    cbn [callstack set_callstack set_catchstack].
    change (callstack t3) with (callstack t2).
    change (callstack_top t3) with (callstack_top t2).
    unfold callstack_top at 1. rewrite Hcs2, length_alter.
    apply alter_set_pc_twice. }
  split.
  { unfold t4, duk_hthread_catchstack_unwind, upd_top_act.
    cbn [catchstack set_callstack set_catchstack].
    change (catchstack t3) with (catchstack t2). rewrite Hcat2.
    replace (cs ++ [lbl; DUK_CAT_CLEAR_FINALLY_ENABLED tcf])
      with ((cs ++ [lbl]) ++ [DUK_CAT_CLEAR_FINALLY_ENABLED tcf])
      by (by rewrite <- app_assoc).
    apply take_app_length'. rewrite length_app. simpl. unfold n. lia. }
  split; [cbn [t4 t3 t2 valstack_bottom duk_hthread_catchstack_unwind
               upd_top_act set_callstack set_catchstack set_valstack]; done|].
  split; [cbn [t4 t3 t2 valstack_top duk_hthread_catchstack_unwind
               upd_top_act set_callstack set_catchstack set_valstack]; lia|].
  intros i Hi Hnot.
  cbn [t4 t3 valstack duk_hthread_catchstack_unwind upd_top_act
       set_callstack set_catchstack set_valstack].
  cbn [t2 valstack_top valstack].
  rewrite !list_lookup_insert_ne by lia.
  rewrite Hkeep2.
  - unfold t1. simpl. by rewrite !list_lookup_insert_ne by lia.
  - done.
  - lia.
  - intros ->. apply Hnot, list_elem_of_here.
  - intros ->. apply Hnot, list_elem_of_further, list_elem_of_here.
Qed.

End ThroughFinally.

(** ** More statements on concrete states *)

Section MoreExamples.
Local Existing Instance Ex.engine.
Local Existing Instance Ref.arith.
Local Existing Instance ExOps.dispatch.

(** The coroutine yields 5: resume() in thread 0 returns it into r1. *)
Lemma yield_value_delivered_witness :
  exists (rt' : duk_hthread) (h' : duk_heap),
    duk__handle_longjmp 1 (Ex.h_yielding false (Ex.num 5)) 1 0 1
    = Ok (DUK__LONGJMP_RESTART, h')
    /\ curr_thread h' = 0
    /\ get_thread h' 0 = Ok rt'
    /\ valstack rt' !! 2 = Some (Ex.num 5)
    /\ callstack rt' = [Ex.frame 1 2 40]
    /\ get_thread h' 1 = Ok ExOps.t_yielded.
Proof.
  destruct (yield_value_delivered (E := Ex.engine) 0
              (Ex.h_yielding false (Ex.num 5)) 1 0 1
              Ex.t_yielding 0 Ex.t_resumer (Ex.frame 1 2 40) Ex.fn4
              eq_refl eq_refl eq_refl eq_refl ltac:(discriminate) eq_refl
              ltac:(unfold callstack_top; simpl; lia) eq_refl)
    as (rt' & h' & Hrun & _ & Hcur & Hrt & (_ & _ & _ & Hv) & _ & Hcs & _ & Hthr & _).
  - repeat split; simpl; lia.
  - exists rt', h'. repeat split; assumption.
Defined.

(** Thread 0 resumes the waiting coroutine with 8: its yield() returns 8
    into r1. *)
Lemma resume_value_delivered_witness :
  exists (rt' : duk_hthread) (h' : duk_heap),
    duk__handle_longjmp 1 (ExOps.h_resuming false (Ex.num 8)) 0 0 1
    = Ok (DUK__LONGJMP_RESTART, h')
    /\ curr_thread h' = 1
    /\ get_thread h' 1 = Ok rt'
    /\ valstack rt' !! 2 = Some (Ex.num 8)
    /\ state rt' = DUK_HTHREAD_STATE_RUNNING
    /\ resumer rt' = Some 0
    /\ callstack rt' = [Ex.frame 1 2 8].
Proof.
  destruct (resume_value_delivered (E := Ex.engine) 0
              (ExOps.h_resuming false (Ex.num 8)) 0 0 1
              (set_state DUK_HTHREAD_STATE_RUNNING Ex.t_resumer) 1
              ExOps.t_yielded (Ex.frame 1 2 8) Ex.fn4
              eq_refl eq_refl eq_refl eq_refl ltac:(discriminate) eq_refl eq_refl
              ltac:(unfold callstack_top; simpl; lia) eq_refl)
    as (rt' & h' & Hrun & _ & Hcur & Hrt & (_ & _ & _ & Hv) & Hst & Hres & Hcs & _).
  - repeat split; simpl; lia.
  - exists rt', h'. repeat split; assumption.
Defined.

(** The coroutine yields 5 and thread 0 resumes it with 8: it goes on
    after its yield() call with 8 in r1. *)
Lemma yield_then_resume_witness :
  exists (h1 h3 : duk_heap) (t' : duk_hthread),
    duk__handle_longjmp 1 (Ex.h_yielding false (Ex.num 5)) 1 0 1
    = Ok (DUK__LONGJMP_RESTART, h1)
    /\ duk__handle_longjmp 1
         (set_lj (Ex.lj_of DUK_LJ_TYPE_RESUME false (Ex.num 8) (TvObject 1)) h1)
         0 0 1
       = Ok (DUK__LONGJMP_RESTART, h3)
    /\ curr_thread h3 = 1
    /\ get_thread h3 1 = Ok t'
    /\ valstack t' !! 2 = Some (Ex.num 8)
    /\ resumer t' = Some 0
    /\ callstack t' = [Ex.frame 1 2 8].
Proof.
  destruct (yield_then_resume (E := Ex.engine) 0
              (Ex.h_yielding false (Ex.num 5)) 1 0 1
              Ex.t_yielding 0 Ex.t_resumer (Ex.frame 1 2 40) Ex.fn4
              (Ex.frame 1 2 8) Ex.fn4
              eq_refl eq_refl eq_refl eq_refl ltac:(discriminate) eq_refl
              ltac:(unfold callstack_top; simpl; lia) eq_refl)
    as (h1 & Hrun & Hnext).
  - repeat split; simpl; lia.
  - unfold callstack_top; simpl; lia.
  - reflexivity.
  - repeat split; simpl; lia.
  - pose proof Hrun as Hrun'. vm_compute in Hrun'.
    injection Hrun' as Hh1.
    destruct (Hnext 0
                (set_lj (Ex.lj_of DUK_LJ_TYPE_RESUME false (Ex.num 8) (TvObject 1)) h1)
                0
                (match get_thread h1 0 with Ok t2 => t2 | _ => Ex.t_resumer end))
      as (t' & h3 & Hrun3 & Hcur & Ht' & (_ & _ & _ & Hv) & _ & Hres & Hcs & _).
    + reflexivity.
    + rewrite <- Hh1. vm_compute. reflexivity.
    + discriminate.
    + reflexivity.
    + reflexivity.
    + reflexivity.
    + exists h1, h3, t'. repeat split; assumption.
Defined.

(** A coroutine yielding object 9 as an error: the catch part around the
    resume() call in thread 0 receives it in its register (slot 3), the
    register of the resume() call (slot 2) keeps its value, and the
    coroutine is left Yielded. *)
Lemma yield_error_thrown_in_resumer_witness :
  exists (rt' : duk_hthread) (h'' : duk_heap),
    duk__handle_longjmp 2 Ex.h_yield_error 1 0 1 = Ok (DUK__LONGJMP_RESTART, h'')
    /\ curr_thread h'' = 0
    /\ get_thread h'' 0 = Ok rt'
    /\ state rt' = DUK_HTHREAD_STATE_RUNNING
    /\ valstack rt' !! 3 = Some (TvObject 9)
    /\ valstack rt' !! 2 = Some (Ex.num 2)
    /\ callstack rt' = [Ex.frame 1 2 15]
    /\ get_thread h'' 1
       = Ok (set_resumer None (set_state DUK_HTHREAD_STATE_YIELDED Ex.t_yielding)).
Proof.
  destruct (yield_error_thrown_in_resumer (E := Ex.engine) 0 Ex.h_yield_error 1 0 1
              Ex.t_yielding 0 Ex.t_resumer
              eq_refl eq_refl eq_refl eq_refl ltac:(discriminate) eq_refl)
    as (_ & _ & _ & _ & _ & _ & _ & Hcatch & _).
  destruct (Hcatch 0 (Ex.tcf 0 15 3 true false) (Ex.frame 1 2 40) Ex.fn4
              eq_refl eq_refl eq_refl eq_refl eq_refl
              ltac:(simpl; lia) ltac:(simpl; lia))
    as (rt' & h'' & H1 & H2 & _ & H3 & H4 & H5 & _ & Hkeep & H6 & _ & H7).
  exists rt', h''. split; [exact H1|]. split; [exact H2|]. split; [exact H3|].
  split; [exact H4|]. split; [exact H5|].
  split; [apply (Hkeep 2); simpl; lia|].
  split; [exact H6|exact H7].
Defined.

(** A coroutine resumed with an error it has no catcher for: it ends and
    the catch part around the resume() call in thread 0 receives the
    error. *)
Lemma resume_error_thrown_in_resumee_witness :
  exists (t' : duk_hthread) (h3 : duk_heap) (t1 : duk_hthread),
    duk__handle_longjmp 3 ExOps.h_resuming_fresh 0 0 1
    = Ok (DUK__LONGJMP_RESTART, h3)
    /\ curr_thread h3 = 0
    /\ get_thread h3 0 = Ok t'
    /\ state t' = DUK_HTHREAD_STATE_RUNNING
    /\ valstack t' !! 3 = Some (TvObject 9)
    /\ callstack t' = [Ex.frame 1 2 15]
    /\ get_thread h3 1 = Ok t1
    /\ state t1 = DUK_HTHREAD_STATE_TERMINATED.
Proof.
  destruct (resume_error_thrown_in_resumee (E := Ex.engine) 0
              ExOps.h_resuming_fresh 0 0 1
              (set_state DUK_HTHREAD_STATE_RUNNING Ex.t_resumer) 1
              (set_resumer None (set_state DUK_HTHREAD_STATE_INACTIVE Ex.t_coroutine))
              eq_refl eq_refl eq_refl eq_refl ltac:(discriminate) eq_refl)
    as (_ & _ & _ & _ & _ & _ & H & _).
  destruct (H 0 ltac:(discriminate) eq_refl)
    as (_ & _ & _ & _ & _ & _ & Hcatch & _).
  destruct (Hcatch 0 (Ex.tcf 0 15 3 true false) (Ex.frame 1 2 40) Ex.fn4
              eq_refl eq_refl eq_refl eq_refl eq_refl
              ltac:(simpl; lia) ltac:(simpl; lia))
    as (t' & h3 & H1 & H2 & _ & H3 & H4 & H5 & _ & H6 & _ & H7).
  exists t', h3. eexists. split; [exact H1|]. split; [exact H2|]. split; [exact H3|].
  split; [exact H4|]. split; [exact H5|]. split; [exact H6|].
  split; [exact H7|reflexivity].
Defined.

(** A return of 42 inside [L1: try ... finally]: the executor restarts
    with a wiped longjmp state. *)
Lemma handler_exit_discipline_witness :
  exists h' : duk_heap,
    duk__handle_longjmp 1 (Ex.h_try_finally DUK_LJ_TYPE_RETURN (Ex.num 42)) 0 0 1
    = Ok (DUK__LONGJMP_RESTART, h')
    /\ lj h' = lj_wiped.
Proof.
  assert (Hrun : exists h',
             duk__handle_longjmp 1
               (Ex.h_try_finally DUK_LJ_TYPE_RETURN (Ex.num 42)) 0 0 1
             = Ok (DUK__LONGJMP_RESTART, h')).
  { vm_compute. eexists. reflexivity. }
  destruct Hrun as (h' & Hrun). exists h'. split; [exact Hrun|].
  exact (handler_exit_discipline (E := Ex.engine) 1
           (Ex.h_try_finally DUK_LJ_TYPE_RETURN (Ex.num 42)) 0 0 1
           DUK__LONGJMP_RESTART h' eq_refl Hrun).
Defined.

(** The error object thrown inside [try ... catch]: the catch clause at
    PC 3 receives it in r2. *)
Lemma throw_taken_by_nearest_catch_witness :
  exists t' : duk_hthread,
    duk__handle_longjmp 1 ExOps.h_throwing 0 0 1
    = Ok (DUK__LONGJMP_RESTART,
          set_lj lj_wiped (put_thread 0 t' ExOps.h_throwing))
    /\ valstack t' !! 3 = Some (TvObject 7)
    /\ callstack t' = [Ex.frame 1 0 3]
    /\ catchstack t' = [Ex.tcf 0 3 3 false false].
Proof.
  destruct (throw_taken_by_nearest_catch (E := Ex.engine) 0
              ExOps.h_throwing 0 0 1 Ex.t_rethrow 0 (Ex.tcf 0 3 3 true false)
              (Ex.frame 1 0 9) Ex.fn4
              eq_refl eq_refl eq_refl eq_refl eq_refl eq_refl eq_refl
              ltac:(simpl; lia) ltac:(simpl; lia))
    as (t' & Hrun & _ & _ & Hv & Hcs & Hcat & _).
  exists t'. repeat split; assumption.
Defined.

(** The same throw, seen from the entry level. *)
Lemma throw_stays_above_entry_level_witness :
  exists (rv : duk_lj_retval) (h' : duk_heap) (t' : duk_hthread),
    duk__handle_longjmp 1 ExOps.h_throwing 0 0 1 = Ok (rv, h')
    /\ get_thread h' 0 = Ok t'
    /\ 1 <= callstack_top t'.
Proof.
  assert (Hrun : exists rv h',
             duk__handle_longjmp 1 ExOps.h_throwing 0 0 1 = Ok (rv, h')).
  { vm_compute. eexists _, _. reflexivity. }
  destruct Hrun as (rv & h' & Hrun).
  destruct (throw_stays_above_entry_level (E := Ex.engine) 0
              ExOps.h_throwing h' 0 1 rv Ex.t_rethrow eq_refl eq_refl
              ltac:(unfold callstack_top; simpl; lia) Hrun)
    as (t' & Ht' & Hle & _).
  exists rv, h', t'. repeat split; assumption.
Defined.


(** Two threads, one of them with a resumer: four passes are enough. *)
Lemma handle_longjmp_enough_fuel_witness :
  size (resumed_threads (Ex.h_coroutine DUK_LJ_TYPE_THROW false (TvObject 7))) + 2 < 4
  /\ returns
       (duk__handle_longjmp 4
          (Ex.h_coroutine DUK_LJ_TYPE_THROW false (TvObject 7)) 1 0 1).
Proof.
  assert (Hlt : size (resumed_threads
                        (Ex.h_coroutine DUK_LJ_TYPE_THROW false (TvObject 7)))
                + 2 < 4).
  { vm_compute. lia. }
  split; [exact Hlt|].
  exact (handle_longjmp_enough_fuel (E := Ex.engine) 4
           (Ex.h_coroutine DUK_LJ_TYPE_THROW false (TvObject 7)) 1 0 1 Hlt).
Defined.

(** 0 / 0 into r2, all three registers holding numbers or undefined: r0,
    r1 and r3 keep their values. *)
Lemma arith_changes_only_its_target_witness :
  exists (h' : duk_heap) (t' : duk_hthread),
    op_arith DUK_OP_DIV 2 0 1 Ex.h_zeros 0 = Ok (OpNext h')
    /\ h' = put_thread 0 t' Ex.h_zeros
    /\ only_register_changed 2 Ex.t_zeros t'.
Proof.
  assert (Hop : exists h', op_arith DUK_OP_DIV 2 0 1 Ex.h_zeros 0 = Ok (OpNext h')).
  { vm_compute. eexists. reflexivity. }
  destruct Hop as (h' & Hop).
  assert (Hops : forall k v, k ∈ arith_operand_fields DUK_OP_DIV 0 1 ->
                   DUK__REGCONSTP Ex.t_zeros Ex.fn4 k = Ok v ->
                   is_plain_primitive v = true).
  { intros k v Hk. simpl in Hk.
    apply elem_of_cons in Hk as [->|Hk];
      [|apply elem_of_cons in Hk as [->|Hk]; [|by apply elem_of_nil in Hk]];
      vm_compute; intros [= <-]; reflexivity. }
  assert (Htgt : forall v,
             valstack Ex.t_zeros
               !! (valstack_bottom Ex.t_zeros + arith_target DUK_OP_DIV 2 0) = Some v ->
             is_plain_primitive v = true).
  { vm_compute. intros v [= <-]. reflexivity. }
  destruct (arith_changes_only_its_target (A := Ref.arith) (E := Ex.engine)
              DUK_OP_DIV 2 0 1 Ex.h_zeros h' 0 Ex.t_zeros Ex.fn4
              eq_refl eq_refl Hops Htgt Hop)
    as (t' & Hh' & Hreg).
  exists h', t'.
  split; [exact Hop|]. split; [exact Hh'|exact Hreg].
Defined.

(** LDINT with the operand 2^17 + 5 loads 5 into r2. *)
Lemma ldint_loads_exact_integer_witness :
  exists (t' : duk_hthread) (d : Z),
    op_LDINT 2 (2 ^ 17 + 5) Ex.h_zeros 0 = Ok (OpNext (put_thread 0 t' Ex.h_zeros))
    /\ valstack t' !! 3 = Some (TvNumber d)
    /\ Dbl.trunc d = Some 5%Z.
Proof.
  destruct (ldint_loads_exact_integer (D := ExOps.dispatch) 2 (2 ^ 17 + 5)
              Ex.h_zeros 0 Ex.t_zeros eq_refl
              ltac:(simpl; lia) ltac:(vm_compute; reflexivity))
    as (t' & d & Hop & _ & Hv & Hd & _).
  exists t', d. repeat split; assumption.
Defined.

(** LNOT of +0 into r2 stores true; LNOT of r2 into r2 then stores false,
    which is ToBoolean(+0). *)
Lemma lnot_twice_is_toboolean_witness :
  exists (h1 h2 : duk_heap) (t2 : duk_hthread),
    op_LNOT 2 0 Ex.h_zeros 0 = Ok (OpNext h1)
    /\ op_LNOT 2 2 h1 0 = Ok (OpNext h2)
    /\ get_thread h2 0 = Ok t2
    /\ valstack t2 !! 3 = Some (TvBoolean false).
Proof.
  destruct (lnot_twice_is_toboolean (E := Ex.engine) (D := ExOps.dispatch)
              2 0 Ex.h_zeros 0 Ex.t_zeros Ex.fn4 (TvNumber 0)
              (fun v => eq_refl) eq_refl eq_refl eq_refl
              ltac:(vm_compute; lia) ltac:(simpl; lia))
    as (h1 & h2 & t1 & t2 & H1 & H2 & _ & Ht2 & _ & Hv & _).
  exists h1, h2, t2. repeat split; assumption.
Defined.

(** LABEL 1 and ENDLABEL in the frame at PC 9: no catcher is left and the
    PC has skipped the two jump slots. *)
Lemma label_endlabel_round_trip_witness :
  exists (h1 : duk_heap) (t1 : duk_hthread),
    op_LABEL 1 Ex.h_zeros 0 = Ok (OpNext h1)
    /\ get_thread h1 0 = Ok t1
    /\ catchstack t1 = [Ex.label 0 9 1]
    /\ op_ENDLABEL h1 0
       = Ok (OpNext (put_thread 0
               (set_callstack [Ex.frame 1 0 11] Ex.t_zeros) Ex.h_zeros)).
Proof.
  destruct (label_endlabel_round_trip (D := ExOps.dispatch) 1 Ex.h_zeros 0
              Ex.t_zeros (Ex.frame 1 0 9) eq_refl eq_refl eq_refl)
    as (h1 & t1 & H1 & Ht1 & Hcat & H2).
  exists h1, t1. repeat split; assumption.
Defined.

(** LABEL 1 at PC 9 and a continue with label 1: execution goes on at the
    second jump slot, PC 10, with the label catcher in place. *)
Lemma label_break_continue_lands_on_jump_slot_witness :
  exists (h1 h2 h3 : duk_heap) (t3 : duk_hthread),
    op_LABEL 1 Ex.h_zeros 0 = Ok (OpNext h1)
    /\ op_BREAK_CONTINUE DUK_LJ_TYPE_CONTINUE 1 h1 0 = Ok (OpLongjmp h2)
    /\ executor_longjmp_caught 1 h2 0 1 = Ok (ExecRestart h3)
    /\ get_thread h3 0 = Ok t3
    /\ callstack t3 = [Ex.frame 1 0 10]
    /\ catchstack t3 = [Ex.label 0 9 1].
Proof.
  destruct (label_break_continue_lands_on_jump_slot
              (E := Ex.engine) (D := ExOps.dispatch)
              0 DUK_LJ_TYPE_CONTINUE 1 Ex.h_zeros 0 0 1
              Ex.t_zeros (Ex.frame 1 0 9)
              eq_refl eq_refl eq_refl eq_refl (or_intror eq_refl)
              ltac:(split; [lia|reflexivity]) ltac:(simpl; lia))
    as (h1 & h2 & h3 & t3 & H1 & H2 & H3 & _ & _ & Ht3 & _ & Hcs & Hcat & _).
  exists h1, h2, h3, t3. repeat split; assumption.
Defined.

(** TRYCATCH with a catch clause and the catch registers r2, r3, then a
    throw of the error object in r0. *)
Lemma trycatch_throw_enters_catch_witness :
  exists (h1 h2 h3 : duk_heap) (t3 : duk_hthread),
    op_TRYCATCH ExOps.have_catch 2 0 Ex.h_zeros 0 = Ok (OpNext h1)
    /\ op_THROW 1 h1 0 = Ok (OpLongjmp h2)
    /\ executor_longjmp_caught 1 h2 0 1 = Ok (ExecRestart h3)
    /\ get_thread h3 0 = Ok t3
    /\ callstack t3 = [Ex.frame 1 0 9]
    /\ catchstack t3 = [Ex.tcf 0 9 3 false false]
    /\ valstack t3 !! 3 = Some (TvNumber 0)
    /\ valstack t3 !! 4 = Some (Ex.num DUK_LJ_TYPE_THROW).
Proof.
  destruct (trycatch_throw_enters_catch
              (E := Ex.engine) (D := ExOps.dispatch)
              0 ExOps.have_catch 2 0 1 Ex.h_zeros 0 0 1
              Ex.t_zeros (Ex.frame 1 0 9) Ex.fn4 (TvNumber 0)
              eq_refl eq_refl eq_refl eq_refl eq_refl eq_refl eq_refl eq_refl
              eq_refl eq_refl ltac:(vm_compute; lia) ltac:(vm_compute; lia)
              ltac:(vm_compute; lia) eq_refl
              ltac:(right; vm_compute; lia))
    as (h1 & h2 & h3 & t3 & H1 & H2 & H3 & _ & _ & Ht3 & _ & Hcs & Hcat & Hv & Hty & _).
  exists h1, h2, h3, t3. repeat split; assumption.
Defined.

(** try without finally, completed: ENDTRY leaves no catcher and goes to
    PC 10. *)
Lemma try_without_finally_completes_witness :
  exists h1 : duk_heap,
    op_TRYCATCH ExOps.have_catch 2 0 Ex.h_zeros 0 = Ok (OpNext h1)
    /\ op_ENDTRY h1 0
       = Ok (OpNext (put_thread 0
               (set_callstack [Ex.frame 1 0 10] Ex.t_zeros) Ex.h_zeros)).
Proof.
  destruct (try_without_finally_completes
              (E := Ex.engine) (D := ExOps.dispatch)
              ExOps.have_catch 2 0 Ex.h_zeros 0 Ex.t_zeros (Ex.frame 1 0 9) Ex.fn4
              eq_refl eq_refl eq_refl eq_refl eq_refl eq_refl eq_refl)
    as (h1 & H1 & H2).
  exists h1. split; assumption.
Defined.

(** try with finally, completed: ENDTRY goes to PC 10 with a normal
    completion in r2 and r3, ENDFIN drops the catcher. *)
Lemma try_finally_normal_completion_witness :
  exists (h1 h2 h3 : duk_heap) (t2 t3 : duk_hthread),
    op_TRYCATCH ExOps.have_finally 2 0 Ex.h_zeros 0 = Ok (OpNext h1)
    /\ op_ENDTRY h1 0 = Ok (OpNext h2)
    /\ get_thread h2 0 = Ok t2
    /\ callstack t2 = [Ex.frame 1 0 10]
    /\ valstack t2 !! 4 = Some (Ex.num DUK_LJ_TYPE_NORMAL)
    /\ op_ENDFIN h2 0 = Ok (OpNext h3)
    /\ get_thread h3 0 = Ok t3
    /\ catchstack t3 = [].
Proof.
  destruct (try_finally_normal_completion
              (E := Ex.engine) (D := ExOps.dispatch)
              ExOps.have_finally 2 0 Ex.h_zeros 0 Ex.t_zeros (Ex.frame 1 0 9) Ex.fn4
              eq_refl eq_refl eq_refl eq_refl eq_refl eq_refl eq_refl
              ltac:(vm_compute; lia))
    as (h1 & h2 & h3 & t2 & t3 & H1 & H2 & Ht2 & Hcs & _ & _ & Hn & H3 & Ht3
        & _ & _ & Hcat & _).
  exists h1, h2, h3, t2, t3. repeat split; assumption.
Defined.

(** try { throw r1 } catch (x) { ... }: inside the clause x is bound to
    the thrown +0; after ENDCATCH the catcher is gone. *)
Lemma catch_variable_scope_witness :
  exists (h1 h2 h3 h4 : duk_heap) (t3 t4 : duk_hthread) (act3 : duk_activation),
    op_TRYCATCH ExOps.have_catch_binding 2 0 Ex.h_zeros 0 = Ok (OpNext h1)
    /\ op_THROW 1 h1 0 = Ok (OpLongjmp h2)
    /\ executor_longjmp_caught 1 h2 0 1 = Ok (ExecRestart h3)
    /\ get_thread h3 0 = Ok t3
    /\ callstack t3 = [act3]
    /\ env_lookup "x" (lex_env act3) = Some (TvNumber 0, TvUndefined)
    /\ op_ENDCATCH h3 0 = Ok (OpNext h4)
    /\ get_thread h4 0 = Ok t4
    /\ catchstack t4 = [].
Proof.
  destruct (catch_variable_scope
              (E := Ex.engine) (D := ExOps.dispatch)
              0 ExOps.have_catch_binding 2 0 1 Ex.h_zeros 0 0 1
              Ex.t_zeros (Ex.frame 1 0 9) Ex.fn4 (TvNumber 0) "x"
              eq_refl eq_refl eq_refl eq_refl eq_refl eq_refl eq_refl eq_refl
              eq_refl eq_refl eq_refl eq_refl ltac:(vm_compute; lia)
              ltac:(vm_compute; lia) ltac:(vm_compute; lia) eq_refl
              ltac:(right; vm_compute; lia))
    as (h1 & h2 & h3 & h4 & t3 & t4 & H1 & H2 & H3 & Ht3 & Hcs & Henv & _ & _ & _
        & H4 & Ht4 & _ & Hcat & _).
  exists h1, h2, h3, h4, t3, t4,
    (in_catch_scope "x" (thrown_value (TvNumber 0)) (Ex.frame 1 0 9)).
  repeat split; assumption.
Defined.

Lemma try_finally_ordered : catchstack_ordered Ex.t_try_finally.
Proof.
  intros i j c c' Hij Hc Hc'. unfold callstack_top.
  destruct i as [|[|i]]; destruct j as [|[|j]];
    try discriminate Hc; try discriminate Hc';
    injection Hc as <-; injection Hc' as <-; simpl; lia.
Qed.

(** LABEL 2 inside [L1: try ... finally]: three catchers, in order. *)
Lemma catcher_instructions_keep_order_witness :
  exists (h' : duk_heap) (t' : duk_hthread),
    op_LABEL 2 (Ex.h_try_finally DUK_LJ_TYPE_UNKNOWN TvUndefinedUnused) 0
    = Ok (OpNext h')
    /\ get_thread h' 0 = Ok t'
    /\ catchstack_ordered t'.
Proof.
  assert (Hop : exists h',
             op_LABEL 2 (Ex.h_try_finally DUK_LJ_TYPE_UNKNOWN TvUndefinedUnused) 0
             = Ok (OpNext h')).
  { vm_compute. eexists. reflexivity. }
  destruct Hop as (h' & Hop).
  destruct (catcher_instructions_keep_order
              (E := Ex.engine) (D := ExOps.dispatch)
              0 2 0 0 (Ex.h_try_finally DUK_LJ_TYPE_UNKNOWN TvUndefinedUnused) h' 0
              Ex.t_try_finally eq_refl try_finally_ordered (or_introl Hop))
    as (t' & Ht' & Hord & _).
  exists h', t'. split; [exact Hop|]. split; [exact Ht'|exact Hord].
Defined.

(** A return inside [L1: try ... finally]: the finally part takes it and
    the two catchers stay in order. *)
Lemma handler_keeps_catch_stack_order_witness :
  exists (rv : duk_lj_retval) (h' : duk_heap) (t' : duk_hthread),
    duk__handle_longjmp 1 (Ex.h_try_finally DUK_LJ_TYPE_RETURN (Ex.num 42)) 0 0 1
    = Ok (rv, h')
    /\ get_thread h' 0 = Ok t'
    /\ catchstack_ordered t'.
Proof.
  assert (Hrun : exists rv h',
             duk__handle_longjmp 1
               (Ex.h_try_finally DUK_LJ_TYPE_RETURN (Ex.num 42)) 0 0 1
             = Ok (rv, h')).
  { vm_compute. eexists _, _. reflexivity. }
  destruct Hrun as (rv & h' & Hrun).
  destruct (handler_keeps_catch_stack_order (E := Ex.engine) 1
              (Ex.h_try_finally DUK_LJ_TYPE_RETURN (Ex.num 42)) 0 1
              Ex.t_try_finally rv h' eq_refl try_finally_ordered
              ltac:(vm_compute; lia) (or_introl eq_refl) Hrun)
    as (t' & Ht' & Hord & _).
  exists rv, h', t'. split; [exact Hrun|]. split; [exact Ht'|exact Hord].
Defined.

(** The coroutine yields 5: control is in thread 0, which is Running, and
    the heap still has its two threads. *)
Lemma handler_continues_in_running_thread_witness :
  exists (rv : duk_lj_retval) (h' : duk_heap),
    duk__handle_longjmp 1 (Ex.h_yielding false (Ex.num 5)) 1 0 1 = Ok (rv, h')
    /\ current_thread_running h'
    /\ threads_of h' = threads_of (Ex.h_yielding false (Ex.num 5)).
Proof.
  assert (Hrun : exists rv h',
             duk__handle_longjmp 1 (Ex.h_yielding false (Ex.num 5)) 1 0 1
             = Ok (rv, h')).
  { vm_compute. eexists _, _. reflexivity. }
  destruct Hrun as (rv & h' & Hrun).
  destruct (handler_continues_in_running_thread (E := Ex.engine) 1
              (Ex.h_yielding false (Ex.num 5)) 1 0 1 rv h' eq_refl)
    as (Hr & Hd).
  - exists Ex.t_yielding. split; reflexivity.
  - intros Hty. discriminate Hty.
  - exact Hrun.
  - exists rv, h'. split; [exact Hrun|]. split; [exact Hr|exact Hd].
Defined.

(** [L1: try { break L1 } finally { ... }]: first the finally clause at
    PC 11, then the break slot of L1 at PC 5 with the try catcher gone. *)
Lemma break_through_finally_reaches_label_witness :
  exists (h1 h2 h3 h4 : duk_heap) (t2 t4 : duk_hthread),
    op_BREAK_CONTINUE DUK_LJ_TYPE_BREAK 1
      (Ex.h_try_finally DUK_LJ_TYPE_UNKNOWN TvUndefinedUnused) 0
    = Ok (OpLongjmp h1)
    /\ executor_longjmp_caught 1 h1 0 1 = Ok (ExecRestart h2)
    /\ get_thread h2 0 = Ok t2
    /\ callstack t2 = [Ex.frame 1 0 11]
    /\ op_ENDFIN h2 0 = Ok (OpLongjmp h3)
    /\ executor_longjmp_caught 1 h3 0 1 = Ok (ExecRestart h4)
    /\ get_thread h4 0 = Ok t4
    /\ callstack t4 = [Ex.frame 1 0 5]
    /\ catchstack t4 = [Ex.label 0 5 1].
Proof.
  destruct (break_through_finally_reaches_label (E := Ex.engine)
              0 DUK_LJ_TYPE_BREAK 1
              (Ex.h_try_finally DUK_LJ_TYPE_UNKNOWN TvUndefinedUnused) 0 0 1
              Ex.t_try_finally (Ex.frame 1 0 20) Ex.fn4
              [] (Ex.label 0 5 1) (Ex.tcf 0 10 3 false true)
              eq_refl eq_refl eq_refl eq_refl (or_introl eq_refl)
              ltac:(split; [lia|reflexivity])
              eq_refl eq_refl eq_refl eq_refl eq_refl eq_refl eq_refl
              eq_refl eq_refl ltac:(vm_compute; lia) ltac:(vm_compute; lia)
              ltac:(vm_compute; lia))
    as (h1 & h2 & h3 & h4 & t2 & t4 & H1 & H2 & Ht2 & Hcs2 & _ & H3 & _ & _
        & H4 & _ & Ht4 & Hcs4 & Hcat4 & _).
  exists h1, h2, h3, h4, t2, t4. repeat split; assumption.
Defined.

End MoreExamples.
